(** * Provider selection and failover: MCPManager and ModelDetector

    A shallow embedding of the two React components that decide which
    backend is active:

    - [MCP]      : components/mcp-manager.tsx     (transport providers)
    - [Detector] : components/model-detector.tsx  (model instances)

    Component state is threaded through a small monad that also carries a
    logical clock (milliseconds) and JavaScript exceptions.  Everything that
    depends on the outside world (network behaviour of [fetch], the values
    drawn by [Math.random], the behaviour of the callbacks received as
    props) is an explicit input.

    In [MCP] and [Detector] each handler and each effect callback is one
    step, run to its end from the state its closure captured when it was
    created: what the handler writes and returns when nothing else runs
    while it awaits.  Probes started together settle independently; their
    state updates touch disjoint records when ids are unique, and are
    applied in registry order.

    [Mount] is MCPManager as React runs it: the handlers cut at their
    awaits, the probes in flight settling one by one as the clock allows,
    the two effects with their dependencies and timers, and the identity
    of the objects the state cells hold.  There a scan can overlap another
    scan, a connect or a disconnect, and the auto-scan effect is re-run by
    every write to [providers].  A scan of the mounted component that
    nothing overlaps is the one-step scan ([LoneScan]).

    After the properties of these two components come the page that mounts
    them ([Page], the ZombieCoderBengaliExtension component: the console
    and the two handlers it passes down) and the two other components of the same source unit:
    [Zombie] (components/zombiecoder-integration.tsx), whose requests have
    no time-out and so need a third outcome, a handler that waits for ever,
    and [Tasks] (components/task-todo-manager.tsx). *)

From Stdlib Require Import ZArith List Bool String DecimalString Lia Floats.
Import ListNotations.
Open Scope Z_scope.

(* ================================================================== *)
(** * JavaScript primitives *)
(* ================================================================== *)

Module JS.

(** ** [Array.prototype.sort(compareFn)]

    The comparator returns a number; [a] goes before [b] when the number is
    negative, and the sort is stable.  Insertion from the right keeps equal
    elements in their original order. *)

Section Sort.
Context {A : Type}.
Variable compareFn : A -> A -> Z.

Fixpoint insert (x : A) (l : list A) : list A :=
  match l with
  | [] => [x]
  | y :: l' => if compareFn x y <=? 0 then x :: l else y :: insert x l'
  end.

Fixpoint sort (l : list A) : list A :=
  match l with
  | [] => []
  | x :: l' => insert x (sort l')
  end.

End Sort.

(** ** [Array.prototype.map] and [Array.prototype.filter] with the index *)

Fixpoint mapi_from {A B : Type} (i : nat) (f : nat -> A -> B) (l : list A) : list B :=
  match l with
  | [] => []
  | x :: l' => f i x :: mapi_from (S i) f l'
  end.

Definition mapi {A B : Type} (f : nat -> A -> B) (l : list A) : list B :=
  mapi_from 0 f l.

Fixpoint filteri_from {A : Type} (i : nat) (f : A -> nat -> bool) (l : list A)
  : list A :=
  match l with
  | [] => []
  | x :: l' =>
      if f x i then x :: filteri_from (S i) f l' else filteri_from (S i) f l'
  end.

Definition filteri {A : Type} (f : A -> nat -> bool) (l : list A) : list A :=
  filteri_from 0 f l.

(** ** Settled promises, as [Promise.allSettled] reports them *)

Inductive Settled (A : Type) : Type :=
| fulfilled (value : A)
| rejected.
Arguments fulfilled {A} value.
Arguments rejected {A}.

(** [results[index].status === "fulfilled" && results[index].value] *)
Definition fulfilledTrue (results : list (Settled bool)) (index : nat) : bool :=
  match nth_error results index with
  | Some (fulfilled true) => true
  | _ => false
  end.

(** ** Numbers

    Integer-valued numbers (priorities, scores after [Math.round],
    millisecond counts) are in [Z]; fractional arithmetic is IEEE binary64,
    as in JavaScript. *)

Definition ofZ (z : Z) : float := SF2Prim (binary_normalize prec emax z 0 false).

(** Exact value of a finite float as [m * 2 ^ e], [None] on NaN and
    infinities. *)
Definition mantExp (x : float) : option (Z * Z) :=
  match Prim2SF x with
  | S754_zero _ => Some (0, 0)
  | S754_finite s m e => Some (if s then Z.neg m else Z.pos m, e)
  | _ => None
  end.

(** [Math.floor], on finite arguments. *)
Definition Math_floor (x : float) : Z :=
  match mantExp x with
  | Some (m, e) => if 0 <=? e then m * 2 ^ e else m / 2 ^ (- e)
  | None => 0
  end.

(** [Math.round]: nearest integer, ties towards plus infinity, on finite
    arguments. *)
Definition Math_round (x : float) : Z :=
  match mantExp x with
  | Some (m, e) =>
      if 0 <=? e then m * 2 ^ e else (2 * m + 2 ^ (- e)) / 2 ^ (- e + 1)
  | None => 0
  end.

(** [Math.max(a, b)] *)
Definition Math_max (a b : float) : float :=
  if (is_nan a || is_nan b)%bool then nan
  else if (a <? b)%float then b
  else if (b <? a)%float then a
  else if get_sign a then b else a.

End JS.

(* ================================================================== *)
(** * The async monad: component state, logical clock, exceptions *)
(* ================================================================== *)

Module Async.

Record World (S : Type) : Type := mkWorld { state : S; now : Z }.
Arguments mkWorld {S} state now.
Arguments state {S} w.
Arguments now {S} w.

Inductive Res (S A : Type) : Type :=
| Normal (a : A) (w : World S)
| Thrown (w : World S).
Arguments Normal {S A} a w.
Arguments Thrown {S A} w.

Definition M (S A : Type) : Type := World S -> Res S A.

Definition ret {S A} (a : A) : M S A := fun w => Normal a w.

Definition bind {S A B} (m : M S A) (k : A -> M S B) : M S B :=
  fun w => match m w with
           | Normal a w' => k a w'
           | Thrown w' => Thrown w'
           end.

Definition throw {S A} : M S A := fun w => Thrown w.

(** [try { body } catch (error) { handler }] *)
Definition tryCatch {S A} (body handler : M S A) : M S A :=
  fun w => match body w with
           | Normal a w' => Normal a w'
           | Thrown w' => handler w'
           end.

(** Reading the state captured by a closure, and [setX(prev => f prev)]. *)
Definition gets {S A} (f : S -> A) : M S A := fun w => Normal (f (state w)) w.

Definition modify {S} (f : S -> S) : M S unit :=
  fun w => Normal tt (mkWorld (f (state w)) (now w)).

(** [Date.now()] *)
Definition dateNow {S} : M S Z := fun w => Normal (now w) w.

(** [await new Promise((resolve) => setTimeout(resolve, ms))] *)
Definition sleep {S} (ms : Z) : M S unit :=
  fun w => Normal tt (mkWorld (state w) (now w + Z.max 0 ms)).

(** The world a computation ends in, however it ends. *)
Definition finalWorld {S A} (r : Res S A) : World S :=
  match r with
  | Normal _ w => w
  | Thrown w => w
  end.

(** [Promise.allSettled(tasks)]: every task starts at the current instant,
    a task that throws becomes a [rejected] entry, and the whole settles
    when the last task does.  State updates are applied in list order. *)
Fixpoint allSettledFrom {S A} (t0 : Z) (tasks : list (M S A))
  : M S (list (JS.Settled A)) :=
  fun w =>
    match tasks with
    | [] => Normal [] w
    | task :: rest =>
        let r := task (mkWorld (state w) t0) in
        let w1 := finalWorld r in
        let entry := match r with
                     | Normal a _ => JS.fulfilled a
                     | Thrown _ => JS.rejected
                     end in
        match allSettledFrom t0 rest (mkWorld (state w1) (Z.max (now w) (now w1))) with
        | Normal entries w2 => Normal (entry :: entries) w2
        | Thrown w2 => Thrown w2
        end
    end.

Definition allSettled {S A} (tasks : list (M S A)) : M S (list (JS.Settled A)) :=
  fun w => allSettledFrom (now w) tasks w.

(** How a network request behaves: it answers after [delay] ms with
    [response.ok = ok], fails after [delay] ms, or never settles. *)
Inductive FetchBehaviour : Type :=
| Responds (delay : N) (ok : bool)
| Fails (delay : N)
| Hangs.

(** [setTimeout(() => controller.abort(), timeout)] followed by
    [await fetch(url, { signal: controller.signal })]: the request is
    abandoned, and the awaited promise rejects, when the timer fires first. *)
Definition fetchWithAbort {S} (timeout : Z) (b : FetchBehaviour) : M S bool :=
  fun w =>
    let at_ d := mkWorld (state w) (now w + d) in
    match b with
    | Responds delay ok =>
        if Z.of_N delay <? Z.max 0 timeout
        then Normal ok (at_ (Z.of_N delay))
        else Thrown (at_ (Z.max 0 timeout))
    | Fails delay =>
        if Z.of_N delay <? Z.max 0 timeout
        then Thrown (at_ (Z.of_N delay))
        else Thrown (at_ (Z.max 0 timeout))
    | Hangs => Thrown (at_ (Z.max 0 timeout))
    end.

(** How a callback received as a prop behaves when it is called. *)
Inductive Outcome : Type := Returns | Throws.

Definition call {S} (o : Outcome) : M S unit :=
  match o with
  | Returns => ret tt
  | Throws => throw
  end.

End Async.

Declare Scope async_scope.
Delimit Scope async_scope with async.
Notation "x <- m ;; k" := (Async.bind m (fun x => k))
  (at level 61, m at next level, right associativity) : async_scope.
Notation "m ;; k" := (Async.bind m (fun _ => k))
  (at level 61, right associativity) : async_scope.

(* ================================================================== *)
(** * MCPManager (components/mcp-manager.tsx) *)
(* ================================================================== *)

Set Warnings "-inexact-float".

Module MCP.
Import Async.
Local Open Scope string_scope.
Local Open Scope async_scope.

Inductive ProviderType : Type := local | remote | cloud.

Inductive Status : Type := connected | disconnected | connecting | error.

Definition Status_eqb (a b : Status) : bool :=
  match a, b with
  | connected, connected | disconnected, disconnected
  | connecting, connecting | error, error => true
  | _, _ => false
  end.

Record MCPProvider : Type := mkProvider {
  id : string;
  name : string;
  type : ProviderType;
  endpoint : string;
  status : Status;
  capabilities : list string;
  latency : Z;
  lastPing : Z;
  version : string;
  priority : Z;
  fallbackOrder : Z
}.

(** [{ ...p, status: s }] *)
Definition withStatus (p : MCPProvider) (s : Status) : MCPProvider :=
  mkProvider (id p) (name p) (type p) (endpoint p) s (capabilities p)
             (latency p) (lastPing p) (version p) (priority p) (fallbackOrder p).

(** [{ ...p, status: "connected", latency, lastPing: new Date() }] *)
Definition withConnected (p : MCPProvider) (latency' date : Z) : MCPProvider :=
  mkProvider (id p) (name p) (type p) (endpoint p) connected (capabilities p)
             latency' date (version p) (priority p) (fallbackOrder p).

(** [{ ...p, status: "error", lastPing: new Date() }] *)
Definition withError (p : MCPProvider) (date : Z) : MCPProvider :=
  mkProvider (id p) (name p) (type p) (endpoint p) error (capabilities p)
             (latency p) date (version p) (priority p) (fallbackOrder p).

Record MCPManagerProps : Type := mkProps {
  onProviderChange : option MCPProvider -> Outcome;
  onStatusUpdate : string -> Outcome
}.

(** The [useState] cells of the component. *)
Record State : Type := mkState {
  providers : list MCPProvider;
  activeProvider : option MCPProvider;
  isScanning : bool;
  autoFallback : bool;
  connectionTimeout : Z;
  retryAttempts : Z
}.

Definition setProviders (f : list MCPProvider -> list MCPProvider) : M State unit :=
  modify (fun s => mkState (f (providers s)) (activeProvider s) (isScanning s)
                           (autoFallback s) (connectionTimeout s) (retryAttempts s)).

Definition setActiveProvider (v : option MCPProvider) : M State unit :=
  modify (fun s => mkState (providers s) v (isScanning s)
                           (autoFallback s) (connectionTimeout s) (retryAttempts s)).

Definition setIsScanning (v : bool) : M State unit :=
  modify (fun s => mkState (providers s) (activeProvider s) v
                           (autoFallback s) (connectionTimeout s) (retryAttempts s)).

(** The registry the component starts with; [date] is [new Date()] at mount. *)
Definition initialProviders (date : Z) : list MCPProvider :=
  [ mkProvider "zombiecoder-local" "ZombieCoder Local" local
      "http://localhost:8080/mcp" disconnected
      ["code-analysis"; "bengali-processing"; "voice-commands"; "file-indexing"]
      0 date "1.0.0" 1 1;
    mkProvider "ollama-local" "Ollama Local" local
      "http://localhost:11434/api" disconnected
      ["text-generation"; "code-completion"; "translation"]
      0 date "0.1.0" 2 2;
    mkProvider "lmstudio-local" "LM Studio" local
      "http://localhost:1234/v1" disconnected
      ["text-generation"; "code-completion"]
      0 date "0.2.0" 3 3;
    mkProvider "openai-cloud" "OpenAI GPT" cloud
      "https://api.openai.com/v1" disconnected
      ["text-generation"; "code-completion"; "translation"; "analysis"]
      0 date "4.0" 4 4 ].

Definition initialState (date : Z) : State :=
  mkState (initialProviders date) None false true 5000 3.

(** What one probe meets outside the component: how the network treats a
    request to a given URL, and the value [Math.random()] returns. *)
Record ProbeEnv : Type := mkProbeEnv {
  network : string -> FetchBehaviour;
  random : float
}.

Definition showZ (z : Z) : string := NilZero.string_of_int (Z.to_int z).

(** ** [testConnection] *)

Definition testConnection (props : MCPManagerProps) (connectionTimeout : Z)
    (provider : MCPProvider) (env : ProbeEnv) : M State bool :=
  startTime <- dateNow ;;
  tryCatch
    (call (onStatusUpdate props ("🔍 Testing connection to " ++ name provider ++ "...")) ;;
     returned <-
       match type provider with
       | local =>
           tryCatch
             (ok <- fetchWithAbort connectionTimeout
                      (network env (endpoint provider ++ "/health")) ;;
              if ok then
                date <- dateNow ;;
                let latency := date - startTime in
                setProviders (map (fun p =>
                  if id p =? id provider then withConnected p latency date else p)) ;;
                ret (Some true)
              else ret None)
             (ret None)
       | cloud =>
           sleep 1000 ;;
           let success := (0.3 <? random env)%float in
           if success then
             date <- dateNow ;;
             let latency := date - startTime in
             setProviders (map (fun p =>
               if id p =? id provider then withConnected p latency date else p)) ;;
             ret (Some true)
           else ret None
       | remote => ret None
       end ;;
     match returned with
     | Some value => ret value
     | None =>
         date <- dateNow ;;
         setProviders (map (fun p =>
           if id p =? id provider then withError p date else p)) ;;
         ret false
     end)
    (date <- dateNow ;;
     setProviders (map (fun p =>
       if id p =? id provider then withError p date else p)) ;;
     ret false).

(** ** [scanProviders] *)

(** [Promise.allSettled(providers.map((provider) => testConnection(provider)))];
    probe number [i] meets [envs i]. *)
Definition probeAll (props : MCPManagerProps) (connectionTimeout : Z)
    (providers : list MCPProvider) (envs : nat -> ProbeEnv)
  : M State (list (JS.Settled bool)) :=
  allSettled (JS.mapi (fun i provider =>
    testConnection props connectionTimeout provider (envs i)) providers).

(** The providers whose probe fulfilled with [true], ordered by priority. *)
Definition connectedProviders (providers : list MCPProvider)
    (results : list (JS.Settled bool)) : list MCPProvider :=
  JS.sort (fun a b => priority a - priority b)
          (JS.filteri (fun _ index => JS.fulfilledTrue results index) providers).

(** Lines 176-192: choose the head of the ordering, or nothing. *)
Definition selectProvider (props : MCPManagerProps) (providers : list MCPProvider)
    (results : list (JS.Settled bool)) : M State unit :=
  match connectedProviders providers results with
  | bestProvider :: _ =>
      setActiveProvider (Some bestProvider) ;;
      call (onProviderChange props (Some bestProvider)) ;;
      call (onStatusUpdate props
        ("✅ Connected to " ++ name bestProvider ++ " (" ++ showZ (latency bestProvider) ++ "ms)"))
  | [] =>
      setActiveProvider None ;;
      call (onProviderChange props None) ;;
      call (onStatusUpdate props "❌ No MCP providers available")
  end.

Definition scanProviders (props : MCPManagerProps) (envs : nat -> ProbeEnv)
  : M State unit :=
  (* the closure's view of the state *)
  providers0 <- gets providers ;;
  connectionTimeout0 <- gets connectionTimeout ;;
  setIsScanning true ;;
  call (onStatusUpdate props "🔍 Scanning for MCP providers...") ;;
  setProviders (map (fun p => withStatus p connecting)) ;;
  results <- probeAll props connectionTimeout0 providers0 envs ;;
  selectProvider props providers0 results ;;
  setIsScanning false.

(** ** [connectToProvider] *)

Definition fallbackProviders (providers : list MCPProvider) (provider : MCPProvider)
  : list MCPProvider :=
  JS.sort (fun a b => fallbackOrder a - fallbackOrder b)
          (filter (fun p => negb (id p =? id provider) && Status_eqb (status p) connected)
                  providers).

Definition connectToProvider (props : MCPManagerProps) (provider : MCPProvider)
    (env : ProbeEnv) : M State unit :=
  providers0 <- gets providers ;;
  connectionTimeout0 <- gets connectionTimeout ;;
  autoFallback0 <- gets autoFallback ;;
  setProviders (map (fun p =>
    if id p =? id provider then withStatus p connecting else p)) ;;
  success <- testConnection props connectionTimeout0 provider env ;;
  if success then
    setActiveProvider (Some provider) ;;
    call (onProviderChange props (Some provider)) ;;
    call (onStatusUpdate props ("✅ Connected to " ++ name provider))
  else
    call (onStatusUpdate props ("❌ Failed to connect to " ++ name provider)) ;;
    if autoFallback0 then
      match fallbackProviders providers0 provider with
      | fallback :: _ =>
          setActiveProvider (Some fallback) ;;
          call (onProviderChange props (Some fallback)) ;;
          call (onStatusUpdate props ("🔄 Switched to fallback: " ++ name fallback))
      | [] => ret tt
      end
    else ret tt.

(** ** [disconnectProvider] *)

Definition disconnectProvider (props : MCPManagerProps) (providerId : string)
  : M State unit :=
  activeProvider0 <- gets activeProvider ;;
  setProviders (map (fun p =>
    if id p =? providerId then withStatus p disconnected else p)) ;;
  if match activeProvider0 with
     | Some a => id a =? providerId
     | None => false
     end
  then
    setActiveProvider None ;;
    call (onProviderChange props None) ;;
    call (onStatusUpdate props "🔌 Disconnected from MCP provider")
  else ret tt.

(** ** The two effects *)

(** Auto-scan on mount: [setTimeout(() => scanProviders(), 1000)]. *)
Definition autoScan (props : MCPManagerProps) (envs : nat -> ProbeEnv) : M State unit :=
  sleep 1000 ;;
  scanProviders props envs.

Definition healthCheckInterval : Z := 30000.

(** Periodic health checks: while [activeProvider] is set, every
    [healthCheckInterval] ms the interval callback runs
    [testConnection(activeProvider)]; the promise it returns is dropped. *)
Definition healthCheck (props : MCPManagerProps) (env : ProbeEnv) : M State unit :=
  activeProvider0 <- gets activeProvider ;;
  connectionTimeout0 <- gets connectionTimeout ;;
  match activeProvider0 with
  | Some active =>
      sleep healthCheckInterval ;;
      _ <- testConnection props connectionTimeout0 active env ;;
      ret tt
  | None => ret tt
  end.

End MCP.

(* ================================================================== *)
(** * ModelDetector (components/model-detector.tsx) *)
(* ================================================================== *)

Module Detector.
Import Async.
Local Open Scope string_scope.
Local Open Scope async_scope.

Record ModelCapabilities : Type := mkCapabilities {
  textGeneration : bool;
  codeCompletion : bool;
  translation : bool;
  bengaliSupport : bool;
  voiceProcessing : bool;
  imageAnalysis : bool;
  reasoning : bool
}.

Record ModelPerformance : Type := mkPerformance {
  speed : Z;          (* tokens/second *)
  accuracy : Z;       (* percentage *)
  latency : Z;        (* milliseconds *)
  memoryUsage : Z;    (* MB *)
  cpuUsage : Z;       (* percentage *)
  lastBenchmark : Z
}.

Inductive Provider : Type :=
  ollama | lmstudio | zombiecoder | openai | anthropic | local.

Inductive Status : Type := available | loading | error | offline.

Definition Status_eqb (a b : Status) : bool :=
  match a, b with
  | available, available | loading, loading
  | error, error | offline, offline => true
  | _, _ => false
  end.

Record AIModel : Type := mkModel {
  id : string;
  name : string;
  provider : Provider;
  version : string;
  size : string;
  status : Status;
  capabilities : ModelCapabilities;
  performance : ModelPerformance;
  endpoint : string;
  isRecommended : bool;
  bengaliScore : Z;
  overallScore : Z
}.

(** [{ ...m, status: s }] *)
Definition withStatus (m : AIModel) (s : Status) : AIModel :=
  mkModel (id m) (name m) (provider m) (version m) (size m) s (capabilities m)
          (performance m) (endpoint m) (isRecommended m) (bengaliScore m)
          (overallScore m).

(** [{ ...m, status: "available", performance, overallScore }] *)
Definition withAvailable (m : AIModel) (performance' : ModelPerformance)
    (overallScore' : Z) : AIModel :=
  mkModel (id m) (name m) (provider m) (version m) (size m) available
          (capabilities m) performance' (endpoint m) (isRecommended m)
          (bengaliScore m) overallScore'.

(** [{ ...m, performance, overallScore }] *)
Definition withBenchmark (m : AIModel) (performance' : ModelPerformance)
    (overallScore' : Z) : AIModel :=
  mkModel (id m) (name m) (provider m) (version m) (size m) (status m)
          (capabilities m) performance' (endpoint m) (isRecommended m)
          (bengaliScore m) overallScore'.

Record ModelDetectorProps : Type := mkProps {
  onModelChange : option AIModel -> Outcome;
  onStatusUpdate : string -> Outcome
}.

Record State : Type := mkState {
  models : list AIModel;
  activeModel : option AIModel;
  isScanning : bool;
  autoDetect : bool;
  benchmarkMode : bool;
  filterBengali : bool
}.

Definition setModels (f : list AIModel -> list AIModel) : M State unit :=
  modify (fun s => mkState (f (models s)) (activeModel s) (isScanning s)
                           (autoDetect s) (benchmarkMode s) (filterBengali s)).

Definition setActiveModel (v : option AIModel) : M State unit :=
  modify (fun s => mkState (models s) v (isScanning s)
                           (autoDetect s) (benchmarkMode s) (filterBengali s)).

Definition setIsScanning (v : bool) : M State unit :=
  modify (fun s => mkState (models s) (activeModel s) v
                           (autoDetect s) (benchmarkMode s) (filterBengali s)).

Definition setBenchmarkMode (v : bool) : M State unit :=
  modify (fun s => mkState (models s) (activeModel s) (isScanning s)
                           (autoDetect s) v (filterBengali s)).

Definition initialState : State := mkState [] None false true false false.

(** ** [initializeModels] *)

Definition noPerformance (date : Z) : ModelPerformance :=
  mkPerformance 0 0 0 0 0 date.

Definition initialModels (date : Z) : list AIModel :=
  [ mkModel "zombiecoder-bengali-v1" "ZombieCoder Bengali" zombiecoder "1.0.0" "7B"
      offline (mkCapabilities true true true true true false true)
      (noPerformance date) "http://localhost:8080/api/v1" true 95 0;
    mkModel "ollama-llama3-8b" "Llama 3 8B" ollama "3.0" "8B"
      offline (mkCapabilities true true true false false false true)
      (noPerformance date) "http://localhost:11434/api" false 30 0;
    mkModel "lmstudio-codellama" "Code Llama" lmstudio "7B" "7B"
      offline (mkCapabilities true true false false false false true)
      (noPerformance date) "http://localhost:1234/v1" false 10 0;
    mkModel "openai-gpt4" "GPT-4" openai "4.0" "Unknown"
      offline (mkCapabilities true true true true false true true)
      (noPerformance date) "https://api.openai.com/v1" false 75 0 ].

Definition initializeModels : M State unit :=
  date <- dateNow ;;
  setModels (fun _ => initialModels date).

(** ** [testModel] *)

(** The network, and the values the successive [Math.random()] calls
    return. *)
Record TestEnv : Type := mkTestEnv {
  network : string -> FetchBehaviour;
  randomOk : float;
  randomSpeed : float;
  randomAccuracy : float;
  randomMemory : float;
  randomCpu : float
}.

Definition showZ (z : Z) : string := NilZero.string_of_int (Z.to_int z).

Definition testModel (props : ModelDetectorProps) (model : AIModel) (env : TestEnv)
  : M State bool :=
  tryCatch
    (call (onStatusUpdate props ("🔍 Testing " ++ name model ++ "...")) ;;
     setModels (map (fun m => if id m =? id model then withStatus m loading else m)) ;;
     startTime <- dateNow ;;
     returned <-
       tryCatch
         (response <-
            match provider model with
            | ollama =>
                ok <- fetchWithAbort 5000 (network env (endpoint model ++ "/tags")) ;;
                ret (Some ok)
            | lmstudio =>
                ok <- fetchWithAbort 5000 (network env (endpoint model ++ "/models")) ;;
                ret (Some ok)
            | zombiecoder =>
                ok <- fetchWithAbort 5000 (network env (endpoint model ++ "/health")) ;;
                ret (Some ok)
            | openai =>
                sleep 1000 ;;
                ret (Some (0.5 <? randomOk env)%float)
            | _ => ret None
            end ;;
          date <- dateNow ;;
          let latency := date - startTime in
          match response with
          | Some true =>
              let performance :=
                mkPerformance
                  (JS.Math_floor (randomSpeed env * 50)%float + 10)
                  (JS.Math_floor (randomAccuracy env * 20)%float + 80)
                  latency
                  (JS.Math_floor (randomMemory env * 4000)%float + 1000)
                  (JS.Math_floor (randomCpu env * 60)%float + 20)
                  date in
              let overallScore :=
                JS.Math_round
                  ((JS.ofZ (speed performance) / 60) * 25 +
                   (JS.ofZ (accuracy performance) / 100) * 35 +
                   (JS.Math_max 0 (100 - JS.ofZ latency / 10) / 100) * 20 +
                   (JS.ofZ (bengaliScore model) / 100) * 20)%float in
              setModels (map (fun m =>
                if id m =? id model then withAvailable m performance overallScore else m)) ;;
              ret (Some true)
          | _ => ret None
          end)
         (ret None) ;;
     match returned with
     | Some value => ret value
     | None =>
         setModels (map (fun m => if id m =? id model then withStatus m error else m)) ;;
         ret false
     end)
    (setModels (map (fun m => if id m =? id model then withStatus m error else m)) ;;
     ret false).

(** ** [scanModels] *)

Definition probeAll (props : ModelDetectorProps) (models : list AIModel)
    (envs : nat -> TestEnv) : M State (list (JS.Settled bool)) :=
  allSettled (JS.mapi (fun i model => testModel props model (envs i)) models).

Definition availableModels (models : list AIModel) (results : list (JS.Settled bool))
  : list AIModel :=
  JS.filteri (fun _ index => JS.fulfilledTrue results index) models.

(** The comparator given to [sort]. *)
Definition byScore (filterBengali : bool) (a b : AIModel) : Z :=
  if filterBengali then bengaliScore b - bengaliScore a
  else overallScore b - overallScore a.

(** Lines 296-312 *)
Definition selectBest (props : ModelDetectorProps) (filterBengali : bool)
    (models : list AIModel) (results : list (JS.Settled bool)) : M State unit :=
  match availableModels models results with
  | _ :: _ =>
      match JS.sort (byScore filterBengali) (availableModels models results) with
      | bestModel :: _ =>
          setActiveModel (Some bestModel) ;;
          call (onModelChange props (Some bestModel)) ;;
          call (onStatusUpdate props
            ("✅ Selected " ++ name bestModel ++ " (Score: " ++ showZ (overallScore bestModel) ++ ")"))
      | [] => throw
      end
  | [] =>
      setActiveModel None ;;
      call (onModelChange props None) ;;
      call (onStatusUpdate props "❌ No AI models available")
  end.

Definition scanModels (props : ModelDetectorProps) (envs : nat -> TestEnv)
  : M State unit :=
  models0 <- gets models ;;
  filterBengali0 <- gets filterBengali ;;
  setIsScanning true ;;
  call (onStatusUpdate props "🔍 Scanning for AI models...") ;;
  results <- probeAll props models0 envs ;;
  selectBest props filterBengali0 models0 results ;;
  setIsScanning false.

(** ** [benchmarkModel] *)

Record BenchEnv : Type := mkBenchEnv {
  benchSpeed : float;
  benchAccuracy : float;
  benchLatency : float;
  benchMemory : float;
  benchCpu : float
}.

Definition benchmarkTests : list string :=
  [ "Text Generation"; "Code Completion"; "Bengali Translation";
    "Reasoning Tasks"; "Performance Test" ].

(** The [for] loop over [benchmarkTests], from index [i]. *)
Fixpoint runBenchmarkTests (props : ModelDetectorProps) (i : Z) (tests : list string)
  : M State unit :=
  match tests with
  | [] => ret tt
  | test :: rest =>
      sleep 1000 ;;
      call (onStatusUpdate props
        ("⚡ " ++ test ++ "... (" ++ showZ (i + 1) ++ "/" ++
         showZ (Z.of_nat (List.length benchmarkTests)) ++ ")")) ;;
      runBenchmarkTests props (i + 1) rest
  end.

Definition benchmarkModel (props : ModelDetectorProps) (model : AIModel)
    (env : BenchEnv) : M State unit :=
  if negb (Status_eqb (status model) available) then ret tt
  else
    setBenchmarkMode true ;;
    call (onStatusUpdate props ("⚡ Benchmarking " ++ name model ++ "...")) ;;
    runBenchmarkTests props 0 benchmarkTests ;;
    date <- dateNow ;;
    let enhancedPerformance :=
      mkPerformance
        (JS.Math_floor (benchSpeed env * 40)%float + 20)
        (JS.Math_floor (benchAccuracy env * 15)%float + 85)
        (JS.Math_floor (benchLatency env * 200)%float + 50)
        (JS.Math_floor (benchMemory env * 3000)%float + 2000)
        (JS.Math_floor (benchCpu env * 50)%float + 30)
        date in
    let newOverallScore :=
      JS.Math_round
        ((JS.ofZ (speed enhancedPerformance) / 60) * 25 +
         (JS.ofZ (accuracy enhancedPerformance) / 100) * 35 +
         (JS.Math_max 0 (100 - JS.ofZ (latency enhancedPerformance) / 10) / 100) * 20 +
         (JS.ofZ (bengaliScore model) / 100) * 20)%float in
    setModels (map (fun m =>
      if id m =? id model then withBenchmark m enhancedPerformance newOverallScore else m)) ;;
    setBenchmarkMode false ;;
    call (onStatusUpdate props
      ("✅ Benchmark complete for " ++ name model ++ " (Score: " ++ showZ newOverallScore ++ ")")).

(** ** [selectModel] *)

Definition selectModel (props : ModelDetectorProps) (model : AIModel) : M State unit :=
  if Status_eqb (status model) available then
    setActiveModel (Some model) ;;
    call (onModelChange props (Some model)) ;;
    call (onStatusUpdate props ("🎯 Selected " ++ name model))
  else ret tt.

(** The list the component renders. *)
Definition filteredModels (s : State) : list AIModel :=
  if filterBengali s then filter (fun m => bengaliSupport (capabilities m)) (models s)
  else models s.

End Detector.

(* ================================================================== *)
(** * Sorting and indexed filtering *)
(* ================================================================== *)

Module JSFacts.
Import JS.

Section SortFacts.
Context {A : Type}.
Variable compareFn : A -> A -> Z.
Variable key : A -> Z.

(** The comparator orders by [key]: [priority], [fallbackOrder], or a
    negated score for the descending sorts. *)
Hypothesis compareFn_key : forall a b, compareFn a b <= 0 <-> key a <= key b.

Let cmp := compareFn.

Lemma leb_key (a b : A) : (cmp a b <=? 0) = (key a <=? key b).
Proof.
  unfold cmp. destruct (key a <=? key b) eqn:E.
  - apply Z.leb_le, compareFn_key. now apply Z.leb_le.
  - apply Z.leb_gt. apply Z.leb_gt in E.
    destruct (Z.le_gt_cases (compareFn a b) 0) as [H|H]; [|lia].
    apply compareFn_key in H. lia.
Qed.

Lemma insert_In (x y : A) (l : list A) :
  In y (insert cmp x l) <-> y = x \/ In y l.
Proof.
  induction l as [|z l IH]; simpl.
  - intuition congruence.
  - destruct (cmp x z <=? 0); simpl; [intuition congruence|].
    rewrite IH. intuition congruence.
Qed.

Lemma sort_In (y : A) (l : list A) : In y (sort cmp l) <-> In y l.
Proof.
  induction l as [|x l IH]; simpl; [tauto|].
  rewrite insert_In, IH. intuition congruence.
Qed.

Lemma insert_length (x : A) (l : list A) :
  List.length (insert cmp x l) = S (List.length l).
Proof.
  induction l as [|z l IH]; simpl; [reflexivity|].
  destruct (cmp x z <=? 0); simpl; congruence.
Qed.

Lemma sort_length (l : list A) : List.length (sort cmp l) = List.length l.
Proof.
  induction l as [|x l IH]; simpl; [reflexivity|].
  rewrite insert_length. congruence.
Qed.

(** The head of [insert x l] is [x] when [x] is not after the head of [l],
    the head of [l] otherwise. *)
Lemma insert_head (x : A) (l : list A) :
  hd_error (insert cmp x l) =
  match hd_error l with
  | Some y => if key x <=? key y then Some x else Some y
  | None => Some x
  end.
Proof.
  destruct l as [|y l]; simpl; [reflexivity|]. rewrite leb_key.
  destruct (key x <=? key y); reflexivity.
Qed.

(** The head of the sorted list is a least element ... *)
Lemma sort_head_least (l : list A) (b : A) :
  hd_error (sort cmp l) = Some b ->
  In b l /\ forall y, In y l -> key b <= key y.
Proof.
  revert b. induction l as [|x l IH]; simpl; intros b Hb; [discriminate|].
  rewrite insert_head in Hb.
  destruct (hd_error (sort cmp l)) as [y|] eqn:Hy.
  - destruct (IH y eq_refl) as [Hin Hle].
    destruct (key x <=? key y) eqn:E; inversion Hb; subst; clear Hb.
    + split; [now left|]. intros z [->|Hz]; [lia|]. specialize (Hle z Hz). lia.
    + split; [now right|]. intros z [->|Hz]; [lia|]. now apply Hle.
  - inversion Hb; subst. split; [now left|].
    destruct (sort cmp l) eqn:Hs; [|discriminate].
    assert (Hl : List.length l = 0%nat) by (rewrite <- sort_length, Hs; reflexivity).
    destruct l; [|discriminate]. intros z [->|[]]. lia.
Qed.

(** ... and a non-empty list has one. *)
Lemma sort_head_some (l : list A) :
  l <> [] -> exists b, hd_error (sort cmp l) = Some b.
Proof.
  destruct l as [|x l]; [congruence|]. intros _. simpl.
  rewrite insert_head. destruct (hd_error (sort cmp l)) as [y|]; [|eauto].
  destruct (key x <=? key y); eauto.
Qed.

(** Sorting twice changes nothing: a sorted list is a fixed point. *)
Lemma insert_sorted_head (x : A) (l : list A) :
  (forall y, In y l -> key x <= key y) -> insert cmp x l = x :: l.
Proof.
  destruct l as [|y l]; simpl; [reflexivity|]. intros H. rewrite leb_key.
  specialize (H y (or_introl eq_refl)).
  destruct (key x <=? key y) eqn:E; [reflexivity|lia].
Qed.

Inductive Ordered : list A -> Prop :=
| Ordered_nil : Ordered []
| Ordered_cons x l : (forall y, In y l -> key x <= key y) -> Ordered l -> Ordered (x :: l).

Lemma insert_Ordered (x : A) (l : list A) : Ordered l -> Ordered (insert cmp x l).
Proof.
  induction 1 as [|y l Hy Hl IH]; simpl.
  - constructor; [intros ? []|constructor].
  - rewrite leb_key. destruct (key x <=? key y) eqn:E.
    + constructor; [|now constructor].
      intros z [->|Hz]; [lia|]. specialize (Hy z Hz). lia.
    + constructor; [|exact IH].
      intros z Hz. apply insert_In in Hz. destruct Hz as [->|Hz]; [lia|auto].
Qed.

Lemma sort_Ordered (l : list A) : Ordered (sort cmp l).
Proof.
  induction l; simpl; [constructor|now apply insert_Ordered].
Qed.

Lemma sort_fixed (l : list A) : Ordered l -> sort cmp l = l.
Proof.
  induction 1 as [|x l Hx Hl IH]; simpl; [reflexivity|].
  rewrite IH. now apply insert_sorted_head.
Qed.

Lemma sort_idempotent (l : list A) : sort cmp (sort cmp l) = sort cmp l.
Proof. apply sort_fixed, sort_Ordered. Qed.

End SortFacts.

Lemma filteri_from_In {A : Type} (f : A -> nat -> bool) (l : list A) (i : nat) (x : A) :
  In x (filteri_from i f l) <->
  exists k, nth_error l k = Some x /\ f x (i + k)%nat = true.
Proof.
  revert i. induction l as [|y l IH]; intros i; simpl.
  - split; [intros []|]. intros [[|k] [H _]]; discriminate.
  - split.
    + intros H. destruct (f y i) eqn:E.
      * destruct H as [->|H].
        -- exists 0%nat. rewrite Nat.add_0_r. now split.
        -- apply IH in H. destruct H as [k [H1 H2]]. exists (S k).
           rewrite Nat.add_succ_r. now split.
      * apply IH in H. destruct H as [k [H1 H2]]. exists (S k).
        rewrite Nat.add_succ_r. now split.
    + intros [[|k] [H1 H2]]; simpl in H1.
      * inversion H1; subst. rewrite Nat.add_0_r in H2. rewrite H2. now left.
      * rewrite Nat.add_succ_r in H2.
        assert (In x (filteri_from (S i) f l)) by (apply IH; eauto).
        destruct (f y i); [now right|assumption].
Qed.

Lemma filteri_In {A : Type} (f : A -> nat -> bool) (l : list A) (x : A) :
  In x (filteri f l) <-> exists k, nth_error l k = Some x /\ f x k = true.
Proof. unfold filteri. now rewrite filteri_from_In. Qed.

Lemma mapi_from_length {A B : Type} (f : nat -> A -> B) (l : list A) (i : nat) :
  List.length (mapi_from i f l) = List.length l.
Proof. revert i. induction l; intros; simpl; congruence. Qed.

Lemma mapi_from_nth {A B : Type} (f : nat -> A -> B) (l : list A) (i k : nat) :
  nth_error (mapi_from i f l) k = option_map (f (i + k)%nat) (nth_error l k).
Proof.
  revert i k. induction l as [|x l IH]; intros i [|k]; simpl; try reflexivity.
  - now rewrite Nat.add_0_r.
  - rewrite IH. now rewrite Nat.add_succ_r.
Qed.

End JSFacts.

(* ================================================================== *)
(** * Running sequenced computations *)
(* ================================================================== *)

Module AsyncFacts.
Import Async.

Lemma bind_normal {S A B : Type} (m : M S A) (k : A -> M S B) (w w' : World S) (b : B) :
  bind m k w = Normal b w' ->
  exists a w1, m w = Normal a w1 /\ k a w1 = Normal b w'.
Proof.
  unfold bind. destruct (m w) as [a w1|w1]; [eauto|discriminate].
Qed.

Lemma call_normal {S : Type} (o : Outcome) (w w' : World S) (u : unit) :
  call o w = Normal u w' -> o = Returns /\ w' = w.
Proof.
  destruct o; unfold call, ret, throw; intros H; inversion H; auto.
Qed.

End AsyncFacts.

(* ================================================================== *)
(** * MCPManager: what a probe and a scan do *)
(* ================================================================== *)

Module MCPFacts.
Import Async MCP.

(** A world with an empty component, used to read off what a probe returns
    and how long it takes: neither depends on the component's state. *)
Definition blank : World State := mkWorld (mkState [] None false false 0 0) 0.

Definition valueOf {S : Type} (r : Res S bool) : bool :=
  match r with
  | Normal b _ => b
  | Thrown _ => false
  end.

(** The value [testConnection] resolves to. *)
Definition reachable (props : MCPManagerProps) (timeout : Z) (provider : MCPProvider)
    (env : ProbeEnv) : bool :=
  valueOf (testConnection props timeout provider env blank).

(** The time [testConnection] takes to settle. *)
Definition elapsed (props : MCPManagerProps) (timeout : Z) (provider : MCPProvider)
    (env : ProbeEnv) : Z :=
  now (finalWorld (testConnection props timeout provider env blank)).

(** The record a probe started at [t0] leaves for [p]. *)
Definition settle (props : MCPManagerProps) (timeout : Z) (provider : MCPProvider)
    (env : ProbeEnv) (t0 : Z) (p : MCPProvider) : MCPProvider :=
  if (id p =? id provider)%string then
    if reachable props timeout provider env
    then withConnected p (elapsed props timeout provider env)
                       (t0 + elapsed props timeout provider env)
    else withError p (t0 + elapsed props timeout provider env)
  else p.

Definition withProviders (s : State) (ps : list MCPProvider) : State :=
  mkState ps (activeProvider s) (isScanning s) (autoFallback s)
          (connectionTimeout s) (retryAttempts s).

(** Does the awaited [fetch] reject (network failure, or abort on timeout)? *)
Definition fetchRejects (timeout : Z) (b : FetchBehaviour) : bool :=
  match fetchWithAbort timeout b (mkWorld tt 0) with
  | Thrown _ => true
  | Normal _ _ => false
  end.

Ltac unfold_async :=
  unfold testConnection, setProviders, setActiveProvider, setIsScanning,
    bind, tryCatch, call, ret, throw, gets, modify, dateNow, sleep,
    fetchWithAbort in *.

Lemma testConnection_run props timeout provider env (w : World State) :
  testConnection props timeout provider env w =
  Normal (reachable props timeout provider env)
         (mkWorld (withProviders (state w)
                     (map (settle props timeout provider env (now w))
                          (providers (state w))))
                  (now w + elapsed props timeout provider env)).
Proof.
  unfold settle, reachable, elapsed, withProviders, blank, valueOf, finalWorld.
  destruct w as [s t]. unfold_async. simpl.
  destruct (onStatusUpdate props _); simpl.
  - destruct (type provider); simpl.
    + destruct (network env _) as [d ok|d|]; simpl.
      * destruct (Z.of_N d <? Z.max 0 timeout); simpl; [destruct ok; simpl|].
        -- do 2 f_equal. f_equal. apply map_ext. intros p.
           destruct (id p =? id provider)%string; [|reflexivity].
           f_equal; lia.
        -- reflexivity.
        -- reflexivity.
      * destruct (Z.of_N d <? Z.max 0 timeout); reflexivity.
      * reflexivity.
    + rewrite Z.add_0_r. reflexivity.
    + destruct (0.3 <? random env)%float; simpl.
      * do 2 f_equal. f_equal. apply map_ext. intros p.
        destruct (id p =? id provider)%string; [|reflexivity]. f_equal; lia.
      * reflexivity.
  - rewrite Z.add_0_r. reflexivity.
Qed.

(** A probe settles within its own bound, whatever the network does: the
    abort timer for local providers, a fixed second for cloud ones. *)
Lemma elapsed_bound props timeout provider env :
  0 <= elapsed props timeout provider env <= Z.max timeout 1000.
Proof.
  unfold elapsed, blank, finalWorld. unfold_async. simpl.
  destruct (onStatusUpdate props _); simpl; [|lia].
  destruct (type provider); simpl; [|lia|destruct (0.3 <? random env)%float; simpl; lia].
  destruct (network env _) as [d ok|d|]; simpl.
  - destruct (Z.of_N d <? Z.max 0 timeout) eqn:E; simpl; [destruct ok; simpl|]; lia.
  - destruct (Z.of_N d <? Z.max 0 timeout) eqn:E; simpl; lia.
  - lia.
Qed.

(** ** The probes of one scan *)

(** What the probes of [ps], numbered from [i] and started at [t0], make of
    one record. *)
Fixpoint settleBy (props : MCPManagerProps) (timeout : Z) (envs : nat -> ProbeEnv)
    (t0 : Z) (i : nat) (ps : list MCPProvider) (q : MCPProvider) : MCPProvider :=
  match ps with
  | [] => q
  | p :: ps' =>
      settleBy props timeout envs t0 (S i) ps' (settle props timeout p (envs i) t0 q)
  end.

(** The instant the last of them settles. *)
Fixpoint finishBy (props : MCPManagerProps) (timeout : Z) (envs : nat -> ProbeEnv)
    (t0 : Z) (i : nat) (ps : list MCPProvider) (t : Z) : Z :=
  match ps with
  | [] => t
  | p :: ps' =>
      finishBy props timeout envs t0 (S i) ps'
               (Z.max t (t0 + elapsed props timeout p (envs i)))
  end.

Definition scanResults (props : MCPManagerProps) (timeout : Z) (envs : nat -> ProbeEnv)
    (ps : list MCPProvider) : list (JS.Settled bool) :=
  JS.mapi (fun i p => JS.fulfilled (reachable props timeout p (envs i))) ps.

Lemma allSettledFrom_probes props timeout envs t0 ps : forall i (w : World State),
  allSettledFrom t0
    (JS.mapi_from i (fun i p => testConnection props timeout p (envs i)) ps) w =
  Normal (JS.mapi_from i (fun i p => JS.fulfilled (reachable props timeout p (envs i))) ps)
         (mkWorld (withProviders (state w)
                     (map (settleBy props timeout envs t0 i ps) (providers (state w))))
                  (finishBy props timeout envs t0 i ps (now w))).
Proof.
  induction ps as [|p ps IH]; intros i w; simpl.
  - destruct w as [[] t]; unfold withProviders; simpl. now rewrite map_id.
  - rewrite testConnection_run. simpl. rewrite IH. simpl.
    unfold withProviders; simpl. now rewrite map_map.
Qed.

Lemma probeAll_run props timeout envs ps (w : World State) :
  probeAll props timeout ps envs w =
  Normal (scanResults props timeout envs ps)
         (mkWorld (withProviders (state w)
                     (map (settleBy props timeout envs (now w) 0 ps) (providers (state w))))
                  (finishBy props timeout envs (now w) 0 ps (now w))).
Proof. unfold probeAll, allSettled, JS.mapi. apply allSettledFrom_probes. Qed.

Lemma finishBy_bounds props timeout envs t0 ps : forall i t,
  t0 <= t <= t0 + Z.max timeout 1000 ->
  t0 <= finishBy props timeout envs t0 i ps t <= t0 + Z.max timeout 1000.
Proof.
  induction ps as [|p ps IH]; intros i t Ht; simpl; [exact Ht|].
  apply IH. pose proof (elapsed_bound props timeout p (envs i)). lia.
Qed.

Lemma settle_id props timeout p env t0 q :
  id (settle props timeout p env t0 q) = id q.
Proof.
  unfold settle. destruct (id q =? id p)%string; [|reflexivity].
  destruct (reachable props timeout p env); reflexivity.
Qed.

Lemma settle_other props timeout p env t0 q :
  id q <> id p -> settle props timeout p env t0 q = q.
Proof.
  intros H. unfold settle. destruct (String.eqb_spec (id q) (id p)); congruence.
Qed.

Lemma settle_status props timeout p env t0 q :
  id q = id p ->
  status (settle props timeout p env t0 q) =
  if reachable props timeout p env then connected else error.
Proof.
  intros H. unfold settle. rewrite H, String.eqb_refl.
  destruct (reachable props timeout p env); reflexivity.
Qed.

Lemma settleBy_id props timeout envs t0 ps : forall i q,
  id (settleBy props timeout envs t0 i ps q) = id q.
Proof.
  induction ps as [|p ps IH]; intros i q; simpl; [reflexivity|].
  now rewrite IH, settle_id.
Qed.

(** A probe touches only the records that carry its provider's id. *)
Lemma settleBy_other props timeout envs t0 ps : forall i q,
  ~ In (id q) (map id ps) -> settleBy props timeout envs t0 i ps q = q.
Proof.
  induction ps as [|p ps IH]; intros i q H; simpl in *; [reflexivity|].
  rewrite settle_other by intuition congruence. apply IH. tauto.
Qed.

(** With unique ids, the record of a probed provider ends [connected] when
    its probe resolved to [true], [error] otherwise. *)
Lemma settleBy_status props timeout envs t0 ps : forall i k p q,
  NoDup (map id ps) ->
  nth_error ps k = Some p ->
  id q = id p ->
  status (settleBy props timeout envs t0 i ps q) =
  if reachable props timeout p (envs (i + k)%nat) then connected else error.
Proof.
  induction ps as [|p0 ps IH]; intros i k p q Hnd Hk Hq; [destruct k; discriminate|].
  simpl in Hnd. inversion Hnd as [|? ? Hnotin Hnd']; subst.
  destruct k as [|k]; simpl in *.
  - inversion Hk; subst. rewrite Nat.add_0_r.
    rewrite settleBy_other by (rewrite settle_id, Hq; exact Hnotin).
    now apply settle_status.
  - rewrite Nat.add_succ_r. apply (IH (S i) k p); try assumption.
    now rewrite settle_id.
Qed.

Lemma fulfilledTrue_scanResults props timeout envs ps k :
  JS.fulfilledTrue (scanResults props timeout envs ps) k = true <->
  exists p, nth_error ps k = Some p /\ reachable props timeout p (envs k) = true.
Proof.
  unfold JS.fulfilledTrue, scanResults, JS.mapi.
  rewrite JSFacts.mapi_from_nth. simpl.
  destruct (nth_error ps k) as [p|]; simpl.
  - destruct (reachable props timeout p (envs k)) eqn:E.
    + split; eauto.
    + split; [discriminate|]. intros [p' [H1 H2]]. inversion H1; subst. congruence.
  - split; [discriminate|]. intros [p' [H1 _]]. discriminate.
Qed.

(** The candidates of a scan are exactly the providers whose probe resolved
    to [true]. *)
Lemma connectedProviders_In props timeout envs ps b :
  In b (connectedProviders ps (scanResults props timeout envs ps)) <->
  exists k, nth_error ps k = Some b /\ reachable props timeout b (envs k) = true.
Proof.
  unfold connectedProviders.
  rewrite JSFacts.sort_In, JSFacts.filteri_In.
  split; intros [k [H1 H2]]; exists k; split; try assumption.
  - apply fulfilledTrue_scanResults in H2. destruct H2 as [p [H3 H4]]. congruence.
  - apply fulfilledTrue_scanResults. eauto.
Qed.

(** ** A whole scan *)

(** Callbacks that return normally whatever they are given. *)
Definition quiet (props : MCPManagerProps) : Prop :=
  (forall v, onProviderChange props v = Returns) /\
  (forall m, onStatusUpdate props m = Returns).

Definition quietProps : MCPManagerProps := mkProps (fun _ => Returns) (fun _ => Returns).

Definition withIsScanning (s : State) (v : bool) : State :=
  mkState (providers s) (activeProvider s) v (autoFallback s)
          (connectionTimeout s) (retryAttempts s).

(** The world a scan started in [w] leaves behind when it runs to its end. *)
Definition scanned (props : MCPManagerProps) (envs : nat -> ProbeEnv)
    (w : World State) : World State :=
  let s := state w in
  let ps := providers s in
  let timeout := connectionTimeout s in
  mkWorld
    (mkState
       (map (settleBy props timeout envs (now w) 0 ps)
            (map (fun p => withStatus p connecting) ps))
       (hd_error (connectedProviders ps (scanResults props timeout envs ps)))
       false (autoFallback s) timeout (retryAttempts s))
    (finishBy props timeout envs (now w) 0 ps (now w)).

Lemma scanProviders_quiet props envs (w : World State) :
  quiet props -> scanProviders props envs w = Normal tt (scanned props envs w).
Proof.
  intros [Hc Hs]. unfold scanProviders, scanned.
  unfold bind at 1 2 3 4 5. unfold gets, setIsScanning, setProviders, modify, call.
  rewrite Hs. unfold ret at 1. simpl.
  unfold bind. rewrite probeAll_run. simpl.
  unfold selectProvider.
  destruct (connectedProviders _ _) as [|b l]; simpl;
    unfold bind, setActiveProvider, modify, call; simpl;
    rewrite Hc, Hs; reflexivity.
Qed.

(** However the callbacks behave, a scan ends either before it touched
    anything but [isScanning] (the first status update threw), or with the
    probes settled and the selection made. *)
Lemma scanProviders_final props envs (w : World State) :
  let s' := state (finalWorld (scanProviders props envs w)) in
  s' = withIsScanning (state w) true \/
  exists v, s' = withIsScanning (state (scanned props envs w)) v.
Proof.
  unfold scanProviders, scanned.
  unfold bind at 1 2 3 4 5. unfold gets, setIsScanning, setProviders, modify, call.
  destruct (onStatusUpdate props _); [|left; reflexivity].
  right. unfold ret at 1. simpl.
  unfold bind. rewrite probeAll_run. simpl.
  unfold selectProvider.
  destruct (connectedProviders _ _) as [|b l]; simpl;
    unfold bind, setActiveProvider, modify, call; simpl.
  - destruct (onProviderChange props None); simpl;
      [destruct (onStatusUpdate props _); simpl|]; eexists; reflexivity.
  - destruct (onProviderChange props (Some b)); simpl;
      [destruct (onStatusUpdate props _); simpl|]; eexists; reflexivity.
Qed.

(** ** Connecting, disconnecting, and the health check *)

Definition withActiveProvider (s : State) (v : option MCPProvider) : State :=
  mkState (providers s) v (isScanning s) (autoFallback s)
          (connectionTimeout s) (retryAttempts s).

(** The records after [connectToProvider(provider)] started in [w]. *)
Definition connectedRecords (props : MCPManagerProps) (provider : MCPProvider)
    (env : ProbeEnv) (w : World State) : list MCPProvider :=
  map (settle props (connectionTimeout (state w)) provider env (now w))
      (map (fun p => if (id p =? id provider)%string then withStatus p connecting else p)
           (providers (state w))).

Lemma connectToProvider_final props provider env (w : World State) :
  let s := state w in
  let s' := state (finalWorld (connectToProvider props provider env w)) in
  let ok := reachable props (connectionTimeout s) provider env in
  exists v,
    s' = withActiveProvider
           (withProviders s (connectedRecords props provider env w)) v /\
    ((ok = true /\ v = Some provider) \/
     (ok = false /\ v = activeProvider s) \/
     (ok = false /\ autoFallback s = true /\
      exists fallback,
        hd_error (fallbackProviders (providers s) provider) = Some fallback /\
        v = Some fallback)).
Proof.
  unfold connectToProvider, connectedRecords.
  unfold bind at 1 2 3 4. unfold gets, setProviders, modify. simpl.
  unfold bind at 1. rewrite testConnection_run. simpl.
  unfold withActiveProvider, withProviders. simpl.
  destruct (reachable props (connectionTimeout (state w)) provider env) eqn:Hok.
  - exists (Some provider). split; [|left; now split].
    unfold bind, setActiveProvider, modify, call; simpl.
    destruct (onProviderChange props _); simpl;
      [destruct (onStatusUpdate props _); simpl|]; reflexivity.
  - unfold bind, call; simpl.
    destruct (onStatusUpdate props _); simpl.
    + destruct (autoFallback (state w)) eqn:Hauto; simpl.
      * destruct (fallbackProviders _ _) as [|f l] eqn:Hf; simpl.
        -- exists (activeProvider (state w)). split; [congruence|]. right; left; now split.
        -- exists (Some f). split.
           ++ unfold setActiveProvider, modify, ret, throw; simpl.
              destruct (onProviderChange props _); simpl;
                [destruct (onStatusUpdate props _); simpl|]; congruence.
           ++ right; right. repeat split. exists f. now split.
      * exists (activeProvider (state w)). split; [congruence|]. right; left; now split.
    + exists (activeProvider (state w)). split; [reflexivity|]. right; left; now split.
Qed.

Definition disconnected (providerId : string) (s : State) : State :=
  mkState
    (map (fun p => if (id p =? providerId)%string then withStatus p disconnected else p)
         (providers s))
    (match activeProvider s with
     | Some a => if (id a =? providerId)%string then None else Some a
     | None => None
     end)
    (isScanning s) (autoFallback s) (connectionTimeout s) (retryAttempts s).

Lemma disconnectProvider_final props providerId (w : World State) :
  finalWorld (disconnectProvider props providerId w) =
  mkWorld (disconnected providerId (state w)) (now w).
Proof.
  unfold disconnectProvider, disconnected.
  unfold bind, gets, setProviders, setActiveProvider, modify, call, ret, throw. simpl.
  destruct (activeProvider (state w)) as [a|]; simpl; [|reflexivity].
  destruct (id a =? providerId)%string; simpl; [|reflexivity].
  destruct (onProviderChange props None); simpl;
    [destruct (onStatusUpdate props _); simpl|]; reflexivity.
Qed.

Lemma healthCheck_run props env (w : World State) :
  healthCheck props env w =
  Normal tt
    match activeProvider (state w) with
    | Some active =>
        mkWorld
          (withProviders (state w)
             (map (settle props (connectionTimeout (state w)) active env
                          (now w + healthCheckInterval))
                  (providers (state w))))
          (now w + healthCheckInterval +
           elapsed props (connectionTimeout (state w)) active env)
    | None => w
    end.
Proof.
  unfold healthCheck. unfold bind at 1 2. unfold gets. simpl.
  destruct (activeProvider (state w)) as [a|]; [|reflexivity].
  unfold bind at 1, sleep. simpl. unfold bind. rewrite testConnection_run. reflexivity.
Qed.

(** ** The operations of the component, one after another *)

(** The operations of the component: the scan (timer or button), the
    Connect and Disconnect buttons of a provider row, and the callback of
    the health-check interval.  In [run] each one runs to its end before
    the next starts; [Mount] has them overlap, and has the effects that
    start the scan and the interval. *)
Inductive Action : Type :=
| Scan (envs : nat -> ProbeEnv)
| Connect (provider : MCPProvider) (env : ProbeEnv)
| Disconnect (providerId : string)
| HealthCheck (env : ProbeEnv).

Definition perform (props : MCPManagerProps) (a : Action) (w : World State)
  : World State :=
  match a with
  | Scan envs => finalWorld (scanProviders props envs w)
  | Connect provider env => finalWorld (connectToProvider props provider env w)
  | Disconnect providerId => finalWorld (disconnectProvider props providerId w)
  | HealthCheck env => finalWorld (healthCheck props env w)
  end.

(** The rows render Disconnect for a connected provider and Connect for any
    other one (lines 395-419); the interval exists while a provider is
    active. *)
Definition offered (a : Action) (s : State) : Prop :=
  match a with
  | Scan _ => True
  | Connect provider _ => In provider (providers s) /\ status provider <> connected
  | Disconnect providerId =>
      exists p, In p (providers s) /\ id p = providerId /\ status p = connected
  | HealthCheck _ => activeProvider s <> None
  end.

Fixpoint run (props : MCPManagerProps) (actions : list Action) (w : World State)
  : World State :=
  match actions with
  | [] => w
  | a :: rest => run props rest (perform props a w)
  end.

Fixpoint admissible (props : MCPManagerProps) (actions : list Action) (w : World State)
  : Prop :=
  match actions with
  | [] => True
  | a :: rest => offered a (state w) /\ admissible props rest (perform props a w)
  end.

Lemma Status_eqb_eq (a b : Status) : Status_eqb a b = true <-> a = b.
Proof. destruct a, b; simpl; split; congruence. Qed.

Lemma NoDup_ids_eq (ps : list MCPProvider) (p q : MCPProvider) :
  NoDup (map id ps) -> In p ps -> In q ps -> id p = id q -> p = q.
Proof.
  induction ps as [|x ps IH]; simpl; intros Hnd Hp Hq Heq; [contradiction|].
  inversion Hnd as [|? ? Hnotin Hnd']; subst.
  destruct Hp as [->|Hp], Hq as [->|Hq]; auto.
  - exfalso. apply Hnotin. rewrite Heq. now apply in_map.
  - exfalso. apply Hnotin. rewrite <- Heq. now apply in_map.
Qed.

Lemma scanned_ids props envs (w : World State) :
  map id (providers (state (scanned props envs w))) = map id (providers (state w)).
Proof.
  unfold scanned; simpl. rewrite !map_map. apply map_ext. intros p.
  now rewrite settleBy_id.
Qed.

Lemma connectedRecords_ids props provider env (w : World State) :
  map id (connectedRecords props provider env w) = map id (providers (state w)).
Proof.
  unfold connectedRecords. rewrite !map_map. apply map_ext. intros p.
  rewrite settle_id. now destruct (id p =? id provider)%string.
Qed.

(** A record with another id is left alone by [connectToProvider]. *)
Lemma connectedRecords_other props provider env (w : World State) (q : MCPProvider) :
  In q (providers (state w)) -> id q <> id provider ->
  In q (connectedRecords props provider env w).
Proof.
  intros Hin Hne. unfold connectedRecords. apply in_map_iff. exists q. split.
  - now apply settle_other.
  - apply in_map_iff. exists q. split; [|assumption].
    destruct (String.eqb_spec (id q) (id provider)); congruence.
Qed.

Lemma fallbackProviders_head (ps : list MCPProvider) (provider f : MCPProvider) :
  hd_error (fallbackProviders ps provider) = Some f ->
  In f ps /\ id f <> id provider /\ status f = connected.
Proof.
  unfold fallbackProviders. intros H.
  assert (Hin : In f (JS.sort (fun a b => fallbackOrder a - fallbackOrder b)
                        (filter (fun p => negb (id p =? id provider)%string &&
                                          Status_eqb (status p) connected) ps))).
  { destruct (JS.sort _ _); simpl in H; inversion H; subst. now left. }
  apply (proj1 (JSFacts.sort_In _ _ _)) in Hin. apply filter_In in Hin.
  destruct Hin as [Hin Hb]. apply andb_prop in Hb. destruct Hb as [H1 H2].
  apply Status_eqb_eq in H2. apply negb_true_iff in H1.
  apply String.eqb_neq in H1. auto.
Qed.

(** Every action keeps the registry's ids. *)
Lemma perform_ids props (a : Action) (w : World State) :
  map id (providers (state (perform props a w))) = map id (providers (state w)).
Proof.
  destruct a as [envs|provider env|providerId|env]; simpl.
  - destruct (scanProviders_final props envs w) as [H|[v H]]; rewrite H; simpl;
      [reflexivity|]. apply (scanned_ids props envs w).
  - destruct (connectToProvider_final props provider env w) as [v [H _]].
    rewrite H. simpl. apply connectedRecords_ids.
  - rewrite disconnectProvider_final. simpl. rewrite map_map. apply map_ext.
    intros p. now destruct (id p =? providerId)%string.
  - rewrite healthCheck_run. simpl.
    destruct (activeProvider (state w)) as [active|]; simpl; [|reflexivity].
    rewrite map_map. apply map_ext. intros p. apply settle_id.
Qed.

(** ** Errors raised inside a probe *)

(** Does something raise inside [testConnection]: the status callback, or
    the awaited [fetch] (network failure, abort on timeout)? *)
Definition raises (props : MCPManagerProps) (timeout : Z) (provider : MCPProvider)
    (env : ProbeEnv) : bool :=
  match onStatusUpdate props ("🔍 Testing connection to " ++ name provider ++ "...")%string with
  | Throws => true
  | Returns =>
      match type provider with
      | local => fetchRejects timeout (network env (endpoint provider ++ "/health")%string)
      | _ => false
      end
  end.

Lemma raises_unreachable props timeout provider env :
  raises props timeout provider env = true ->
  reachable props timeout provider env = false.
Proof.
  unfold raises, reachable, fetchRejects, blank, valueOf. unfold_async. simpl.
  destruct (onStatusUpdate props _); simpl; [|reflexivity].
  destruct (type provider); simpl; try discriminate.
  destruct (network env _) as [d ok|d|]; simpl.
  - destruct (Z.of_N d <? Z.max 0 timeout); simpl; [discriminate|reflexivity].
  - destruct (Z.of_N d <? Z.max 0 timeout); reflexivity.
  - reflexivity.
Qed.

(** ** A scan that finds nothing *)

(** The callbacks a scan that finds nothing calls on its own account
    return. *)
Definition scanCallbacksReturn (props : MCPManagerProps) : Prop :=
  onStatusUpdate props "🔍 Scanning for MCP providers..."%string = Returns /\
  onProviderChange props None = Returns /\
  onStatusUpdate props "❌ No MCP providers available"%string = Returns.

Definition noneReachable (props : MCPManagerProps) (envs : nat -> ProbeEnv)
    (s : State) : Prop :=
  forall k p, nth_error (providers s) k = Some p ->
              reachable props (connectionTimeout s) p (envs k) = false.

Lemma connectedProviders_none props envs (s : State) :
  noneReachable props envs s ->
  connectedProviders (providers s)
    (scanResults props (connectionTimeout s) envs (providers s)) = [].
Proof.
  intros Hnone.
  destruct (connectedProviders _ _) as [|b l] eqn:E; [reflexivity|].
  assert (Hin : In b (connectedProviders (providers s)
            (scanResults props (connectionTimeout s) envs (providers s))))
    by (rewrite E; now left).
  apply connectedProviders_In in Hin. destruct Hin as [k [Hk Hr]].
  rewrite (Hnone k b Hk) in Hr. discriminate.
Qed.

Lemma scanProviders_none props envs (w : World State) :
  scanCallbacksReturn props ->
  noneReachable props envs (state w) ->
  scanProviders props envs w = Normal tt (scanned props envs w) /\
  activeProvider (state (scanned props envs w)) = None.
Proof.
  intros [H1 [H2 H3]] Hnone. pose proof (connectedProviders_none _ _ _ Hnone) as Hc.
  split.
  - unfold scanProviders, scanned.
    unfold bind at 1 2 3 4 5. unfold gets, setIsScanning, setProviders, modify, call.
    rewrite H1. unfold ret at 1. simpl.
    unfold bind. rewrite probeAll_run. simpl.
    unfold selectProvider. rewrite Hc. simpl.
    unfold bind, setActiveProvider, modify, call; simpl.
    rewrite H2, H3. reflexivity.
  - unfold scanned. simpl. now rewrite Hc.
Qed.

(** ** The provider a scan settles on *)

Definition someReachable (props : MCPManagerProps) (envs : nat -> ProbeEnv)
    (s : State) : Prop :=
  exists k p, nth_error (providers s) k = Some p /\
              reachable props (connectionTimeout s) p (envs k) = true.

(** With a reachable provider in the registry, the scan settles on a
    reachable provider of least priority number. *)
Lemma scanned_best props envs (w : World State) :
  someReachable props envs (state w) ->
  exists best,
    activeProvider (state (scanned props envs w)) = Some best /\
    (exists k, nth_error (providers (state w)) k = Some best /\
               reachable props (connectionTimeout (state w)) best (envs k) = true) /\
    forall k c, nth_error (providers (state w)) k = Some c ->
                reachable props (connectionTimeout (state w)) c (envs k) = true ->
                priority best <= priority c.
Proof.
  intros [k0 [p0 [Hk0 Hr0]]]. unfold scanned. simpl.
  set (ps := providers (state w)) in *.
  set (results := scanResults props (connectionTimeout (state w)) envs ps).
  assert (Hkey : forall a b : MCPProvider,
             priority a - priority b <= 0 <-> priority a <= priority b)
    by (intros; lia).
  assert (Hne : JS.filteri (fun _ index => JS.fulfilledTrue results index) ps <> []).
  { intros E.
    assert (Hin : In p0 (JS.filteri (fun _ index => JS.fulfilledTrue results index) ps)).
    { apply JSFacts.filteri_In. exists k0. split; [assumption|].
      apply fulfilledTrue_scanResults. eauto. }
    rewrite E in Hin. destruct Hin. }
  destruct (JSFacts.sort_head_some _ priority Hkey _ Hne) as [best Hbest].
  exists best. split; [exact Hbest|].
  destruct (JSFacts.sort_head_least _ priority Hkey _ _ Hbest) as [Hin Hleast].
  split.
  - apply (connectedProviders_In props (connectionTimeout (state w)) envs ps best).
    unfold connectedProviders. apply JSFacts.sort_In. exact Hin.
  - intros k c Hk Hr. apply Hleast. apply JSFacts.filteri_In.
    exists k. split; [assumption|]. apply fulfilledTrue_scanResults. eauto.
Qed.

(** ** The selection step on its own *)

Lemma selectProvider_final props ps results (w : World State) :
  finalWorld (selectProvider props ps results w) =
  mkWorld (withActiveProvider (state w) (hd_error (connectedProviders ps results)))
          (now w).
Proof.
  unfold selectProvider.
  destruct (connectedProviders ps results) as [|b l]; simpl;
    unfold bind, setActiveProvider, modify, call, ret, throw; simpl.
  - destruct (onProviderChange props None); simpl;
      [destruct (onStatusUpdate props _); simpl|]; reflexivity.
  - destruct (onProviderChange props (Some b)); simpl;
      [destruct (onStatusUpdate props _); simpl|]; reflexivity.
Qed.

(** ** Probes of different providers do not interfere *)

(** The updates two probes make commute when their providers have
    different ids, so the order in which concurrent probes settle does not
    matter. *)
Lemma settle_commute props timeout p1 env1 t1 p2 env2 t2 (q : MCPProvider) :
  id p1 <> id p2 ->
  settle props timeout p1 env1 t1 (settle props timeout p2 env2 t2 q) =
  settle props timeout p2 env2 t2 (settle props timeout p1 env1 t1 q).
Proof.
  intros Hne.
  destruct (String.eqb_spec (id q) (id p1)) as [E1|E1].
  - assert (E2 : id q <> id p2) by congruence.
    rewrite (settle_other _ _ p2 env2 t2 q E2).
    symmetry. apply settle_other. now rewrite settle_id.
  - rewrite (settle_other _ _ p1 env1 t1 q E1).
    apply settle_other. now rewrite settle_id.
Qed.

End MCPFacts.

(* ================================================================== *)
(** * ModelDetector: what a probe, a benchmark and a scan do *)
(* ================================================================== *)

Module DetectorFacts.
Import Async Detector.

Definition blank : World State := mkWorld initialState 0.

Definition valueOf {S : Type} (r : Res S bool) : bool :=
  match r with
  | Normal b _ => b
  | Thrown _ => false
  end.

(** The value [testModel] resolves to, and the time it takes. *)
Definition reachable (props : ModelDetectorProps) (model : AIModel) (env : TestEnv) : bool :=
  valueOf (testModel props model env blank).

Definition elapsed (props : ModelDetectorProps) (model : AIModel) (env : TestEnv) : Z :=
  now (finalWorld (testModel props model env blank)).

(** The composite score as a function of the sample and of the model's
    Bengali score: the expression at lines 248-253 and again at 349-354. *)
Definition overallScoreOf (p : ModelPerformance) (bengali : Z) : Z :=
  JS.Math_round
    ((JS.ofZ (speed p) / 60) * 25 +
     (JS.ofZ (accuracy p) / 100) * 35 +
     (JS.Math_max 0 (100 - JS.ofZ (latency p) / 10) / 100) * 20 +
     (JS.ofZ bengali / 100) * 20)%float.

(** The sample [testModel] draws after a successful probe. *)
Definition testSample (env : TestEnv) (latency' date : Z) : ModelPerformance :=
  mkPerformance
    (JS.Math_floor (randomSpeed env * 50)%float + 10)
    (JS.Math_floor (randomAccuracy env * 20)%float + 80)
    latency'
    (JS.Math_floor (randomMemory env * 4000)%float + 1000)
    (JS.Math_floor (randomCpu env * 60)%float + 20)
    date.

(** The sample [benchmarkModel] draws. *)
Definition benchSample (env : BenchEnv) (date : Z) : ModelPerformance :=
  mkPerformance
    (JS.Math_floor (benchSpeed env * 40)%float + 20)
    (JS.Math_floor (benchAccuracy env * 15)%float + 85)
    (JS.Math_floor (benchLatency env * 200)%float + 50)
    (JS.Math_floor (benchMemory env * 3000)%float + 2000)
    (JS.Math_floor (benchCpu env * 50)%float + 30)
    date.

(** The record a probe started at [t0] leaves for [m]. *)
Definition settle (props : ModelDetectorProps) (model : AIModel) (env : TestEnv)
    (t0 : Z) (m : AIModel) : AIModel :=
  if (id m =? id model)%string then
    if reachable props model env then
      let sample := testSample env (elapsed props model env)
                               (t0 + elapsed props model env) in
      withAvailable m sample (overallScoreOf sample (bengaliScore model))
    else withStatus m error
  else m.

Definition withModels (s : State) (ms : list AIModel) : State :=
  mkState ms (activeModel s) (isScanning s) (autoDetect s) (benchmarkMode s)
          (filterBengali s).

Ltac settle_map :=
  unfold withModels; simpl; rewrite ?Z.add_0_r;
  match goal with
  | |- Normal _ (mkWorld (mkState ?a _ _ _ _ _) _) =
       Normal _ (mkWorld (mkState ?b _ _ _ _ _) _) =>
      replace a with b; [reflexivity|]
  end;
  rewrite ?map_map; apply map_ext; intros m;
  match goal with
  | |- context [String.eqb (id m) ?i] =>
      let E := fresh "E" in
      destruct (String.eqb (id m) i) eqn:E; simpl; rewrite ?E
  end; try reflexivity;
  unfold withAvailable, withStatus, testSample, overallScoreOf; simpl;
  rewrite ?Z.add_simpl_l; reflexivity.

Lemma testModel_run props model env (w : World State) :
  testModel props model env w =
  Normal (reachable props model env)
         (mkWorld (withModels (state w)
                     (map (settle props model env (now w)) (models (state w))))
                  (now w + elapsed props model env)).
Proof.
  unfold settle, reachable, elapsed, blank, valueOf, finalWorld.
  destruct w as [s t].
  unfold testModel, setModels, bind, tryCatch, call, ret, throw, gets, modify,
    dateNow, sleep, fetchWithAbort. simpl.
  destruct (onStatusUpdate props _); simpl.
  - destruct (provider model); simpl.
    1-3: destruct (network env _) as [d ok|d|]; simpl;
      [ destruct (Z.of_N d <? _); simpl; [destruct ok; simpl|]
      | destruct (Z.of_N d <? _); simpl
      | ]; settle_map.
    + destruct (0.5 <? randomOk env)%float; simpl; settle_map.
    + settle_map.
    + settle_map.
  - settle_map.
Qed.

(** A probe settles within five seconds, whatever the network does. *)
Lemma testElapsed_bound props model env : 0 <= elapsed props model env <= 5000.
Proof.
  unfold elapsed, blank, finalWorld.
  unfold testModel, setModels, bind, tryCatch, call, ret, throw, gets, modify,
    dateNow, sleep, fetchWithAbort. simpl.
  destruct (onStatusUpdate props _); simpl; [|lia].
  destruct (provider model); simpl.
  1-3: destruct (network env _) as [d ok|d|]; simpl;
    [ destruct (Z.of_N d <? _) eqn:E; simpl; [destruct ok; simpl|]
    | destruct (Z.of_N d <? _) eqn:E; simpl
    | ]; lia.
  - destruct (0.5 <? randomOk env)%float; simpl; lia.
  - lia.
  - lia.
Qed.

(** ** The probes of one scan *)

Fixpoint settleBy (props : ModelDetectorProps) (envs : nat -> TestEnv)
    (t0 : Z) (i : nat) (ms : list AIModel) (q : AIModel) : AIModel :=
  match ms with
  | [] => q
  | m :: ms' => settleBy props envs t0 (S i) ms' (settle props m (envs i) t0 q)
  end.

Fixpoint finishBy (props : ModelDetectorProps) (envs : nat -> TestEnv)
    (t0 : Z) (i : nat) (ms : list AIModel) (t : Z) : Z :=
  match ms with
  | [] => t
  | m :: ms' =>
      finishBy props envs t0 (S i) ms' (Z.max t (t0 + elapsed props m (envs i)))
  end.

Definition scanResults (props : ModelDetectorProps) (envs : nat -> TestEnv)
    (ms : list AIModel) : list (JS.Settled bool) :=
  JS.mapi (fun i m => JS.fulfilled (reachable props m (envs i))) ms.

Lemma allSettledFrom_tests props envs t0 ms : forall i (w : World State),
  allSettledFrom t0 (JS.mapi_from i (fun i m => testModel props m (envs i)) ms) w =
  Normal (JS.mapi_from i (fun i m => JS.fulfilled (reachable props m (envs i))) ms)
         (mkWorld (withModels (state w)
                     (map (settleBy props envs t0 i ms) (models (state w))))
                  (finishBy props envs t0 i ms (now w))).
Proof.
  induction ms as [|m ms IH]; intros i w; simpl.
  - destruct w as [[] t]; unfold withModels; simpl. now rewrite map_id.
  - rewrite testModel_run. simpl. rewrite IH. simpl.
    unfold withModels; simpl. now rewrite map_map.
Qed.

Lemma testAll_run props envs ms (w : World State) :
  probeAll props ms envs w =
  Normal (scanResults props envs ms)
         (mkWorld (withModels (state w)
                     (map (settleBy props envs (now w) 0 ms) (models (state w))))
                  (finishBy props envs (now w) 0 ms (now w))).
Proof. unfold probeAll, allSettled, JS.mapi. apply allSettledFrom_tests. Qed.

Lemma testFinish_bounds props envs t0 ms : forall i t,
  t0 <= t <= t0 + 5000 -> t0 <= finishBy props envs t0 i ms t <= t0 + 5000.
Proof.
  induction ms as [|m ms IH]; intros i t Ht; simpl; [exact Ht|].
  apply IH. pose proof (testElapsed_bound props m (envs i)). lia.
Qed.

Lemma fulfilledTrue_testResults props envs ms k :
  JS.fulfilledTrue (scanResults props envs ms) k = true <->
  exists m, nth_error ms k = Some m /\ reachable props m (envs k) = true.
Proof.
  unfold JS.fulfilledTrue, scanResults, JS.mapi.
  rewrite JSFacts.mapi_from_nth. simpl.
  destruct (nth_error ms k) as [m|]; simpl.
  - destruct (reachable props m (envs k)) eqn:E.
    + split; eauto.
    + split; [discriminate|]. intros [m' [H1 H2]]. inversion H1; subst. congruence.
  - split; [discriminate|]. intros [m' [H1 _]]. discriminate.
Qed.

(** The candidates of a scan are exactly the models whose probe resolved to
    [true]: nothing else is dropped, whatever [filterBengali] says. *)
Lemma availableModels_In props envs ms b :
  In b (availableModels ms (scanResults props envs ms)) <->
  exists k, nth_error ms k = Some b /\ reachable props b (envs k) = true.
Proof.
  unfold availableModels. rewrite JSFacts.filteri_In.
  split; intros [k [H1 H2]]; exists k; split; try assumption.
  - apply fulfilledTrue_testResults in H2. destruct H2 as [m [H3 H4]]. congruence.
  - apply fulfilledTrue_testResults. eauto.
Qed.

(** ** A whole scan *)

Definition quiet (props : ModelDetectorProps) : Prop :=
  (forall v, onModelChange props v = Returns) /\
  (forall m, onStatusUpdate props m = Returns).

Definition quietProps : ModelDetectorProps := mkProps (fun _ => Returns) (fun _ => Returns).

(** The key the comparator orders by, smallest first. *)
Definition rank (filterBengali : bool) (m : AIModel) : Z :=
  if filterBengali then - bengaliScore m else - overallScore m.

Lemma byScore_rank (filterBengali : bool) (a b : AIModel) :
  byScore filterBengali a b <= 0 <-> rank filterBengali a <= rank filterBengali b.
Proof. unfold byScore, rank. destruct filterBengali; lia. Qed.

(** The model a scan settles on: the head of the sorted candidates. *)
Definition bestOf (filterBengali : bool) (ms : list AIModel)
    (results : list (JS.Settled bool)) : option AIModel :=
  hd_error (JS.sort (byScore filterBengali) (availableModels ms results)).

Definition withIsScanning (s : State) (v : bool) : State :=
  mkState (models s) (activeModel s) v (autoDetect s) (benchmarkMode s)
          (filterBengali s).

Definition withActiveModel (s : State) (v : option AIModel) : State :=
  mkState (models s) v (isScanning s) (autoDetect s) (benchmarkMode s)
          (filterBengali s).

(** The world a scan started in [w] leaves behind when it runs to its end. *)
Definition scanned (props : ModelDetectorProps) (envs : nat -> TestEnv)
    (w : World State) : World State :=
  let s := state w in
  let ms := models s in
  mkWorld
    (mkState (map (settleBy props envs (now w) 0 ms) ms)
             (bestOf (filterBengali s) ms (scanResults props envs ms))
             false (autoDetect s) (benchmarkMode s) (filterBengali s))
    (finishBy props envs (now w) 0 ms (now w)).

(** What the selection step does to the world, under quiet callbacks. *)
Lemma selectBest_quiet props filterBengali ms results (w : World State) :
  quiet props ->
  selectBest props filterBengali ms results w =
  Normal tt (mkWorld (withActiveModel (state w) (bestOf filterBengali ms results)) (now w)).
Proof.
  intros [Hc Hs]. unfold selectBest, bestOf.
  destruct (availableModels ms results) as [|a l] eqn:Ha; simpl.
  - unfold bind, setActiveModel, modify, call; simpl. now rewrite Hc, Hs.
  - destruct (JS.sort (byScore filterBengali) (a :: l)) as [|b l'] eqn:Hsort.
    + exfalso. pose proof (JSFacts.sort_length (byScore filterBengali) (a :: l)) as Hl.
      rewrite Hsort in Hl. discriminate.
    + simpl in Hsort. rewrite Hsort.
      unfold bind, setActiveModel, modify, call; simpl. now rewrite Hc, Hs.
Qed.

Lemma selectBest_final props filterBengali ms results (w : World State) :
  state (finalWorld (selectBest props filterBengali ms results w)) =
  withActiveModel (state w) (bestOf filterBengali ms results).
Proof.
  unfold selectBest, bestOf.
  destruct (availableModels ms results) as [|a l] eqn:Ha; simpl.
  - unfold bind, setActiveModel, modify, call, ret, throw; simpl.
    destruct (onModelChange props None); simpl;
      [destruct (onStatusUpdate props _); simpl|]; reflexivity.
  - destruct (JS.sort (byScore filterBengali) (a :: l)) as [|b l'] eqn:Hsort.
    + exfalso. pose proof (JSFacts.sort_length (byScore filterBengali) (a :: l)) as Hl.
      rewrite Hsort in Hl. discriminate.
    + simpl in Hsort. rewrite Hsort.
      unfold bind, setActiveModel, modify, call, ret, throw; simpl.
      destruct (onModelChange props (Some b)); simpl;
        [destruct (onStatusUpdate props _); simpl|]; reflexivity.
Qed.

Lemma scanModels_quiet props envs (w : World State) :
  quiet props -> scanModels props envs w = Normal tt (scanned props envs w).
Proof.
  intros Hq. pose proof Hq as [Hc Hs]. unfold scanModels, scanned.
  unfold bind at 1 2 3 4. unfold gets, setIsScanning, modify, call.
  rewrite Hs. unfold ret at 1. simpl.
  unfold bind. rewrite testAll_run. simpl.
  rewrite selectBest_quiet by assumption. reflexivity.
Qed.

(** ** The benchmark *)

Lemma runBenchmarkTests_normal props tests : forall i (w w' : World State),
  runBenchmarkTests props i tests w = Normal tt w' ->
  w' = mkWorld (state w) (now w + 1000 * Z.of_nat (List.length tests)).
Proof.
  induction tests as [|test tests IH]; intros i w w' H.
  - simpl in H. unfold ret in H. inversion H; subst. destruct w'; simpl.
    f_equal. lia.
  - cbn [runBenchmarkTests] in H. unfold bind, sleep, call in H. simpl in H.
    destruct (onStatusUpdate props _); [|discriminate].
    unfold ret in H. apply IH in H. subst. cbn [state now List.length]. f_equal.
    rewrite Nat2Z.inj_succ. change (Z.max 0 1000) with 1000. lia.
Qed.

(** The record a benchmark started at [t0] leaves for [m]. *)
Definition benchmarked (model : AIModel) (env : BenchEnv) (t0 : Z) (m : AIModel) : AIModel :=
  if (id m =? id model)%string then
    let sample := benchSample env (t0 + 5000) in
    withBenchmark m sample (overallScoreOf sample (bengaliScore model))
  else m.

Lemma benchmarkModel_normal props model env (w w' : World State) :
  status model = available ->
  benchmarkModel props model env w = Normal tt w' ->
  models (state w') = map (benchmarked model env (now w)) (models (state w)).
Proof.
  intros Hst H. unfold benchmarkModel in H. rewrite Hst in H.
  cbn [Status_eqb negb] in H.
  apply AsyncFacts.bind_normal in H. destruct H as [[] [w1 [H1 H]]].
  unfold setBenchmarkMode, modify in H1. inversion H1; subst w1; clear H1.
  apply AsyncFacts.bind_normal in H. destruct H as [[] [w2 [H2 H]]].
  apply AsyncFacts.call_normal in H2. destruct H2 as [_ ->].
  apply AsyncFacts.bind_normal in H. destruct H as [[] [w3 [H3 H]]].
  apply runBenchmarkTests_normal in H3. subst w3.
  apply AsyncFacts.bind_normal in H. destruct H as [date [w4 [H4 H]]].
  unfold dateNow in H4. inversion H4; subst; clear H4.
  apply AsyncFacts.bind_normal in H. destruct H as [[] [w5 [H5 H]]].
  unfold setModels, modify in H5. inversion H5; subst w5; clear H5.
  apply AsyncFacts.bind_normal in H. destruct H as [[] [w6 [H6 H]]].
  unfold setBenchmarkMode, modify in H6. inversion H6; subst w6; clear H6.
  apply AsyncFacts.call_normal in H. destruct H as [_ ->].
  reflexivity.
Qed.

(** ** Errors raised inside a probe *)

Definition fetchRejects (timeout : Z) (b : FetchBehaviour) : bool :=
  match fetchWithAbort timeout b (mkWorld tt 0) with
  | Thrown _ => true
  | Normal _ _ => false
  end.

(** Does something raise inside [testModel]: the status callback, or the
    awaited [fetch]? *)
Definition raises (props : ModelDetectorProps) (model : AIModel) (env : TestEnv) : bool :=
  match onStatusUpdate props ("🔍 Testing " ++ name model ++ "...")%string with
  | Throws => true
  | Returns =>
      match provider model with
      | ollama => fetchRejects 5000 (network env (endpoint model ++ "/tags")%string)
      | lmstudio => fetchRejects 5000 (network env (endpoint model ++ "/models")%string)
      | zombiecoder => fetchRejects 5000 (network env (endpoint model ++ "/health")%string)
      | _ => false
      end
  end.

Lemma raises_unavailable props model env :
  raises props model env = true -> reachable props model env = false.
Proof.
  unfold raises, reachable, fetchRejects, blank, valueOf.
  unfold testModel, setModels, bind, tryCatch, call, ret, throw, gets, modify,
    dateNow, sleep, fetchWithAbort. simpl.
  destruct (onStatusUpdate props _); simpl; [|reflexivity].
  destruct (provider model); simpl; try discriminate.
  all: destruct (network env _) as [d ok|d|]; simpl;
    [ destruct (Z.of_N d <? _); simpl; [discriminate|reflexivity]
    | destruct (Z.of_N d <? _); reflexivity
    | reflexivity ].
Qed.

Lemma settle_model_id props model env t0 q :
  id (settle props model env t0 q) = id q.
Proof.
  unfold settle. destruct (id q =? id model)%string; [|reflexivity].
  destruct (reachable props model env); reflexivity.
Qed.

Lemma settle_model_status props model env t0 q :
  id q = id model ->
  status (settle props model env t0 q) =
  if reachable props model env then available else error.
Proof.
  intros H. unfold settle. rewrite H, String.eqb_refl.
  destruct (reachable props model env); reflexivity.
Qed.

(** ** A scan that finds nothing *)

Definition scanCallbacksReturn (props : ModelDetectorProps) : Prop :=
  onStatusUpdate props "🔍 Scanning for AI models..."%string = Returns /\
  onModelChange props None = Returns /\
  onStatusUpdate props "❌ No AI models available"%string = Returns.

Definition noneReachable (props : ModelDetectorProps) (envs : nat -> TestEnv)
    (s : State) : Prop :=
  forall k m, nth_error (models s) k = Some m -> reachable props m (envs k) = false.

Lemma availableModels_none props envs (s : State) :
  noneReachable props envs s ->
  availableModels (models s) (scanResults props envs (models s)) = [].
Proof.
  intros Hnone.
  destruct (availableModels _ _) as [|b l] eqn:E; [reflexivity|].
  assert (Hin : In b (availableModels (models s) (scanResults props envs (models s))))
    by (rewrite E; now left).
  apply availableModels_In in Hin. destruct Hin as [k [Hk Hr]].
  rewrite (Hnone k b Hk) in Hr. discriminate.
Qed.

Lemma scanModels_none props envs (w : World State) :
  scanCallbacksReturn props ->
  noneReachable props envs (state w) ->
  scanModels props envs w = Normal tt (scanned props envs w) /\
  activeModel (state (scanned props envs w)) = None.
Proof.
  intros [H1 [H2 H3]] Hnone. pose proof (availableModels_none _ _ _ Hnone) as Hc.
  split.
  - unfold scanModels, scanned.
    unfold bind at 1 2 3 4. unfold gets, setIsScanning, modify, call.
    rewrite H1. unfold ret at 1. simpl.
    unfold bind. rewrite testAll_run. simpl.
    unfold selectBest, bestOf. rewrite Hc. simpl.
    unfold bind, setActiveModel, modify, call; simpl.
    rewrite H2, H3. reflexivity.
  - unfold scanned, bestOf. simpl. now rewrite Hc.
Qed.

(** ** The model a scan settles on *)

Definition someReachable (props : ModelDetectorProps) (envs : nat -> TestEnv)
    (s : State) : Prop :=
  exists k m, nth_error (models s) k = Some m /\ reachable props m (envs k) = true.

(** The score the comparator looks at. *)
Definition rankingScore (filterBengali : bool) (m : AIModel) : Z :=
  if filterBengali then bengaliScore m else overallScore m.

(** With a reachable model in the registry, the scan settles on a reachable
    model whose ranking score (as the records stood when the scan started)
    is the greatest. *)
Lemma scanned_best_model props envs (w : World State) :
  someReachable props envs (state w) ->
  exists best,
    activeModel (state (scanned props envs w)) = Some best /\
    (exists k, nth_error (models (state w)) k = Some best /\
               reachable props best (envs k) = true) /\
    forall k c, nth_error (models (state w)) k = Some c ->
                reachable props c (envs k) = true ->
                rankingScore (filterBengali (state w)) c <=
                rankingScore (filterBengali (state w)) best.
Proof.
  intros [k0 [m0 [Hk0 Hr0]]]. unfold scanned, bestOf. simpl.
  set (ms := models (state w)) in *.
  set (fb := filterBengali (state w)).
  assert (Hne : availableModels ms (scanResults props envs ms) <> []).
  { intros E.
    assert (Hin : In m0 (availableModels ms (scanResults props envs ms)))
      by (apply availableModels_In; eauto).
    rewrite E in Hin. destruct Hin. }
  destruct (JSFacts.sort_head_some _ (rank fb) (byScore_rank fb) _ Hne) as [best Hbest].
  exists best. split; [exact Hbest|].
  destruct (JSFacts.sort_head_least _ (rank fb) (byScore_rank fb) _ _ Hbest)
    as [Hin Hleast].
  split.
  - now apply availableModels_In in Hin.
  - intros k c Hk Hr.
    assert (Hc : In c (availableModels ms (scanResults props envs ms)))
      by (apply availableModels_In; eauto).
    specialize (Hleast c Hc). unfold rank, rankingScore in *. destruct fb; lia.
Qed.

(** ** Scoring *)

(** The two places that compute a composite score. *)
Inductive ScorerCall : Type :=
| ByTest (env : TestEnv)
| ByBenchmark (env : BenchEnv).

(** [call] ran on [model] from world [w], scored it, and ended in [w']. *)
Definition scored (props : ModelDetectorProps) (model : AIModel) (call : ScorerCall)
    (w w' : World State) : Prop :=
  match call with
  | ByTest env => testModel props model env w = Normal true w'
  | ByBenchmark env =>
      status model = available /\ benchmarkModel props model env w = Normal tt w'
  end.

(** After either call, the stored score is [overallScoreOf] of the stored
    sample. *)
Lemma scored_record props model call (w w' : World State) (q : AIModel) :
  scored props model call w w' ->
  In q (models (state w')) ->
  id q = id model ->
  overallScore q = overallScoreOf (performance q) (bengaliScore model).
Proof.
  destruct call as [env|env]; simpl.
  - rewrite testModel_run. intros H Hq Hid. inversion H as [[Hr Hw]]. clear H.
    subst w'. simpl in Hq. apply in_map_iff in Hq. destruct Hq as [q0 [<- _]].
    rewrite settle_model_id in Hid. unfold settle.
    rewrite Hid, String.eqb_refl, Hr. reflexivity.
  - intros [Hst H] Hq Hid. apply (benchmarkModel_normal _ _ _ _ _ Hst) in H.
    rewrite H in Hq. apply in_map_iff in Hq. destruct Hq as [q0 [<- _]].
    unfold benchmarked in *.
    destruct (String.eqb_spec (id q0) (id model)) as [E|E]; [reflexivity|].
    contradiction.
Qed.

(** The score reads three fields of the sample. *)
Lemma overallScoreOf_ext (p1 p2 : ModelPerformance) (bengali : Z) :
  speed p1 = speed p2 -> accuracy p1 = accuracy p2 -> latency p1 = latency p2 ->
  overallScoreOf p1 bengali = overallScoreOf p2 bengali.
Proof. unfold overallScoreOf. intros -> -> ->. reflexivity. Qed.

End DetectorFacts.

(* ================================================================== *)
(** * Concrete scenarios *)
(* ================================================================== *)

Module Scenarios.
Import Async.
Local Open Scope string_scope.

(** ** MCPManager *)

(** The component just mounted, at time [0]. *)
Definition mounted : World MCP.State := mkWorld (MCP.initialState 0) 0.

Definition zombiecoderLocal : MCP.MCPProvider :=
  MCP.mkProvider "zombiecoder-local" "ZombieCoder Local" MCP.local
    "http://localhost:8080/mcp" MCP.disconnected
    ["code-analysis"; "bengali-processing"; "voice-commands"; "file-indexing"]
    0 0 "1.0.0" 1 1.

Definition ollamaLocal : MCP.MCPProvider :=
  MCP.mkProvider "ollama-local" "Ollama Local" MCP.local
    "http://localhost:11434/api" MCP.disconnected
    ["text-generation"; "code-completion"; "translation"]
    0 0 "0.1.0" 2 2.

(** ZombieCoder answers in 20 ms, Ollama in 5 ms, nothing else answers;
    the cloud draw fails. *)
Definition bothUp : MCP.ProbeEnv :=
  MCP.mkProbeEnv
    (fun url =>
       if url =? "http://localhost:8080/mcp/health" then Responds 20 true
       else if url =? "http://localhost:11434/api/health" then Responds 5 true
       else Hangs)
    0.1%float.

(** Only Ollama answers. *)
Definition onlyOllamaUp : MCP.ProbeEnv :=
  MCP.mkProbeEnv
    (fun url =>
       if url =? "http://localhost:11434/api/health" then Responds 5 true
       else Hangs)
    0.1%float.

(** Nothing answers: every request hangs. *)
Definition allHang : MCP.ProbeEnv := MCP.mkProbeEnv (fun _ => Hangs) 0.1%float.

(** Every connection is refused after 3 ms. *)
Definition allRefuse : MCP.ProbeEnv := MCP.mkProbeEnv (fun _ => Fails 3) 0.1%float.

(** The component after its first scan with both local daemons up. *)
Definition afterFirstScan : World MCP.State :=
  finalWorld (MCP.scanProviders MCPFacts.quietProps (fun _ => bothUp) mounted).

(** ** ModelDetector *)

(** Two models that differ in Bengali support and score: the one that
    supports Bengali has the lower [bengaliScore]. *)
Definition supporting : Detector.AIModel :=
  Detector.mkModel "bengali-small" "Bengali Small" Detector.ollama "1.0" "1B"
    Detector.offline (Detector.mkCapabilities true true true true false false true)
    (Detector.noPerformance 0) "http://localhost:11434/api" false 10 0.

Definition nonSupporting : Detector.AIModel :=
  Detector.mkModel "general-large" "General Large" Detector.lmstudio "1.0" "70B"
    Detector.offline (Detector.mkCapabilities true true true false false false true)
    (Detector.noPerformance 0) "http://localhost:1234/v1" false 30 0.

(** A detector holding these two, with the Bengali filter switched on. *)
Definition filtering : World Detector.State :=
  mkWorld (Detector.mkState [supporting; nonSupporting] None false true false true) 0.

(** Every endpoint answers ok in 50 ms; fixed random draws. *)
Definition allUp : Detector.TestEnv :=
  Detector.mkTestEnv (fun _ => Responds 50 true) 0.9%float 0.5%float 0.5%float
                     0.5%float 0.5%float.

(** The same network a little later, with other draws for memory and CPU. *)
Definition allUpAgain : Detector.TestEnv :=
  Detector.mkTestEnv (fun _ => Responds 50 true) 0.7%float 0.5%float 0.5%float
                     0.25%float 0.75%float.

Definition noneUp : Detector.TestEnv :=
  Detector.mkTestEnv (fun _ => Hangs) 0.1%float 0.5%float 0.5%float
                     0.5%float 0.5%float.

(** The detector with its built-in registry loaded. *)
Definition loaded : World Detector.State :=
  finalWorld (Detector.initializeModels (mkWorld Detector.initialState 0)).

(** The detector of [filtering], at time [t], after testing [supporting]
    against [env]; and the record the test leaves for it. *)
Definition filteringAt (t : Z) : World Detector.State :=
  mkWorld (state filtering) t.

Definition testedAt (env : Detector.TestEnv) (t : Z) : World Detector.State :=
  finalWorld (Detector.testModel DetectorFacts.quietProps supporting env (filteringAt t)).

Definition recordOf (w : World Detector.State) : Detector.AIModel :=
  hd supporting (Detector.models (state w)).


End Scenarios.

(* ================================================================== *)
(** * Properties of the selection and failover logic *)
(* ================================================================== *)

Module Properties.
Import Async.

(** ** Disconnecting *)

(** C10.  [disconnectProvider(providerId)] rewrites the records carrying
    [providerId] to status [disconnected] and touches no other record and no
    other field; the active selection is cleared exactly when it is the
    provider being disconnected, and is left as it was otherwise.  This
    holds however the callbacks behave. *)
Theorem disconnectProvider_frame (props : MCP.MCPManagerProps) (providerId : string)
    (w : World MCP.State) :
  let s := state w in
  let s' := state (finalWorld (MCP.disconnectProvider props providerId w)) in
  List.length (MCP.providers s') = List.length (MCP.providers s) /\
  (forall k p, nth_error (MCP.providers s) k = Some p ->
     MCP.id p = providerId ->
     nth_error (MCP.providers s') k = Some (MCP.withStatus p MCP.disconnected)) /\
  (forall k p, nth_error (MCP.providers s) k = Some p ->
     MCP.id p <> providerId ->
     nth_error (MCP.providers s') k = Some p) /\
  (forall a, MCP.activeProvider s = Some a -> MCP.id a = providerId ->
     MCP.activeProvider s' = None) /\
  (forall a, MCP.activeProvider s = Some a -> MCP.id a <> providerId ->
     MCP.activeProvider s' = Some a) /\
  (MCP.activeProvider s = None -> MCP.activeProvider s' = None) /\
  MCP.isScanning s' = MCP.isScanning s /\
  MCP.autoFallback s' = MCP.autoFallback s /\
  MCP.connectionTimeout s' = MCP.connectionTimeout s /\
  MCP.retryAttempts s' = MCP.retryAttempts s.
Proof.
  cbv zeta. rewrite MCPFacts.disconnectProvider_final.
  unfold MCPFacts.disconnected. simpl.
  repeat split.
  - now rewrite length_map.
  - intros k p Hk Hid. rewrite nth_error_map, Hk. simpl.
    rewrite Hid, String.eqb_refl. reflexivity.
  - intros k p Hk Hid. rewrite nth_error_map, Hk. simpl.
    destruct (String.eqb_spec (MCP.id p) providerId); congruence.
  - intros a Ha Hid. rewrite Ha, Hid, String.eqb_refl. reflexivity.
  - intros a Ha Hid. rewrite Ha.
    destruct (String.eqb_spec (MCP.id a) providerId); congruence.
  - intros Ha. now rewrite Ha.
Qed.

(** ** Probes never throw *)

(** C6.  Whatever raises inside a probe (the awaited [fetch] rejecting on a
    network failure or on the abort timer, or the status callback throwing),
    [testConnection] and [testModel] still resolve to a boolean: the error
    is turned into the value [false] and into status [error] on the records
    of the probed endpoint, and is never passed on to the caller. *)
Theorem probe_errors_become_data :
  (forall props timeout provider env (w : World MCP.State),
     exists b w',
       MCP.testConnection props timeout provider env w = Normal b w' /\
       (MCPFacts.raises props timeout provider env = true ->
        b = false /\
        forall q, In q (MCP.providers (state w')) ->
                  MCP.id q = MCP.id provider -> MCP.status q = MCP.error)) /\
  (forall props model env (w : World Detector.State),
     exists b w',
       Detector.testModel props model env w = Normal b w' /\
       (DetectorFacts.raises props model env = true ->
        b = false /\
        forall q, In q (Detector.models (state w')) ->
                  Detector.id q = Detector.id model ->
                  Detector.status q = Detector.error)).
Proof.
  split.
  - intros props timeout provider env w.
    rewrite MCPFacts.testConnection_run. do 2 eexists. split; [reflexivity|].
    intros Hr. apply MCPFacts.raises_unreachable in Hr. split; [assumption|].
    simpl. intros q Hq Hid. apply in_map_iff in Hq. destruct Hq as [q0 [<- Hq0]].
    rewrite MCPFacts.settle_id in Hid.
    rewrite MCPFacts.settle_status by assumption. now rewrite Hr.
  - intros props model env w.
    rewrite DetectorFacts.testModel_run. do 2 eexists. split; [reflexivity|].
    intros Hr. apply DetectorFacts.raises_unavailable in Hr. split; [assumption|].
    simpl. intros q Hq Hid. apply in_map_iff in Hq. destruct Hq as [q0 [<- Hq0]].
    rewrite DetectorFacts.settle_model_id in Hid.
    rewrite DetectorFacts.settle_model_status by assumption. now rewrite Hr.
Qed.

(** ** Priority decides among providers *)

(** C3.  In [scanProviders], of two reachable providers the one with the
    strictly lower priority number wins, whatever else their records hold
    (latency, capabilities, type): the provider selected never has a
    priority number above [a]'s, so it is never [b], and it is [a] itself
    when [a] and [b] are the only reachable ones. *)
Theorem priority_dominates (props : MCP.MCPManagerProps) (envs : nat -> MCP.ProbeEnv)
    (w : World MCP.State) (i j : nat) (a b : MCP.MCPProvider) :
  MCPFacts.quiet props ->
  nth_error (MCP.providers (state w)) i = Some a ->
  nth_error (MCP.providers (state w)) j = Some b ->
  MCPFacts.reachable props (MCP.connectionTimeout (state w)) a (envs i) = true ->
  MCPFacts.reachable props (MCP.connectionTimeout (state w)) b (envs j) = true ->
  MCP.priority a < MCP.priority b ->
  exists best w',
    MCP.scanProviders props envs w = Normal tt w' /\
    MCP.activeProvider (state w') = Some best /\
    MCP.priority best <= MCP.priority a /\
    best <> b /\
    ((forall k c, nth_error (MCP.providers (state w)) k = Some c ->
        MCPFacts.reachable props (MCP.connectionTimeout (state w)) c (envs k) = true ->
        c = a \/ c = b) ->
     best = a).
Proof.
  intros Hq Ha Hb Hra Hrb Hlt.
  destruct (MCPFacts.scanned_best props envs w) as [best [Hact [[k [Hk Hr]] Hleast]]].
  { exists i, a. now split. }
  exists best, (MCPFacts.scanned props envs w).
  split; [now apply MCPFacts.scanProviders_quiet|].
  split; [exact Hact|].
  pose proof (Hleast i a Ha Hra) as Hle.
  split; [exact Hle|]. split.
  - intros ->. lia.
  - intros Honly. destruct (Honly k best Hk Hr) as [->| ->]; [reflexivity|lia].
Qed.

(** ** The built-in model registry and the Bengali filter *)

(** In the built-in registry every model that supports Bengali has a
    higher [bengaliScore] than every model that does not; probes and
    benchmarks change neither field. *)
Lemma builtin_supporting_outrank (ms : list Detector.AIModel) (c c' : Detector.AIModel) :
  map (fun m => (Detector.bengaliSupport (Detector.capabilities m), Detector.bengaliScore m)) ms =
  map (fun m => (Detector.bengaliSupport (Detector.capabilities m), Detector.bengaliScore m))
      (Detector.initialModels 0) ->
  In c ms -> In c' ms ->
  Detector.bengaliSupport (Detector.capabilities c) = true ->
  Detector.bengaliSupport (Detector.capabilities c') = false ->
  Detector.bengaliScore c' < Detector.bengaliScore c.
Proof.
  intros Hms Hc Hc' Hs Hs'.
  apply (in_map (fun m => (Detector.bengaliSupport (Detector.capabilities m),
                           Detector.bengaliScore m))) in Hc, Hc'.
  rewrite Hms in Hc, Hc'. simpl in Hc, Hc'. rewrite Hs in Hc. rewrite Hs' in Hc'.
  repeat (destruct Hc as [Hc|Hc]; [inversion Hc; clear Hc|]); try contradiction;
    repeat (destruct Hc' as [Hc'|Hc']; [inversion Hc'; clear Hc'|]); try contradiction;
    lia.
Qed.

(** So with the built-in registry and the filter on, a scan that reaches a
    model supporting Bengali selects one that supports Bengali. *)
Lemma builtin_filter_respected props envs (w : World Detector.State) :
  map (fun m => (Detector.bengaliSupport (Detector.capabilities m), Detector.bengaliScore m))
      (Detector.models (state w)) =
  map (fun m => (Detector.bengaliSupport (Detector.capabilities m), Detector.bengaliScore m))
      (Detector.initialModels 0) ->
  Detector.filterBengali (state w) = true ->
  (exists k c, nth_error (Detector.models (state w)) k = Some c /\
               DetectorFacts.reachable props c (envs k) = true /\
               Detector.bengaliSupport (Detector.capabilities c) = true) ->
  exists best,
    Detector.activeModel (state (DetectorFacts.scanned props envs w)) = Some best /\
    Detector.bengaliSupport (Detector.capabilities best) = true.
Proof.
  intros Hms Hfb [k [c [Hk [Hr Hs]]]].
  destruct (DetectorFacts.scanned_best_model props envs w)
    as [best [Hact [[kb [Hkb Hrb]] Hmax]]]; [exists k, c; now split|].
  exists best. split; [exact Hact|].
  destruct (Detector.bengaliSupport (Detector.capabilities best)) eqn:Hbest;
    [reflexivity|exfalso].
  pose proof (builtin_supporting_outrank _ c best Hms
                (nth_error_In _ _ Hk) (nth_error_In _ _ Hkb) Hs Hbest) as Hlt.
  pose proof (Hmax k c Hk Hr) as Hle. rewrite Hfb in Hle.
  unfold DetectorFacts.rankingScore in Hle. lia.
Qed.

(** ** Worked instances *)

(** ZombieCoder (priority 1) answers in 20 ms, Ollama (priority 2) in 5 ms:
    the scan selects ZombieCoder. *)
Lemma priority_dominates_witness :
  exists best w',
    MCP.scanProviders MCPFacts.quietProps (fun _ => Scenarios.bothUp) Scenarios.mounted
      = Normal tt w' /\
    MCP.activeProvider (state w') = Some best /\
    MCP.priority best <= MCP.priority Scenarios.zombiecoderLocal /\
    best <> Scenarios.ollamaLocal /\
    ((forall k c, nth_error (MCP.providers (state Scenarios.mounted)) k = Some c ->
        MCPFacts.reachable MCPFacts.quietProps
          (MCP.connectionTimeout (state Scenarios.mounted)) c Scenarios.bothUp = true ->
        c = Scenarios.zombiecoderLocal \/ c = Scenarios.ollamaLocal) ->
     best = Scenarios.zombiecoderLocal).
Proof.
  apply (priority_dominates MCPFacts.quietProps (fun _ => Scenarios.bothUp)
           Scenarios.mounted 0 1 Scenarios.zombiecoderLocal Scenarios.ollamaLocal).
  - split; reflexivity.
  - reflexivity.
  - reflexivity.
  - vm_compute; reflexivity.
  - vm_compute; reflexivity.
  - simpl; lia.
Defined.

(** A request that hangs is aborted by the timer; the probe resolves to
    [false] and the record says [error]. *)
Lemma probe_errors_become_data_witness :
  (exists b w',
     MCP.testConnection MCPFacts.quietProps 5000 Scenarios.zombiecoderLocal
                        Scenarios.allHang Scenarios.mounted = Normal b w' /\
     b = false /\
     forall q, In q (MCP.providers (state w')) ->
               MCP.id q = MCP.id Scenarios.zombiecoderLocal -> MCP.status q = MCP.error) /\
  (exists b w',
     Detector.testModel DetectorFacts.quietProps Scenarios.supporting
                        Scenarios.noneUp Scenarios.filtering = Normal b w' /\
     b = false /\
     forall q, In q (Detector.models (state w')) ->
               Detector.id q = Detector.id Scenarios.supporting ->
               Detector.status q = Detector.error).
Proof.
  split.
  - destruct (proj1 probe_errors_become_data MCPFacts.quietProps 5000
                    Scenarios.zombiecoderLocal Scenarios.allHang Scenarios.mounted)
      as [b [w' [Hrun Hraise]]].
    exists b, w'. split; [exact Hrun|]. apply Hraise. vm_compute; reflexivity.
  - destruct (proj2 probe_errors_become_data DetectorFacts.quietProps
                    Scenarios.supporting Scenarios.noneUp Scenarios.filtering)
      as [b [w' [Hrun Hraise]]].
    exists b, w'. split; [exact Hrun|]. apply Hraise. vm_compute; reflexivity.
Defined.


(** ** Scoring is a function of the sample *)

(** C4.  Take two runs of the scorer on the same model, each through
    [testModel] or [benchmarkModel], from any component states, at any
    times, with any callbacks and any values drawn by [Math.random].  If
    the samples they store agree on speed, accuracy and latency, so do the
    scores they store: the score depends on nothing else that varies
    between runs. *)
Theorem scoring_deterministic
    (props1 props2 : Detector.ModelDetectorProps) (model : Detector.AIModel)
    (call1 call2 : DetectorFacts.ScorerCall)
    (w1 w1' w2 w2' : World Detector.State) (q1 q2 : Detector.AIModel) :
  DetectorFacts.scored props1 model call1 w1 w1' ->
  DetectorFacts.scored props2 model call2 w2 w2' ->
  In q1 (Detector.models (state w1')) -> Detector.id q1 = Detector.id model ->
  In q2 (Detector.models (state w2')) -> Detector.id q2 = Detector.id model ->
  Detector.speed (Detector.performance q1) = Detector.speed (Detector.performance q2) ->
  Detector.accuracy (Detector.performance q1) = Detector.accuracy (Detector.performance q2) ->
  Detector.latency (Detector.performance q1) = Detector.latency (Detector.performance q2) ->
  Detector.overallScore q1 = Detector.overallScore q2.
Proof.
  intros H1 H2 Hq1 Hid1 Hq2 Hid2 Hs Ha Hl.
  rewrite (DetectorFacts.scored_record _ _ _ _ _ _ H1 Hq1 Hid1).
  rewrite (DetectorFacts.scored_record _ _ _ _ _ _ H2 Hq2 Hid2).
  now apply DetectorFacts.overallScoreOf_ext.
Qed.

(** Two tests of the same model at different times, with different draws
    for memory and CPU, and the same speed, accuracy and latency: the same
    score. *)
Lemma scoring_deterministic_witness :
  Detector.overallScore (Scenarios.recordOf (Scenarios.testedAt Scenarios.allUp 0)) =
  Detector.overallScore (Scenarios.recordOf (Scenarios.testedAt Scenarios.allUpAgain 777)).
Proof.
  apply (scoring_deterministic DetectorFacts.quietProps DetectorFacts.quietProps
           Scenarios.supporting
           (DetectorFacts.ByTest Scenarios.allUp) (DetectorFacts.ByTest Scenarios.allUpAgain)
           (Scenarios.filteringAt 0) (Scenarios.testedAt Scenarios.allUp 0)
           (Scenarios.filteringAt 777) (Scenarios.testedAt Scenarios.allUpAgain 777)).
  - vm_compute; reflexivity.
  - vm_compute; reflexivity.
  - left; reflexivity.
  - reflexivity.
  - left; reflexivity.
  - reflexivity.
  - vm_compute; reflexivity.
  - vm_compute; reflexivity.
  - vm_compute; reflexivity.
Defined.


(** ** The scanner *)

(** C5, as the claim has it, fails on the marking: a probe still pending
    when its timer fires is not marked timed-out.  The scanner's results and
    the statuses it leaves are the same when every request hangs until the
    timer as when every connection is refused at once: [false] and
    [error]. *)
Lemma timed_out_probe_recorded_as_error :
  exists results w1 w2,
    MCP.probeAll MCPFacts.quietProps 5000 (MCP.providers (state Scenarios.mounted))
                 (fun _ => Scenarios.allHang) Scenarios.mounted = Normal results w1 /\
    MCP.probeAll MCPFacts.quietProps 5000 (MCP.providers (state Scenarios.mounted))
                 (fun _ => Scenarios.allRefuse) Scenarios.mounted = Normal results w2 /\
    results = [JS.fulfilled false; JS.fulfilled false; JS.fulfilled false; JS.fulfilled false] /\
    map MCP.status (MCP.providers (state w1)) = [MCP.error; MCP.error; MCP.error; MCP.error] /\
    map MCP.status (MCP.providers (state w2)) = map MCP.status (MCP.providers (state w1)).
Proof.
  do 3 eexists. split; [vm_compute; reflexivity|].
  split; [vm_compute; reflexivity|]. repeat split.
Qed.

(** C5, amended.  The scanner ([Promise.allSettled] over one probe per
    registered endpoint) never throws and returns exactly one settled
    result per endpoint, in registry order, failures included as
    [fulfilled false].  There is no global deadline: each probe is bounded
    on its own (the connection timeout for local providers, one second for
    cloud ones, five seconds in the model detector), and since the probes
    run side by side the scan ends within the largest of these bounds
    however many endpoints hang.  A probe that is still pending when its
    timer fires is recorded as a plain failure: result [false], status
    [error]. *)
Theorem scanner_complete_and_bounded :
  (forall props timeout ps envs (w : World MCP.State),
     exists results w',
       MCP.probeAll props timeout ps envs w = Normal results w' /\
       List.length results = List.length ps /\
       (forall k p, nth_error ps k = Some p ->
          nth_error results k =
          Some (JS.fulfilled (MCPFacts.reachable props timeout p (envs k)))) /\
       now w <= now w' <= now w + Z.max timeout 1000 /\
       (forall k p, nth_error ps k = Some p ->
          MCP.type p = MCP.local ->
          MCP.network (envs k) (MCP.endpoint p ++ "/health")%string = Hangs ->
          nth_error results k = Some (JS.fulfilled false) /\
          (NoDup (map MCP.id ps) ->
           forall q, In q (MCP.providers (state w')) -> MCP.id q = MCP.id p ->
                     MCP.status q = MCP.error))) /\
  (forall props ms envs (w : World Detector.State),
     exists results w',
       Detector.probeAll props ms envs w = Normal results w' /\
       List.length results = List.length ms /\
       (forall k m, nth_error ms k = Some m ->
          nth_error results k =
          Some (JS.fulfilled (DetectorFacts.reachable props m (envs k)))) /\
       now w <= now w' <= now w + 5000).
Proof.
  split.
  - intros props timeout ps envs w. rewrite MCPFacts.probeAll_run.
    do 2 eexists. split; [reflexivity|].
    assert (Hnth : forall k p, nth_error ps k = Some p ->
              nth_error (MCPFacts.scanResults props timeout envs ps) k =
              Some (JS.fulfilled (MCPFacts.reachable props timeout p (envs k)))).
    { intros k p Hk. unfold MCPFacts.scanResults, JS.mapi.
      rewrite JSFacts.mapi_from_nth, Hk. reflexivity. }
    split; [apply JSFacts.mapi_from_length|]. split; [exact Hnth|].
    split; [simpl; apply MCPFacts.finishBy_bounds; lia|].
    intros k p Hk Hty Hhang.
    assert (Hr : MCPFacts.reachable props timeout p (envs k) = false).
    { apply MCPFacts.raises_unreachable. unfold MCPFacts.raises.
      destruct (MCP.onStatusUpdate props _); [|reflexivity].
      rewrite Hty, Hhang. reflexivity. }
    split; [rewrite (Hnth k p Hk), Hr; reflexivity|].
    intros Hnd q Hq Hid. simpl in Hq.
    apply in_map_iff in Hq. destruct Hq as [q0 [<- _]].
    rewrite MCPFacts.settleBy_id in Hid.
    rewrite (MCPFacts.settleBy_status props timeout envs (now w) ps 0 k p q0 Hnd Hk Hid).
    simpl. now rewrite Hr.
  - intros props ms envs w. rewrite DetectorFacts.testAll_run.
    do 2 eexists. split; [reflexivity|].
    split; [apply JSFacts.mapi_from_length|]. split.
    + intros k m Hk. unfold DetectorFacts.scanResults, JS.mapi.
      rewrite JSFacts.mapi_from_nth, Hk. reflexivity.
    + simpl. apply DetectorFacts.testFinish_bounds. lia.
Qed.

(** Endpoints that hang hold the scan until their own timers fire: with
    the connection timeout at five seconds and only Ollama answering, the
    scan of the built-in registry returns four results after five
    seconds. *)
Lemma scanner_complete_and_bounded_witness :
  exists results w',
    MCP.probeAll MCPFacts.quietProps 5000 (MCP.providers (state Scenarios.mounted))
                 (fun _ => Scenarios.onlyOllamaUp) Scenarios.mounted = Normal results w' /\
    List.length results = 4%nat /\
    now w' = 5000.
Proof.
  destruct (proj1 scanner_complete_and_bounded MCPFacts.quietProps 5000
                  (MCP.providers (state Scenarios.mounted))
                  (fun _ => Scenarios.onlyOllamaUp) Scenarios.mounted)
    as [results [w' [Hrun [Hlen _]]]].
  exists results, w'. split; [exact Hrun|]. split; [exact Hlen|].
  vm_compute in Hrun. inversion Hrun. reflexivity.
Defined.


(** After the first scan, disconnecting Ollama leaves ZombieCoder selected;
    disconnecting ZombieCoder clears the selection. *)
Lemma disconnectProvider_frame_witness :
  MCP.activeProvider
    (state (finalWorld (MCP.disconnectProvider MCPFacts.quietProps "ollama-local"
                          Scenarios.afterFirstScan))) =
  Some (MCP.withStatus Scenarios.zombiecoderLocal MCP.disconnected) /\
  MCP.activeProvider
    (state (finalWorld (MCP.disconnectProvider MCPFacts.quietProps "zombiecoder-local"
                          Scenarios.afterFirstScan))) = None.
Proof.
  split.
  - apply (proj1 (proj2 (proj2 (proj2 (proj2
             (disconnectProvider_frame MCPFacts.quietProps "ollama-local"
                                       Scenarios.afterFirstScan)))))).
    + vm_compute; reflexivity.
    + vm_compute; discriminate.
  - apply (proj1 (proj2 (proj2 (proj2
             (disconnectProvider_frame MCPFacts.quietProps "zombiecoder-local"
                                       Scenarios.afterFirstScan)))))
      with (a := MCP.withStatus Scenarios.zombiecoderLocal MCP.disconnected).
    + vm_compute; reflexivity.
    + reflexivity.
Defined.

(** ** Sample values *)

(** The score of the sample drawn in [Scenarios.allUp] for the built-in
    ZombieCoder model: speed 35, accuracy 90, latency 50 ms, Bengali score
    95 give 14.58 + 31.5 + 19 + 19, rounded to 84. *)
Example overallScoreOf_sample :
  DetectorFacts.overallScoreOf (DetectorFacts.testSample Scenarios.allUp 50 50) 95 = 84.
Proof. vm_compute. reflexivity. Qed.

(** The values drawn by [Math.random] enter the score through the sample:
    another draw for the speed gives another sample and another score. *)
Example other_draw_other_sample :
  let env' := Detector.mkTestEnv (fun _ => Responds 50 true)
                0.9%float 0.99%float 0.5%float 0.5%float 0.5%float in
  Detector.speed (DetectorFacts.testSample env' 50 50) = 59 /\
  DetectorFacts.overallScoreOf (DetectorFacts.testSample env' 50 50) 95 = 94.
Proof. vm_compute. split; reflexivity. Qed.


End Properties.

(* ================================================================== *)
(** * Which element a stable sort puts first *)
(* ================================================================== *)

Module Stable.
Import JS.

Section FirstLeast.
Context {A : Type}.
Variable compareFn : A -> A -> Z.
Variable key : A -> Z.
Hypothesis compareFn_key : forall a b, compareFn a b <= 0 <-> key a <= key b.

(** [b] is the first element of [l] with the least key: everything before
    it has a strictly greater key, nothing after it has a smaller one. *)
Definition firstLeast (b : A) (l : list A) : Prop :=
  exists l1 l2, l = l1 ++ b :: l2 /\
                (forall y, In y l1 -> key b < key y) /\
                (forall y, In y l2 -> key b <= key y).

Lemma sort_head_firstLeast (l : list A) (b : A) :
  hd_error (sort compareFn l) = Some b -> firstLeast b l.
Proof.
  revert b. induction l as [|x l IH]; intros b Hb; [discriminate|].
  simpl in Hb. rewrite (JSFacts.insert_head compareFn key compareFn_key) in Hb.
  destruct (hd_error (sort compareFn l)) as [y|] eqn:Hy.
  - destruct (key x <=? key y) eqn:E; inversion Hb; subst; clear Hb.
    + exists [], l. split; [reflexivity|]. split; [intros ? []|].
      intros z Hz.
      destruct (JSFacts.sort_head_least compareFn key compareFn_key l y Hy) as [_ Hle].
      specialize (Hle z Hz). lia.
    + destruct (IH b eq_refl) as [l1 [l2 [-> [H1 H2]]]].
      exists (x :: l1), l2. split; [reflexivity|]. split; [|exact H2].
      intros z [<-|Hz]; [lia|auto].
  - inversion Hb; subst. exists [], l. split; [reflexivity|]. split; [intros ? []|].
    destruct (sort compareFn l) eqn:Hs; [|discriminate].
    assert (Hl : List.length l = 0%nat)
      by (rewrite <- (JSFacts.sort_length compareFn), Hs; reflexivity).
    destruct l; [intros ? []|discriminate].
Qed.

End FirstLeast.

(** A split of an indexed filter's output at [b] points at an index of the
    input: [b] sits there, passes the test, and everything that passes the
    test before it is in the left part. *)
Lemma filteri_from_split {A : Type} (f : A -> nat -> bool) (l : list A) :
  forall (i : nat) (l1 l2 : list A) (b : A),
    filteri_from i f l = l1 ++ b :: l2 ->
    exists k, nth_error l k = Some b /\ f b (i + k)%nat = true /\
              (forall j c, (j < k)%nat -> nth_error l j = Some c ->
                           f c (i + j)%nat = true -> In c l1) /\
              (forall j c, (k < j)%nat -> nth_error l j = Some c ->
                           f c (i + j)%nat = true -> In c l2).
Proof.
  induction l as [|x l IH]; intros i l1 l2 b H; simpl in H.
  - destruct l1; discriminate.
  - destruct (f x i) eqn:Efx.
    + destruct l1 as [|x1 l1]; simpl in H; inversion H; subst; clear H.
      * exists 0%nat. rewrite Nat.add_0_r. repeat split; try assumption.
        -- intros j c Hj. lia.
        -- intros j c Hj Hn Hf. destruct j as [|j]; [lia|]. simpl in Hn.
           apply (JSFacts.filteri_from_In f l (S i) c). exists j.
           rewrite Nat.add_succ_r in Hf. now split.
      * match goal with H' : filteri_from _ _ _ = _ |- _ =>
          destruct (IH _ _ _ _ H') as [k [Hk [Hf [Hbefore Hafter]]]] end.
        exists (S k). rewrite Nat.add_succ_r. repeat split; try assumption.
        -- intros j c Hj Hn Hfc. destruct j as [|j].
           ++ simpl in Hn. inversion Hn; subst. now left.
           ++ right. apply (Hbefore j c); [lia|assumption|].
              now rewrite Nat.add_succ_r in Hfc.
        -- intros j c Hj Hn Hfc. destruct j as [|j]; [lia|].
           apply (Hafter j c); [lia|assumption|].
           now rewrite Nat.add_succ_r in Hfc.
    + destruct (IH _ _ _ _ H) as [k [Hk [Hf [Hbefore Hafter]]]].
      exists (S k). rewrite Nat.add_succ_r. repeat split; try assumption.
      * intros j c Hj Hn Hfc. destruct j as [|j].
        -- simpl in Hn. inversion Hn; subst. rewrite Nat.add_0_r in Hfc. congruence.
        -- apply (Hbefore j c); [lia|assumption|].
           now rewrite Nat.add_succ_r in Hfc.
      * intros j c Hj Hn Hfc. destruct j as [|j]; [lia|].
        apply (Hafter j c); [lia|assumption|].
        now rewrite Nat.add_succ_r in Hfc.
Qed.

(** [filter] is the indexed filter with a test that ignores the index. *)
Lemma filter_as_filteri {A : Type} (f : A -> bool) (l : list A) : forall i,
  filter f l = filteri_from i (fun x _ => f x) l.
Proof.
  induction l as [|x l IH]; intros i; simpl; [reflexivity|].
  rewrite (IH (S i)). reflexivity.
Qed.

End Stable.

(* ================================================================== *)
(** * MCPManager: further behaviour *)
(* ================================================================== *)

Module MCPBehaviour.
Import Async MCP MCPFacts.

(** ** What a scan leaves when it throws *)

(** A scan ends in [scanned] when it returns.  When a callback throws, it
    ends either before anything but [isScanning] was touched, or with the
    probes settled and the selection written; [setIsScanning(false)] is not
    reached. *)
Lemma scanProviders_outcome props envs (w : World State) :
  match scanProviders props envs w with
  | Normal _ w' => w' = scanned props envs w
  | Thrown w' =>
      state w' = withIsScanning (state w) true \/
      state w' = withIsScanning (state (scanned props envs w)) true
  end.
Proof.
  unfold scanProviders, scanned.
  unfold bind at 1 2 3 4 5. unfold gets, setIsScanning, setProviders, modify, call.
  destruct (onStatusUpdate props _); [|left; reflexivity].
  unfold ret at 1. simpl.
  unfold bind. rewrite probeAll_run. simpl.
  unfold selectProvider.
  destruct (connectedProviders _ _) as [|b l]; simpl;
    unfold bind, setActiveProvider, modify, call, ret, throw; simpl.
  - destruct (onProviderChange props None); simpl;
      [destruct (onStatusUpdate props _); simpl|]; try reflexivity; right; reflexivity.
  - destruct (onProviderChange props (Some b)); simpl;
      [destruct (onStatusUpdate props _); simpl|]; try reflexivity; right; reflexivity.
Qed.

(** Once the first status update has returned, the probes run and the
    selection is written, whatever the later callbacks do. *)
Lemma scanProviders_started props envs (w : World State) :
  onStatusUpdate props "🔍 Scanning for MCP providers..."%string = Returns ->
  exists v, state (finalWorld (scanProviders props envs w)) =
            withIsScanning (state (scanned props envs w)) v.
Proof.
  intros Hs. unfold scanProviders, scanned.
  unfold bind at 1 2 3 4 5. unfold gets, setIsScanning, setProviders, modify, call.
  rewrite Hs. clear Hs. unfold ret at 1. simpl.
  unfold bind. rewrite probeAll_run. simpl.
  unfold selectProvider.
  destruct (connectedProviders _ _) as [|b l]; simpl;
    unfold bind, setActiveProvider, modify, call, ret, throw; simpl.
  - destruct (onProviderChange props None); simpl;
      [destruct (onStatusUpdate props _); simpl|]; eexists; reflexivity.
  - destruct (onProviderChange props (Some b)); simpl;
      [destruct (onStatusUpdate props _); simpl|]; eexists; reflexivity.
Qed.

(** ** The fields no operation writes *)

(** The part of a provider record that identifies and describes it. *)
Definition descriptor (p : MCPProvider)
  : string * string * ProviderType * string * list string * string * Z * Z :=
  (id p, name p, type p, endpoint p, capabilities p, version p, priority p,
   fallbackOrder p).

Lemma settle_descriptor props timeout p env t0 q :
  descriptor (settle props timeout p env t0 q) = descriptor q.
Proof.
  unfold settle. destruct (id q =? id p)%string; [|reflexivity].
  destruct (reachable props timeout p env); reflexivity.
Qed.

Lemma settleBy_descriptor props timeout envs t0 ps : forall i q,
  descriptor (settleBy props timeout envs t0 i ps q) = descriptor q.
Proof.
  induction ps as [|p ps IH]; intros i q; simpl; [reflexivity|].
  now rewrite IH, settle_descriptor.
Qed.

Lemma perform_descriptors props (a : Action) (w : World State) :
  map descriptor (providers (state (perform props a w))) =
  map descriptor (providers (state w)).
Proof.
  destruct a as [envs|provider env|providerId|env]; simpl.
  - destruct (scanProviders_final props envs w) as [H|[v H]]; rewrite H; simpl;
      [reflexivity|].
    rewrite !map_map. apply map_ext. intros p. now rewrite settleBy_descriptor.
  - destruct (connectToProvider_final props provider env w) as [v [H _]].
    rewrite H. simpl. unfold connectedRecords. rewrite !map_map. apply map_ext.
    intros p. rewrite settle_descriptor. now destruct (id p =? id provider)%string.
  - rewrite disconnectProvider_final. simpl. rewrite map_map. apply map_ext.
    intros p. now destruct (id p =? providerId)%string.
  - rewrite healthCheck_run. simpl.
    destruct (activeProvider (state w)) as [active|]; simpl; [|reflexivity].
    rewrite map_map. apply map_ext. intros p. apply settle_descriptor.
Qed.

(** The selection names a registered provider. *)
Definition selectionRegistered (s : State) : Prop :=
  forall a, activeProvider s = Some a ->
            In (descriptor a) (map descriptor (providers s)).

Lemma perform_registered props (a : Action) (w : World State) :
  selectionRegistered (state w) ->
  offered a (state w) ->
  selectionRegistered (state (perform props a w)).
Proof.
  intros Hreg Hoff b Hb. rewrite perform_descriptors.
  destruct a as [envs|provider env|providerId|env]; simpl in *.
  - destruct (scanProviders_final props envs w) as [H|[v H]]; rewrite H in Hb;
      simpl in Hb; [now apply Hreg|].
    apply in_map.
    assert (Hin : In b (connectedProviders (providers (state w))
              (scanResults props (connectionTimeout (state w)) envs
                           (providers (state w)))))
      by (destruct (connectedProviders _ _); simpl in Hb; inversion Hb; subst; now left).
    apply connectedProviders_In in Hin. destruct Hin as [k [Hk _]].
    eapply nth_error_In; eassumption.
  - destruct Hoff as [Hin _].
    destruct (connectToProvider_final props provider env w) as [v [H Hcases]].
    rewrite H in Hb. simpl in Hb. subst v.
    destruct Hcases as [[_ Hsel]|[[_ Hsel]|[_ [_ [f [Hf Hsel]]]]]].
    + inversion Hsel; subst. now apply in_map.
    + apply Hreg. now symmetry.
    + inversion Hsel; subst. apply fallbackProviders_head in Hf.
      apply in_map. tauto.
  - rewrite disconnectProvider_final in Hb. simpl in Hb.
    destruct (activeProvider (state w)) as [a0|] eqn:Ha; [|discriminate].
    destruct (id a0 =? providerId)%string; [discriminate|].
    inversion Hb; subst. now apply Hreg.
  - rewrite healthCheck_run in Hb. simpl in Hb.
    destruct (activeProvider (state w)) as [a0|] eqn:Ha.
    + simpl in Hb. apply Hreg. congruence.
    + rewrite Ha in Hb. discriminate.
Qed.

(** ** Probing one provider *)

Lemma reachable_local props timeout provider env :
  type provider = local ->
  reachable props timeout provider env = true ->
  exists d, network env (endpoint provider ++ "/health")%string = Responds d true /\
            Z.of_N d < Z.max 0 timeout /\
            elapsed props timeout provider env = Z.of_N d.
Proof.
  unfold reachable, elapsed, blank, valueOf, finalWorld. unfold_async. simpl.
  intros Hty. rewrite Hty.
  destruct (onStatusUpdate props _); simpl; [|discriminate].
  destruct (network env _) as [d ok|d|]; simpl.
  - destruct (Z.of_N d <? Z.max 0 timeout) eqn:E; simpl; [|discriminate].
    destruct ok; simpl; [|discriminate].
    intros _. exists d. repeat split. now apply Z.ltb_lt.
  - destruct (Z.of_N d <? Z.max 0 timeout); discriminate.
  - discriminate.
Qed.

Lemma reachable_cloud props timeout provider env :
  type provider = cloud ->
  reachable props timeout provider env = true ->
  elapsed props timeout provider env = 1000.
Proof.
  unfold reachable, elapsed, blank, valueOf, finalWorld. unfold_async. simpl.
  intros Hty. rewrite Hty.
  destruct (onStatusUpdate props _); simpl; [|discriminate].
  destruct (0.3 <? random env)%float; simpl; [reflexivity|discriminate].
Qed.

Lemma reachable_not_remote props timeout provider env :
  reachable props timeout provider env = true -> type provider <> remote.
Proof.
  unfold reachable, blank, valueOf. unfold_async. simpl. intros H Hty.
  rewrite Hty in H. destruct (onStatusUpdate props _); discriminate.
Qed.

(** X1: what a probe writes.  A probe that succeeds stores, on the records
    of its provider, the time the check took as latency and the instant it
    ended as last ping; the latency is below the connection timeout for a
    local provider and exactly one second for a cloud one, and a provider of
    type [remote] never succeeds.  A probe that fails stores status [error]
    and the last ping but leaves the latency of an earlier success in
    place. *)
Theorem probe_records_latency props timeout provider env (w : World State) :
  let ok := reachable props timeout provider env in
  let d := elapsed props timeout provider env in
  testConnection props timeout provider env w =
    Normal ok (mkWorld (withProviders (state w)
                          (map (settle props timeout provider env (now w))
                               (providers (state w))))
                       (now w + d)) /\
  (forall q, id q = id provider ->
     settle props timeout provider env (now w) q =
     if ok then withConnected q d (now w + d) else withError q (now w + d)) /\
  (forall q, id q = id provider ->
     latency (settle props timeout provider env (now w) q) = if ok then d else latency q) /\
  (ok = true ->
     0 <= d /\ type provider <> remote /\
     (type provider = local -> d < timeout) /\
     (type provider = cloud -> d = 1000)).
Proof.
  cbv zeta. split; [apply testConnection_run|]. split; [|split].
  - intros q Hq. unfold settle. rewrite Hq, String.eqb_refl. reflexivity.
  - intros q Hq. unfold settle. rewrite Hq, String.eqb_refl.
    destruct (reachable props timeout provider env); reflexivity.
  - intros Hok. split; [apply elapsed_bound|].
    split; [now apply reachable_not_remote in Hok|]. split.
    + intros Hty. destruct (reachable_local _ _ _ _ Hty Hok) as [d [_ [Hlt ->]]]. lia.
    + intros Hty. now apply reachable_cloud.
Qed.

(** ** A scan that throws *)

(** X2: a scan that is cut short by a throwing callback leaves [isScanning]
    set, so the scan button, which is disabled while [isScanning] holds,
    stays disabled.  Apart from that flag the state is either untouched
    (the first status update threw) or fully scanned, selection included
    (a later callback threw). *)
Theorem scanProviders_throw_keeps_scanning props envs (w w' : World State) :
  scanProviders props envs w = Thrown w' ->
  isScanning (state w') = true /\
  (state w' = withIsScanning (state w) true \/
   state w' = withIsScanning (state (scanned props envs w)) true).
Proof.
  intros H. pose proof (scanProviders_outcome props envs w) as Ho.
  rewrite H in Ho. split; [|exact Ho].
  destruct Ho as [-> | ->]; reflexivity.
Qed.

(** ** The statuses a scan leaves *)

(** X3: a scan taken on its own, that is when no other handler (another
    scan, a connect, a disconnect, a health check) writes a provider record
    between its start and its end.  Once it has got past its first status
    update, and with unique ids in the registry, such a scan leaves every
    provider [connected] or [error] according to its own probe, keeps each
    record at its place, and leaves none at [connecting] or
    [disconnected], whatever the later callbacks do.  The scans of the
    mounted component that nothing overlaps are such scans ([LoneScan]);
    when scans overlap the records need not end that way. *)
Theorem scan_settles_every_status props envs (w : World State) :
  NoDup (map id (providers (state w))) ->
  onStatusUpdate props "🔍 Scanning for MCP providers..."%string = Returns ->
  let s' := state (finalWorld (scanProviders props envs w)) in
  List.length (providers s') = List.length (providers (state w)) /\
  forall k p, nth_error (providers (state w)) k = Some p ->
    exists q, nth_error (providers s') k = Some q /\
              descriptor q = descriptor p /\
              status q = if reachable props (connectionTimeout (state w)) p (envs k)
                         then connected else error.
Proof.
  intros Hnd Hs. cbv zeta.
  destruct (scanProviders_started props envs w Hs) as [v ->].
  unfold scanned. simpl. split; [now rewrite !length_map|].
  intros k p Hk. eexists. split.
  - rewrite !nth_error_map, Hk. reflexivity.
  - split; [now rewrite settleBy_descriptor|].
    rewrite (settleBy_status _ _ _ _ _ 0%nat k p) by (assumption || reflexivity).
    reflexivity.
Qed.

(** ** The registry is never rewritten *)

(** X4: whatever is done to the component (scans, connects, disconnects,
    health checks, in any number and order, with any callbacks), the
    registry keeps its providers, in order, with their id, name, type,
    endpoint, capabilities, version, priority and fallback order; only
    status, latency and last ping are ever written. *)
Theorem operations_keep_descriptors props (actions : list Action) (w : World State) :
  map descriptor (providers (state (run props actions w))) =
  map descriptor (providers (state w)).
Proof.
  revert w. induction actions as [|a actions IH]; intros w; simpl; [reflexivity|].
  now rewrite IH, perform_descriptors.
Qed.

(** X5: the selection always names a provider of the registry: if it does
    at the start, it does after any run of operations the screen offers. *)
Theorem selection_stays_registered props (actions : list Action) (w : World State) :
  selectionRegistered (state w) ->
  admissible props actions w ->
  selectionRegistered (state (run props actions w)).
Proof.
  revert w. induction actions as [|a actions IH]; intros w Hreg Hadm; simpl in *;
    [exact Hreg|].
  destruct Hadm as [Hoff Hadm]. apply IH; [|exact Hadm].
  now apply perform_registered.
Qed.


(** ** Ties between providers *)

(** X6: among the reachable providers with the least priority number, a
    scan selects the one that comes first in the registry: every reachable
    provider before the selected one has a strictly greater priority
    number, and none has a smaller one. *)
Theorem scan_breaks_ties_by_registry_order props envs (w : World State) :
  onStatusUpdate props "🔍 Scanning for MCP providers..."%string = Returns ->
  someReachable props envs (state w) ->
  exists k best,
    activeProvider (state (finalWorld (scanProviders props envs w))) = Some best /\
    nth_error (providers (state w)) k = Some best /\
    reachable props (connectionTimeout (state w)) best (envs k) = true /\
    forall j c, nth_error (providers (state w)) j = Some c ->
                reachable props (connectionTimeout (state w)) c (envs j) = true ->
                priority best <= priority c /\
                ((j < k)%nat -> priority best < priority c).
Proof.
  intros Hs Hsome.
  destruct (scanProviders_started props envs w Hs) as [v ->].
  destruct (scanned_best props envs w Hsome) as [best [Hact _]].
  unfold scanned in *. simpl in *.
  set (ps := providers (state w)) in *.
  set (timeout := connectionTimeout (state w)) in *.
  set (results := scanResults props timeout envs ps) in *.
  assert (Hkey : forall a b : MCPProvider,
             priority a - priority b <= 0 <-> priority a <= priority b)
    by (intros; lia).
  unfold connectedProviders in Hact.
  destruct (Stable.sort_head_firstLeast _ priority Hkey _ _ Hact)
    as [l1 [l2 [Hsplit [Hbefore Hafter]]]].
  destruct (Stable.filteri_from_split _ _ _ _ _ _ Hsplit)
    as [k [Hk [Hf [Hl1 Hl2]]]].
  simpl in Hf.
  exists k, best. split; [exact Hact|]. split; [exact Hk|].
  assert (Hrk : reachable props timeout best (envs k) = true).
  { apply fulfilledTrue_scanResults in Hf. destruct Hf as [p [Hp Hr]]. congruence. }
  split; [exact Hrk|].
  intros j c Hj Hr.
  assert (Hfc : JS.fulfilledTrue results (0 + j) = true)
    by (apply fulfilledTrue_scanResults; eauto).
  destruct (Nat.lt_trichotomy j k) as [Hlt|[Heq|Hgt]].
  - specialize (Hbefore c (Hl1 j c Hlt Hj Hfc)). split; [lia|intros _; exact Hbefore].
  - subst j. assert (c = best) by congruence. subst c. split; [lia|intros; lia].
  - specialize (Hafter c (Hl2 j c Hgt Hj Hfc)). split; [exact Hafter|intros; lia].
Qed.

(** ** Connecting by hand *)

Lemma connectToProvider_quiet props provider env (w : World State) :
  quiet props ->
  connectToProvider props provider env w =
  Normal tt
    (mkWorld
       (withActiveProvider
          (withProviders (state w) (connectedRecords props provider env w))
          (if reachable props (connectionTimeout (state w)) provider env
           then Some provider
           else if autoFallback (state w)
                then match hd_error (fallbackProviders (providers (state w)) provider) with
                     | Some fallback => Some fallback
                     | None => activeProvider (state w)
                     end
                else activeProvider (state w)))
       (now w + elapsed props (connectionTimeout (state w)) provider env)).
Proof.
  intros [Hc Hs]. unfold connectToProvider, connectedRecords.
  unfold bind at 1 2 3 4. unfold gets, setProviders, modify. simpl.
  unfold bind at 1. rewrite testConnection_run. simpl.
  unfold withActiveProvider, withProviders. simpl.
  destruct (reachable props (connectionTimeout (state w)) provider env) eqn:Hok.
  - unfold bind, setActiveProvider, modify, call; simpl. now rewrite Hc, Hs.
  - unfold bind, call; simpl. rewrite Hs. simpl.
    destruct (autoFallback (state w)) eqn:Hauto; simpl; [|reflexivity].
    destruct (fallbackProviders _ _) as [|f l] eqn:Hf; simpl; [reflexivity|].
    unfold setActiveProvider, modify, ret; simpl. now rewrite Hc, Hs.
Qed.

(** X7: a manual connect whose probe succeeds selects the requested
    provider, whatever its priority, whatever was selected before and
    however the callbacks behave, and leaves its records [connected]. *)
Theorem connect_success_selects_requested props provider env (w : World State) :
  reachable props (connectionTimeout (state w)) provider env = true ->
  let s' := state (finalWorld (connectToProvider props provider env w)) in
  activeProvider s' = Some provider /\
  providers s' = connectedRecords props provider env w /\
  forall q, In q (providers s') -> id q = id provider -> status q = connected.
Proof.
  intros Hok. cbv zeta.
  destruct (connectToProvider_final props provider env w) as [v [H Hcases]].
  rewrite H. simpl.
  assert (Hv : v = Some provider).
  { destruct Hcases as [[_ Hv]|[[Hr _]|[Hr _]]]; [exact Hv|congruence|congruence]. }
  split; [exact Hv|]. split; [reflexivity|].
  intros q Hq Hid. unfold connectedRecords in Hq.
  apply in_map_iff in Hq. destruct Hq as [q0 [<- _]].
  rewrite settle_id in Hid. rewrite settle_status by assumption. now rewrite Hok.
Qed.

(** X8: a manual connect whose probe fails, with auto fallback on, switches
    the selection to the provider that comes first in fallback order among
    the other providers whose status is [connected] (the earliest in the
    registry on a tie), whatever is selected at that moment; its records
    are left as they are.  With no other provider connected the selection
    stays as it was. *)
Theorem connect_failure_falls_back_by_order props provider env (w : World State) :
  quiet props ->
  reachable props (connectionTimeout (state w)) provider env = false ->
  autoFallback (state w) = true ->
  exists w',
    connectToProvider props provider env w = Normal tt w' /\
    ((exists k fallback,
        activeProvider (state w') = Some fallback /\
        nth_error (providers (state w)) k = Some fallback /\
        id fallback <> id provider /\ status fallback = connected /\
        In fallback (providers (state w')) /\
        forall j c, nth_error (providers (state w)) j = Some c ->
                    id c <> id provider -> status c = connected ->
                    fallbackOrder fallback <= fallbackOrder c /\
                    ((j < k)%nat -> fallbackOrder fallback < fallbackOrder c)) \/
     (activeProvider (state w') = activeProvider (state w) /\
      forall c, In c (providers (state w)) -> id c <> id provider ->
                status c <> connected)).
Proof.
  intros Hq Hok Hauto. rewrite (connectToProvider_quiet _ _ _ _ Hq).
  eexists. split; [reflexivity|]. simpl. rewrite Hok, Hauto.
  set (test := fun p : MCPProvider =>
                 negb (id p =? id provider)%string && Status_eqb (status p) connected).
  assert (Htest : forall c, test c = true <-> id c <> id provider /\ status c = connected).
  { intros c. unfold test. rewrite andb_true_iff, negb_true_iff, String.eqb_neq.
    now rewrite Status_eqb_eq. }
  destruct (hd_error (fallbackProviders (providers (state w)) provider))
    as [f|] eqn:Hf.
  - left.
    assert (Hkey : forall a b : MCPProvider,
               fallbackOrder a - fallbackOrder b <= 0 <-> fallbackOrder a <= fallbackOrder b)
      by (intros; lia).
    unfold fallbackProviders in Hf. fold test in Hf.
    destruct (Stable.sort_head_firstLeast _ fallbackOrder Hkey _ _ Hf)
      as [l1 [l2 [Hsplit [Hbefore Hafter]]]].
    rewrite (Stable.filter_as_filteri test _ 0) in Hsplit.
    destruct (Stable.filteri_from_split _ _ _ _ _ _ Hsplit)
      as [k [Hk [Hfk [Hl1 Hl2]]]].
    apply Htest in Hfk. destruct Hfk as [Hne Hst].
    exists k, f. repeat split; try assumption.
    + apply connectedRecords_other; [|assumption].
      eapply nth_error_In; eassumption.
    + destruct (Nat.lt_trichotomy j k) as [Hlt|[Heq|Hgt]].
      * assert (Hin : In c l1) by (apply (Hl1 j c Hlt H); apply Htest; now split).
        specialize (Hbefore c Hin). lia.
      * subst j. assert (c = f) by congruence. subst c. lia.
      * assert (Hin : In c l2) by (apply (Hl2 j c Hgt H); apply Htest; now split).
        exact (Hafter c Hin).
    + intros Hlt. apply Hbefore. apply (Hl1 j c Hlt H). apply Htest. now split.
  - right. split; [reflexivity|]. intros c Hc Hne Hst.
    unfold fallbackProviders in Hf. fold test in Hf.
    assert (Hin : In c (JS.sort (fun a b => fallbackOrder a - fallbackOrder b)
                          (filter test (providers (state w))))).
    { apply JSFacts.sort_In. apply filter_In. split; [assumption|].
      apply Htest. now split. }
    destruct (JS.sort _ _); [destruct Hin|discriminate].
Qed.

(** X9: a manual connect whose probe fails, with auto fallback off, never
    changes the selection, however the callbacks behave: even when the
    provider that just failed is the selected one, it stays selected, with
    its records at [error]. *)
Theorem connect_failure_without_fallback_keeps_selection props provider env
    (w : World State) :
  reachable props (connectionTimeout (state w)) provider env = false ->
  autoFallback (state w) = false ->
  let s' := state (finalWorld (connectToProvider props provider env w)) in
  activeProvider s' = activeProvider (state w) /\
  forall q, In q (providers s') -> id q = id provider -> status q = error.
Proof.
  intros Hok Hauto. cbv zeta.
  destruct (connectToProvider_final props provider env w) as [v [H Hcases]].
  rewrite H. simpl. split.
  - destruct Hcases as [[Hr _]|[[_ Hv]|[_ [Ha _]]]]; congruence.
  - intros q Hq Hid. unfold connectedRecords in Hq.
    apply in_map_iff in Hq. destruct Hq as [q0 [<- _]].
    rewrite settle_id in Hid. rewrite settle_status by assumption. now rewrite Hok.
Qed.

(** ** Disconnecting what is not there *)

(** X10: disconnecting an id that no record carries, and that is not the
    selected provider's, changes nothing; and disconnecting the same id a
    second time changes nothing more. *)
Theorem disconnect_absent_or_repeated props providerId (w : World State) :
  let w1 := finalWorld (disconnectProvider props providerId w) in
  finalWorld (disconnectProvider props providerId w1) = w1 /\
  ((forall p, In p (providers (state w)) -> id p <> providerId) ->
   (forall a, activeProvider (state w) = Some a -> id a <> providerId) ->
   w1 = w).
Proof.
  cbv zeta. rewrite !disconnectProvider_final. simpl. split.
  - f_equal. unfold disconnected. simpl. f_equal.
    + rewrite map_map. apply map_ext. intros p.
      destruct (id p =? providerId)%string eqn:E; simpl; [|now rewrite E].
      now rewrite E.
    + destruct (activeProvider (state w)) as [a|]; [|reflexivity].
      destruct (id a =? providerId)%string eqn:E; [reflexivity|now rewrite E].
  - intros Hnone Hact. destruct w as [s t]. simpl in *. f_equal.
    unfold disconnected. destruct s as [ps act sc af ct ra]. simpl in *. f_equal.
    + rewrite <- (map_id ps) at 2. apply map_ext_in. intros p Hp.
      destruct (String.eqb_spec (id p) providerId) as [E|E]; [|reflexivity].
      exfalso. exact (Hnone p Hp E).
    + destruct act as [a|]; [|reflexivity].
      destruct (String.eqb_spec (id a) providerId) as [E|E]; [|reflexivity].
      exfalso. exact (Hact a eq_refl E).
Qed.


(** ** Callbacks that return *)

(** The handler behind an action. *)
Definition operation (props : MCPManagerProps) (a : Action) : M State unit :=
  match a with
  | Scan envs => scanProviders props envs
  | Connect provider env => connectToProvider props provider env
  | Disconnect providerId => disconnectProvider props providerId
  | HealthCheck env => healthCheck props env
  end.

Lemma operation_quiet props (a : Action) (w : World State) :
  quiet props -> operation props a w = Normal tt (perform props a w).
Proof.
  intros Hq. destruct a as [envs|provider env|providerId|env]; simpl.
  - now rewrite scanProviders_quiet.
  - now rewrite connectToProvider_quiet.
  - destruct Hq as [Hc Hs]. unfold disconnectProvider.
    unfold bind, gets, setProviders, setActiveProvider, modify, call, ret. simpl.
    destruct (activeProvider (state w)) as [a|]; simpl; [|reflexivity].
    destruct (id a =? providerId)%string; simpl; [|reflexivity].
    now rewrite Hc, Hs.
  - now rewrite healthCheck_run.
Qed.

(** ** Worked instances *)

(** Callbacks of which the provider-change one throws. *)
Definition throwingChange : MCPManagerProps :=
  mkProps (fun _ => Throws) (fun _ => Returns).

(** The LM Studio record as the first scan left it (status [error]). *)
Definition lmstudioAfterScan : MCPProvider :=
  nth 2 (providers (state Scenarios.afterFirstScan)) Scenarios.zombiecoderLocal.

(** The component after the first scan with auto fallback switched off. *)
Definition fallbackOff : World State :=
  mkWorld (mkState (providers (state Scenarios.afterFirstScan))
                   (activeProvider (state Scenarios.afterFirstScan))
                   false false 5000 3)
          (now Scenarios.afterFirstScan).

Lemma scanProviders_throw_keeps_scanning_witness :
  isScanning (state (finalWorld (scanProviders throwingChange (fun _ => Scenarios.bothUp)
                                               Scenarios.mounted))) = true.
Proof.
  apply (scanProviders_throw_keeps_scanning throwingChange (fun _ => Scenarios.bothUp)
           Scenarios.mounted).
  vm_compute. reflexivity.
Defined.

Lemma scan_settles_every_status_witness :
  List.length (providers (state (finalWorld (scanProviders quietProps
                 (fun _ => Scenarios.bothUp) Scenarios.mounted)))) = 4%nat.
Proof.
  apply (scan_settles_every_status quietProps (fun _ => Scenarios.bothUp) Scenarios.mounted).
  - vm_compute. repeat constructor; simpl; intuition discriminate.
  - reflexivity.
Defined.

Lemma selection_stays_registered_witness :
  selectionRegistered
    (state (run quietProps [Scan (fun _ => Scenarios.bothUp);
                            HealthCheck Scenarios.allHang;
                            Disconnect "ollama-local"] Scenarios.mounted)).
Proof.
  apply selection_stays_registered.
  - intros a Ha. discriminate.
  - simpl. split; [exact I|]. split; [vm_compute; discriminate|].
    split; [|exact I]. eexists. split; [|split].
    + vm_compute. right. left. reflexivity.
    + reflexivity.
    + reflexivity.
Defined.

Lemma scan_breaks_ties_witness :
  exists k best,
    activeProvider (state (finalWorld (scanProviders quietProps (fun _ => Scenarios.bothUp)
                                                     Scenarios.mounted))) = Some best /\
    nth_error (providers (state Scenarios.mounted)) k = Some best.
Proof.
  destruct (scan_breaks_ties_by_registry_order quietProps (fun _ => Scenarios.bothUp)
              Scenarios.mounted) as [k [best [H1 [H2 _]]]].
  - reflexivity.
  - exists 0%nat, Scenarios.zombiecoderLocal. split; vm_compute; reflexivity.
  - exists k, best. now split.
Defined.

Lemma connect_success_witness :
  activeProvider (state (finalWorld (connectToProvider quietProps lmstudioAfterScan
     (mkProbeEnv (fun _ => Responds 7 true) 0.1%float) Scenarios.afterFirstScan))) =
  Some lmstudioAfterScan.
Proof.
  apply (connect_success_selects_requested quietProps lmstudioAfterScan
           (mkProbeEnv (fun _ => Responds 7 true) 0.1%float) Scenarios.afterFirstScan).
  vm_compute. reflexivity.
Defined.

Lemma connect_failure_falls_back_witness :
  exists w',
    connectToProvider quietProps lmstudioAfterScan Scenarios.allHang
                      Scenarios.afterFirstScan = Normal tt w'.
Proof.
  destruct (connect_failure_falls_back_by_order quietProps lmstudioAfterScan
              Scenarios.allHang Scenarios.afterFirstScan) as [w' [H _]].
  - split; reflexivity.
  - vm_compute. reflexivity.
  - reflexivity.
  - exists w'. exact H.
Defined.

Lemma connect_failure_without_fallback_witness :
  activeProvider (state (finalWorld (connectToProvider quietProps lmstudioAfterScan
     Scenarios.allHang fallbackOff))) = activeProvider (state fallbackOff).
Proof.
  apply (connect_failure_without_fallback_keeps_selection quietProps lmstudioAfterScan
           Scenarios.allHang fallbackOff).
  - vm_compute. reflexivity.
  - reflexivity.
Defined.

Lemma probe_records_latency_witness :
  elapsed quietProps 5000 Scenarios.zombiecoderLocal Scenarios.bothUp < 5000.
Proof.
  pose proof (probe_records_latency quietProps 5000 Scenarios.zombiecoderLocal
                Scenarios.bothUp Scenarios.mounted) as H.
  cbv zeta in H. destruct H as [_ [_ [_ H]]].
  destruct H as [_ [_ [Hlocal _]]]; [vm_compute; reflexivity|].
  apply Hlocal. reflexivity.
Defined.

Lemma disconnect_absent_witness :
  finalWorld (disconnectProvider quietProps "no-such-provider" Scenarios.mounted) =
  Scenarios.mounted.
Proof.
  apply (proj2 (disconnect_absent_or_repeated quietProps "no-such-provider"
                  Scenarios.mounted)).
  - intros p Hp. vm_compute in Hp.
    repeat (destruct Hp as [<-|Hp]; [vm_compute; discriminate|]). destruct Hp.
  - intros a Ha. discriminate Ha.
Defined.

(** After the first scan, a failed connect to LM Studio with auto fallback
    on leaves ZombieCoder selected: it is the connected provider with the
    least fallback order. *)
Example fallback_after_first_scan :
  option_map id
    (activeProvider (state (finalWorld (connectToProvider quietProps lmstudioAfterScan
        Scenarios.allHang Scenarios.afterFirstScan)))) = Some "zombiecoder-local"%string.
Proof. vm_compute. reflexivity. Qed.


End MCPBehaviour.

(* ================================================================== *)
(** * ModelDetector: further behaviour *)
(* ================================================================== *)

Module DetectorBehaviour.
Import Async Detector DetectorFacts.

(** ** The records the probes of a scan leave *)

(** The part of a model record that identifies and describes it. *)
Definition descriptor (m : AIModel)
  : string * string * Provider * string * string * ModelCapabilities * string * bool * Z :=
  (id m, name m, provider m, version m, size m, capabilities m, endpoint m,
   isRecommended m, bengaliScore m).

Lemma settle_model_descriptor props model env t0 q :
  descriptor (settle props model env t0 q) = descriptor q.
Proof.
  unfold settle. destruct (id q =? id model)%string; [|reflexivity].
  destruct (reachable props model env); reflexivity.
Qed.

Lemma settle_model_other props model env t0 q :
  id q <> id model -> settle props model env t0 q = q.
Proof.
  intros H. unfold settle. destruct (String.eqb_spec (id q) (id model)); congruence.
Qed.

Lemma settleBy_model_descriptor props envs t0 ms : forall i q,
  descriptor (settleBy props envs t0 i ms q) = descriptor q.
Proof.
  induction ms as [|m ms IH]; intros i q; simpl; [reflexivity|].
  now rewrite IH, settle_model_descriptor.
Qed.

Lemma settleBy_model_id props envs t0 ms i q :
  id (settleBy props envs t0 i ms q) = id q.
Proof.
  pose proof (settleBy_model_descriptor props envs t0 ms i q) as H.
  unfold descriptor in H. congruence.
Qed.

Lemma settleBy_model_other props envs t0 ms : forall i q,
  ~ In (id q) (map id ms) -> settleBy props envs t0 i ms q = q.
Proof.
  induction ms as [|m ms IH]; intros i q H; simpl in *; [reflexivity|].
  rewrite settle_model_other by intuition congruence. apply IH. tauto.
Qed.

Lemma settleBy_model_status props envs t0 ms : forall i k m q,
  NoDup (map id ms) ->
  nth_error ms k = Some m ->
  id q = id m ->
  status (settleBy props envs t0 i ms q) =
  if reachable props m (envs (i + k)%nat) then available else error.
Proof.
  induction ms as [|m0 ms IH]; intros i k m q Hnd Hk Hq; [destruct k; discriminate|].
  simpl in Hnd. inversion Hnd as [|? ? Hnotin Hnd']; subst.
  destruct k as [|k]; simpl in *.
  - inversion Hk; subst. rewrite Nat.add_0_r.
    rewrite settleBy_model_other by (rewrite settle_model_id, Hq; exact Hnotin).
    now apply settle_model_status.
  - rewrite Nat.add_succ_r. apply (IH (S i) k m); try assumption.
    now rewrite settle_model_id.
Qed.

(** ** How a scan ends *)

Lemma scanModels_outcome props envs (w : World State) :
  match scanModels props envs w with
  | Normal _ w' => w' = scanned props envs w
  | Thrown w' =>
      state w' = withIsScanning (state w) true \/
      state w' = withIsScanning (state (scanned props envs w)) true
  end.
Proof.
  unfold scanModels.
  unfold bind at 1 2 3 4. unfold gets, setIsScanning, modify, call.
  destruct (onStatusUpdate props _); [|left; reflexivity].
  unfold ret at 1. simpl.
  unfold bind. rewrite testAll_run. simpl.
  match goal with
  | |- context [selectBest ?p ?f ?ms ?rs ?w0] =>
      pose proof (selectBest_final p f ms rs w0) as Hfin;
      destruct (selectBest p f ms rs w0) as [[] w1|w1] eqn:Hsel
  end; simpl in Hfin.
  - unfold scanned. destruct w1 as [s1 t1]. simpl in *. subst s1.
    unfold withActiveModel. simpl. f_equal.
    unfold selectBest in Hsel.
    destruct (availableModels _ _) as [|a l];
      [|destruct (JS.sort _ _) as [|b l']; [discriminate|]];
      unfold bind, setActiveModel, modify, call, ret, throw in Hsel; simpl in Hsel.
    + destruct (onModelChange props None); simpl in Hsel; [|discriminate].
      destruct (onStatusUpdate props _); inversion Hsel; reflexivity.
    + destruct (onModelChange props (Some b)); simpl in Hsel; [|discriminate].
      destruct (onStatusUpdate props _); inversion Hsel; reflexivity.
  - right. rewrite Hfin. reflexivity.
Qed.

Lemma scanModels_final props envs (w : World State) :
  let s' := state (finalWorld (scanModels props envs w)) in
  s' = withIsScanning (state w) true \/
  exists v, s' = withIsScanning (state (scanned props envs w)) v.
Proof.
  cbv zeta. pose proof (scanModels_outcome props envs w) as H.
  destruct (scanModels props envs w) as [[] w'|w']; simpl.
  - right. exists false. subst w'. reflexivity.
  - destruct H as [H|H]; [left|right; exists true]; exact H.
Qed.

Lemma scanModels_started props envs (w : World State) :
  onStatusUpdate props "🔍 Scanning for AI models..."%string = Returns ->
  exists v, state (finalWorld (scanModels props envs w)) =
            withIsScanning (state (scanned props envs w)) v.
Proof.
  intros Hs. unfold scanModels.
  unfold bind at 1 2 3 4. unfold gets, setIsScanning, modify, call.
  rewrite Hs. clear Hs. unfold ret at 1. simpl.
  unfold bind. rewrite testAll_run. simpl.
  match goal with
  | |- context [selectBest ?p ?f ?ms ?rs ?w0] =>
      pose proof (selectBest_final p f ms rs w0) as Hfin;
      destruct (selectBest p f ms rs w0) as [[] w1|w1]
  end; simpl in *; rewrite Hfin; eexists; reflexivity.
Qed.

(** X11: a model scan cut short by a throwing callback leaves [isScanning]
    set, so the scan button stays disabled.  Apart from that flag the state
    is either untouched or fully scanned, selection included. *)
Theorem scanModels_throw_keeps_scanning props envs (w w' : World State) :
  scanModels props envs w = Thrown w' ->
  isScanning (state w') = true /\
  (state w' = withIsScanning (state w) true \/
   state w' = withIsScanning (state (scanned props envs w)) true).
Proof.
  intros H. pose proof (scanModels_outcome props envs w) as Ho.
  rewrite H in Ho. split; [|exact Ho].
  destruct Ho as [-> | ->]; reflexivity.
Qed.

(** A model scan taken on its own, that is when no other handler
    (another scan, a retry, a benchmark) writes a model record between its
    start and its end.  Once it has got past its first status update, and
    with unique ids in the registry, such a scan leaves every model
    [available] or [error] according to its own probe, each record at its
    place with its descriptor, and none at [loading] or [offline]. *)
Theorem scan_settles_every_model_status props envs (w : World State) :
  NoDup (map id (models (state w))) ->
  onStatusUpdate props "🔍 Scanning for AI models..."%string = Returns ->
  let s' := state (finalWorld (scanModels props envs w)) in
  List.length (models s') = List.length (models (state w)) /\
  forall k m, nth_error (models (state w)) k = Some m ->
    exists q, nth_error (models s') k = Some q /\
              descriptor q = descriptor m /\
              status q = if reachable props m (envs k) then available else error.
Proof.
  intros Hnd Hs. cbv zeta.
  destruct (scanModels_started props envs w Hs) as [v ->].
  unfold scanned. simpl. split; [now rewrite length_map|].
  intros k m Hk. eexists. split.
  - rewrite nth_error_map, Hk. reflexivity.
  - split; [now rewrite settleBy_model_descriptor|].
    rewrite (settleBy_model_status _ _ _ _ 0%nat k m) by (assumption || reflexivity).
    reflexivity.
Qed.

(** ** What the ranking looks at *)

(** The selection of a scan, located in the snapshot: every reachable
    model before it ranks strictly after it, none after it ranks before
    it. *)
Lemma scan_selection_located props envs (w : World State) :
  onStatusUpdate props "🔍 Scanning for AI models..."%string = Returns ->
  someReachable props envs (state w) ->
  exists k best,
    activeModel (state (finalWorld (scanModels props envs w))) = Some best /\
    nth_error (models (state w)) k = Some best /\
    reachable props best (envs k) = true /\
    (forall j c, (j < k)%nat -> nth_error (models (state w)) j = Some c ->
                 reachable props c (envs j) = true ->
                 rank (filterBengali (state w)) best < rank (filterBengali (state w)) c) /\
    (forall j c, (k < j)%nat -> nth_error (models (state w)) j = Some c ->
                 reachable props c (envs j) = true ->
                 rank (filterBengali (state w)) best <= rank (filterBengali (state w)) c).
Proof.
  intros Hs Hsome.
  destruct (scanModels_started props envs w Hs) as [v ->].
  destruct (scanned_best_model props envs w Hsome) as [best [Hact _]].
  unfold scanned, bestOf in *. simpl in *.
  set (ms := models (state w)) in *.
  set (fb := filterBengali (state w)) in *.
  set (results := scanResults props envs ms) in *.
  destruct (Stable.sort_head_firstLeast _ (rank fb) (byScore_rank fb) _ _ Hact)
    as [l1 [l2 [Hsplit [Hbefore Hafter]]]].
  unfold availableModels, JS.filteri in Hsplit.
  destruct (Stable.filteri_from_split _ _ _ _ _ _ Hsplit)
    as [k [Hk [Hf [Hl1 Hl2]]]].
  simpl in Hf.
  exists k, best. split; [exact Hact|]. split; [exact Hk|].
  split.
  { apply fulfilledTrue_testResults in Hf. destruct Hf as [p [Hp Hr]]. congruence. }
  split; intros j c Hjk Hj Hr;
    assert (Hfc : JS.fulfilledTrue results (0 + j) = true)
      by (apply fulfilledTrue_testResults; eauto).
  - exact (Hbefore c (Hl1 j c Hjk Hj Hfc)).
  - exact (Hafter c (Hl2 j c Hjk Hj Hfc)).
Qed.

(** X13: a model scan ranks on the scores its snapshot holds, that is the
    scores stored before the scan started, not the ones its own probes
    compute.  The model selected is the snapshot record (with the status
    and score it had before the scan) of the first reachable model, in
    registry order, whose stored ranking score is the greatest. *)
Theorem scan_ranks_by_stored_scores props envs (w : World State) :
  onStatusUpdate props "🔍 Scanning for AI models..."%string = Returns ->
  someReachable props envs (state w) ->
  exists k best,
    activeModel (state (finalWorld (scanModels props envs w))) = Some best /\
    nth_error (models (state w)) k = Some best /\
    reachable props best (envs k) = true /\
    forall j c, nth_error (models (state w)) j = Some c ->
                reachable props c (envs j) = true ->
                rankingScore (filterBengali (state w)) c <=
                rankingScore (filterBengali (state w)) best /\
                ((j < k)%nat ->
                 rankingScore (filterBengali (state w)) c <
                 rankingScore (filterBengali (state w)) best).
Proof.
  intros Hs Hsome.
  destruct (scan_selection_located props envs w Hs Hsome)
    as [k [best [Hact [Hk [Hr [Hbefore Hafter]]]]]].
  exists k, best. repeat split; try assumption.
  - destruct (Nat.lt_trichotomy j k) as [Hlt|[Heq|Hgt]].
    + specialize (Hbefore j c Hlt H H0). unfold rank, rankingScore in *.
      destruct (filterBengali (state w)); lia.
    + subst j. assert (c = best) by congruence. subst c. lia.
    + specialize (Hafter j c Hgt H H0). unfold rank, rankingScore in *.
      destruct (filterBengali (state w)); lia.
  - intros Hlt. specialize (Hbefore j c Hlt H H0). unfold rank, rankingScore in *.
    destruct (filterBengali (state w)); lia.
Qed.

(** X14: so when all stored scores are equal, as they are right after
    [initializeModels], and the Bengali filter is off, the scan selects the
    first reachable model of the registry, whatever scores its probes have
    just computed. *)
Theorem scan_with_equal_scores_selects_first_reachable props envs (w : World State)
    (k : nat) (m : AIModel) :
  onStatusUpdate props "🔍 Scanning for AI models..."%string = Returns ->
  filterBengali (state w) = false ->
  (forall a b, In a (models (state w)) -> In b (models (state w)) ->
               overallScore a = overallScore b) ->
  nth_error (models (state w)) k = Some m ->
  reachable props m (envs k) = true ->
  (forall j c, (j < k)%nat -> nth_error (models (state w)) j = Some c ->
               reachable props c (envs j) = false) ->
  activeModel (state (finalWorld (scanModels props envs w))) = Some m.
Proof.
  intros Hs Hfb Heq Hk Hr Hfirst.
  destruct (scan_selection_located props envs w Hs)
    as [k' [best [Hact [Hk' [Hr' [Hbefore _]]]]]]; [exists k, m; now split|].
  rewrite Hact. f_equal.
  destruct (Nat.lt_trichotomy k k') as [Hlt|[E|Hgt]].
  - specialize (Hbefore k m Hlt Hk Hr).
    rewrite Hfb in Hbefore. unfold rank in Hbefore.
    rewrite (Heq m best (nth_error_In _ _ Hk) (nth_error_In _ _ Hk')) in Hbefore. lia.
  - subst k'. congruence.
  - rewrite (Hfirst k' best Hgt Hk') in Hr'. discriminate.
Qed.

(** ** Benchmarks *)

Lemma runBenchmarkTests_state props tests : forall i (w : World State),
  state (finalWorld (runBenchmarkTests props i tests w)) = state w.
Proof.
  induction tests as [|test tests IH]; intros i w; [reflexivity|].
  cbn [runBenchmarkTests]. unfold bind, sleep, call. simpl.
  destruct (onStatusUpdate props _); simpl; [|reflexivity].
  unfold ret. rewrite IH. reflexivity.
Qed.

Lemma runBenchmarkTests_quiet props tests : forall i (w : World State),
  quiet props ->
  runBenchmarkTests props i tests w =
  Normal tt (mkWorld (state w) (now w + 1000 * Z.of_nat (List.length tests))).
Proof.
  induction tests as [|test tests IH]; intros i w Hq.
  - simpl. unfold ret. destruct w; simpl. do 2 f_equal. lia.
  - cbn [runBenchmarkTests]. unfold bind, sleep, call.
    destruct Hq as [Hc Hs]. rewrite Hs. unfold ret at 1.
    rewrite IH by (split; assumption). cbn [state now List.length].
    do 2 f_equal. rewrite Nat2Z.inj_succ. change (Z.max 0 1000) with 1000. lia.
Qed.

Definition withBenchmarkMode (s : State) (v : bool) : State :=
  mkState (models s) (activeModel s) (isScanning s) (autoDetect s) v (filterBengali s).

(** The state a benchmark leaves, however it ends: the result is stored or
    not, and [benchmarkMode] is left set exactly when it was not. *)
Lemma benchmarkModel_final props model env (w : World State) :
  status model = available ->
  exists stored : bool,
    state (finalWorld (benchmarkModel props model env w)) =
    if stored
    then withBenchmarkMode
           (withModels (state w) (map (benchmarked model env (now w)) (models (state w))))
           false
    else withBenchmarkMode (state w) true.
Proof.
  intros Hst. unfold benchmarkModel. rewrite Hst. cbn [Status_eqb negb].
  unfold bind at 1 2. unfold setBenchmarkMode, modify, call.
  destruct (onStatusUpdate props _); [|exists false; reflexivity].
  unfold ret at 1. cbn [state now]. unfold bind.
  match goal with
  | |- context [runBenchmarkTests ?p ?i ?ts ?w0] =>
      pose proof (runBenchmarkTests_state p ts i w0) as Hstate;
      destruct (runBenchmarkTests p i ts w0) as [[] w1|w1] eqn:Hrun
  end.
  - apply runBenchmarkTests_normal in Hrun. subst w1. clear Hstate. exists true.
    change (1000 * Z.of_nat (List.length benchmarkTests)) with 5000.
    unfold dateNow, setModels, setBenchmarkMode, modify, call, ret, throw.
    simpl.
    destruct (onStatusUpdate props _); reflexivity.
  - exists false. simpl in *. exact Hstate.
Qed.

Lemma benchmarkModel_quiet props model env (w : World State) :
  status model = available ->
  quiet props ->
  benchmarkModel props model env w =
  Normal tt
    (mkWorld
       (withBenchmarkMode
          (withModels (state w) (map (benchmarked model env (now w)) (models (state w))))
          false)
       (now w + 5000)).
Proof.
  intros Hst [Hc Hs]. unfold benchmarkModel. rewrite Hst. cbn [Status_eqb negb].
  unfold bind at 1 2. unfold setBenchmarkMode, modify, call. rewrite Hs.
  unfold ret at 1. cbn [state now]. unfold bind.
  rewrite runBenchmarkTests_quiet by (split; assumption).
  change (1000 * Z.of_nat (List.length benchmarkTests)) with 5000.
  unfold dateNow, setModels, setBenchmarkMode, modify, call.
  simpl. rewrite Hs. reflexivity.
Qed.

Lemma benchmarked_descriptor model env t0 q :
  descriptor (benchmarked model env t0 q) = descriptor q /\
  status (benchmarked model env t0 q) = status q.
Proof. unfold benchmarked. destruct (id q =? id model)%string; split; reflexivity. Qed.

(** X15: a benchmark of a model that is not [available] does nothing at all.
    A benchmark of an available model, with callbacks that return, takes
    five seconds and rewrites the performance sample and the score of the
    records carrying its id, and nothing else: statuses, the other records,
    the selection (which keeps the score it was selected with, even when
    the selected model is the one benchmarked) and the flags are as
    before. *)
Theorem benchmark_updates_only_scores props model env (w : World State) :
  (status model <> available -> benchmarkModel props model env w = Normal tt w) /\
  (status model = available -> quiet props ->
   exists w',
     benchmarkModel props model env w = Normal tt w' /\
     now w' = now w + 5000 /\
     state w' = withBenchmarkMode (withModels (state w) (models (state w'))) false /\
     List.length (models (state w')) = List.length (models (state w)) /\
     (forall k q, nth_error (models (state w)) k = Some q -> id q <> id model ->
                  nth_error (models (state w')) k = Some q) /\
     (forall k q, nth_error (models (state w)) k = Some q -> id q = id model ->
        exists q', nth_error (models (state w')) k = Some q' /\
                   descriptor q' = descriptor q /\ status q' = status q /\
                   performance q' = benchSample env (now w + 5000) /\
                   overallScore q' =
                   overallScoreOf (benchSample env (now w + 5000)) (bengaliScore model))).
Proof.
  split.
  - intros Hst. unfold benchmarkModel.
    destruct (status model); try reflexivity. congruence.
  - intros Hst Hq. rewrite (benchmarkModel_quiet _ _ _ _ Hst Hq).
    eexists. split; [reflexivity|]. cbn [state now].
    split; [reflexivity|]. split; [reflexivity|].
    unfold withBenchmarkMode, withModels. cbn [models].
    split; [now rewrite length_map|]. split.
    + intros k q Hk Hne. rewrite nth_error_map, Hk. cbn. unfold benchmarked.
      destruct (String.eqb_spec (id q) (id model)); congruence.
    + intros k q Hk Hid. eexists. split; [rewrite nth_error_map, Hk; reflexivity|].
      destruct (benchmarked_descriptor model env (now w) q) as [Hd Hs'].
      split; [exact Hd|]. split; [exact Hs'|].
      unfold benchmarked. rewrite Hid, String.eqb_refl. split; reflexivity.
Qed.

(** X16: a benchmark cut short by a throwing callback never touches the
    selection, the statuses or the descriptors.  When it is cut short
    before its result is stored, the records are as before and
    [benchmarkMode] is left set, which keeps the benchmark and scan buttons
    disabled; when only the last status update throws, the result is stored
    and [benchmarkMode] is cleared. *)
Theorem benchmark_interrupted props model env (w w' : World State) :
  status model = available ->
  benchmarkModel props model env w = Thrown w' ->
  activeModel (state w') = activeModel (state w) /\
  ((benchmarkMode (state w') = true /\ models (state w') = models (state w)) \/
   (benchmarkMode (state w') = false /\
    models (state w') = map (benchmarked model env (now w)) (models (state w)))).
Proof.
  intros Hst H. destruct (benchmarkModel_final props model env w Hst) as [stored Hfin].
  rewrite H in Hfin. simpl in Hfin. rewrite Hfin.
  destruct stored; simpl; split; try reflexivity; [right|left]; now split.
Qed.

(** ** The operations of the component, one after another *)

(** The setters the two switches call (lines 455-461). *)
Definition setAutoDetect (v : bool) : M State unit :=
  modify (fun s => mkState (models s) (activeModel s) (isScanning s) v
                           (benchmarkMode s) (filterBengali s)).

Definition setFilterBengali (v : bool) : M State unit :=
  modify (fun s => mkState (models s) (activeModel s) (isScanning s) (autoDetect s)
                           (benchmarkMode s) v).

(** The operations of the component: a scan (timer or button), a click on
    a card or on its Select, Benchmark or Retry button, and the two
    switches.  In [run] each one runs to its end before the next starts. *)
Inductive Action : Type :=
| Scan (envs : nat -> TestEnv)
| Select (model : AIModel)
| Benchmark (model : AIModel) (env : BenchEnv)
| Retry (model : AIModel) (env : TestEnv)
| SetAutoDetect (v : bool)
| SetFilterBengali (v : bool).

Definition perform (props : ModelDetectorProps) (a : Action) (w : World State)
  : World State :=
  match a with
  | Scan envs => finalWorld (scanModels props envs w)
  | Select model => finalWorld (selectModel props model w)
  | Benchmark model env => finalWorld (benchmarkModel props model env w)
  | Retry model env => finalWorld (testModel props model env w)
  | SetAutoDetect v => finalWorld (setAutoDetect v w)
  | SetFilterBengali v => finalWorld (setFilterBengali v w)
  end.

Fixpoint run (props : ModelDetectorProps) (actions : list Action) (w : World State)
  : World State :=
  match actions with
  | [] => w
  | a :: rest => run props rest (perform props a w)
  end.

Lemma Status_model_eqb_eq (a b : Status) : Status_eqb a b = true <-> a = b.
Proof. destruct a, b; simpl; split; congruence. Qed.

Lemma selectModel_final props model (w : World State) :
  state (finalWorld (selectModel props model w)) =
  if Status_eqb (status model) available
  then withActiveModel (state w) (Some model)
  else state w.
Proof.
  unfold selectModel. destruct (Status_eqb (status model) available); [|reflexivity].
  unfold bind, setActiveModel, modify, call, ret, throw; simpl.
  destruct (onModelChange props (Some model)); simpl;
    [destruct (onStatusUpdate props _); simpl|]; reflexivity.
Qed.

(** What a benchmark leaves, whatever the model and the callbacks. *)
Lemma benchmarkModel_effect props model env (w : World State) :
  let s' := state (finalWorld (benchmarkModel props model env w)) in
  activeModel s' = activeModel (state w) /\
  (models s' = models (state w) \/
   models s' = map (benchmarked model env (now w)) (models (state w))).
Proof.
  cbv zeta. destruct (Status_model_eqb_eq (status model) available) as [H1 _].
  destruct (Status_eqb (status model) available) eqn:E.
  - destruct (benchmarkModel_final props model env w (H1 eq_refl)) as [stored ->].
    destruct stored; simpl; split; auto.
  - unfold benchmarkModel. rewrite E. simpl. split; auto.
Qed.

Lemma perform_model_descriptors props (a : Action) (w : World State) :
  map descriptor (models (state (perform props a w))) =
  map descriptor (models (state w)).
Proof.
  destruct a as [envs|model|model env|model env|v|v]; simpl; try reflexivity.
  - destruct (scanModels_final props envs w) as [H|[v H]]; cbv zeta in H; rewrite H;
      simpl; [reflexivity|].
    rewrite map_map. apply map_ext. intros m. apply settleBy_model_descriptor.
  - rewrite selectModel_final. now destruct (Status_eqb _ _).
  - destruct (benchmarkModel_effect props model env w) as [_ [H|H]]; cbv zeta in H;
      rewrite H; [reflexivity|].
    rewrite map_map. apply map_ext. intros m. apply benchmarked_descriptor.
  - rewrite testModel_run. simpl. rewrite map_map. apply map_ext. intros m.
    apply settle_model_descriptor.
Qed.

(** X17: whatever is done to the detector (scans, selections, benchmarks,
    retries, switches, in any number and order, with any callbacks), the
    registry keeps its models, in order, with their id, name, provider,
    version, size, capabilities, endpoint, recommendation flag and Bengali
    score; only status, performance sample and overall score are ever
    written. *)
Theorem detector_keeps_descriptors props (actions : list Action) (w : World State) :
  map descriptor (models (state (run props actions w))) =
  map descriptor (models (state w)).
Proof.
  revert w. induction actions as [|a actions IH]; intros w; simpl; [reflexivity|].
  now rewrite IH, perform_model_descriptors.
Qed.

(** ** A model-change callback that throws *)

Lemma scanModels_change_throws props envs (w : World State) :
  (forall m, onStatusUpdate props m = Returns) ->
  (forall v, onModelChange props v = Throws) ->
  scanModels props envs w =
  Thrown (mkWorld (withIsScanning (state (scanned props envs w)) true)
                  (now (scanned props envs w))).
Proof.
  intros Hs Hc. unfold scanModels, scanned.
  unfold bind at 1 2 3 4. unfold gets, setIsScanning, modify, call.
  rewrite Hs. unfold ret at 1. simpl.
  unfold bind. rewrite testAll_run. simpl.
  unfold selectBest, bestOf.
  destruct (availableModels _ _) as [|a l] eqn:Ha; simpl.
  - unfold bind, setActiveModel, modify, call; simpl. now rewrite Hc.
  - destruct (JS.sort (byScore (filterBengali (state w))) (a :: l)) as [|b l'] eqn:Hsort.
    + exfalso.
      pose proof (JSFacts.sort_length (byScore (filterBengali (state w))) (a :: l)) as Hl.
      rewrite Hsort in Hl. discriminate.
    + simpl in Hsort. rewrite Hsort.
      unfold bind, setActiveModel, modify, call; simpl. now rewrite Hc.
Qed.

Lemma selectModel_change_throws props model (w : World State) :
  (forall v, onModelChange props v = Throws) ->
  status model = available ->
  selectModel props model w =
  Thrown (mkWorld (withActiveModel (state w) (Some model)) (now w)).
Proof.
  intros Hc Hst. unfold selectModel. rewrite Hst. simpl.
  unfold bind, setActiveModel, modify, call; simpl. now rewrite Hc.
Qed.


(** ** Worked instances *)

(** Callbacks of which the model-change one throws. *)
Definition throwingModelChange : ModelDetectorProps :=
  mkProps (fun _ => Throws) (fun _ => Returns).

(** Callbacks of which the status one throws. *)
Definition throwingStatus : ModelDetectorProps :=
  mkProps (fun _ => Returns) (fun _ => Throws).

(** The detector after a first scan of the built-in registry with every
    endpoint up, and the record it then holds for the first model. *)
Definition afterModelScan : World State :=
  finalWorld (scanModels quietProps (fun _ => Scenarios.allUp) Scenarios.loaded).

Definition firstModel : AIModel :=
  nth 0 (models (state afterModelScan)) Scenarios.supporting.

Definition lastModel : AIModel :=
  nth 3 (models (state afterModelScan)) Scenarios.supporting.

Definition halfDraws : BenchEnv :=
  mkBenchEnv 0.5%float 0.5%float 0.5%float 0.5%float 0.5%float.

Lemma scanModels_throw_keeps_scanning_witness :
  isScanning (state (finalWorld (scanModels throwingModelChange (fun _ => Scenarios.allUp)
                                            Scenarios.loaded))) = true.
Proof.
  apply (scanModels_throw_keeps_scanning throwingModelChange (fun _ => Scenarios.allUp)
           Scenarios.loaded).
  vm_compute. reflexivity.
Defined.

Lemma scan_settles_every_model_status_witness :
  List.length (models (state (finalWorld (scanModels quietProps
                 (fun _ => Scenarios.allUp) Scenarios.loaded)))) = 4%nat.
Proof.
  apply (scan_settles_every_model_status quietProps (fun _ => Scenarios.allUp)
           Scenarios.loaded).
  - vm_compute. repeat constructor; simpl; intuition discriminate.
  - reflexivity.
Defined.

Lemma scan_ranks_by_stored_scores_witness :
  exists k best,
    activeModel (state (finalWorld (scanModels quietProps (fun _ => Scenarios.allUp)
                                               afterModelScan))) = Some best /\
    nth_error (models (state afterModelScan)) k = Some best.
Proof.
  destruct (scan_ranks_by_stored_scores quietProps (fun _ => Scenarios.allUp)
              afterModelScan) as [k [best [H1 [H2 _]]]].
  - reflexivity.
  - exists 0%nat, firstModel. split; vm_compute; reflexivity.
  - exists k, best. now split.
Defined.

Lemma scan_with_equal_scores_witness :
  activeModel (state (finalWorld (scanModels quietProps (fun _ => Scenarios.allUp)
                                             Scenarios.loaded))) =
  Some (nth 0 (initialModels 0) Scenarios.supporting).
Proof.
  apply (scan_with_equal_scores_selects_first_reachable quietProps
           (fun _ => Scenarios.allUp) Scenarios.loaded 0%nat).
  - reflexivity.
  - reflexivity.
  - intros a b Ha Hb. vm_compute in Ha, Hb.
    intuition (subst; reflexivity).
  - reflexivity.
  - vm_compute. reflexivity.
  - intros j c Hj. lia.
Defined.

Lemma benchmark_updates_only_scores_witness :
  exists w', benchmarkModel quietProps firstModel halfDraws afterModelScan = Normal tt w' /\
             now w' = now afterModelScan + 5000.
Proof.
  destruct (proj2 (benchmark_updates_only_scores quietProps firstModel halfDraws
                     afterModelScan)) as [w' [H1 [H2 _]]].
  - vm_compute. reflexivity.
  - split; reflexivity.
  - exists w'. now split.
Defined.

Lemma benchmark_interrupted_witness :
  activeModel (state (finalWorld (benchmarkModel throwingStatus firstModel halfDraws
                                                 afterModelScan))) =
  activeModel (state afterModelScan).
Proof.
  apply (benchmark_interrupted throwingStatus firstModel halfDraws afterModelScan).
  - vm_compute. reflexivity.
  - vm_compute. reflexivity.
Defined.


End DetectorBehaviour.

(* ================================================================== *)
(** * The page that mounts the two components *)
(* ================================================================== *)

Module Page.
Import Async.
Local Open Scope string_scope.
Local Open Scope async_scope.

(** The values the page's two handlers meet at run time.
    [handleProviderChange] is written for a string or [null] and
    [handleModelsDetected] for an array of models; MCPManager calls the
    first with a provider record or [null], ModelDetector the second with a
    model record or [null]. *)
Inductive Value : Type :=
| VNull
| VString (s : string)
| VProvider (p : MCP.MCPProvider)
| VModel (m : Detector.AIModel)
| VModels (ms : list Detector.AIModel).

(** [if (v)] and [!!v] *)
Definition truthy (v : Value) : bool :=
  match v with
  | VNull => false
  | VString s => negb (s =? "")
  | VProvider _ | VModel _ | VModels _ => true
  end.

(** [`${v}`] *)
Definition toString (v : Value) : string :=
  match v with
  | VNull => "null"
  | VString s => s
  | VProvider _ | VModel _ => "[object Object]"
  | VModels ms => String.concat "," (map (fun _ => "[object Object]") ms)
  end.

(** The state cells the two handlers and the console touch. *)
Record State : Type := mkState {
  activeMCPProvider : Value;
  detectedModels : Value;
  zombieCoderConnected : bool;
  consoleOutput : list string
}.

Definition initialState : State :=
  mkState VNull (VModels []) false
    [ "🤖 ZombieCoder Bengali Extension initialized";
      "🔗 ZombieCoder AI integration ready";
      "🔍 File indexing system ready";
      "🌐 MCP providers scanning...";
      "🎙️ Bengali voice system ready";
      "📋 Task & Todo manager active";
      "🔐 Privacy-first mode: All data stays local";
      "📁 Workspace: ~/Desktop/zombiecoder/" ].

Definition setActiveMCPProvider (v : Value) : M State unit :=
  modify (fun s => mkState v (detectedModels s) (zombieCoderConnected s) (consoleOutput s)).

Definition setDetectedModels (v : Value) : M State unit :=
  modify (fun s => mkState (activeMCPProvider s) v (zombieCoderConnected s) (consoleOutput s)).

Definition setConsoleOutput (f : list string -> list string) : M State unit :=
  modify (fun s => mkState (activeMCPProvider s) (detectedModels s) (zombieCoderConnected s)
                           (f (consoleOutput s))).

(** [xs.slice(-n)] for [n > 0]: the last [n] elements, all of them when
    there are fewer. *)
Definition sliceLast {A : Type} (n : nat) (xs : list A) : list A :=
  skipn (List.length xs - n) xs.

(** [addToConsole]; [timeString] is [toLocaleTimeString] of the browser's
    locale, applied to the instant. *)
Definition addToConsole (timeString : Z -> string) (message : string) : M State unit :=
  date <- dateNow ;;
  setConsoleOutput (fun prev =>
    (sliceLast 25 prev ++ [(timeString date ++ ": " ++ message)%string])%list).

Definition handleProviderChange (timeString : Z -> string) (providerId : Value)
  : M State unit :=
  setActiveMCPProvider providerId ;;
  if truthy providerId
  then addToConsole timeString ("🎯 MCP Provider activated: " ++ toString providerId)
  else addToConsole timeString "❌ No MCP provider available".

(** [models.filter((m) => m.status === "available").length]: a
    [TypeError] unless [models] is an array. *)
Definition countAvailable {S : Type} (models : Value) : M S nat :=
  match models with
  | VModels ms =>
      ret (List.length
             (filter (fun m => Detector.Status_eqb (Detector.status m) Detector.available) ms))
  | VNull | VString _ | VProvider _ | VModel _ => throw
  end.

(** [models.length], read once [models.filter] has returned. *)
Definition lengthOf (models : Value) : nat :=
  match models with
  | VModels ms => List.length ms
  | _ => 0%nat
  end.

Definition showNat (n : nat) : string := NilZero.string_of_uint (Nat.to_uint n).

Definition handleModelsDetected (timeString : Z -> string) (models : Value)
  : M State unit :=
  setDetectedModels models ;;
  availableCount <- countAvailable models ;;
  addToConsole timeString
    ("📦 Models detected: " ++ showNat availableCount ++ "/" ++
     showNat (lengthOf models) ++ " available").

(** ** What the render reads *)

(** [stats.modelsAvailable], computed in the body of every render: the
    render throws when it has no value. *)
Definition modelsAvailable (s : State) : option nat :=
  match countAvailable (detectedModels s) (mkWorld tt 0) with
  | Normal n _ => Some n
  | Thrown _ => None
  end.

(** [mcpActive], as passed to the agent executor. *)
Definition mcpActive (s : State) : bool :=
  truthy (activeMCPProvider s) || zombieCoderConnected s.

(** ** The props the page passes down *)

Definition outcome {S A : Type} (r : Res S A) : Outcome :=
  match r with
  | Normal _ _ => Returns
  | Thrown _ => Throws
  end.

Definition ofProvider (provider : option MCP.MCPProvider) : Value :=
  match provider with
  | Some p => VProvider p
  | None => VNull
  end.

Definition ofModel (model : option Detector.AIModel) : Value :=
  match model with
  | Some m => VModel m
  | None => VNull
  end.

(** [<MCPManager onProviderChange={handleProviderChange}
    onStatusUpdate={addToConsole} />], with the page in [page] when the
    component calls back. *)
Definition mcpProps (timeString : Z -> string) (page : World State) : MCP.MCPManagerProps :=
  MCP.mkProps
    (fun provider => outcome (handleProviderChange timeString (ofProvider provider) page))
    (fun message => outcome (addToConsole timeString message page)).

(** [<ModelDetector onModelChange={handleModelsDetected}
    onStatusUpdate={addToConsole} />] *)
Definition detectorProps (timeString : Z -> string) (page : World State)
  : Detector.ModelDetectorProps :=
  Detector.mkProps
    (fun model => outcome (handleModelsDetected timeString (ofModel model) page))
    (fun message => outcome (addToConsole timeString message page)).

End Page.

(* ================================================================== *)
(** * The page: console window and wiring *)
(* ================================================================== *)

Module PageBehaviour.
Import Async Page.

(** ** The console window *)

Lemma sliceLast_length {A : Type} (n : nat) (xs : list A) :
  List.length (sliceLast n xs) = Nat.min n (List.length xs).
Proof. unfold sliceLast. rewrite length_skipn. lia. Qed.

Lemma sliceLast_snoc {A : Type} (n : nat) (xs : list A) (x : A) :
  sliceLast (S n) (xs ++ [x]) = sliceLast n xs ++ [x].
Proof.
  unfold sliceLast. rewrite length_app. simpl.
  replace (List.length xs + 1 - S n)%nat with (List.length xs - n)%nat by lia.
  rewrite skipn_app.
  replace (List.length xs - n - List.length xs)%nat with 0%nat by lia.
  reflexivity.
Qed.

Lemma sliceLast_twice {A : Type} (n m : nat) (xs : list A) :
  (n <= m)%nat -> sliceLast n (sliceLast m xs) = sliceLast n xs.
Proof.
  intros H. unfold sliceLast. rewrite length_skipn, skipn_skipn. f_equal. lia.
Qed.

Lemma addToConsole_run timeString message (w : World State) :
  addToConsole timeString message w =
  Normal tt
    (mkWorld (mkState (activeMCPProvider (state w)) (detectedModels (state w))
                      (zombieCoderConnected (state w))
                      (sliceLast 25 (consoleOutput (state w)) ++
                       [timeString (now w) ++ ": " ++ message]%string))
             (now w)).
Proof. reflexivity. Qed.

(** The line [addToConsole] writes for [message] at the instant of [w]. *)
Definition stamped (timeString : Z -> string) (w : World State) (message : string)
  : string :=
  (timeString (now w) ++ ": " ++ message)%string.

(** X19: the console is a window on the log.  If it holds the last 26 lines
    of what has been logged so far, then after one more message it holds
    the last 26 lines of the longer log: the new line comes last, the
    oldest line is dropped once 26 are held, and nothing else on the page
    changes.  The call never throws. *)
Theorem console_holds_last_lines timeString message (w : World State)
    (history : list string) :
  consoleOutput (state w) = sliceLast 26 history ->
  exists w',
    addToConsole timeString message w = Normal tt w' /\
    now w' = now w /\
    activeMCPProvider (state w') = activeMCPProvider (state w) /\
    detectedModels (state w') = detectedModels (state w) /\
    consoleOutput (state w') = sliceLast 26 (history ++ [stamped timeString w message]) /\
    (List.length (consoleOutput (state w')) <= 26)%nat.
Proof.
  intros Hwin. rewrite addToConsole_run. eexists. split; [reflexivity|].
  cbn [state now activeMCPProvider detectedModels consoleOutput].
  repeat split.
  - rewrite Hwin, sliceLast_twice by lia. symmetry. apply sliceLast_snoc.
  - rewrite length_app, sliceLast_length. cbn [List.length]. lia.
Qed.

(** ** [handleProviderChange] *)

Lemma handleProviderChange_run timeString v (w : World State) :
  handleProviderChange timeString v w =
  Normal tt
    (mkWorld
       (mkState v (detectedModels (state w)) (zombieCoderConnected (state w))
          (sliceLast 25 (consoleOutput (state w)) ++
           [stamped timeString w
              (if truthy v then "🎯 MCP Provider activated: " ++ toString v
               else "❌ No MCP provider available")%string]))
       (now w)).
Proof. unfold handleProviderChange, stamped. destruct (truthy v); reflexivity. Qed.

(** X20: [handleProviderChange] never throws, stores what it is handed and
    makes [mcpActive] say whether that was a provider.  Handed a provider
    record, which is what MCPManager hands it, the line it logs is the same
    for every provider: it names none. *)
Theorem provider_change_logs_no_name timeString (w : World State) :
  (forall v, exists w',
     handleProviderChange timeString v w = Normal tt w' /\
     activeMCPProvider (state w') = v /\
     detectedModels (state w') = detectedModels (state w) /\
     mcpActive (state w') = truthy v || zombieCoderConnected (state w)) /\
  (forall provider : option MCP.MCPProvider,
     mcpActive (state (finalWorld (handleProviderChange timeString (ofProvider provider) w))) =
     match provider with Some _ => true | None => zombieCoderConnected (state w) end) /\
  (forall p q : MCP.MCPProvider,
     consoleOutput (state (finalWorld (handleProviderChange timeString (VProvider p) w))) =
     consoleOutput (state (finalWorld (handleProviderChange timeString (VProvider q) w)))).
Proof.
  split; [|split].
  - intros v. rewrite handleProviderChange_run. eexists. split; [reflexivity|].
    repeat split.
  - intros provider. rewrite handleProviderChange_run. now destruct provider.
  - intros p q. rewrite !handleProviderChange_run. reflexivity.
Qed.

(** ** [handleModelsDetected] *)

(** X21: [handleModelsDetected] works on an array and on nothing else.
    Handed what ModelDetector hands it, a model record or [null], it stores
    the value in [detectedModels] and then throws before it logs anything;
    from then on the page cannot render, since every render computes
    [stats.modelsAvailable] from [detectedModels] in the same way.  Handed
    an array it returns, and the render shows the number of available
    models, which is at most the length of the array. *)
Theorem models_detected_needs_array timeString (w : World State) :
  (forall model : option Detector.AIModel, exists w',
     handleModelsDetected timeString (ofModel model) w = Thrown w' /\
     detectedModels (state w') = ofModel model /\
     consoleOutput (state w') = consoleOutput (state w) /\
     modelsAvailable (state w') = None) /\
  (forall ms : list Detector.AIModel, exists w' n,
     handleModelsDetected timeString (VModels ms) w = Normal tt w' /\
     detectedModels (state w') = VModels ms /\
     modelsAvailable (state w') = Some n /\
     (n <= List.length ms)%nat /\
     (n = List.length ms <->
      forall m, In m ms -> Detector.status m = Detector.available)).
Proof.
  split.
  - intros model. eexists. split; [destruct model; reflexivity|].
    destruct model; repeat split.
  - intros ms. eexists. eexists. split; [reflexivity|]. split; [reflexivity|].
    split; [reflexivity|]. split; [apply filter_length_le|].
    split.
    + intros Hlen m Hm.
      assert (Hf : filter (fun m => Detector.Status_eqb (Detector.status m) Detector.available)
                     ms = ms).
      { clear m Hm. induction ms as [|x ms IH]; [reflexivity|]. simpl in *.
        destruct (Detector.Status_eqb (Detector.status x) Detector.available) eqn:E.
        - simpl in Hlen. f_equal. apply IH. lia.
        - pose proof (filter_length_le
                        (fun m => Detector.Status_eqb (Detector.status m) Detector.available)
                        ms). lia. }
      rewrite <- Hf in Hm. apply filter_In in Hm. destruct Hm as [_ Hm].
      now destruct (Detector.status m).
    + intros Hall. f_equal. apply forallb_filter_id. apply forallb_forall.
      intros m Hm. now rewrite (Hall m Hm).
Qed.

(** ** The components as the page wires them *)

Lemma mcpProps_quiet timeString (page : World State) :
  MCPFacts.quiet (mcpProps timeString page).
Proof.
  split.
  - intros v. simpl. now rewrite handleProviderChange_run.
  - intros m. reflexivity.
Qed.

(** X22: wired to the page, MCPManager never sees a callback throw: every
    scan, connect, disconnect and health check returns normally, and in
    particular a scan always clears [isScanning]. *)
Theorem wired_provider_operations_return timeString (page : World State)
    (a : MCPFacts.Action) (w : World MCP.State) :
  let props := mcpProps timeString page in
  MCPBehaviour.operation props a w = Normal tt (MCPFacts.perform props a w) /\
  forall envs, a = MCPFacts.Scan envs ->
               MCP.isScanning (state (MCPFacts.perform props a w)) = false.
Proof.
  cbv zeta. split.
  - apply MCPBehaviour.operation_quiet, mcpProps_quiet.
  - intros envs ->. simpl.
    now rewrite (MCPFacts.scanProviders_quiet _ _ _ (mcpProps_quiet timeString page)).
Qed.

(** X23: wired to the page, ModelDetector's model-change callback always
    throws.  So every scan ends in an exception once its probes are done
    and its selection is written, and leaves [isScanning] set, which keeps
    the scan button disabled; and every selection of an available model is
    written and then ends in an exception, before its status line. *)
Theorem wired_model_selection_throws timeString (page : World State)
    (w : World Detector.State) :
  let props := detectorProps timeString page in
  (forall model, Detector.onModelChange props model = Throws) /\
  (forall envs, exists w',
     Detector.scanModels props envs w = Thrown w' /\
     Detector.isScanning (state w') = true /\
     state w' = DetectorFacts.withIsScanning
                  (state (DetectorFacts.scanned props envs w)) true) /\
  (forall model, Detector.status model = Detector.available -> exists w',
     Detector.selectModel props model w = Thrown w' /\
     Detector.activeModel (state w') = Some model /\
     Detector.models (state w') = Detector.models (state w)).
Proof.
  cbv zeta.
  assert (Hc : forall model, Detector.onModelChange (detectorProps timeString page) model
                             = Throws) by (intros [m|]; reflexivity).
  assert (Hs : forall m, Detector.onStatusUpdate (detectorProps timeString page) m
                         = Returns) by reflexivity.
  split; [exact Hc|]. split.
  - intros envs. eexists. split.
    + apply DetectorBehaviour.scanModels_change_throws; assumption.
    + split; reflexivity.
  - intros model Hst. eexists. split.
    + apply DetectorBehaviour.selectModel_change_throws; assumption.
    + split; reflexivity.
Qed.

(** ** Worked instances *)

Definition clock (t : Z) : string := MCP.showZ t.

Definition mountedPage : World State := mkWorld initialState 0.

Lemma console_holds_last_lines_witness :
  exists w',
    addToConsole clock "ready" mountedPage = Normal tt w' /\
    List.length (consoleOutput (state w')) = 9%nat.
Proof.
  destruct (console_holds_last_lines clock "ready" mountedPage
              (consoleOutput initialState)) as [w' [H1 [_ [_ [_ [H2 _]]]]]].
  - reflexivity.
  - exists w'. split; [exact H1|]. rewrite H2. reflexivity.
Defined.

Lemma wired_provider_operations_witness :
  MCP.isScanning
    (state (MCPFacts.perform (mcpProps clock mountedPage)
              (MCPFacts.Scan (fun _ => Scenarios.bothUp)) Scenarios.mounted)) = false.
Proof.
  apply (proj2 (wired_provider_operations_return clock mountedPage
                  (MCPFacts.Scan (fun _ => Scenarios.bothUp)) Scenarios.mounted)
               (fun _ => Scenarios.bothUp)).
  reflexivity.
Defined.

Lemma wired_model_selection_throws_witness :
  exists w',
    Detector.selectModel (detectorProps clock mountedPage)
      DetectorBehaviour.firstModel DetectorBehaviour.afterModelScan = Thrown w' /\
    Detector.activeModel (state w') = Some DetectorBehaviour.firstModel.
Proof.
  destruct (proj2 (proj2 (wired_model_selection_throws clock mountedPage
                            DetectorBehaviour.afterModelScan))
              DetectorBehaviour.firstModel) as [w' [H1 [H2 _]]].
  - vm_compute. reflexivity.
  - exists w'. now split.
Defined.


End PageBehaviour.

(* ================================================================== *)
(** * What a scan selects, and what the next scan selects *)
(* ================================================================== *)

Module Selection.
Import Async.

(** ** A scan with something reachable *)

(** The registry of the model detector is the built-in one.
    [initializeModels] is the only writer of the list as a whole, the
    probes and the benchmark rewrite status, sample and score of a model,
    and nothing rewrites a model's capabilities or its [bengaliScore]. *)
Definition builtinRegistry (s : Detector.State) : Prop :=
  map (fun m => (Detector.bengaliSupport (Detector.capabilities m), Detector.bengaliScore m))
      (Detector.models s) =
  map (fun m => (Detector.bengaliSupport (Detector.capabilities m), Detector.bengaliScore m))
      (Detector.initialModels 0).

(** The model passes the filter the detector has switched on. *)
Definition passesFilter (s : Detector.State) (m : Detector.AIModel) : Prop :=
  Detector.filterBengali s = true ->
  Detector.bengaliSupport (Detector.capabilities m) = true.

(** What a provider scan started in [w] writes: a record of the registry
    whose own probe in this scan resolved to [true]. *)
Definition selectsReachableProvider (props : MCP.MCPManagerProps)
    (envs : nat -> MCP.ProbeEnv) (w : World MCP.State) : Prop :=
  exists best k,
    MCP.activeProvider (state (finalWorld (MCP.scanProviders props envs w))) = Some best /\
    nth_error (MCP.providers (state w)) k = Some best /\
    MCPFacts.reachable props (MCP.connectionTimeout (state w)) best (envs k) = true.

(** What a model scan started in [w] writes: a record of the registry
    whose own probe in this scan resolved to [true] and which passes the
    filter. *)
Definition selectsReachableModel (props : Detector.ModelDetectorProps)
    (envs : nat -> Detector.TestEnv) (w : World Detector.State) : Prop :=
  exists best k,
    Detector.activeModel (state (finalWorld (Detector.scanModels props envs w))) = Some best /\
    nth_error (Detector.models (state w)) k = Some best /\
    DetectorFacts.reachable props best (envs k) = true /\
    passesFilter (state w) best.

(** C1.  A scan that gets past its first status update, over a registry in
    which the probe of at least one endpoint passing the active filter
    resolves to [true], writes a non-null selection: a record of the
    registry whose own probe in this scan resolved to [true] and which
    passes the filter.  [scanProviders] has no filter.  [scanModels] ranks
    on [bengaliScore] when the Bengali filter is on; in the built-in
    registry, the only one the detector holds, every model that supports
    Bengali outranks every model that does not, so the model ranked first
    supports Bengali as soon as one that does is reachable.  The selection
    is written before the callbacks are told, whatever they do then; and
    the status callback the page passes to both components always
    returns. *)
Theorem scan_selects_reachable_within_filter :
  (forall props envs (w : World MCP.State),
     MCP.onStatusUpdate props "🔍 Scanning for MCP providers..."%string = Returns ->
     MCPFacts.someReachable props envs (state w) ->
     selectsReachableProvider props envs w) /\
  (forall props envs (w : World Detector.State),
     Detector.onStatusUpdate props "🔍 Scanning for AI models..."%string = Returns ->
     builtinRegistry (state w) ->
     (exists k c, nth_error (Detector.models (state w)) k = Some c /\
                  DetectorFacts.reachable props c (envs k) = true /\
                  passesFilter (state w) c) ->
     selectsReachableModel props envs w) /\
  (forall timeString page message,
     MCP.onStatusUpdate (Page.mcpProps timeString page) message = Returns /\
     Detector.onStatusUpdate (Page.detectorProps timeString page) message = Returns).
Proof.
  split; [|split].
  - intros props envs w Hs Hsome.
    unfold selectsReachableProvider.
    destruct (MCPBehaviour.scanProviders_started props envs w Hs) as [v ->].
    destruct (MCPFacts.scanned_best props envs w Hsome) as [best [Hact [[k [Hk Hr]] _]]].
    exists best, k. split; [exact Hact|]. now split.
  - intros props envs w Hs Hreg [k [c [Hk [Hr Hpass]]]].
    unfold selectsReachableModel.
    destruct (DetectorBehaviour.scanModels_started props envs w Hs) as [v ->].
    destruct (DetectorFacts.scanned_best_model props envs w)
      as [best [Hact [[kb [Hkb Hrb]] Hmax]]]; [exists k, c; now split|].
    exists best, kb. split; [exact Hact|]. split; [exact Hkb|]. split; [exact Hrb|].
    intros Hfb.
    destruct (Detector.bengaliSupport (Detector.capabilities best)) eqn:Hbest;
      [reflexivity|exfalso].
    pose proof (Properties.builtin_supporting_outrank _ c best Hreg
                  (nth_error_In _ _ Hk) (nth_error_In _ _ Hkb) (Hpass Hfb) Hbest) as Hlt.
    pose proof (Hmax k c Hk Hr) as Hle. rewrite Hfb in Hle.
    unfold DetectorFacts.rankingScore in Hle. lia.
  - intros timeString page message. split; reflexivity.
Qed.

(** ** A scan with nothing reachable *)

Lemma scanned_without_reachable props envs (w : World Detector.State) :
  DetectorFacts.noneReachable props envs (state w) ->
  Detector.activeModel (state (DetectorFacts.scanned props envs w)) = None.
Proof.
  intros Hnone. unfold DetectorFacts.scanned, DetectorFacts.bestOf. simpl.
  now rewrite (DetectorFacts.availableModels_none _ _ _ Hnone).
Qed.

(** C2.  When no probe of a scan resolves to [true], the scan writes a null
    selection.  [scanProviders], with the callbacks the page passes it,
    then returns normally.  [scanModels] returns normally when the
    model-change callback it is given returns; but the page passes it
    [handleModelsDetected], which is written for an array and throws when
    handed [null]: as the page mounts it, a scan that finds no model ends
    in that exception, after the null selection is written and with
    [isScanning] still set. *)
Theorem scan_without_reachable_as_wired :
  (forall timeString page envs (w : World MCP.State),
     MCPFacts.noneReachable (Page.mcpProps timeString page) envs (state w) ->
     exists w',
       MCP.scanProviders (Page.mcpProps timeString page) envs w = Normal tt w' /\
       MCP.activeProvider (state w') = None /\
       MCP.isScanning (state w') = false) /\
  (forall props envs (w : World Detector.State),
     DetectorFacts.scanCallbacksReturn props ->
     DetectorFacts.noneReachable props envs (state w) ->
     exists w',
       Detector.scanModels props envs w = Normal tt w' /\
       Detector.activeModel (state w') = None /\
       Detector.isScanning (state w') = false) /\
  (forall timeString page envs (w : World Detector.State),
     DetectorFacts.noneReachable (Page.detectorProps timeString page) envs (state w) ->
     exists w',
       Detector.scanModels (Page.detectorProps timeString page) envs w = Thrown w' /\
       Detector.activeModel (state w') = None /\
       Detector.isScanning (state w') = true).
Proof.
  split; [|split].
  - intros timeString page envs w Hnone.
    destruct (PageBehaviour.mcpProps_quiet timeString page) as [Hc Hs].
    destruct (MCPFacts.scanProviders_none (Page.mcpProps timeString page) envs w)
      as [Hrun Hact]; [repeat split; auto|exact Hnone|].
    eexists. split; [exact Hrun|]. split; [exact Hact|reflexivity].
  - intros props envs w Hcb Hnone.
    destruct (DetectorFacts.scanModels_none props envs w Hcb Hnone) as [Hrun Hact].
    eexists. split; [exact Hrun|]. split; [exact Hact|reflexivity].
  - intros timeString page envs w Hnone.
    eexists. split.
    + apply DetectorBehaviour.scanModels_change_throws.
      * reflexivity.
      * intros [m|]; reflexivity.
    + split; [|reflexivity]. simpl. now apply scanned_without_reachable.
Qed.

(** ** Two scans in a row *)

(** A probe reads only the descriptor of the record it is called with. *)
Lemma reachable_descriptor props timeout (p q : MCP.MCPProvider) env :
  MCPBehaviour.descriptor p = MCPBehaviour.descriptor q ->
  MCPFacts.reachable props timeout p env = MCPFacts.reachable props timeout q env.
Proof.
  unfold MCPBehaviour.descriptor. intros H.
  assert (Hn : MCP.name p = MCP.name q) by congruence.
  assert (Ht : MCP.type p = MCP.type q) by congruence.
  assert (He : MCP.endpoint p = MCP.endpoint q) by congruence.
  clear H.
  unfold MCPFacts.reachable, MCPFacts.blank, MCPFacts.valueOf.
  unfold MCP.testConnection, MCP.setProviders, bind, tryCatch, call, ret, throw, gets,
    modify, dateNow, sleep, fetchWithAbort.
  cbn [state now MCP.providers map].
  rewrite Hn, Ht, He.
  destruct (MCP.onStatusUpdate props _); [|reflexivity].
  destruct (MCP.type q); cbn.
  - destruct (MCP.network env _) as [d ok|d|]; cbn;
      [ destruct (Z.of_N d <? _); cbn; [destruct ok|]; reflexivity
      | destruct (Z.of_N d <? _); reflexivity
      | reflexivity ].
  - reflexivity.
  - destruct (_ <? _)%float; reflexivity.
Qed.

Section SortMap.
Context {A : Type}.
Variable cmp : A -> A -> Z.
Variable g : A -> A.
Hypothesis cmp_g : forall a b, cmp (g a) (g b) = cmp a b.

Lemma insert_map (x : A) (l : list A) :
  JS.insert cmp (g x) (map g l) = map g (JS.insert cmp x l).
Proof.
  induction l as [|y l IH]; simpl; [reflexivity|].
  rewrite cmp_g. destruct (cmp x y <=? 0); simpl; [reflexivity|]. now rewrite IH.
Qed.

Lemma sort_map (l : list A) : JS.sort cmp (map g l) = map g (JS.sort cmp l).
Proof.
  induction l as [|x l IH]; simpl; [reflexivity|]. now rewrite IH, insert_map.
Qed.

End SortMap.

Lemma filteri_from_map {A : Type} (f : nat -> bool) (g : A -> A) (l : list A) : forall i,
  JS.filteri_from i (fun _ index => f index) (map g l) =
  map g (JS.filteri_from i (fun _ index => f index) l).
Proof.
  induction l as [|x l IH]; intros i; simpl; [reflexivity|].
  rewrite IH. now destruct (f i).
Qed.

Lemma mapi_from_map {A B : Type} (f f' : nat -> A -> B) (g : A -> A) (l : list A) :
  (forall i x, f i (g x) = f' i x) ->
  forall i, JS.mapi_from i f (map g l) = JS.mapi_from i f' l.
Proof.
  intros H. induction l as [|x l IH]; intros i; simpl; [reflexivity|].
  now rewrite H, IH.
Qed.

(** The provider a scan started in [w] selects. *)
Definition selected (props : MCP.MCPManagerProps) (envs : nat -> MCP.ProbeEnv)
    (w : World MCP.State) : option MCP.MCPProvider :=
  MCP.activeProvider (state (finalWorld (MCP.scanProviders props envs w))).

(** Two provider scans in a row, the second started (at any time) from the
    state the first left, with the same probe outcomes: the second selects
    the record that took the place of the one the first selected. *)
Lemma second_provider_scan props envs (w : World MCP.State) (t : Z) :
  MCP.onStatusUpdate props "🔍 Scanning for MCP providers..."%string = Returns ->
  let w1 := finalWorld (MCP.scanProviders props envs w) in
  option_map (fun p => (MCP.id p, MCP.priority p)) (selected props envs (mkWorld (state w1) t)) =
  option_map (fun p => (MCP.id p, MCP.priority p)) (selected props envs w).
Proof.
  intros Hs. cbv zeta. unfold selected.
  destruct (MCPBehaviour.scanProviders_started props envs
              (mkWorld (state (finalWorld (MCP.scanProviders props envs w))) t) Hs)
    as [v2 ->].
  destruct (MCPBehaviour.scanProviders_started props envs w Hs) as [v1 ->].
  unfold MCPFacts.scanned, MCPFacts.withIsScanning.
  cbn [state now MCP.providers MCP.connectionTimeout MCP.activeProvider].
  set (ps := MCP.providers (state w)).
  set (timeout := MCP.connectionTimeout (state w)).
  rewrite map_map.
  set (g := fun p => MCPFacts.settleBy props timeout envs (now w) 0 ps
                       (MCP.withStatus p MCP.connecting)).
  assert (Hg : forall p, MCPBehaviour.descriptor (g p) = MCPBehaviour.descriptor p).
  { intros p. unfold g. now rewrite MCPBehaviour.settleBy_descriptor. }
  assert (Hkey : forall p, MCP.id (g p) = MCP.id p /\ MCP.priority (g p) = MCP.priority p).
  { intros p. pose proof (Hg p) as H. unfold MCPBehaviour.descriptor in H.
    inversion H. now split. }
  assert (Hres : MCPFacts.scanResults props timeout envs (map g ps) =
                 MCPFacts.scanResults props timeout envs ps).
  { unfold MCPFacts.scanResults, JS.mapi. apply mapi_from_map.
    intros i x. f_equal. apply reachable_descriptor. apply Hg. }
  rewrite Hres. unfold MCP.connectedProviders, JS.filteri.
  rewrite filteri_from_map, sort_map by (intros a b; now rewrite !(proj2 (Hkey _))).
  destruct (JS.sort _ _) as [|b l]; simpl; [reflexivity|].
  destruct (Hkey b) as [-> ->]. reflexivity.
Qed.

(** The model a scan started in [w] selects: its id, and its
    [overallScore], which is the score the status line prints. *)
Definition selectedModel (props : Detector.ModelDetectorProps)
    (envs : nat -> Detector.TestEnv) (w : World Detector.State) : option (string * Z) :=
  option_map (fun m => (Detector.id m, Detector.overallScore m))
    (Detector.activeModel (state (finalWorld (Detector.scanModels props envs w)))).

(** The two components with the callbacks the page passes them. *)
Definition wiredDetector : Detector.ModelDetectorProps :=
  Page.detectorProps PageBehaviour.clock PageBehaviour.mountedPage.

Definition wiredManager : MCP.MCPManagerProps :=
  Page.mcpProps PageBehaviour.clock PageBehaviour.mountedPage.

(** Every endpoint answers in 50 ms; the draws give a model a low sample
    ([lowDraws]) or a high one ([highDraws]). *)
Definition lowDraws : Detector.TestEnv :=
  Detector.mkTestEnv (fun _ => Responds 50 true) 0.9%float 0%float 0%float
                     0.5%float 0.5%float.

Definition highDraws : Detector.TestEnv :=
  Detector.mkTestEnv (fun _ => Responds 50 true) 0.9%float 0.99%float 0.99%float
                     0.5%float 0.5%float.

(** The second model of the registry, Llama 3, draws the high sample and
    the others the low one. *)
Definition favourSecond (i : nat) : Detector.TestEnv :=
  if (i =? 1)%nat then highDraws else lowDraws.

(** C8.  Two scans in a row over the same probe outcomes.  For providers
    the second scan selects the provider the first selected (same id, same
    priority): the ranking reads only the priority, which nothing rewrites.
    For models the ranking and the status line read the [overallScore] of
    the records as they stood when the scan started, not the scores its own
    probes have just stored.  So with the built-in registry, callbacks that
    return, every endpoint answering and the same values drawn in both
    scans, the first scan selects ZombieCoder with score 0 and the second
    ZombieCoder with score 84; and with draws that score Llama 3 above
    ZombieCoder, the first scan still selects ZombieCoder (all stored
    scores are 0 and the sort is stable) and the second, on the same
    outcomes and draws, Llama 3. *)
Theorem second_scan_ranks_on_stored_scores :
  (forall props envs (w : World MCP.State) (t : Z),
     MCP.onStatusUpdate props "🔍 Scanning for MCP providers..."%string = Returns ->
     let w1 := finalWorld (MCP.scanProviders props envs w) in
     option_map (fun p => (MCP.id p, MCP.priority p))
                (selected props envs (mkWorld (state w1) t)) =
     option_map (fun p => (MCP.id p, MCP.priority p)) (selected props envs w)) /\
  (let props := DetectorFacts.quietProps in
   let envs := fun _ : nat => Scenarios.allUp in
   let w1 := finalWorld (Detector.scanModels props envs Scenarios.loaded) in
   selectedModel props envs Scenarios.loaded = Some ("zombiecoder-bengali-v1"%string, 0) /\
   selectedModel props envs w1 = Some ("zombiecoder-bengali-v1"%string, 84)) /\
  (let props := DetectorFacts.quietProps in
   let w1 := finalWorld (Detector.scanModels props favourSecond Scenarios.loaded) in
   selectedModel props favourSecond Scenarios.loaded =
     Some ("zombiecoder-bengali-v1"%string, 0) /\
   selectedModel props favourSecond w1 = Some ("ollama-llama3-8b"%string, 84)).
Proof.
  split; [|split].
  - intros props envs w t Hs. now apply second_provider_scan.
  - vm_compute. split; reflexivity.
  - vm_compute. split; reflexivity.
Qed.

(** ** Worked instances *)

(** The detector with its built-in registry and the Bengali filter on. *)
Definition filteringBuiltin : World Detector.State :=
  mkWorld (Detector.mkState (Detector.models (state Scenarios.loaded)) None false true
                            false true) 0.

(** With the callbacks the page passes: the provider scan with both local
    daemons up, and the model scan with the filter on and every endpoint
    up. *)
Lemma scan_selects_reachable_within_filter_witness :
  selectsReachableProvider wiredManager (fun _ => Scenarios.bothUp) Scenarios.mounted /\
  selectsReachableModel wiredDetector (fun _ => Scenarios.allUp) filteringBuiltin.
Proof.
  split.
  - apply (proj1 scan_selects_reachable_within_filter wiredManager
                 (fun _ => Scenarios.bothUp) Scenarios.mounted).
    + reflexivity.
    + exists 0%nat, Scenarios.zombiecoderLocal. split; vm_compute; reflexivity.
  - apply (proj1 (proj2 scan_selects_reachable_within_filter) wiredDetector
                 (fun _ => Scenarios.allUp) filteringBuiltin).
    + reflexivity.
    + reflexivity.
    + exists 0%nat. eexists. split; [reflexivity|].
      split; [vm_compute; reflexivity|]. intros _. reflexivity.
Defined.

(** With every request hanging and the cloud draw failing, the provider
    scan, as the page mounts it, ends with no selection, and so does the
    model scan under callbacks that return; as the page mounts it, the
    model scan throws. *)
Lemma scan_without_reachable_as_wired_witness :
  (exists w',
     MCP.scanProviders wiredManager (fun _ => Scenarios.allHang) Scenarios.mounted
       = Normal tt w' /\
     MCP.activeProvider (state w') = None /\
     MCP.isScanning (state w') = false) /\
  (exists w',
     Detector.scanModels DetectorFacts.quietProps (fun _ => Scenarios.noneUp) Scenarios.loaded
       = Normal tt w' /\
     Detector.activeModel (state w') = None /\
     Detector.isScanning (state w') = false) /\
  (exists w',
     Detector.scanModels wiredDetector (fun _ => Scenarios.noneUp) Scenarios.loaded
       = Thrown w' /\
     Detector.activeModel (state w') = None /\
     Detector.isScanning (state w') = true).
Proof.
  split; [|split].
  - apply (proj1 scan_without_reachable_as_wired PageBehaviour.clock
                 PageBehaviour.mountedPage (fun _ => Scenarios.allHang) Scenarios.mounted).
    intros k p Hk.
    do 4 (destruct k as [|k]; [inversion Hk; subst; vm_compute; reflexivity|]).
    destruct k; discriminate.
  - apply (proj1 (proj2 scan_without_reachable_as_wired) DetectorFacts.quietProps
                 (fun _ => Scenarios.noneUp) Scenarios.loaded).
    + repeat split.
    + intros k m Hk.
      do 4 (destruct k as [|k]; [inversion Hk; subst; vm_compute; reflexivity|]).
      destruct k; discriminate.
  - apply (proj2 (proj2 scan_without_reachable_as_wired) PageBehaviour.clock
                 PageBehaviour.mountedPage (fun _ => Scenarios.noneUp) Scenarios.loaded).
    intros k m Hk.
    do 4 (destruct k as [|k]; [inversion Hk; subst; vm_compute; reflexivity|]).
    destruct k; discriminate.
Defined.

Lemma second_scan_ranks_on_stored_scores_witness :
  option_map (fun p => (MCP.id p, MCP.priority p))
    (selected wiredManager (fun _ => Scenarios.bothUp)
       (mkWorld (state (finalWorld (MCP.scanProviders wiredManager (fun _ => Scenarios.bothUp)
                                                      Scenarios.mounted))) 3000)) =
  option_map (fun p => (MCP.id p, MCP.priority p))
    (selected wiredManager (fun _ => Scenarios.bothUp) Scenarios.mounted).
Proof.
  apply (proj1 second_scan_ranks_on_stored_scores wiredManager (fun _ => Scenarios.bothUp)
               Scenarios.mounted 3000).
  reflexivity.
Defined.

End Selection.

(* ================================================================== *)
(** * MCPManager as React runs it: awaits, effects and timers *)
(* ================================================================== *)

(** The component between two renders is its state cells, the calls of
    [testConnection] that are at their await, and the handlers that await
    them.  An event is a timer firing, an await settling or an input of the
    user; it runs one piece of code, from a closure that holds the cells of
    the last render, up to the next await, and then React renders and runs
    the effects whose dependencies changed.

    - Time is a logical clock in milliseconds.  Code and rendering take no
      time: the effects of an event are in place before the next event.
    - A timer fires, and an await settles, at the instant it is due; what
      is due at the same instant may come in any order.
    - The callbacks received as props are the same functions at every
      render, as the page's are ([useCallback] with constant
      dependencies), so they re-run no effect. *)

Module Mount.
Import Async.
Local Open Scope string_scope.
Local Open Scope async_scope.

(** ** Objects and state cells *)

(** An object held in a state cell: the record, and what identifies the
    object when React compares a cell or a dependency with [Object.is],
    namely the write to [providers] that built it and its place in the
    array that write built (place [k] of the initial array for write 0). *)
Record Object : Type := mkObject {
  builtBy : nat;
  place : nat;
  record : MCP.MCPProvider
}.

Definition sameObject (a b : option Object) : bool :=
  match a, b with
  | Some x, Some y => (builtBy x =? builtBy y)%nat && (place x =? place y)%nat
  | None, None => true
  | _, _ => false
  end.

(** The [useState] cells; [providersNo] identifies the array in
    [providers]: it is the number of the write that built it. *)
Record Cells : Type := mkCells {
  providers : list Object;
  providersNo : nat;
  activeProvider : option Object;
  isScanning : bool;
  autoFallback : bool;
  connectionTimeout : Z;
  retryAttempts : Z
}.

(** The cells as [MCP.State] has them, identities forgotten. *)
Definition shown (c : Cells) : MCP.State :=
  MCP.mkState (map record (providers c)) (option_map record (activeProvider c))
              (isScanning c) (autoFallback c) (connectionTimeout c) (retryAttempts c).

(** ** What is awaited *)

(** Who called [testConnection]: scan number [call] for the provider at
    [index], connect number [call], or the health-check interval. *)
Inductive Owner : Type :=
| ByScan (call index : nat)
| ByConnect (call : nat)
| ByHealthCheck.

(** A [testConnection(provider)] call at its await, with what its closure
    holds and what it will meet outside. *)
Record Probe : Type := mkProbe {
  owner : Owner;
  target : MCP.MCPProvider;
  timeout : Z;
  env : MCP.ProbeEnv;
  startTime : Z
}.

(** A handler at its await: [scanProviders] at line 173 with the
    [providers] of its closure and the promises settled so far, or
    [connectToProvider] at line 202 with its argument and the [providers]
    and [autoFallback] of its closure. *)
Inductive Suspended : Type :=
| AtAllSettled (call : nat) (providers0 : list Object) (results : list (option bool))
| AtTestConnection (call : nat) (provider : Object) (providers0 : list Object)
                   (autoFallback0 : bool).

(** What has happened, oldest first: an entry for every [testConnection]
    call, for every value one resolves to, and for every
    [setActiveProvider]. *)
Inductive Entry : Type :=
| Started (time : Z) (owner : Owner) (id : string)
| Settled (time : Z) (owner : Owner) (id : string) (value : bool)
| Selected (time : Z) (id : option string).

(** What the handlers see and change. *)
Record Component : Type := mkComponent {
  cells : Cells;
  probes : list Probe;
  suspended : list Suspended;
  probesStarted : nat;
  calls : nat;
  trace : list Entry
}.

(** The component with the timers its two effects hold: the instant at
    which the auto-scan timeout is due and the instant at which the
    health-check interval next fires, [None] when there is none. *)
Record Mounted : Type := mkMounted {
  component : Component;
  scanTimer : option Z;
  healthTimer : option Z
}.

(** ** State updates *)

Definition onCells (f : Cells -> Cells) : M Component unit :=
  modify (fun m => mkComponent (f (cells m)) (probes m) (suspended m) (probesStarted m)
                               (calls m) (trace m)).

Definition log (entry : Z -> Entry) : M Component unit :=
  fun w =>
    let m := state w in
    Normal tt (mkWorld (mkComponent (cells m) (probes m) (suspended m) (probesStarted m)
                                    (calls m) (trace m ++ [entry (now w)])%list)
                       (now w)).

(** [setProviders((prev) => prev.map((p) => ...))]: write number
    [providersNo + 1] builds a new array; [rebuild p] is the record of the
    new object the callback builds for [p], [None] where it returns [p]
    itself. *)
Definition setProviders (rebuild : MCP.MCPProvider -> option MCP.MCPProvider)
  : M Component unit :=
  onCells (fun c =>
    let n := S (providersNo c) in
    mkCells (map (fun o => match rebuild (record o) with
                           | Some r => mkObject n (place o) r
                           | None => o
                           end) (providers c))
            n (activeProvider c) (isScanning c) (autoFallback c) (connectionTimeout c)
            (retryAttempts c)).

Definition setActiveProvider (v : option Object) : M Component unit :=
  onCells (fun c => mkCells (providers c) (providersNo c) v (isScanning c) (autoFallback c)
                            (connectionTimeout c) (retryAttempts c)) ;;
  log (fun t => Selected t (option_map (fun o => MCP.id (record o)) v)).

Definition setIsScanning (v : bool) : M Component unit :=
  onCells (fun c => mkCells (providers c) (providersNo c) (activeProvider c) v
                            (autoFallback c) (connectionTimeout c) (retryAttempts c)).

Definition setAutoFallback (v : bool) : M Component unit :=
  onCells (fun c => mkCells (providers c) (providersNo c) (activeProvider c) (isScanning c)
                            v (connectionTimeout c) (retryAttempts c)).

Definition setConnectionTimeout (v : Z) : M Component unit :=
  onCells (fun c => mkCells (providers c) (providersNo c) (activeProvider c) (isScanning c)
                            (autoFallback c) v (retryAttempts c)).

Definition setProbes (f : list Probe -> list Probe) : M Component unit :=
  modify (fun m => mkComponent (cells m) (f (probes m)) (suspended m) (probesStarted m)
                               (calls m) (trace m)).

Definition setSuspended (f : list Suspended -> list Suspended) : M Component unit :=
  modify (fun m => mkComponent (cells m) (probes m) (f (suspended m)) (probesStarted m)
                               (calls m) (trace m)).

(** The number of this call of an async handler. *)
Definition newCall : M Component nat :=
  fun w =>
    let m := state w in
    Normal (calls m)
           (mkWorld (mkComponent (cells m) (probes m) (suspended m) (probesStarted m)
                                 (S (calls m)) (trace m))
                    (now w)).

(** ** [testConnection], cut at its await *)

(** [testConnection(provider)] up to its await.  The call is number
    [probesStarted]; outside it meets [outside probesStarted].  The status
    update it makes first, and what follows from it, are in [due] and
    [value]: a call whose status update throws, or whose provider is
    neither local nor cloud, awaits nothing, and settles at the instant it
    was made. *)
Definition testConnection (outside : nat -> MCP.ProbeEnv) (owner : Owner)
    (provider : MCP.MCPProvider) (connectionTimeout0 : Z) : M Component unit :=
  startTime <- dateNow ;;
  (fun w =>
     let m := state w in
     Normal tt
       (mkWorld (mkComponent (cells m)
                   (probes m ++ [mkProbe owner provider connectionTimeout0
                                         (outside (probesStarted m)) startTime])%list
                   (suspended m) (S (probesStarted m)) (calls m) (trace m))
                (now w))) ;;
  log (fun t => Started t owner (MCP.id provider)).

(** The instant the await settles, and the value the call resolves to
    ([MCPFacts.testConnection_run]). *)
Definition due (props : MCP.MCPManagerProps) (p : Probe) : Z :=
  startTime p + MCPFacts.elapsed props (timeout p) (target p) (env p).

Definition value (props : MCP.MCPManagerProps) (p : Probe) : bool :=
  MCPFacts.reachable props (timeout p) (target p) (env p).

(** [testConnection] from its await on: its one [setProviders], which
    rebuilds the records carrying the provider's id, and its result. *)
Definition resumeTestConnection (props : MCP.MCPManagerProps) (p : Probe)
  : M Component bool :=
  setProviders (fun q =>
    if MCP.id q =? MCP.id (target p)
    then Some (MCPFacts.settle props (timeout p) (target p) (env p) (startTime p) q)
    else None) ;;
  log (fun t => Settled t (owner p) (MCP.id (target p)) (value props p)) ;;
  ret (value props p).

(** ** [scanProviders], cut at its await *)

(** [providers.map((provider) => testConnection(provider))] *)
Fixpoint testConnections (outside : nat -> MCP.ProbeEnv) (call : nat)
    (connectionTimeout0 : Z) (index : nat) (providers0 : list Object) : M Component unit :=
  match providers0 with
  | [] => ret tt
  | provider :: rest =>
      testConnection outside (ByScan call index) (record provider) connectionTimeout0 ;;
      testConnections outside call connectionTimeout0 (S index) rest
  end.

Definition connectedProviders (providers0 : list Object) (results : list (JS.Settled bool))
  : list Object :=
  JS.sort (fun a b => MCP.priority (record a) - MCP.priority (record b))
          (JS.filteri (fun _ index => JS.fulfilledTrue results index) providers0).

(** Lines 175-194: [scanProviders] from its await on. *)
Definition resumeScanProviders (props : MCP.MCPManagerProps) (providers0 : list Object)
    (results : list (JS.Settled bool)) : M Component unit :=
  match connectedProviders providers0 results with
  | bestProvider :: _ =>
      setActiveProvider (Some bestProvider) ;;
      call (MCP.onProviderChange props (Some (record bestProvider))) ;;
      call (MCP.onStatusUpdate props
        ("✅ Connected to " ++ MCP.name (record bestProvider) ++ " (" ++
         MCP.showZ (MCP.latency (record bestProvider)) ++ "ms)"))
  | [] =>
      setActiveProvider None ;;
      call (MCP.onProviderChange props None) ;;
      call (MCP.onStatusUpdate props "❌ No MCP providers available")
  end ;;
  setIsScanning false.

Definition settledResult (result : option bool) : JS.Settled bool :=
  match result with
  | Some b => JS.fulfilled b
  | None => JS.rejected
  end.

(** Lines 165-173: [scanProviders] up to its await.  With an empty
    registry [Promise.allSettled] resolves at once. *)
Definition scanProviders (props : MCP.MCPManagerProps) (outside : nat -> MCP.ProbeEnv)
  : M Component unit :=
  providers0 <- gets (fun m => providers (cells m)) ;;
  connectionTimeout0 <- gets (fun m => connectionTimeout (cells m)) ;;
  call0 <- newCall ;;
  setIsScanning true ;;
  call (MCP.onStatusUpdate props "🔍 Scanning for MCP providers...") ;;
  setProviders (fun p => Some (MCP.withStatus p MCP.connecting)) ;;
  testConnections outside call0 connectionTimeout0 0 providers0 ;;
  match providers0 with
  | [] => resumeScanProviders props [] []
  | _ :: _ =>
      setSuspended (fun l =>
        (l ++ [AtAllSettled call0 providers0 (map (fun _ => None) providers0)])%list)
  end.

(** ** [connectToProvider], cut at its await *)

Definition fallbackProviders (providers0 : list Object) (provider : Object) : list Object :=
  JS.sort (fun a b => MCP.fallbackOrder (record a) - MCP.fallbackOrder (record b))
          (filter (fun p => negb (MCP.id (record p) =? MCP.id (record provider)) &&
                            MCP.Status_eqb (MCP.status (record p)) MCP.connected)
                  providers0).

(** Lines 198-202: [connectToProvider] up to its await. *)
Definition connectToProvider (props : MCP.MCPManagerProps) (outside : nat -> MCP.ProbeEnv)
    (provider : Object) : M Component unit :=
  providers0 <- gets (fun m => providers (cells m)) ;;
  connectionTimeout0 <- gets (fun m => connectionTimeout (cells m)) ;;
  autoFallback0 <- gets (fun m => autoFallback (cells m)) ;;
  call0 <- newCall ;;
  setProviders (fun p =>
    if MCP.id p =? MCP.id (record provider)
    then Some (MCP.withStatus p MCP.connecting) else None) ;;
  testConnection outside (ByConnect call0) (record provider) connectionTimeout0 ;;
  setSuspended (fun l =>
    (l ++ [AtTestConnection call0 provider providers0 autoFallback0])%list).

(** Lines 204-225: [connectToProvider] from its await on. *)
Definition resumeConnectToProvider (props : MCP.MCPManagerProps) (provider : Object)
    (providers0 : list Object) (autoFallback0 : bool) (success : bool) : M Component unit :=
  if success then
    setActiveProvider (Some provider) ;;
    call (MCP.onProviderChange props (Some (record provider))) ;;
    call (MCP.onStatusUpdate props ("✅ Connected to " ++ MCP.name (record provider)))
  else
    call (MCP.onStatusUpdate props ("❌ Failed to connect to " ++ MCP.name (record provider))) ;;
    if autoFallback0 then
      match fallbackProviders providers0 provider with
      | fallback :: _ =>
          setActiveProvider (Some fallback) ;;
          call (MCP.onProviderChange props (Some (record fallback))) ;;
          call (MCP.onStatusUpdate props
                  ("🔄 Switched to fallback: " ++ MCP.name (record fallback)))
      | [] => ret tt
      end
    else ret tt.

(** ** [disconnectProvider] *)

Definition disconnectProvider (props : MCP.MCPManagerProps) (providerId : string)
  : M Component unit :=
  activeProvider0 <- gets (fun m => activeProvider (cells m)) ;;
  setProviders (fun p =>
    if MCP.id p =? providerId then Some (MCP.withStatus p MCP.disconnected) else None) ;;
  if match activeProvider0 with
     | Some a => MCP.id (record a) =? providerId
     | None => false
     end
  then
    setActiveProvider None ;;
    call (MCP.onProviderChange props None) ;;
    call (MCP.onStatusUpdate props "🔌 Disconnected from MCP provider")
  else ret tt.

(** ** A probe settles *)

Fixpoint setNth {A : Type} (n : nat) (x : A) (l : list A) : list A :=
  match l, n with
  | [], _ => []
  | _ :: rest, O => x :: rest
  | y :: rest, S n' => y :: setNth n' x rest
  end.

Definition isCall (call : nat) (s : Suspended) : bool :=
  match s with
  | AtAllSettled c _ _ | AtTestConnection c _ _ _ => (c =? call)%nat
  end.

Definition isSome {A : Type} (o : option A) : bool :=
  match o with
  | Some _ => true
  | None => false
  end.

(** The promise of [testConnection] has resolved to [success]: the
    handler awaiting it goes on.  A scan goes on when the last of its
    promises has settled; the interval callback awaits nothing. *)
Definition resumeOwner (props : MCP.MCPManagerProps) (owner : Owner) (success : bool)
  : M Component unit :=
  match owner with
  | ByHealthCheck => ret tt
  | ByConnect call0 =>
      waiting <- gets suspended ;;
      match find (isCall call0) waiting with
      | Some (AtTestConnection _ provider providers0 autoFallback0) =>
          setSuspended (filter (fun s => negb (isCall call0 s))) ;;
          resumeConnectToProvider props provider providers0 autoFallback0 success
      | _ => ret tt
      end
  | ByScan call0 index =>
      waiting <- gets suspended ;;
      match find (isCall call0) waiting with
      | Some (AtAllSettled _ providers0 results) =>
          let results' := setNth index (Some success) results in
          if forallb isSome results' then
            setSuspended (filter (fun s => negb (isCall call0 s))) ;;
            resumeScanProviders props providers0 (map settledResult results')
          else
            setSuspended (map (fun s =>
              if isCall call0 s then AtAllSettled call0 providers0 results' else s))
      | _ => ret tt
      end
  end.

(** The await of probe number [k] in flight settles. *)
Definition settles (props : MCP.MCPManagerProps) (k : nat) : M Component unit :=
  inFlight <- gets probes ;;
  match nth_error inFlight k with
  | Some p =>
      setProbes (fun l => (firstn k l ++ skipn (S k) l)%list) ;;
      success <- resumeTestConnection props p ;;
      resumeOwner props (owner p) success
  | None => ret tt
  end.

(** ** Events *)

(** What can happen to the mounted component: time passes; a timer fires;
    the await of a probe settles; the user clicks the scan button, the
    Connect or Disconnect button of a row, picks a connection timeout or
    flips the fallback switch. *)
Inductive Event : Type :=
| Wait (ms : Z)
| ScanTimerFires
| HealthTimerFires
| ProbeSettles (k : nat)
| ClickScan
| ClickConnect (row : nat)
| ClickDisconnect (row : nat)
| SelectTimeout (value : Z)
| SwitchAutoFallback (checked : bool).

(** The code an event runs, up to the next await. *)
Definition handler (props : MCP.MCPManagerProps) (outside : nat -> MCP.ProbeEnv)
    (e : Event) : M Component unit :=
  match e with
  | Wait ms => sleep ms
  | ScanTimerFires | ClickScan => scanProviders props outside
  | HealthTimerFires =>
      (* [testConnection(activeProvider)], the promise dropped *)
      activeProvider0 <- gets (fun m => activeProvider (cells m)) ;;
      connectionTimeout0 <- gets (fun m => connectionTimeout (cells m)) ;;
      match activeProvider0 with
      | Some active => testConnection outside ByHealthCheck (record active) connectionTimeout0
      | None => ret tt
      end
  | ProbeSettles k => settles props k
  | ClickConnect row =>
      rows <- gets (fun m => providers (cells m)) ;;
      match nth_error rows row with
      | Some provider => connectToProvider props outside provider
      | None => ret tt
      end
  | ClickDisconnect row =>
      rows <- gets (fun m => providers (cells m)) ;;
      match nth_error rows row with
      | Some provider => disconnectProvider props (MCP.id (record provider))
      | None => ret tt
      end
  | SelectTimeout v => setConnectionTimeout v
  | SwitchAutoFallback checked => setAutoFallback checked
  end.

(** ** Effects *)

Definition scanDelay : Z := 1000.

(** After the handler React renders and runs the effects whose
    dependencies changed.  [testConnection] is re-created when
    [connectionTimeout] changes, [scanProviders] when [providers] (the
    array) or [testConnection] does; the callbacks received as props are
    taken to be the same functions at every render, as the page's are.

    - Lines 243-250, dependencies [[scanProviders]]: the pending timeout is
      cleared and a new one set, [scanDelay] from now.
    - Lines 252-261, dependencies [[activeProvider, testConnection]]: the
      interval is cleared, and a new one set if a provider is active. *)
Definition rendered (before : Cells) (scanTimer0 healthTimer0 : option Z)
    (w : World Component) : World Mounted :=
  let c := cells (state w) in
  let testConnectionChanged := negb (connectionTimeout before =? connectionTimeout c)%Z in
  let scanProvidersChanged :=
    negb (providersNo before =? providersNo c)%nat || testConnectionChanged in
  let activeProviderChanged := negb (sameObject (activeProvider before) (activeProvider c)) in
  mkWorld
    (mkMounted (state w)
       (if scanProvidersChanged then Some (now w + scanDelay) else scanTimer0)
       (if activeProviderChanged || testConnectionChanged then
          match activeProvider c with
          | Some _ => Some (now w + MCP.healthCheckInterval)
          | None => None
          end
        else healthTimer0))
    (now w).

(** One event: the timer that fires is spent (a timeout) or set again (an
    interval), the handler runs to its end or to the exception that ends
    it, and React renders. *)
Definition perform (props : MCP.MCPManagerProps) (outside : nat -> MCP.ProbeEnv)
    (e : Event) (w : World Mounted) : World Mounted :=
  let m := state w in
  let scanTimer0 := match e with
                    | ScanTimerFires => None
                    | _ => scanTimer m
                    end in
  let healthTimer0 := match e with
                      | HealthTimerFires =>
                          option_map (fun t => t + MCP.healthCheckInterval) (healthTimer m)
                      | _ => healthTimer m
                      end in
  rendered (cells (component m)) scanTimer0 healthTimer0
           (finalWorld (handler props outside e (mkWorld (component m) (now w)))).

(** ** When an event can happen *)

(** The instants at which something is due. *)
Definition dues (props : MCP.MCPManagerProps) (m : Mounted) : list Z :=
  (map (due props) (probes (component m)) ++
   match scanTimer m with Some t => [t] | None => [] end ++
   match healthTimer m with Some t => [t] | None => [] end)%list.

Definition rowStatus (m : Mounted) (row : nat) : option MCP.Status :=
  option_map (fun o => MCP.status (record o)) (nth_error (providers (cells (component m))) row).

(** Time passes only up to the next instant at which something is due; a
    timer fires and an await settles when due; the scan button is disabled
    while [isScanning]; a row shows Disconnect when its status is
    [connected] and Connect otherwise, disabled while [connecting]; the
    timeout is one of the four the menu lists. *)
Definition offered (props : MCP.MCPManagerProps) (e : Event) (w : World Mounted) : bool :=
  let m := state w in
  match e with
  | Wait ms => (0 <=? ms)%Z && forallb (fun t => (now w + ms <=? t)%Z) (dues props m)
  | ScanTimerFires =>
      match scanTimer m with Some t => (t <=? now w)%Z | None => false end
  | HealthTimerFires =>
      match healthTimer m with Some t => (t <=? now w)%Z | None => false end
  | ProbeSettles k =>
      match nth_error (probes (component m)) k with
      | Some p => (due props p <=? now w)%Z
      | None => false
      end
  | ClickScan => negb (isScanning (cells (component m)))
  | ClickConnect row =>
      match rowStatus m row with
      | Some s => negb (MCP.Status_eqb s MCP.connected) &&
                  negb (MCP.Status_eqb s MCP.connecting)
      | None => false
      end
  | ClickDisconnect row =>
      match rowStatus m row with
      | Some s => MCP.Status_eqb s MCP.connected
      | None => false
      end
  | SelectTimeout v => existsb (Z.eqb v) [3000; 5000; 10000; 15000]
  | SwitchAutoFallback _ => true
  end.

Fixpoint run (props : MCP.MCPManagerProps) (outside : nat -> MCP.ProbeEnv)
    (events : list Event) (w : World Mounted) : World Mounted :=
  match events with
  | [] => w
  | e :: rest => run props outside rest (perform props outside e w)
  end.

Fixpoint admissible (props : MCP.MCPManagerProps) (outside : nat -> MCP.ProbeEnv)
    (events : list Event) (w : World Mounted) : bool :=
  match events with
  | [] => true
  | e :: rest =>
      offered props e w && admissible props outside rest (perform props outside e w)
  end.

(** ** Runs that do not hang on how long rendering takes *)

(** At every event of the run other than waiting, nothing else is due
    within [gap] of the event, neither when it happens nor when its
    handler has run and React has rendered. *)
Fixpoint unhurried (props : MCP.MCPManagerProps) (outside : nat -> MCP.ProbeEnv) (gap : Z)
    (events : list Event) (w : World Mounted) : bool :=
  match events with
  | [] => true
  | e :: rest =>
      let w' := perform props outside e w in
      match e with
      | Wait _ => true
      | _ =>
          (List.length (filter (fun t => (t <? now w + gap)%Z) (dues props (state w))) <=? 1)%nat &&
          forallb (fun t => (now w + gap <=? t)%Z) (dues props (state w'))
      end && unhurried props outside gap rest w'
  end.

(** ** The component left to itself *)

(** What is due, with the event it is due for: the probes in the order
    they were started, then the two timers. *)
Definition pending (props : MCP.MCPManagerProps) (m : Mounted) : list (Z * Event) :=
  (JS.mapi (fun k p => (due props p, ProbeSettles k)) (probes (component m)) ++
   match scanTimer m with Some t => [(t, ScanTimerFires)] | None => [] end ++
   match healthTimer m with Some t => [(t, HealthTimerFires)] | None => [] end)%list.

(** The earliest of them, the first listed among equals. *)
Fixpoint earliest (l : list (Z * Event)) : option (Z * Event) :=
  match l with
  | [] => None
  | x :: rest =>
      match earliest rest with
      | Some y => if (fst y <? fst x)%Z then Some y else Some x
      | None => Some x
      end
  end.

(** With no user at the controls: wait for what is due next and let it
    happen, up to the instant [deadline]. *)
Definition next (props : MCP.MCPManagerProps) (deadline : Z) (w : World Mounted)
  : option Event :=
  let rest := if (now w <? deadline)%Z then Some (Wait (deadline - now w)) else None in
  match earliest (pending props (state w)) with
  | Some (t, e) =>
      if (t <=? now w)%Z then Some e
      else if (t <=? deadline)%Z then Some (Wait (t - now w))
      else rest
  | None => rest
  end.

Fixpoint idle (props : MCP.MCPManagerProps) (outside : nat -> MCP.ProbeEnv)
    (deadline : Z) (fuel : nat) (w : World Mounted) : list Event :=
  match fuel with
  | O => []
  | S fuel' =>
      match next props deadline w with
      | Some e => e :: idle props outside deadline fuel' (perform props outside e w)
      | None => []
      end
  end.

(** ** Mounting *)

(** The component at its first render, at the instant [date]: the
    built-in registry, no selection, and the auto-scan timeout set. *)
Definition mount (date : Z) : World Mounted :=
  mkWorld
    (mkMounted
       (mkComponent
          (mkCells (JS.mapi (fun k p => mkObject 0 k p) (MCP.initialProviders date))
                   0 None false true 5000 3)
          [] [] 0 0 [])
       (Some (date + scanDelay)) None)
    date.

(** ** Reading a trace *)

(** The selections written, with their instants. *)
Definition selections (l : list Entry) : list (Z * option string) :=
  flat_map (fun e => match e with
                     | Selected t v => [(t, v)]
                     | _ => []
                     end) l.

(** The values the probes of provider [id] resolved to, with their
    instants. *)
Definition outcomes (id : string) (l : list Entry) : list (Z * bool) :=
  flat_map (fun e => match e with
                     | Settled t _ i v => if i =? id then [(t, v)] else []
                     | _ => []
                     end) l.

(** The instants at which the interval callback called [testConnection]. *)
Definition healthChecks (l : list Entry) : list Z :=
  flat_map (fun e => match e with
                     | Started t ByHealthCheck _ => [t]
                     | _ => []
                     end) l.

(** The instants at which a scan called [testConnection] for its first
    provider. *)
Definition scans (l : list Entry) : list Z :=
  flat_map (fun e => match e with
                     | Started t (ByScan _ O) _ => [t]
                     | _ => []
                     end) l.

End Mount.

(* ================================================================== *)
(** * The mounted MCPManager: what its timers do *)
(* ================================================================== *)

Module MountFacts.
Import Async Mount.

(** ** What a handler leaves alone *)

Section Within.
Context {S : Type}.
Variable R : World S -> World S -> Prop.
Hypothesis R_refl : forall w, R w w.
Hypothesis R_trans : forall a b c, R a b -> R b c -> R a c.

(** However [m] ends, the world it ends in is related to the one it
    started in. *)
Definition Within {A : Type} (m : M S A) : Prop :=
  forall w, R w (finalWorld (m w)).

Lemma within_ret {A : Type} (a : A) : Within (ret a).
Proof. intros w. apply R_refl. Qed.

Lemma within_throw {A : Type} : Within (@throw S A).
Proof. intros w. apply R_refl. Qed.

Lemma within_call (o : Outcome) : Within (call o).
Proof. intros w. destruct o; apply R_refl. Qed.

Lemma within_gets {A : Type} (f : S -> A) : Within (gets f).
Proof. intros w. apply R_refl. Qed.

Lemma within_dateNow : Within (@dateNow S).
Proof. intros w. apply R_refl. Qed.

Lemma within_bind {A B : Type} (m : M S A) (k : A -> M S B) :
  Within m -> (forall a, Within (k a)) -> Within (bind m k).
Proof.
  intros Hm Hk w. unfold bind. specialize (Hm w).
  destruct (m w) as [a w1|w1]; simpl in *; [|exact Hm].
  eapply R_trans; [exact Hm|apply Hk].
Qed.

End Within.

(** The clock stands still. *)
Definition sameTime (w w' : World Component) : Prop := now w' = now w.

(** The clock stands still and [providers] holds the same array. *)
Definition sameArray (w w' : World Component) : Prop :=
  now w' = now w /\
  providersNo (cells (state w')) = providersNo (cells (state w)).

(** The clock stands still, and the cells hold what they held. *)
Definition sameCells (w w' : World Component) : Prop :=
  now w' = now w /\ cells (state w') = cells (state w).

Lemma sameTime_refl w : sameTime w w.
Proof. reflexivity. Qed.

Lemma sameTime_trans a b c : sameTime a b -> sameTime b c -> sameTime a c.
Proof. unfold sameTime. congruence. Qed.

Lemma sameArray_refl w : sameArray w w.
Proof. split; reflexivity. Qed.

Lemma sameArray_trans a b c : sameArray a b -> sameArray b c -> sameArray a c.
Proof. unfold sameArray. intros [] []. split; congruence. Qed.

Lemma sameCells_refl w : sameCells w w.
Proof. split; reflexivity. Qed.

Lemma sameCells_trans a b c : sameCells a b -> sameCells b c -> sameCells a c.
Proof. unfold sameCells. intros [] []. split; congruence. Qed.

Lemma sameCells_sameArray a b : sameCells a b -> sameArray a b.
Proof. intros [H1 H2]. split; [exact H1|]. now rewrite H2. Qed.

Lemma sameArray_sameTime a b : sameArray a b -> sameTime a b.
Proof. intros [H _]. exact H. Qed.

Lemma log_sameCells entry : Within sameCells (log entry).
Proof. intros w. split; reflexivity. Qed.

Lemma setProbes_sameCells f : Within sameCells (setProbes f).
Proof. intros w. split; reflexivity. Qed.

Lemma setSuspended_sameCells f : Within sameCells (setSuspended f).
Proof. intros w. split; reflexivity. Qed.

Lemma newCall_sameCells : Within sameCells newCall.
Proof. intros w. split; reflexivity. Qed.

Lemma testConnection_sameCells outside owner provider timeout0 :
  Within sameCells (testConnection outside owner provider timeout0).
Proof. intros w. split; reflexivity. Qed.

Lemma testConnections_sameCells outside call0 timeout0 providers0 : forall index,
  Within sameCells (testConnections outside call0 timeout0 index providers0).
Proof.
  induction providers0 as [|o rest IH]; intros index; simpl.
  - apply within_ret, sameCells_refl.
  - apply within_bind; [apply sameCells_trans|apply testConnection_sameCells|].
    intros _. apply IH.
Qed.

Lemma within_weaken {S : Type} (R R' : World S -> World S -> Prop) {A : Type} (m : M S A) :
  (forall a b, R a b -> R' a b) -> Within R m -> Within R' m.
Proof. intros H Hm w. apply H, Hm. Qed.

Lemma setActiveProvider_sameArray v : Within sameArray (setActiveProvider v).
Proof. intros w. split; reflexivity. Qed.

Lemma setIsScanning_sameArray v : Within sameArray (setIsScanning v).
Proof. intros w. split; reflexivity. Qed.

Lemma setProviders_sameTime rebuild : Within sameTime (setProviders rebuild).
Proof. intros w. reflexivity. Qed.

Lemma resumeScanProviders_sameArray props providers0 results :
  Within sameArray (resumeScanProviders props providers0 results).
Proof.
  unfold resumeScanProviders.
  apply within_bind; [apply sameArray_trans| |intros _; apply setIsScanning_sameArray].
  destruct (connectedProviders providers0 results) as [|best l];
    (apply within_bind; [apply sameArray_trans|apply setActiveProvider_sameArray|intros _]);
    (apply within_bind; [apply sameArray_trans|apply within_call, sameArray_refl|intros _]);
    apply within_call, sameArray_refl.
Qed.

Lemma resumeConnectToProvider_sameArray props provider providers0 autoFallback0 success :
  Within sameArray (resumeConnectToProvider props provider providers0 autoFallback0 success).
Proof.
  unfold resumeConnectToProvider. destruct success.
  - apply within_bind; [apply sameArray_trans|apply setActiveProvider_sameArray|intros _].
    apply within_bind; [apply sameArray_trans|apply within_call, sameArray_refl|intros _].
    apply within_call, sameArray_refl.
  - apply within_bind; [apply sameArray_trans|apply within_call, sameArray_refl|intros _].
    destruct autoFallback0; [|apply within_ret, sameArray_refl].
    destruct (fallbackProviders providers0 provider) as [|fallback l];
      [apply within_ret, sameArray_refl|].
    apply within_bind; [apply sameArray_trans|apply setActiveProvider_sameArray|intros _].
    apply within_bind; [apply sameArray_trans|apply within_call, sameArray_refl|intros _].
    apply within_call, sameArray_refl.
Qed.

Lemma resumeOwner_sameArray props owner success :
  Within sameArray (resumeOwner props owner success).
Proof.
  destruct owner as [call0 index|call0|]; simpl.
  - apply within_bind; [apply sameArray_trans|apply within_gets, sameArray_refl|].
    intros waiting.
    destruct (find (isCall call0) waiting) as [[c providers0 results|c p ps a]|];
      try (apply within_ret, sameArray_refl).
    destruct (forallb isSome _).
    + apply within_bind; [apply sameArray_trans| |intros _; apply resumeScanProviders_sameArray].
      eapply within_weaken; [apply sameCells_sameArray|apply setSuspended_sameCells].
    + eapply within_weaken; [apply sameCells_sameArray|apply setSuspended_sameCells].
  - apply within_bind; [apply sameArray_trans|apply within_gets, sameArray_refl|].
    intros waiting.
    destruct (find (isCall call0) waiting) as [[c providers0 results|c p ps a]|];
      try (apply within_ret, sameArray_refl).
    apply within_bind; [apply sameArray_trans| |intros _; apply resumeConnectToProvider_sameArray].
    eapply within_weaken; [apply sameCells_sameArray|apply setSuspended_sameCells].
  - apply within_ret, sameArray_refl.
Qed.

(** A scan that gets past its first status update builds one new array
    before its await. *)
Lemma scanProviders_writes props outside (w : World Component) :
  MCP.onStatusUpdate props "🔍 Scanning for MCP providers..."%string = Returns ->
  let w' := finalWorld (scanProviders props outside w) in
  now w' = now w /\
  providersNo (cells (state w')) = S (providersNo (cells (state w))).
Proof.
  intros Hs. unfold scanProviders.
  unfold bind at 1 2 3 4 5 6. unfold gets, newCall, setIsScanning, setProviders, onCells,
    modify, call. cbn [state now cells]. rewrite Hs. unfold ret at 1. cbn [state now cells].
  match goal with
  | |- context [bind ?m ?k ?w0] =>
      assert (H : sameArray w0 (finalWorld (bind m k w0)))
  end.
  { apply within_bind; [apply sameArray_trans| |].
    - eapply within_weaken; [apply sameCells_sameArray|apply testConnections_sameCells].
    - intros _. destruct (providers (cells (state w))).
      + apply resumeScanProviders_sameArray.
      + eapply within_weaken; [apply sameCells_sameArray|apply setSuspended_sameCells]. }
  destruct H as [H1 H2]. cbv zeta. split; [exact H1|exact H2].
Qed.

(** The rest of a probe builds one new array, whatever goes on after it. *)
Lemma settles_writes props k p (w : World Component) :
  nth_error (probes (state w)) k = Some p ->
  let w' := finalWorld (settles props k w) in
  now w' = now w /\
  providersNo (cells (state w')) = S (providersNo (cells (state w))).
Proof.
  intros Hk. unfold settles, bind, gets. cbn [state now]. rewrite Hk.
  unfold setProbes, resumeTestConnection, bind, setProviders, onCells, modify, log, ret.
  cbn [state now cells].
  match goal with
  | |- context [resumeOwner ?a ?b ?c ?w0] =>
      pose proof (resumeOwner_sameArray a b c w0) as [H1 H2]
  end.
  cbv zeta. cbn [state now cells providersNo] in H1, H2. split; [exact H1|exact H2].
Qed.

(** ** Only waiting moves the clock *)

Lemma onCells_sameTime f : Within sameTime (onCells f).
Proof. intros w. reflexivity. Qed.

Lemma scanProviders_sameTime props outside : Within sameTime (scanProviders props outside).
Proof.
  unfold scanProviders.
  apply within_bind; [apply sameTime_trans|apply within_gets, sameTime_refl|intros providers0].
  apply within_bind; [apply sameTime_trans|apply within_gets, sameTime_refl|intros timeout0].
  apply within_bind; [apply sameTime_trans| |intros call0].
  { intros w. reflexivity. }
  apply within_bind; [apply sameTime_trans|apply onCells_sameTime|intros _].
  apply within_bind; [apply sameTime_trans|apply within_call, sameTime_refl|intros _].
  apply within_bind; [apply sameTime_trans|apply onCells_sameTime|intros _].
  apply within_bind; [apply sameTime_trans| |intros _].
  { eapply within_weaken; [|apply testConnections_sameCells]. intros a b [H _]. exact H. }
  destruct providers0.
  - eapply within_weaken; [apply sameArray_sameTime|apply resumeScanProviders_sameArray].
  - intros w. reflexivity.
Qed.

Lemma settles_sameTime props k : Within sameTime (settles props k).
Proof.
  unfold settles.
  apply within_bind; [apply sameTime_trans|apply within_gets, sameTime_refl|intros inFlight].
  destruct (nth_error inFlight k) as [p|]; [|apply within_ret, sameTime_refl].
  apply within_bind; [apply sameTime_trans| |intros _].
  { intros w. reflexivity. }
  apply within_bind; [apply sameTime_trans| |intros success].
  { intros w. reflexivity. }
  eapply within_weaken; [apply sameArray_sameTime|apply resumeOwner_sameArray].
Qed.

Lemma connectToProvider_sameTime props outside provider :
  Within sameTime (connectToProvider props outside provider).
Proof. intros w. reflexivity. Qed.

Lemma disconnectProvider_sameTime props providerId :
  Within sameTime (disconnectProvider props providerId).
Proof.
  unfold disconnectProvider.
  apply within_bind; [apply sameTime_trans|apply within_gets, sameTime_refl|intros active].
  apply within_bind; [apply sameTime_trans|apply onCells_sameTime|intros _].
  destruct (match active with Some a => _ | None => false end);
    [|apply within_ret, sameTime_refl].
  apply within_bind; [apply sameTime_trans| |intros _].
  { eapply within_weaken; [apply sameArray_sameTime|apply setActiveProvider_sameArray]. }
  apply within_bind; [apply sameTime_trans|apply within_call, sameTime_refl|intros _].
  apply within_call, sameTime_refl.
Qed.

Lemma handler_sameTime props outside (e : Event) :
  (forall ms, e <> Wait ms) -> Within sameTime (handler props outside e).
Proof.
  intros He. destruct e; simpl.
  - now contradiction (He ms).
  - apply scanProviders_sameTime.
  - intros w. unfold bind, gets. simpl.
    destruct (activeProvider _); reflexivity.
  - apply settles_sameTime.
  - apply scanProviders_sameTime.
  - intros w. unfold bind, gets. simpl.
    destruct (nth_error _ row); [apply connectToProvider_sameTime|reflexivity].
  - intros w. unfold bind at 1. unfold gets. simpl.
    destruct (nth_error _ row); [apply disconnectProvider_sameTime|reflexivity].
  - apply onCells_sameTime.
  - apply onCells_sameTime.
Qed.

(** ** Scans recur *)

(** The auto-scan timeout is pending and due within [scanDelay]. *)
Definition scanPending (w : World Mounted) : Prop :=
  exists t, scanTimer (state w) = Some t /\ now w <= t <= now w + scanDelay.

Lemma rendered_now before s h (w : World Component) : now (rendered before s h w) = now w.
Proof. reflexivity. Qed.

Lemma perform_now props outside (e : Event) (w : World Mounted) :
  (forall ms, e <> Wait ms) -> now (perform props outside e w) = now w.
Proof.
  intros He. unfold perform. rewrite rendered_now.
  apply (handler_sameTime props outside e He (mkWorld (component (state w)) (now w))).
Qed.

Lemma rendered_scanTimer before s h (w : World Component) :
  scanTimer (state (rendered before s h w)) = Some (now w + scanDelay) \/
  scanTimer (state (rendered before s h w)) = s.
Proof.
  unfold rendered. cbn [state scanTimer].
  destruct (_ || _); [left|right]; reflexivity.
Qed.

Lemma perform_scanTimer props outside (e : Event) (w : World Mounted) :
  e <> ScanTimerFires ->
  scanTimer (state (perform props outside e w)) =
    Some (now (perform props outside e w) + scanDelay) \/
  scanTimer (state (perform props outside e w)) = scanTimer (state w).
Proof.
  intros He. unfold perform.
  match goal with
  | |- context [rendered ?b ?s ?h ?w0] =>
      destruct (rendered_scanTimer b s h w0) as [H|H]
  end.
  - left. rewrite H. reflexivity.
  - right. rewrite H. destruct e; try reflexivity. contradiction.
Qed.

Lemma perform_scanPending props outside (e : Event) (w : World Mounted) :
  MCP.onStatusUpdate props "🔍 Scanning for MCP providers..."%string = Returns ->
  offered props e w = true ->
  scanPending w -> scanPending (perform props outside e w).
Proof.
  intros Hs Hoff [t [Ht Hbound]].
  assert (Hdelay : scanDelay = 1000) by reflexivity.
  assert (Hother : (forall ms, e <> Wait ms) -> e <> ScanTimerFires ->
                   scanPending (perform props outside e w)).
  { intros Hw He. unfold scanPending.
    pose proof (perform_now props outside e w Hw) as Hnow.
    destruct (perform_scanTimer props outside e w He) as [H|H]; rewrite H.
    - eexists. split; [reflexivity|]. lia.
    - exists t. split; [exact Ht|]. rewrite Hnow. exact Hbound. }
  destruct e as [ms| | |k| |row|row|v|checked]; try (apply Hother; discriminate).
  - (* time passes, up to the instant the timeout is due *)
    unfold offered in Hoff. apply andb_prop in Hoff. destruct Hoff as [Hms Hall].
    apply Z.leb_le in Hms.
    assert (Hle : now w + ms <= t).
    { rewrite forallb_forall in Hall. apply Z.leb_le. apply Hall.
      unfold dues. rewrite Ht. apply in_or_app. right. now left. }
    unfold perform, handler, sleep, rendered. cbn [finalWorld state now cells].
    rewrite Nat.eqb_refl, Z.eqb_refl.
    exists t. split; [cbn; exact Ht|]. cbn [now]. lia.
  - (* the timeout fires: the scan it starts sets it again *)
    unfold perform. cbn [handler].
    destruct (scanProviders_writes props outside
                (mkWorld (component (state w)) (now w)) Hs) as [Hnow Hno].
    cbn [state now] in Hnow, Hno.
    unfold rendered. cbn [state now scanTimer]. rewrite Hno.
    replace (providersNo (cells (component (state w))) =?
             S (providersNo (cells (component (state w)))))%nat with false
      by (symmetry; apply Nat.eqb_neq; lia).
    cbn [negb orb]. eexists. split; [reflexivity|]. cbn [now]. rewrite Hnow. lia.
Qed.

Lemma run_scanPending props outside (events : list Event) : forall w : World Mounted,
  MCP.onStatusUpdate props "🔍 Scanning for MCP providers..."%string = Returns ->
  admissible props outside events w = true ->
  scanPending w -> scanPending (run props outside events w).
Proof.
  induction events as [|e events IH]; intros w Hs Hadm Hp; [exact Hp|].
  simpl in *. apply andb_prop in Hadm. destruct Hadm as [Hoff Hadm].
  apply IH; [exact Hs|exact Hadm|]. now apply perform_scanPending.
Qed.

Lemma mount_scanPending date : scanPending (mount date).
Proof. exists (date + scanDelay). split; [reflexivity|]. unfold scanDelay. simpl. lia. Qed.

(** ** The interval and the selection *)

(** The interval exists exactly while a provider is selected. *)
Definition intervalWhileSelected (w : World Mounted) : Prop :=
  healthTimer (state w) = None <-> activeProvider (cells (component (state w))) = None.

Lemma sameObject_none (a b : option Object) :
  sameObject a b = true -> (a = None <-> b = None).
Proof. destruct a, b; simpl; intros H; split; congruence. Qed.

Lemma perform_intervalWhileSelected props outside (e : Event) (w : World Mounted) :
  intervalWhileSelected w -> intervalWhileSelected (perform props outside e w).
Proof.
  unfold intervalWhileSelected, perform, rendered. cbn [state healthTimer component].
  intros Hinv.
  set (w' := finalWorld (handler props outside e (mkWorld (component (state w)) (now w)))).
  destruct (negb (sameObject _ _)) eqn:Hsame; cbn [orb].
  - destruct (activeProvider (cells (state w'))); split; congruence.
  - apply negb_false_iff, sameObject_none in Hsame.
    destruct (negb (_ =? _)%Z).
    + destruct (activeProvider (cells (state w'))); split; congruence.
    + rewrite <- Hsame, <- Hinv.
      destruct e; try reflexivity.
      destruct (healthTimer (state w)); simpl; split; congruence.
Qed.

Lemma run_intervalWhileSelected props outside (events : list Event) :
  forall w : World Mounted,
  intervalWhileSelected w -> intervalWhileSelected (run props outside events w).
Proof.
  induction events as [|e events IH]; intros w Hinv; [exact Hinv|].
  simpl. apply IH. now apply perform_intervalWhileSelected.
Qed.

End MountFacts.

(* ================================================================== *)
(** * The mounted MCPManager: re-validation of the selection *)
(* ================================================================== *)

Module MountBehaviour.
Import Async Mount MountFacts.
Local Open Scope string_scope.

(** ** The interval callback *)

(** When the interval fires, [testConnection] is called once, for the
    active provider; nothing else changes. *)
Lemma healthTimerFires_run props outside (w : World Mounted) (active : Object) :
  activeProvider (cells (component (state w))) = Some active ->
  let m := component (state w) in
  let probe := mkProbe ByHealthCheck (record active) (connectionTimeout (cells m))
                       (outside (probesStarted m)) (now w) in
  perform props outside HealthTimerFires w =
  mkWorld
    (mkMounted
       (mkComponent (cells m) (probes m ++ [probe]) (suspended m) (S (probesStarted m))
                    (calls m)
                    (trace m ++ [Started (now w) ByHealthCheck (MCP.id (record active))]))
       (scanTimer (state w))
       (option_map (fun t => t + MCP.healthCheckInterval) (healthTimer (state w))))
    (now w).
Proof.
  intros Ha. cbv zeta. unfold perform, handler. unfold bind at 1 2. unfold gets.
  cbn [state now cells]. rewrite Ha. unfold testConnection, log, dateNow, bind.
  cbn [finalWorld state now cells probes suspended probesStarted calls trace].
  unfold rendered. cbn [state now cells]. rewrite Nat.eqb_refl, Z.eqb_refl, Ha.
  cbn [negb orb]. unfold sameObject. rewrite !Nat.eqb_refl. reflexivity.
Qed.

(** When the probe it started settles, the record of the provider is
    rewritten and that is all the callback does: the value the probe
    resolves to goes nowhere.  The write sets the auto-scan timeout. *)
Lemma health_probe_settles props outside (w : World Mounted) (k : nat) (p : Probe) :
  nth_error (probes (component (state w))) k = Some p ->
  owner p = ByHealthCheck ->
  let w' := perform props outside (ProbeSettles k) w in
  activeProvider (cells (component (state w'))) =
    activeProvider (cells (component (state w))) /\
  suspended (component (state w')) = suspended (component (state w)) /\
  trace (component (state w')) =
    (trace (component (state w)) ++
     [Settled (now w) ByHealthCheck (MCP.id (target p)) (value props p)])%list /\
  scanTimer (state w') = Some (now w + scanDelay) /\
  healthTimer (state w') = healthTimer (state w).
Proof.
  intros Hk Ho. cbv zeta.
  unfold perform, handler, settles, bind, gets. cbn [state now]. rewrite Hk.
  unfold setProbes, resumeTestConnection, bind, setProviders, onCells, modify, log, ret.
  cbn [state now cells]. rewrite Ho. unfold resumeOwner, ret.
  cbn [finalWorld state now cells]. unfold rendered.
  cbn [state now cells component scanTimer healthTimer activeProvider suspended trace
       providersNo connectionTimeout].
  rewrite Z.eqb_refl.
  replace (providersNo (cells (component (state w))) =?
           S (providersNo (cells (component (state w)))))%nat with false
    by (symmetry; apply Nat.eqb_neq; lia).
  assert (Hsame : sameObject (activeProvider (cells (component (state w))))
                             (activeProvider (cells (component (state w)))) = true).
  { destruct (activeProvider _); [|reflexivity]. simpl. now rewrite !Nat.eqb_refl. }
  rewrite Hsame. cbn [negb orb]. repeat split.
Qed.

(** ** Scenarios *)

(** MCPManager with the callbacks the page passes it. *)
Definition wired : MCP.MCPManagerProps := Selection.wiredManager.

(** ZombieCoder answers in 200 ms and Ollama in 300 ms; every other
    request fails after 100 ms; the cloud draw fails. *)
Definition localUp : MCP.ProbeEnv :=
  MCP.mkProbeEnv
    (fun url =>
       if url =? "http://localhost:8080/mcp/health" then Responds 200 true
       else if url =? "http://localhost:11434/api/health" then Responds 300 true
       else Fails 100)
    0.1%float.

(** LM Studio is busy and answers after 4.5 seconds, with an error status;
    the request to ZombieCoder fails after 100 ms and the one to Ollama
    after 200 ms. *)
Definition lmStudioBusy (draw : float) : MCP.ProbeEnv :=
  MCP.mkProbeEnv
    (fun url =>
       if url =? "http://localhost:1234/v1/health" then Responds 4500 false
       else if url =? "http://localhost:8080/mcp/health" then Fails 100
       else Fails 200)
    draw.

(** The same, with [Math.random()] giving 0.9 in the first cloud probe
    (the fourth probe started) and 0.1 in the later ones. *)
Definition firstCloudDrawWins (n : nat) : MCP.ProbeEnv :=
  if (n =? 3)%nat then lmStudioBusy 0.9%float else lmStudioBusy 0.1%float.

Definition statuses (w : World Mounted) : list (string * MCP.Status) :=
  map (fun o => (MCP.id (record o), MCP.status (record o)))
      (providers (cells (component (state w)))).

Definition selection (w : World Mounted) : option string :=
  option_map (fun o => MCP.id (record o)) (activeProvider (cells (component (state w)))).

(** ** The periodic re-probe *)

(** C7.  The interval of lines 252-261 would re-probe the active provider
    alone, every 30 seconds; and its callback does call [testConnection]
    once, for the active provider, and drops the result: when the probe
    settles, failed or not, the callback writes no selection and calls no
    scan, and the write the probe makes to [providers] sets the auto-scan
    timeout like any other.  But the interval does not get to fire.  The
    auto-scan effect depends on [scanProviders], which is re-created by
    every write to [providers]: in every run of the mounted component
    whose scans get past their first status update, whatever the network
    and the user do, the auto-scan timeout is pending and due within a
    second, so that a full scan starts as soon as [providers] has gone a
    second without a write; and every scan that selects a provider
    restarts the interval.  Left to itself for 61.5 seconds with
    ZombieCoder and Ollama up, the component runs 31 full scans, one every
    two seconds, selects ZombieCoder 30 times, and never runs the interval
    callback; nothing in that run is due within 100 ms of anything else,
    so the order of its events does not hang on the time rendering
    takes. *)
Theorem interval_starved_by_recurring_scans :
  (forall props outside date events,
     MCP.onStatusUpdate props "🔍 Scanning for MCP providers..." = Returns ->
     admissible props outside events (mount date) = true ->
     scanPending (run props outside events (mount date))) /\
  (forall props outside (w : World Mounted) active,
     activeProvider (cells (component (state w))) = Some active ->
     let w' := perform props outside HealthTimerFires w in
     cells (component (state w')) = cells (component (state w)) /\
     suspended (component (state w')) = suspended (component (state w)) /\
     probes (component (state w')) =
       (probes (component (state w)) ++
        [mkProbe ByHealthCheck (record active)
                 (connectionTimeout (cells (component (state w))))
                 (outside (probesStarted (component (state w)))) (now w)])%list) /\
  (forall props outside (w : World Mounted) k p,
     nth_error (probes (component (state w))) k = Some p ->
     owner p = ByHealthCheck ->
     let w' := perform props outside (ProbeSettles k) w in
     activeProvider (cells (component (state w'))) =
       activeProvider (cells (component (state w))) /\
     suspended (component (state w')) = suspended (component (state w)) /\
     selections (trace (component (state w'))) =
       selections (trace (component (state w))) /\
     scanTimer (state w') = Some (now w + scanDelay)) /\
  (let events := idle wired (fun _ => localUp) 61500 400 (mount 0) in
   let w := run wired (fun _ => localUp) events (mount 0) in
   admissible wired (fun _ => localUp) events (mount 0) = true /\
   unhurried wired (fun _ => localUp) 100 events (mount 0) = true /\
   now w = 61500 /\
   scans (trace (component (state w))) =
     map (fun k => 1000 + 2000 * Z.of_nat k) (seq 0 31) /\
   selections (trace (component (state w))) =
     map (fun k => (2000 + 2000 * Z.of_nat k, Some "zombiecoder-local")) (seq 0 30) /\
   healthChecks (trace (component (state w))) = [] /\
   healthTimer (state w) = Some 90000).
Proof.
  split; [|split; [|split]].
  - intros props outside date events Hs Hadm.
    apply run_scanPending; [exact Hs|exact Hadm|apply mount_scanPending].
  - intros props outside w active Ha. cbv zeta.
    rewrite (healthTimerFires_run props outside w active Ha). repeat split.
  - intros props outside w k p Hk Ho.
    destruct (health_probe_settles props outside w k p Hk Ho) as [H1 [H2 [H3 [H4 _]]]].
    cbv zeta. repeat split; try assumption.
    rewrite H3. unfold selections. rewrite flat_map_app. simpl. now rewrite app_nil_r.
  - vm_compute. repeat split.
Qed.

(** ** The selection and the latest probe of its provider *)

(** C9.  Mounted with the page's callbacks and left to itself, with LM
    Studio answering after 4.5 seconds with an error status, the requests
    to the other local providers failing, and the simulated cloud probe
    succeeding the first time and failing afterwards: the scan started at
    1000 waits for LM Studio until 5500; scans start again at 3000 and at
    5000, and their OpenAI probes fail at 4000 and at 6000; at 5500 the
    first scan goes on with the results of its own probes and selects
    OpenAI, the object it read from the registry at 1000.  At 6500 OpenAI
    is selected, its registry record says [error], and its probes resolved
    to [true] at 2000 and to [false] at 4000 and 6000: the selection was
    created after a failure and kept after the next.  Nothing in the run
    is due within 100 ms of anything else. *)
Theorem stale_scan_selects_failed_provider :
  let events := idle wired firstCloudDrawWins 6500 100 (mount 0) in
  let w := run wired firstCloudDrawWins events (mount 0) in
  admissible wired firstCloudDrawWins events (mount 0) = true /\
  unhurried wired firstCloudDrawWins 100 events (mount 0) = true /\
  now w = 6500 /\
  scans (trace (component (state w))) = [1000; 3000; 5000] /\
  selections (trace (component (state w))) = [(5500, Some "openai-cloud")] /\
  outcomes "openai-cloud" (trace (component (state w))) =
    [(2000, true); (4000, false); (6000, false)] /\
  selection w = Some "openai-cloud" /\
  option_map (fun o => (builtBy o, MCP.status (record o)))
             (activeProvider (cells (component (state w)))) = Some (0%nat, MCP.disconnected) /\
  statuses w = [("zombiecoder-local", MCP.error); ("ollama-local", MCP.error);
                ("lmstudio-local", MCP.error); ("openai-cloud", MCP.error)].
Proof. vm_compute. repeat split. Qed.

(** ** The interval and the selection *)

(** X18: in every run of the mounted provider manager, whatever happens to
    it and in whatever order (timers, probes settling while others are in
    flight, clicks, overlapping scans), the health-check interval exists
    exactly while a provider is selected: the effect that owns it is re-run
    by every change of [activeProvider], sets it when the new value is not
    null and only clears it otherwise. *)
Theorem interval_exists_while_selected props outside date (events : list Event) :
  let w := run props outside events (mount date) in
  healthTimer (state w) = None <-> activeProvider (cells (component (state w))) = None.
Proof.
  cbv zeta. apply (run_intervalWhileSelected props outside events (mount date)).
  split; reflexivity.
Qed.

(** ** Worked instances *)

(** Nothing overlaps the first scan of the run of [localUp]: when it ends,
    at 2000, the cells hold what [MCP.scanProviders], run in one step from
    the state of the component at 1000, leaves. *)
Example first_scan_as_in_one_step :
  shown (cells (component (state
    (run wired (fun _ => localUp) (idle wired (fun _ => localUp) 2000 20 (mount 0))
         (mount 0))))) =
  state (finalWorld (MCP.scanProviders wired (fun _ => localUp)
                                       (mkWorld (MCP.initialState 0) 1000))).
Proof. vm_compute. reflexivity. Qed.

(** The component left to itself for seven seconds with both local
    daemons up: the timeout is pending. *)
Lemma interval_starved_by_recurring_scans_witness :
  scanPending (run wired (fun _ => localUp)
                   (idle wired (fun _ => localUp) 7000 100 (mount 0)) (mount 0)).
Proof.
  apply (proj1 interval_starved_by_recurring_scans wired (fun _ => localUp) 0
               (idle wired (fun _ => localUp) 7000 100 (mount 0))).
  - reflexivity.
  - vm_compute. reflexivity.
Defined.

End MountBehaviour.

(* ================================================================== *)
(** * The mounted MCPManager: a scan that nothing overlaps *)
(* ================================================================== *)

Module LoneScan.
Import Async Mount MountFacts MountBehaviour.


(** ** A probe, in its two pieces *)

(** [testConnection] cut at its await is [MCP.testConnection]: the call
    made at [startTime p] resolves to [value props p] at [due props p], and
    what it then writes to the registry is what [MCP.testConnection]
    writes. *)
Lemma probe_as_testConnection props (p : Probe) (w : World Component) :
  MCP.testConnection props (timeout p) (target p) (env p)
                     (mkWorld (shown (cells (state w))) (startTime p)) =
  Normal (value props p)
         (mkWorld (shown (cells (state (finalWorld (resumeTestConnection props p w)))))
                  (due props p)).
Proof.
  rewrite MCPFacts.testConnection_run. unfold value, due. f_equal.
  unfold resumeTestConnection, bind, setProviders, onCells, modify, log, ret.
  cbn [finalWorld state now cells]. unfold shown, MCPFacts.withProviders.
  cbn [providers activeProvider isScanning autoFallback connectionTimeout retryAttempts
       MCP.providers MCP.activeProvider MCP.isScanning MCP.autoFallback
       MCP.connectionTimeout MCP.retryAttempts].
  f_equal. f_equal. rewrite !map_map. apply map_ext. intros o.
  unfold MCPFacts.settle. destruct (MCP.id (record o) =? MCP.id (target p))%string;
    reflexivity.
Qed.

(** ** The selection step, on objects and on records *)

Section SortObjects.
Context {A B : Type}.
Variable cmpA : A -> A -> Z.
Variable cmpB : B -> B -> Z.
Variable g : A -> B.
Hypothesis cmp_g : forall a b, cmpB (g a) (g b) = cmpA a b.

Lemma insert_objects (x : A) (l : list A) :
  JS.insert cmpB (g x) (map g l) = map g (JS.insert cmpA x l).
Proof.
  induction l as [|y l IH]; simpl; [reflexivity|].
  rewrite cmp_g. destruct (cmpA x y <=? 0); simpl; [reflexivity|]. now rewrite IH.
Qed.

Lemma sort_objects (l : list A) : JS.sort cmpB (map g l) = map g (JS.sort cmpA l).
Proof.
  induction l as [|x l IH]; simpl; [reflexivity|]. now rewrite IH, insert_objects.
Qed.

Lemma filteri_from_objects (f : nat -> bool) (l : list A) : forall i,
  JS.filteri_from i (fun _ index => f index) (map g l) =
  map g (JS.filteri_from i (fun _ index => f index) l).
Proof.
  induction l as [|x l IH]; intros i; simpl; [reflexivity|].
  rewrite IH. now destruct (f i).
Qed.

End SortObjects.

Lemma connectedProviders_records (objs : list Object) results :
  MCP.connectedProviders (map record objs) results =
  map record (connectedProviders objs results).
Proof.
  unfold MCP.connectedProviders, connectedProviders, JS.filteri.
  rewrite (filteri_from_objects record).
  apply (sort_objects (fun a b => MCP.priority (record a) - MCP.priority (record b))).
  reflexivity.
Qed.

(** [scanProviders] from its await on writes to the cells what lines
    175-194 write in [MCP.scanProviders]. *)
Lemma resume_as_select props (objs : list Object) results (w : World Component) (t : Z) :
  shown (cells (state (finalWorld (resumeScanProviders props objs results w)))) =
  state (finalWorld (bind (MCP.selectProvider props (map record objs) results)
                          (fun _ => MCP.setIsScanning false)
                          (mkWorld (shown (cells (state w))) t))).
Proof.
  unfold resumeScanProviders, MCP.selectProvider.
  rewrite connectedProviders_records.
  destruct (connectedProviders objs results) as [|best rest]; cbn [map];
    unfold bind, setActiveProvider, setIsScanning, onCells, modify, log, call,
      MCP.setActiveProvider, MCP.setIsScanning;
    cbn [finalWorld state now cells].
  - destruct (MCP.onProviderChange props None); cbn [finalWorld state now cells];
      [destruct (MCP.onStatusUpdate props _); cbn [finalWorld state now cells]|];
      reflexivity.
  - destruct (MCP.onProviderChange props (Some (record best)));
      cbn [finalWorld state now cells];
      [destruct (MCP.onStatusUpdate props _); cbn [finalWorld state now cells]|];
      reflexivity.
Qed.

(** ** The probes of one scan, settling in any order *)

Section Scan.
Variable props : MCP.MCPManagerProps.
Variable outside : nat -> MCP.ProbeEnv.
Variable call0 : nat.
Variable timeout0 : Z.
Variable t0 : Z.

(** The probe the scan starts for the object at [index], as probe number
    [number] of the component. *)
Definition probeAt (index number : nat) (o : Object) : Probe :=
  mkProbe (ByScan call0 index) (record o) timeout0 (outside number) t0.

Definition connecting (p : MCP.MCPProvider) : MCP.MCPProvider :=
  MCP.withStatus p MCP.connecting.

(** Given which promises have settled: the probes still in flight, and
    the records of the registry. *)
Fixpoint pendingFrom (index number : nat) (results : list (option bool))
    (objs : list Object) : list Probe :=
  match results, objs with
  | r :: results', o :: objs' =>
      match r with
      | Some _ => pendingFrom (S index) (S number) results' objs'
      | None => probeAt index number o :: pendingFrom (S index) (S number) results' objs'
      end
  | _, _ => []
  end.

Fixpoint recordsFrom (number : nat) (results : list (option bool)) (objs : list Object)
  : list MCP.MCPProvider :=
  match results, objs with
  | r :: results', o :: objs' =>
      match r with
      | Some _ => MCPFacts.settle props timeout0 (record o) (outside number) t0
                                  (connecting (record o))
      | None => connecting (record o)
      end :: recordsFrom (S number) results' objs'
  | _, _ => []
  end.

(** The promises settled so far hold the values of their probes. *)
Fixpoint soundFrom (number : nat) (results : list (option bool)) (objs : list Object)
  : Prop :=
  match results, objs with
  | r :: results', o :: objs' =>
      (forall v, r = Some v ->
                 v = MCPFacts.reachable props timeout0 (record o) (outside number)) /\
      soundFrom (S number) results' objs'
  | _, _ => True
  end.

Lemma recordsFrom_ids (objs : list Object) : forall number results q,
  In q (recordsFrom number results objs) ->
  In (MCP.id q) (map (fun o => MCP.id (record o)) objs).
Proof.
  induction objs as [|o objs IH]; intros number [|r results] q H; simpl in H;
    try contradiction.
  destruct H as [<-|H].
  - left. destruct r; [rewrite MCPFacts.settle_id|]; reflexivity.
  - right. eapply IH. exact H.
Qed.

Lemma settle_elsewhere (p : MCP.MCPProvider) env (l : list MCP.MCPProvider) :
  ~ In (MCP.id p) (map MCP.id l) ->
  map (MCPFacts.settle props timeout0 p env t0) l = l.
Proof.
  induction l as [|q l IH]; intros H; simpl in *; [reflexivity|].
  rewrite MCPFacts.settle_other by intuition congruence.
  rewrite IH by tauto. reflexivity.
Qed.

Lemma recordsFrom_elsewhere (p : MCP.MCPProvider) env number results (objs : list Object) :
  ~ In (MCP.id p) (map (fun o => MCP.id (record o)) objs) ->
  map (MCPFacts.settle props timeout0 p env t0) (recordsFrom number results objs) =
  recordsFrom number results objs.
Proof.
  intros H. apply settle_elsewhere. intros Hin. apply H.
  apply in_map_iff in Hin. destruct Hin as [q [Hq Hin]]. rewrite <- Hq.
  eapply recordsFrom_ids. exact Hin.
Qed.

(** One more promise settles. *)
Lemma settle_one (v : bool) (objs : list Object) : forall results index number k p,
  NoDup (map (fun o => MCP.id (record o)) objs) ->
  nth_error (pendingFrom index number results objs) k = Some p ->
  exists j o,
    nth_error objs j = Some o /\
    p = probeAt (index + j) (number + j) o /\
    pendingFrom index number (setNth j (Some v) results) objs =
      (firstn k (pendingFrom index number results objs) ++
       skipn (S k) (pendingFrom index number results objs))%list /\
    recordsFrom number (setNth j (Some v) results) objs =
      map (MCPFacts.settle props timeout0 (target p) (env p) t0)
          (recordsFrom number results objs) /\
    (v = value props p -> soundFrom number results objs ->
     soundFrom number (setNth j (Some v) results) objs).
Proof.
  induction objs as [|o objs IH]; intros [|r results] index number k p Hnd Hk;
    try (destruct k; discriminate Hk).
  assert (Hnotin : ~ In (MCP.id (record o)) (map (fun o => MCP.id (record o)) objs))
    by (inversion Hnd; assumption).
  assert (Hnd' : NoDup (map (fun o => MCP.id (record o)) objs))
    by (inversion Hnd; assumption).
  assert (Hother : forall j o', nth_error objs j = Some o' ->
                     MCP.id (record o) <> MCP.id (record o')).
  { intros j o' Hj Heq. apply Hnotin. rewrite Heq.
    apply (in_map (fun o => MCP.id (record o))). eapply nth_error_In. exact Hj. }
  destruct r as [b|].
  - (* the promise of [o] has settled already *)
    simpl in Hk.
    destruct (IH results (S index) (S number) k p Hnd' Hk)
      as [j [o' [Hj [Hp [Hpend [Hrec Hsound]]]]]].
    exists (S j), o'. rewrite !Nat.add_succ_r.
    split; [exact Hj|]. split; [exact Hp|]. split; [exact Hpend|].
    split.
    + cbn [setNth recordsFrom map]. rewrite Hrec. f_equal.
      symmetry. apply MCPFacts.settle_other.
      rewrite MCPFacts.settle_id. subst p. cbn [target probeAt connecting].
      apply (Hother j o' Hj).
    + intros Hv [H1 H2]. cbn [setNth soundFrom]. split; [exact H1|]. now apply Hsound.
  - simpl in Hk. destruct k as [|k].
    + (* the promise of [o] settles *)
      inversion Hk; subst p. exists 0%nat, o. rewrite !Nat.add_0_r.
      split; [reflexivity|]. split; [reflexivity|]. split; [reflexivity|].
      split.
      * cbn [setNth recordsFrom map target env probeAt]. f_equal.
        symmetry. now apply recordsFrom_elsewhere.
      * intros Hv [_ H2]. cbn [setNth soundFrom]. split; [|exact H2].
        intros v' Hv'. inversion Hv'; subst v'. exact Hv.
    + (* a later promise settles *)
      simpl in Hk.
      destruct (IH results (S index) (S number) k p Hnd' Hk)
        as [j [o' [Hj [Hp [Hpend [Hrec Hsound]]]]]].
      exists (S j), o'. rewrite !Nat.add_succ_r.
      split; [exact Hj|]. split; [exact Hp|].
      split.
      * cbn [setNth pendingFrom]. rewrite Hpend. reflexivity.
      * split.
        -- cbn [setNth recordsFrom map]. rewrite Hrec. f_equal.
           symmetry. apply MCPFacts.settle_other.
           subst p. cbn [target probeAt connecting]. apply (Hother j o' Hj).
        -- intros Hv [H1 H2]. cbn [setNth soundFrom]. split; [exact H1|].
           now apply Hsound.
Qed.

(** *** When the last promise has settled *)

(** The environment probe number [i] of the scan meets, when the scan
    starts with [number] probes made before it. *)
Definition envsFrom (number : nat) (i : nat) : MCP.ProbeEnv := outside (number + i).

Lemma settled_results (objs : list Object) : forall results number i,
  forallb isSome results = true ->
  List.length results = List.length objs ->
  soundFrom (number + i) results objs ->
  map settledResult results =
  JS.mapi_from i (fun i p => JS.fulfilled (MCPFacts.reachable props timeout0 p
                                                               (envsFrom number i)))
              (map record objs).
Proof.
  induction objs as [|o objs IH]; intros [|r results] number i Hall Hlen Hsound;
    try discriminate Hlen; [reflexivity|].
  simpl in Hall. apply andb_prop in Hall. destruct Hall as [Hr Hall].
  destruct Hsound as [H1 H2]. destruct r as [b|]; [|discriminate Hr].
  cbn [map JS.mapi_from settledResult]. f_equal.
  - unfold envsFrom. now rewrite (H1 b eq_refl).
  - apply IH; [exact Hall|now inversion Hlen|]. now rewrite Nat.add_succ_r.
Qed.

(** With unique ids, of all the probes of a scan only its own touches a
    record. *)
Lemma settleBy_own envs (ps : list MCP.MCPProvider) : forall i k p q,
  NoDup (map MCP.id ps) ->
  nth_error ps k = Some p ->
  MCP.id q = MCP.id p ->
  MCPFacts.settleBy props timeout0 envs t0 i ps q =
  MCPFacts.settle props timeout0 p (envs (i + k)%nat) t0 q.
Proof.
  induction ps as [|p0 ps IH]; intros i k p q Hnd Hk Hq; [destruct k; discriminate|].
  inversion Hnd as [|? ? Hnotin Hnd']; subst.
  destruct k as [|k]; simpl in *.
  - inversion Hk; subst. rewrite Nat.add_0_r.
    apply MCPFacts.settleBy_other. now rewrite MCPFacts.settle_id, Hq.
  - rewrite MCPFacts.settle_other.
    + rewrite Nat.add_succ_r. now apply (IH (S i) k p q).
    + rewrite Hq. intros Heq. apply Hnotin. rewrite <- Heq.
      apply in_map. eapply nth_error_In. exact Hk.
Qed.

Lemma settled_records (objs : list Object) (number : nat) :
  NoDup (map (fun o => MCP.id (record o)) objs) ->
  forall suffix prefix results,
  objs = (prefix ++ suffix)%list ->
  forallb isSome results = true ->
  List.length results = List.length suffix ->
  recordsFrom (number + List.length prefix) results suffix =
  map (MCPFacts.settleBy props timeout0 (envsFrom number) t0 0 (map record objs))
      (map connecting (map record suffix)).
Proof.
  intros Hnd. induction suffix as [|o suffix IH]; intros prefix [|r results] Hobjs Hall Hlen;
    try discriminate Hlen; [reflexivity|].
  simpl in Hall. apply andb_prop in Hall. destruct Hall as [Hr Hall].
  destruct r as [b|]; [|discriminate Hr].
  cbn [recordsFrom map]. f_equal.
  - rewrite (settleBy_own (envsFrom number) (map record objs) 0 (List.length prefix)
               (record o) (connecting (record o))).
    + reflexivity.
    + now rewrite map_map.
    + rewrite Hobjs, map_app, nth_error_app2 by (rewrite length_map; lia).
      rewrite length_map, Nat.sub_diag. reflexivity.
    + reflexivity.
  - replace (S (number + List.length prefix))
      with (number + List.length (prefix ++ [o]))%nat
      by (rewrite length_app; simpl; lia).
    apply IH; [|exact Hall|now inversion Hlen].
    rewrite <- app_assoc. exact Hobjs.
Qed.

End Scan.


(** ** [scanProviders], in its two pieces *)

Lemma scanProviders_tail props envs (w : World MCP.State) :
  MCP.onStatusUpdate props "🔍 Scanning for MCP providers..."%string = Returns ->
  let s := state w in
  let ps := MCP.providers s in
  let timeout := MCP.connectionTimeout s in
  finalWorld (MCP.scanProviders props envs w) =
  finalWorld
    (bind (MCP.selectProvider props ps (MCPFacts.scanResults props timeout envs ps))
          (fun _ => MCP.setIsScanning false)
          (mkWorld
             (MCP.mkState
                (map (MCPFacts.settleBy props timeout envs (now w) 0 ps)
                     (map (fun p => MCP.withStatus p MCP.connecting) ps))
                (MCP.activeProvider s) true (MCP.autoFallback s) timeout
                (MCP.retryAttempts s))
             (MCPFacts.finishBy props timeout envs (now w) 0 ps (now w)))).
Proof.
  intros Hs. cbv zeta. unfold MCP.scanProviders.
  unfold bind at 1 2 3 4 5. unfold gets, MCP.setIsScanning at 1, MCP.setProviders, modify, call.
  rewrite Hs. unfold ret at 1. cbn [state now MCP.providers MCP.connectionTimeout].
  unfold bind at 1. rewrite MCPFacts.probeAll_run. reflexivity.
Qed.

(** [testConnection] made for each object of the snapshot in turn. *)
Lemma testConnections_run outside call0 timeout0 (objs : list Object) :
  forall index (w : World Component),
  exists w',
    testConnections outside call0 timeout0 index objs w = Normal tt w' /\
    now w' = now w /\
    cells (state w') = cells (state w) /\
    suspended (state w') = suspended (state w) /\
    calls (state w') = calls (state w) /\
    probes (state w') =
      (probes (state w) ++
       pendingFrom outside call0 timeout0 (now w) index (probesStarted (state w))
                   (map (fun _ => None) objs) objs)%list.
Proof.
  induction objs as [|o objs IH]; intros index w.
  - exists w. simpl. rewrite app_nil_r. repeat split.
  - cbn [testConnections]. unfold bind at 1.
    unfold testConnection at 1. unfold bind, dateNow, log.
    cbn [state now cells probes suspended probesStarted calls trace].
    match goal with
    | |- context [testConnections _ _ _ _ _ ?w1] =>
        destruct (IH (S index) w1) as [w' [Hrun [Hnow [Hcells [Hsusp [Hcalls Hprobes]]]]]]
    end.
    exists w'. split; [exact Hrun|].
    cbn [state now cells probes suspended probesStarted calls trace] in *.
    repeat split; try assumption.
    rewrite Hprobes, <- app_assoc. reflexivity.
Qed.


(** ** The handlers of a scan that nothing overlaps *)

Lemma setNth_length {A : Type} (x : A) (l : list A) : forall n,
  List.length (setNth n x l) = List.length l.
Proof. induction l as [|y l IH]; intros [|n]; simpl; congruence. Qed.

Lemma pending_none outside call0 timeout0 t0 (objs : list Object) : forall results index number,
  forallb isSome results = true ->
  pendingFrom outside call0 timeout0 t0 index number results objs = [].
Proof.
  induction objs as [|o objs IH]; intros [|r results] index number H; try reflexivity.
  simpl in H. apply andb_prop in H. destruct H as [Hr H].
  destruct r; [|discriminate]. simpl. now apply IH.
Qed.

Lemma pending_some outside call0 timeout0 t0 (objs : list Object) : forall results index number,
  List.length results = List.length objs ->
  forallb isSome results = false ->
  pendingFrom outside call0 timeout0 t0 index number results objs <> [].
Proof.
  induction objs as [|o objs IH]; intros [|r results] index number Hlen H;
    try discriminate.
  simpl in H. destruct r; simpl; [|discriminate].
  apply IH; [now inversion Hlen|exact H].
Qed.

(** The probes in flight and the handlers at their await stay as they
    are. *)
Definition sameFlight (w w' : World Component) : Prop :=
  probes (state w') = probes (state w) /\ suspended (state w') = suspended (state w).

Lemma sameFlight_refl w : sameFlight w w.
Proof. split; reflexivity. Qed.

Lemma sameFlight_trans a b c : sameFlight a b -> sameFlight b c -> sameFlight a c.
Proof. unfold sameFlight. intros [] []. split; congruence. Qed.

Lemma resumeScanProviders_sameFlight props providers0 results :
  Within sameFlight (resumeScanProviders props providers0 results).
Proof.
  assert (Hset : forall v, Within sameFlight (setActiveProvider v))
    by (intros v w; split; reflexivity).
  unfold resumeScanProviders.
  apply within_bind; [apply sameFlight_trans| |intros _; intros w; split; reflexivity].
  destruct (connectedProviders providers0 results) as [|best l];
    (apply within_bind; [apply sameFlight_trans|apply Hset|intros _]);
    (apply within_bind; [apply sameFlight_trans|apply within_call, sameFlight_refl|intros _]);
    apply within_call, sameFlight_refl.
Qed.

Lemma rebuilt_records (rebuild : MCP.MCPProvider -> option MCP.MCPProvider)
    (f : MCP.MCPProvider -> MCP.MCPProvider) (n : nat) (l : list Object) :
  (forall q, match rebuild q with Some r => r | None => q end = f q) ->
  map record (map (fun o => match rebuild (record o) with
                            | Some r => mkObject n (place o) r
                            | None => o
                            end) l) =
  map f (map record l).
Proof.
  intros H. rewrite !map_map. apply map_ext. intros o. rewrite <- H.
  destruct (rebuild (record o)); reflexivity.
Qed.

Section Handler.
Variable props : MCP.MCPManagerProps.
Variable outside : nat -> MCP.ProbeEnv.
Variable cells0 : Cells.
Variable call0 : nat.
Variable t0 : Z.
Variable s0 : nat.
Hypothesis started :
  MCP.onStatusUpdate props "🔍 Scanning for MCP providers..."%string = Returns.
Hypothesis unique : NoDup (map (fun o => MCP.id (record o)) (providers cells0)).

(** The state [MCP.scanProviders], run in one step from the cells the scan
    started from, leaves. *)
Definition oneStep : MCP.State :=
  state (finalWorld (MCP.scanProviders props (envsFrom outside s0)
                                       (mkWorld (shown cells0) t0))).

(** The scan is at its await, with the promises of [results] settled. *)
Definition Underway (results : list (option bool)) (w : World Component) : Prop :=
  probes (state w) =
    pendingFrom outside call0 (connectionTimeout cells0) t0 0 s0 results (providers cells0) /\
  suspended (state w) = [AtAllSettled call0 (providers cells0) results] /\
  map record (providers (cells (state w))) =
    recordsFrom props outside (connectionTimeout cells0) t0 s0 results (providers cells0) /\
  activeProvider (cells (state w)) = activeProvider cells0 /\
  isScanning (cells (state w)) = true /\
  autoFallback (cells (state w)) = autoFallback cells0 /\
  connectionTimeout (cells (state w)) = connectionTimeout cells0 /\
  retryAttempts (cells (state w)) = retryAttempts cells0 /\
  List.length results = List.length (providers cells0) /\
  soundFrom props outside (connectionTimeout cells0) s0 results (providers cells0) /\
  forallb isSome results = false.

(** The scan has ended, as the one-step model says. *)
Definition Ended (w : World Component) : Prop :=
  probes (state w) = [] /\ suspended (state w) = [] /\ shown (cells (state w)) = oneStep.

Lemma finish (results : list (option bool)) (w : World Component) :
  map record (providers (cells (state w))) =
    recordsFrom props outside (connectionTimeout cells0) t0 s0 results (providers cells0) ->
  activeProvider (cells (state w)) = activeProvider cells0 ->
  isScanning (cells (state w)) = true ->
  autoFallback (cells (state w)) = autoFallback cells0 ->
  connectionTimeout (cells (state w)) = connectionTimeout cells0 ->
  retryAttempts (cells (state w)) = retryAttempts cells0 ->
  List.length results = List.length (providers cells0) ->
  soundFrom props outside (connectionTimeout cells0) s0 results (providers cells0) ->
  forallb isSome results = true ->
  shown (cells (state (finalWorld
    (resumeScanProviders props (providers cells0) (map settledResult results) w)))) =
  oneStep.
Proof.
  intros Hr Ha Hi Hf Ht Hra Hlen Hsound Hall.
  rewrite (resume_as_select props (providers cells0) _ w
             (MCPFacts.finishBy props (connectionTimeout cells0) (envsFrom outside s0) t0 0
                                (map record (providers cells0)) t0)).
  unfold oneStep. rewrite (scanProviders_tail props _ _ started).
  cbn [state now shown MCP.providers MCP.connectionTimeout MCP.activeProvider
       MCP.autoFallback MCP.retryAttempts].
  f_equal. f_equal. f_equal.
  - f_equal.
    rewrite (settled_results props outside (connectionTimeout cells0) (providers cells0)
               results s0 0 Hall Hlen) by (now rewrite Nat.add_0_r).
    reflexivity.
  - f_equal. unfold shown. rewrite Hr, Ha, Hi, Hf, Ht, Hra. f_equal.
    rewrite <- (Nat.add_0_r s0) at 1.
    apply (settled_records props outside (connectionTimeout cells0) t0 (providers cells0) s0
             unique (providers cells0) [] results eq_refl Hall Hlen).
Qed.

(** One more probe of the scan settles. *)
Lemma settles_step (results : list (option bool)) (k : nat) (w w' : World Component) :
  Underway results w ->
  w' = finalWorld (settles props k w) ->
  (exists results', Underway results' w') \/ Ended w'.
Proof.
  intros [Hp [Hs [Hr [Ha [Hi [Hf [Ht [Hra [Hlen [Hsound Hnot]]]]]]]]]] Hw'.
  unfold settles in Hw'. unfold bind at 1 in Hw'. unfold gets in Hw'. cbn [state now] in Hw'.
  destruct (nth_error (probes (state w)) k) as [p|] eqn:Hk.
  2: { left. exists results. subst w'. cbn [ret finalWorld]. repeat split; assumption. }
  rewrite Hp in Hk.
  destruct (settle_one props outside call0 (connectionTimeout cells0) t0 (value props p)
              (providers cells0) results 0 s0 k p unique Hk)
    as [j [o [Hj [Hpe [Hpend [Hrec Hsnd]]]]]].
  cbn [Nat.add] in Hpe.
  assert (Howner : owner p = ByScan call0 j) by (subst p; reflexivity).
  assert (Htimeout : timeout p = connectionTimeout cells0) by (subst p; reflexivity).
  assert (Hstart : startTime p = t0) by (subst p; reflexivity).
  clear Hpe.
  destruct w as [[c pr su st ca tr] t].
  cbn [state now cells probes suspended probesStarted calls trace] in *.
  subst pr su.
  unfold setProbes, resumeTestConnection, setProviders, onCells, modify, log, ret in Hw'.
  unfold bind at 1 2 3 4 in Hw'.
  cbn [state now cells probes suspended probesStarted calls trace] in Hw'.
  rewrite Howner in Hw'. unfold resumeOwner in Hw'. unfold bind at 1 in Hw'. unfold gets in Hw'.
  cbn [state now cells probes suspended probesStarted calls trace find isCall] in Hw'.
  rewrite Nat.eqb_refl in Hw'.
  assert (Hrecords :
    map record
      (map (fun o : Object =>
              match
                (if (MCP.id (record o) =? MCP.id (target p))%string
                 then Some (MCPFacts.settle props (timeout p) (target p) (env p)
                                            (startTime p) (record o))
                 else None)
              with
              | Some r => mkObject (S (providersNo c)) (place o) r
              | None => o
              end) (providers c)) =
    recordsFrom props outside (connectionTimeout cells0) t0 s0
                (setNth j (Some (value props p)) results) (providers cells0)).
  { rewrite (rebuilt_records
               (fun q => if (MCP.id q =? MCP.id (target p))%string
                         then Some (MCPFacts.settle props (timeout p) (target p) (env p)
                                                    (startTime p) q)
                         else None)
               (MCPFacts.settle props (timeout p) (target p) (env p) (startTime p))).
    - rewrite Hr, Htimeout, Hstart. symmetry. exact Hrec.
    - intros q. unfold MCPFacts.settle.
      destruct (MCP.id q =? MCP.id (target p))%string; reflexivity. }
  destruct (forallb isSome (setNth j (Some (value props p)) results)) eqn:Hall.
  - (* it was the last one: the scan goes on *)
    right. rewrite <- Hpend in Hw'. rewrite (pending_none _ _ _ _ _ _ _ _ Hall) in Hw'.
    unfold bind at 1, setSuspended, modify in Hw'.
    cbn [state now cells probes suspended probesStarted calls trace filter isCall] in Hw'.
    rewrite Nat.eqb_refl in Hw'. cbn [negb] in Hw'.
    match type of Hw' with
    | _ = finalWorld (resumeScanProviders ?a ?b ?c ?w1) =>
        pose proof (resumeScanProviders_sameFlight a b c w1) as [Hfp Hfs];
        pose proof (finish (setNth j (Some (value props p)) results) w1) as Hfin
    end.
    rewrite <- Hw' in Hfp, Hfs, Hfin.
    cbn [state now cells probes suspended providers activeProvider isScanning autoFallback
         connectionTimeout retryAttempts] in Hfp, Hfs, Hfin.
    split; [exact Hfp|]. split; [exact Hfs|].
    apply Hfin; try assumption.
    + now rewrite setNth_length.
    + now apply Hsnd.
  - (* others are still in flight *)
    left. exists (setNth j (Some (value props p)) results). subst w'.
    unfold setSuspended, modify, Underway.
    cbn [finalWorld state now cells probes suspended providers activeProvider isScanning
         autoFallback connectionTimeout retryAttempts map isCall].
    rewrite Nat.eqb_refl.
    split; [symmetry; exact Hpend|]. split; [reflexivity|]. split; [exact Hrecords|].
    repeat (split; [assumption|]).
    split; [now rewrite setNth_length|]. split; [now apply Hsnd|exact Hall].
Qed.


Lemma recordsFrom_unsettled timeout0 (objs : list Object) : forall number,
  recordsFrom props outside timeout0 t0 number (map (fun _ => None) objs) objs =
  map connecting (map record objs).
Proof.
  induction objs as [|o objs IH]; intros number; simpl; [reflexivity|]. now rewrite IH.
Qed.

Lemma soundFrom_unsettled timeout0 (objs : list Object) : forall number,
  soundFrom props outside timeout0 number (map (fun _ => None) objs) objs.
Proof.
  induction objs as [|o objs IH]; intros number; simpl; [exact I|].
  split; [discriminate|apply IH].
Qed.

(** The scan starts, with nothing in flight. *)
Lemma scan_starts (w w' : World Component) :
  cells (state w) = cells0 ->
  calls (state w) = call0 ->
  now w = t0 ->
  probesStarted (state w) = s0 ->
  probes (state w) = [] ->
  suspended (state w) = [] ->
  w' = finalWorld (scanProviders props outside w) ->
  (exists results, Underway results w') \/ Ended w'.
Proof.
  intros Hc Hca Ht Hst Hp Hs Hw'.
  destruct w as [[c pr su st ca tr] t].
  cbn [state now cells probes suspended probesStarted calls trace] in *.
  subst c ca t st pr su.
  unfold scanProviders in Hw'. unfold bind at 1 2 3 4 5 6 in Hw'.
  unfold gets, newCall, setIsScanning, setProviders, onCells, modify, call in Hw'.
  cbn [state now cells probes suspended probesStarted calls trace] in Hw'.
  rewrite started in Hw'. unfold ret at 1 in Hw'.
  cbn [state now cells probes suspended probesStarted calls trace] in Hw'.
  unfold bind at 1 in Hw'.
  match type of Hw' with
  | context [testConnections ?a ?b ?c ?d ?e ?w1] =>
      destruct (testConnections_run a b c e d w1)
        as [w1' [Hrun [Hnow [Hcells [Hsusp [Hcalls Hprobes]]]]]]
  end.
  rewrite Hrun in Hw'.
  cbn [state now cells probes suspended probesStarted calls trace app] in *.
  assert (Hrecords : map record (providers (cells (state w1'))) =
                     map connecting (map record (providers cells0))).
  { rewrite Hcells. cbn [providers]. rewrite !map_map. reflexivity. }
  remember (providers cells0) as objs0 eqn:Hobjs in Hw'.
  destruct objs0 as [|o objs].
  - (* an empty registry: [Promise.allSettled] resolves at once *)
    right.
    pose proof (resumeScanProviders_sameFlight props [] [] w1') as [Hfp Hfs].
    pose proof (finish [] w1') as Hfin. rewrite <- Hobjs in Hfin, Hrecords.
    cbn [map] in Hfin. rewrite <- Hw' in Hfp, Hfs, Hfin.
    rewrite <- Hobjs in Hprobes. cbn [map pendingFrom] in Hprobes.
    split; [now rewrite Hfp|]. split; [now rewrite Hfs, Hsusp|].
    apply Hfin;
      first [exact Hrecords | rewrite Hcells; reflexivity | reflexivity | exact I].
  - left. exists (map (fun _ => None) (providers cells0)). subst w'.
    unfold setSuspended, modify, Underway. rewrite Hobjs.
    cbn [finalWorld state now cells probes suspended].
    split; [exact Hprobes|]. split; [now rewrite Hsusp|].
    split; [now rewrite Hrecords, recordsFrom_unsettled|].
    rewrite Hcells. cbn [activeProvider isScanning autoFallback connectionTimeout retryAttempts].
    repeat (split; [reflexivity|]).
    split; [now rewrite length_map|]. split; [apply soundFrom_unsettled|].
    rewrite <- Hobjs. reflexivity.
Qed.

End Handler.

(** ** The run of a scan that nothing overlaps *)

(** Time passes, or the await of a probe settles. *)
Definition passive (e : Event) : bool :=
  match e with
  | Wait _ | ProbeSettles _ => true
  | _ => false
  end.

Lemma perform_component props outside (e : Event) (w : World Mounted) :
  component (state (perform props outside e w)) =
  state (finalWorld (handler props outside e (mkWorld (component (state w)) (now w)))).
Proof. reflexivity. Qed.

Section Run.
Variable props : MCP.MCPManagerProps.
Variable outside : nat -> MCP.ProbeEnv.
Variable cells0 : Cells.
Variable call0 : nat.
Variable t0 : Z.
Variable s0 : nat.
Hypothesis started :
  MCP.onStatusUpdate props "🔍 Scanning for MCP providers..."%string = Returns.
Hypothesis unique : NoDup (map (fun o => MCP.id (record o)) (providers cells0)).

(** The scan is under way or has ended. *)
Definition Scanning (m : Component) : Prop :=
  (exists results, Underway props outside cells0 call0 t0 s0 results (mkWorld m 0)) \/
  Ended props outside cells0 t0 s0 (mkWorld m 0).

Lemma passive_Scanning (e : Event) (w : World Mounted) :
  passive e = true ->
  Scanning (component (state w)) ->
  Scanning (component (state (perform props outside e w))).
Proof.
  intros He Hinv. rewrite perform_component.
  destruct e as [ms| | |k| | | | |]; try discriminate He; cbn [handler].
  - exact Hinv.
  - destruct Hinv as [[results Hinv]|Hinv].
    + destruct (settles_step props outside cells0 call0 t0 s0 started unique results k
                  (mkWorld (component (state w)) (now w)) _ Hinv eq_refl)
        as [[results' H]|H].
      * left. exists results'. exact H.
      * right. exact H.
    + right. destruct Hinv as [Hp [Hs Hc]].
      unfold settles, bind, gets. cbn [state now] in *. rewrite Hp.
      destruct k; cbn [nth_error ret finalWorld state]; repeat split; assumption.
Qed.

Lemma run_Scanning (events : list Event) : forall w : World Mounted,
  forallb passive events = true ->
  Scanning (component (state w)) ->
  Scanning (component (state (run props outside events w))).
Proof.
  induction events as [|e events IH]; intros w Hall Hinv; [exact Hinv|].
  simpl in Hall. apply andb_prop in Hall. destruct Hall as [He Hall].
  cbn [run]. apply IH; [exact Hall|]. now apply passive_Scanning.
Qed.

End Run.



(** X12: a scan of the mounted component that nothing overlaps.  It
    starts, from the timer or the button, with nothing in flight, and until
    its probes have all settled nothing happens but time passing and these
    probes settling, in any order.  With unique ids in the registry, and
    once past its first status update, such a scan leaves the state cells
    exactly as [MCP.scanProviders], run in one step from the cells it
    started from, leaves them, whatever the callbacks do: what is proved of
    the one-step scan holds of such scans of the mounted component. *)
Theorem lone_scan_as_one_step props outside (w : World Mounted) (start : Event)
    (events : list Event) :
  MCP.onStatusUpdate props "🔍 Scanning for MCP providers..."%string = Returns ->
  NoDup (map (fun o => MCP.id (record o)) (providers (cells (component (state w))))) ->
  probes (component (state w)) = [] ->
  suspended (component (state w)) = [] ->
  start = ScanTimerFires \/ start = ClickScan ->
  forallb passive events = true ->
  let w' := run props outside events (perform props outside start w) in
  probes (component (state w')) = [] ->
  shown (cells (component (state w'))) =
  state (finalWorld
    (MCP.scanProviders props
       (fun i => outside (probesStarted (component (state w)) + i)%nat)
       (mkWorld (shown (cells (component (state w)))) (now w)))).
Proof.
  intros Hs Hnd Hp Hsu Hstart Hall. cbv zeta. intros Hend.
  set (m := component (state w)) in *.
  assert (Hinv : Scanning props outside (cells m) (calls m) (now w) (probesStarted m)
                          (component (state (perform props outside start w)))).
  { rewrite perform_component.
    assert (Hh : handler props outside start = scanProviders props outside)
      by (destruct Hstart; subst start; reflexivity).
    rewrite Hh.
    destruct (scan_starts props outside (cells m) (calls m) (now w) (probesStarted m) Hs Hnd
                (mkWorld m (now w)) _ eq_refl eq_refl eq_refl eq_refl Hp Hsu eq_refl)
      as [[results H]|H]; [left; exists results|right]; exact H. }
  apply (run_Scanning props outside (cells m) (calls m) (now w) (probesStarted m) Hs Hnd
           events _ Hall) in Hinv.
  destruct Hinv as [[results Hinv]|[_ [_ Hfin]]].
  - exfalso. destruct Hinv as [Hpr [_ [_ [_ [_ [_ [_ [_ [Hlen [_ Hnot]]]]]]]]]].
    cbn [state] in Hpr. rewrite Hend in Hpr. symmetry in Hpr.
    revert Hpr. now apply pending_some.
  - exact Hfin.
Qed.

(** ** Worked instance *)

(** The first scan of the component left to itself with both local
    daemons up, as [idle] runs it: LM Studio's probe settles first, then
    ZombieCoder's, Ollama's and the cloud probe, each when it is due. *)
Lemma lone_scan_as_one_step_witness :
  let w := perform wired (fun _ => localUp) (Wait 1000) (mount 0) in
  let events := [Wait 100; ProbeSettles 2; Wait 100; ProbeSettles 0;
                 Wait 100; ProbeSettles 0; Wait 700; ProbeSettles 0] in
  idle wired (fun _ => localUp) 2000 20 (mount 0) = Wait 1000 :: ScanTimerFires :: events /\
  admissible wired (fun _ => localUp) (Wait 1000 :: ScanTimerFires :: events) (mount 0) = true /\
  shown (cells (component (state
    (run wired (fun _ => localUp) events
         (perform wired (fun _ => localUp) ScanTimerFires w))))) =
  state (finalWorld (MCP.scanProviders wired (fun _ => localUp)
                                       (mkWorld (shown (cells (component (state w)))) 1000))).
Proof.
  cbv zeta. split; [vm_compute; reflexivity|]. split; [vm_compute; reflexivity|].
  apply (lone_scan_as_one_step wired (fun _ => localUp)
           (perform wired (fun _ => localUp) (Wait 1000) (mount 0)) ScanTimerFires
           [Wait 100; ProbeSettles 2; Wait 100; ProbeSettles 0;
            Wait 100; ProbeSettles 0; Wait 700; ProbeSettles 0]).
  - reflexivity.
  - vm_compute. repeat constructor; simpl; intuition discriminate.
  - reflexivity.
  - reflexivity.
  - left. reflexivity.
  - reflexivity.
  - vm_compute. reflexivity.
Defined.

End LoneScan.

(* ================================================================== *)
(** * Strings and awaits that may never settle *)
(* ================================================================== *)

Module JSString.
Import Ascii.

(** White space and line terminators of ECMAScript, as UTF-8 sequences of
    one, two and three bytes: U+0009 to U+000D and U+0020; U+00A0; U+1680,
    U+2000 to U+200A, U+2028, U+2029, U+202F, U+205F, U+3000 and U+FEFF. *)
Definition space1 (c : ascii) : bool :=
  let n := N_of_ascii c in
  (((9 <=? n) && (n <=? 13)) || (n =? 32))%N.

Definition space2 (c1 c2 : ascii) : bool :=
  ((N_of_ascii c1 =? 194) && (N_of_ascii c2 =? 160))%N.

Definition space3 (c1 c2 c3 : ascii) : bool :=
  let a := N_of_ascii c1 in
  let b := N_of_ascii c2 in
  let c := N_of_ascii c3 in
  (((a =? 225) && (b =? 154) && (c =? 128)) ||
   ((a =? 226) && (b =? 128) &&
    (((128 <=? c) && (c <=? 138)) || (c =? 168) || (c =? 169) || (c =? 175))) ||
   ((a =? 226) && (b =? 129) && (c =? 159)) ||
   ((a =? 227) && (b =? 128) && (c =? 128)) ||
   ((a =? 239) && (b =? 187) && (c =? 191)))%N.

(** [s.trimStart()] *)
Fixpoint trimStart (s : string) : string :=
  match s with
  | String c1 rest1 =>
      if space1 c1 then trimStart rest1
      else
        match rest1 with
        | String c2 rest2 =>
            if space2 c1 c2 then trimStart rest2
            else
              match rest2 with
              | String c3 rest3 => if space3 c1 c2 c3 then trimStart rest3 else s
              | EmptyString => s
              end
        | EmptyString => s
        end
  | EmptyString => s
  end.

(** The same from the end, on the reversed bytes. *)
Fixpoint dropSpaces (l : list ascii) : list ascii :=
  match l with
  | c1 :: rest1 =>
      if space1 c1 then dropSpaces rest1
      else
        match rest1 with
        | c2 :: rest2 =>
            if space2 c2 c1 then dropSpaces rest2
            else
              match rest2 with
              | c3 :: rest3 => if space3 c3 c2 c1 then dropSpaces rest3 else l
              | [] => l
              end
        | [] => l
        end
  | [] => l
  end.

(** [s.trimEnd()] *)
Definition trimEnd (s : string) : string :=
  string_of_list_ascii (rev (dropSpaces (rev (list_ascii_of_string s)))).

(** [s.trim()] *)
Definition trim (s : string) : string := trimEnd (trimStart s).

(** [!s]: the empty string is the only falsy string. *)
Definition falsy (s : string) : bool := (s =? "")%string.

End JSString.

Module Awaiting.

(** The component's state, the clock, and the calls made so far to the
    callbacks received as props. *)
Record World (S C : Type) : Type := mkWorld { state : S; now : Z; calls : list C }.
Arguments mkWorld {S C} state now calls.
Arguments state {S C} w.
Arguments now {S C} w.
Arguments calls {S C} w.

(** A handler returns, throws an error (kept as [String(error)]), or waits
    for ever on a promise that never settles. *)
Inductive Res (S C A : Type) : Type :=
| Normal (a : A) (w : World S C)
| Thrown (error : string) (w : World S C)
| Pending (w : World S C).
Arguments Normal {S C A} a w.
Arguments Thrown {S C A} error w.
Arguments Pending {S C A} w.

Definition M (S C A : Type) : Type := World S C -> Res S C A.

Definition ret {S C A} (a : A) : M S C A := fun w => Normal a w.

Definition bind {S C A B} (m : M S C A) (k : A -> M S C B) : M S C B :=
  fun w => match m w with
           | Normal a w' => k a w'
           | Thrown error w' => Thrown error w'
           | Pending w' => Pending w'
           end.

Definition throw {S C A} (error : string) : M S C A := fun w => Thrown error w.

(** [try { body } catch (error) { handler }] *)
Definition tryCatch {S C A} (body : M S C A) (handler : string -> M S C A) : M S C A :=
  fun w => match body w with
           | Normal a w' => Normal a w'
           | Thrown error w' => handler error w'
           | Pending w' => Pending w'
           end.

(** [try { body } finally { cleanup }] *)
Definition tryFinally {S C A} (body : M S C A) (cleanup : M S C unit) : M S C A :=
  fun w => match body w with
           | Normal a w' =>
               match cleanup w' with
               | Normal _ w'' => Normal a w''
               | Thrown error w'' => Thrown error w''
               | Pending w'' => Pending w''
               end
           | Thrown error w' =>
               match cleanup w' with
               | Normal _ w'' => Thrown error w''
               | Thrown error' w'' => Thrown error' w''
               | Pending w'' => Pending w''
               end
           | Pending w' => Pending w'
           end.

Definition gets {S C A} (f : S -> A) : M S C A := fun w => Normal (f (state w)) w.

Definition modify {S C} (f : S -> S) : M S C unit :=
  fun w => Normal tt (mkWorld (f (state w)) (now w) (calls w)).

Definition dateNow {S C} : M S C Z := fun w => Normal (now w) w.

Definition finalWorld {S C A} (r : Res S C A) : World S C :=
  match r with
  | Normal _ w => w
  | Thrown _ w => w
  | Pending w => w
  end.

(** How a callback behaves when called. *)
Inductive Called : Type := Returns | Throws (shown : string).

(** Calling a callback: the call [c] is made, then it returns or throws. *)
Definition call {S C} (c : C) (o : Called) : M S C unit :=
  fun w =>
    let w' := mkWorld (state w) (now w) (calls w ++ [c]) in
    match o with
    | Returns => Normal tt w'
    | Throws shown => Thrown shown w'
    end.

(** [await new Promise((resolve) => setTimeout(resolve, ms))] *)
Definition sleep {S C} (ms : Z) : M S C unit :=
  fun w => Normal tt (mkWorld (state w) (now w + Z.max 0 ms) (calls w)).

(** How a request behaves: it is answered after [delay] ms, it fails after
    [delay] ms with an error printed as [shown], or it never settles. *)
Inductive Fetch (R : Type) : Type :=
| Responds (delay : N) (response : R)
| Fails (delay : N) (shown : string)
| Hangs.
Arguments Responds {R} delay response.
Arguments Fails {R} delay shown.
Arguments Hangs {R}.

(** [await fetch(...)], with no abort signal. *)
Definition fetch {S C R} (b : Fetch R) : M S C R :=
  fun w =>
    let at_ d := mkWorld (state w) (now w + Z.of_N d) (calls w) in
    match b with
    | Responds delay response => Normal response (at_ delay)
    | Fails delay shown => Thrown shown (at_ delay)
    | Hangs => Pending w
    end.

End Awaiting.

Declare Scope awaiting_scope.
Delimit Scope awaiting_scope with awaiting.
Notation "x <- m ;; k" := (Awaiting.bind m (fun x => k))
  (at level 61, m at next level, right associativity) : awaiting_scope.
Notation "m ;; k" := (Awaiting.bind m (fun _ => k))
  (at level 61, right associativity) : awaiting_scope.

(* ================================================================== *)
(** * ZombieCoderIntegration (components/zombiecoder-integration.tsx) *)
(* ================================================================== *)

Module Zombie.
Import Awaiting.
Local Open Scope string_scope.
Local Open Scope awaiting_scope.

Module Agent.

Inductive Status : Type := active | inactive | busy.

Record ZombieCoderAgent : Type := make {
  id : string;
  name : string;
  bengaliName : string;
  description : string;
  bengaliDescription : string;
  status : Status;
  capabilities : list string;
  endpoint : string;
  lastUsed : Z
}.

End Agent.

Inductive Status : Type := connected | disconnected | connecting | error.

Definition Status_eqb (a b : Status) : bool :=
  match a, b with
  | connected, connected | disconnected, disconnected
  | connecting, connecting | error, error => true
  | _, _ => false
  end.

Record ZombieCoderConnection : Type := mkConnection {
  serverUrl : string;
  apiKey : string;
  status : Status;
  latency : Z;
  version : string;
  agents : list Agent.ZombieCoderAgent
}.

Module Chat.

Inductive Sender : Type := user | agent.

(** An entry of [chatHistory]; [message] is [undefined] when the reply
    carried neither [response] nor [message]. *)
Record Entry : Type := make {
  id : string;
  type : Sender;
  message : option string;
  bengaliMessage : option string;
  timestamp : Z;
  sentBy : option string          (* the [agent] field *)
}.

End Chat.

Record ZombieCoderIntegrationProps : Type := mkProps {
  onConnectionChange : bool -> Called;
  onAgentResponse : option string -> Called;
  onStatusUpdate : string -> Called
}.

(** The calls the component makes to its props. *)
Inductive Call : Type :=
| ConnectionChange (connected : bool)
| AgentResponse (response : option string)
| StatusUpdate (message : string).

(** The [useState] cells, and [renderThrows]: the error the next render
    of the component throws, when an updater queued by [setConnection]
    throws as React runs it.  Nothing catches it; the page is unmounted and
    the cells are not shown again. *)
Record State : Type := mkState {
  connection : ZombieCoderConnection;
  selectedAgent : string;
  chatMessage : string;
  chatHistory : list Chat.Entry;
  isProcessing : bool;
  autoTranslate : bool;
  privacyMode : bool;
  renderThrows : option string
}.

Definition initialState : State :=
  mkState (mkConnection "http://localhost:5000" "" disconnected 0 "" [])
          "" "" [] false true true None.

Definition Step (A : Type) : Type := M State Call A.

Definition setConnection (f : ZombieCoderConnection -> ZombieCoderConnection) : Step unit :=
  modify (fun s => mkState (f (connection s)) (selectedAgent s) (chatMessage s)
                           (chatHistory s) (isProcessing s) (autoTranslate s)
                           (privacyMode s) (renderThrows s)).

(** [setConnection(updater)] with an updater that may throw.  The handler
    only queues the updater and goes on; React runs it when it renders the
    component, and what it throws there is thrown by the render. *)
Definition setConnectionBy (updater : ZombieCoderConnection -> string + ZombieCoderConnection)
  : Step unit :=
  modify (fun s =>
    match updater (connection s) with
    | inr c => mkState c (selectedAgent s) (chatMessage s) (chatHistory s)
                       (isProcessing s) (autoTranslate s) (privacyMode s) (renderThrows s)
    | inl shown => mkState (connection s) (selectedAgent s) (chatMessage s) (chatHistory s)
                           (isProcessing s) (autoTranslate s) (privacyMode s) (Some shown)
    end).

Definition setSelectedAgent (v : string) : Step unit :=
  modify (fun s => mkState (connection s) v (chatMessage s) (chatHistory s)
                           (isProcessing s) (autoTranslate s) (privacyMode s)
                           (renderThrows s)).

Definition setChatMessage (v : string) : Step unit :=
  modify (fun s => mkState (connection s) (selectedAgent s) v (chatHistory s)
                           (isProcessing s) (autoTranslate s) (privacyMode s)
                           (renderThrows s)).

Definition setChatHistory (f : list Chat.Entry -> list Chat.Entry) : Step unit :=
  modify (fun s => mkState (connection s) (selectedAgent s) (chatMessage s)
                           (f (chatHistory s)) (isProcessing s) (autoTranslate s)
                           (privacyMode s) (renderThrows s)).

Definition setIsProcessing (v : bool) : Step unit :=
  modify (fun s => mkState (connection s) (selectedAgent s) (chatMessage s)
                           (chatHistory s) v (autoTranslate s) (privacyMode s)
                           (renderThrows s)).

(** ** [initializeAgents] *)

Definition builtinAgents (date : Z) : list Agent.ZombieCoderAgent :=
  [ Agent.make "procoder" "Procoder" "প্রোকোডার"
      "Professional coding assistant" "পেশাদার কোডিং সহায়ক" Agent.active
      ["coding"; "debugging"; "optimization"; "bengali-support"]
      "/api/agents/procoder" date;
    Agent.make "instruct" "Instruct" "নির্দেশক"
      "Instruction and guidance provider" "নির্দেশনা ও গাইডেন্স প্রদানকারী" Agent.active
      ["instruction"; "guidance"; "tutorial"; "bengali-support"]
      "/api/agents/instruct" date;
    Agent.make "creative-writer" "Creative Writer" "সৃজনশীল লেখক"
      "Creative content and documentation writer" "সৃজনশীল কন্টেন্ট ও ডকুমেন্টেশন লেখক"
      Agent.active
      ["writing"; "documentation"; "creativity"; "bengali-support"]
      "/api/agents/creative-writer" date;
    Agent.make "business-agent" "Business Agent" "ব্যবসায়িক এজেন্ট"
      "Business strategy and planning assistant" "ব্যবসায়িক কৌশল ও পরিকল্পনা সহায়ক"
      Agent.active
      ["business"; "strategy"; "planning"; "bengali-support"]
      "/api/agents/business" date;
    Agent.make "db-analyzer" "DB Analyzer" "ডেটাবেস বিশ্লেষক"
      "Database analysis and optimization" "ডেটাবেস বিশ্লেষণ ও অপটিমাইজেশন" Agent.active
      ["database"; "analysis"; "sql"; "bengali-support"]
      "/api/agents/db-analyzer" date;
    Agent.make "translation-agent" "Translation Agent" "অনুবাদ এজেন্ট"
      "Bengali-English translation specialist" "বাংলা-ইংরেজি অনুবাদ বিশেষজ্ঞ" Agent.active
      ["translation"; "bengali"; "english"; "localization"]
      "/api/agents/translation" date ].

Definition initializeAgents : Step unit :=
  date <- dateNow ;;
  let agents := builtinAgents date in
  setConnection (fun prev =>
    mkConnection (serverUrl prev) (apiKey prev) (status prev) (latency prev)
                 (version prev) agents) ;;
  match agents with
  | first :: _ => setSelectedAgent (Agent.id first)
  | [] => ret tt
  end.

(** ** Requests and responses *)

(** The body of a [POST] to an agent. *)
Record Payload : Type := mkPayload {
  payloadMessage : string;
  bengali : bool;
  privacy : bool;
  contextTimestamp : Z
}.

Record Request : Type := mkRequest {
  url : string;
  authorization : string;
  payload : option Payload      (* [None]: a [GET] *)
}.

(** The fields the component reads from a JSON object; [None] when the
    field is absent. *)
Record Data : Type := mkData {
  dataVersion : option string;
  dataResponse : option string;
  dataMessage : option string;
  bengaliResponse : option string
}.

(** The body of a response: a JSON object (an array, a number, a string or
    a boolean reads like an object without these fields); JSON [null],
    where reading a property throws a [TypeError] printed as [shown]; or
    text that is not JSON, on which [response.json()] rejects with an error
    printed as [shown]. *)
Inductive Body : Type :=
| Object (data : Data)
| Null (shown : string)
| Unreadable (shown : string).

(** What [await response.json()] gives. *)
Inductive Json : Type :=
| JObject (data : Data)
| JNull (shown : string).

Record Response : Type := mkResponse {
  ok : bool;
  statusCode : Z;
  body : Body
}.

Record Env : Type := mkEnv {
  network : Request -> Fetch Response
}.

(** [const data = await response.json()] *)
Definition json (response : Response) : Step Json :=
  match body response with
  | Object data => ret (JObject data)
  | Null shown => ret (JNull shown)
  | Unreadable shown => throw shown
  end.

(** Reading [data.response], [data.message] and [data.bengaliResponse]
    where the handler itself does it. *)
Definition fields (data : Json) : Step Data :=
  match data with
  | JObject d => ret d
  | JNull shown => throw shown
  end.

(** [a || b] on optional strings: [a] when it is a non-empty string. *)
Definition orElse (a b : option string) : option string :=
  match a with
  | Some s => if JSString.falsy s then b else Some s
  | None => b
  end.

(** [connection.apiKey ? `Bearer ${connection.apiKey}` : ""] *)
Definition bearer (apiKey : string) : string :=
  if JSString.falsy apiKey then "" else "Bearer " ++ apiKey.

(** ** [testConnection] *)

Definition healthRequest (c : ZombieCoderConnection) : Request :=
  mkRequest (serverUrl c ++ "/api/health") (bearer (apiKey c)) None.

Definition testConnection (props : ZombieCoderIntegrationProps) (env : Env) : Step unit :=
  connection0 <- gets connection ;;
  setConnection (fun prev =>
    mkConnection (serverUrl prev) (apiKey prev) connecting (latency prev)
                 (version prev) (agents prev)) ;;
  call (StatusUpdate "🔍 Connecting to ZombieCoder AI...")
       (onStatusUpdate props "🔍 Connecting to ZombieCoder AI...") ;;
  tryCatch
    (startTime <- dateNow ;;
     response <- fetch (network env (healthRequest connection0)) ;;
     date <- dateNow ;;
     let latency := date - startTime in
     if ok response then
       data <- json response ;;
       (* [data.version] is read by the updater, when React runs it *)
       setConnectionBy (fun prev =>
         match data with
         | JObject d =>
             inr (mkConnection (serverUrl prev) (apiKey prev) connected latency
                    match orElse (dataVersion d) (Some "1.0.0") with
                    | Some v => v
                    | None => "1.0.0"
                    end
                    (agents prev))
         | JNull shown => inl shown
         end) ;;
       call (ConnectionChange true) (onConnectionChange props true) ;;
       (let message := "✅ Connected to ZombieCoder AI (" ++ MCP.showZ latency ++ "ms)" in
        call (StatusUpdate message) (onStatusUpdate props message)) ;;
       initializeAgents
     else throw ("Error: HTTP " ++ MCP.showZ (statusCode response)))
    (fun error =>
       setConnection (fun prev =>
         mkConnection (serverUrl prev) (apiKey prev) Zombie.error 0
                      (version prev) (agents prev)) ;;
       call (ConnectionChange false) (onConnectionChange props false) ;;
       (let message := "❌ Connection failed: " ++ error in
        call (StatusUpdate message) (onStatusUpdate props message))).

(** ** [sendMessage] *)

Definition agentRequest (c : ZombieCoderConnection) (agent : Agent.ZombieCoderAgent)
    (message : string) (bengali privacy : bool) (date : Z) : Request :=
  mkRequest (serverUrl c ++ Agent.endpoint agent) (bearer (apiKey c))
            (Some (mkPayload message bengali privacy date)).

Definition sendMessage (props : ZombieCoderIntegrationProps) (env : Env) : Step unit :=
  chatMessage0 <- gets chatMessage ;;
  selectedAgent0 <- gets selectedAgent ;;
  connection0 <- gets connection ;;
  autoTranslate0 <- gets autoTranslate ;;
  privacyMode0 <- gets privacyMode ;;
  if JSString.falsy (JSString.trim chatMessage0) || JSString.falsy selectedAgent0 ||
     negb (Status_eqb (status connection0) connected)
  then ret tt
  else
    match find (fun a => Agent.id a =? selectedAgent0) (agents connection0) with
    | None => ret tt
    | Some agent =>
        setIsProcessing true ;;
        date <- dateNow ;;
        (let userMessage :=
           Chat.make ("user-" ++ MCP.showZ date) Chat.user (Some chatMessage0)
                     None date None in
         setChatHistory (fun prev => (prev ++ [userMessage])%list)) ;;
        tryFinally
          (tryCatch
             ((let message := "🤖 " ++ Agent.bengaliName agent ++ " processing your request..." in
               call (StatusUpdate message) (onStatusUpdate props message)) ;;
              sent <- dateNow ;;
              response <- fetch (network env
                (agentRequest connection0 agent chatMessage0 autoTranslate0 privacyMode0
                              sent)) ;;
              if ok response then
                data <- json response ;;
                data <- fields data ;;
                date <- dateNow ;;
                let reply := orElse (dataResponse data) (dataMessage data) in
                (let agentMessage :=
                   Chat.make ("agent-" ++ MCP.showZ date) Chat.agent reply
                             (bengaliResponse data) date (Some (Agent.name agent)) in
                 setChatHistory (fun prev => (prev ++ [agentMessage])%list)) ;;
                call (AgentResponse reply) (onAgentResponse props reply) ;;
                (let message := "✅ Response received from " ++ Agent.bengaliName agent in
                 call (StatusUpdate message) (onStatusUpdate props message))
              else throw ("Error: Agent request failed: " ++ MCP.showZ (statusCode response)))
             (fun error =>
                (let message := "❌ Agent request failed: " ++ error in
                 call (StatusUpdate message) (onStatusUpdate props message)) ;;
                date <- dateNow ;;
                let errorMessage :=
                  Chat.make ("error-" ++ MCP.showZ date) Chat.agent
                            (Some ("Error: Could not process your request. " ++ error))
                            (Some ("ত্রুটি: আপনার অনুরোধ প্রক্রিয়া করা যায়নি। " ++ error))
                            date (Some "System") in
                setChatHistory (fun prev => (prev ++ [errorMessage])%list)))
          (setIsProcessing false ;;
           setChatMessage "")
    end.

(** Auto-connect on mount: [setTimeout(() => testConnection(), 1000)]. *)
Definition autoConnect (props : ZombieCoderIntegrationProps) (env : Env) : Step unit :=
  sleep 1000 ;;
  testConnection props env.

End Zombie.

(* ================================================================== *)
(** * ZombieCoderIntegration: connecting and sending *)
(* ================================================================== *)

Module ZombieBehaviour.
Import Awaiting Zombie.

Ltac step :=
  unfold json, fields, setConnection, setConnectionBy, setSelectedAgent, setChatMessage,
    setChatHistory, setIsProcessing;
  unfold bind, tryCatch, tryFinally, gets, modify, dateNow, call, fetch, ret, throw.

(** The same on a world that has been opened, so that every field read
    reduces. *)
Ltac open_world w :=
  destruct w as [[[serverUrl0 apiKey0 status0 latency0 version0 agents0]
                  selected0 message0 history0 processing0 translate0 privacy0 thrown0]
                 date0 calls0];
  cbn [state now calls connection selectedAgent chatMessage chatHistory isProcessing
       autoTranslate privacyMode renderThrows serverUrl apiKey status latency version
       agents] in *.

Ltac run_step :=
  cbv beta iota zeta delta
    [bind tryCatch tryFinally gets modify dateNow call fetch ret throw finalWorld
     json fields setConnection setConnectionBy setSelectedAgent setChatMessage
     setChatHistory setIsProcessing
     state now calls connection selectedAgent chatMessage chatHistory isProcessing
     autoTranslate privacyMode renderThrows serverUrl apiKey status latency version agents
     ok statusCode body orb negb Status_eqb].

(** The connection reports among the calls made, oldest first. *)
Definition reports (cs : list Call) : list bool :=
  flat_map (fun c => match c with
                     | ConnectionChange b => [b]
                     | AgentResponse _ | StatusUpdate _ => []
                     end) cs.

(** The latest of them. *)
Definition lastReport (cs : list Call) : option bool :=
  last (map Some (reports cs)) None.

Definition withStatus (s : State) (v : Status) : State :=
  mkState (mkConnection (serverUrl (connection s)) (apiKey (connection s)) v
                        (latency (connection s)) (version (connection s))
                        (agents (connection s)))
          (selectedAgent s) (chatMessage s) (chatHistory s) (isProcessing s)
          (autoTranslate s) (privacyMode s) (renderThrows s).

(** The entry [sendMessage] adds for the user's message. *)
Definition userEntry (w : World State Call) : Chat.Entry :=
  Chat.make ("user-" ++ MCP.showZ (now w))%string Chat.user
            (Some (chatMessage (state w))) None (now w) None.

(** ** No time-outs *)

(** X24: neither request of the component has a time-out.  When the health
    request never settles, a connection test that got past its first status
    update waits for ever: the status stays [connecting] (and the Test
    button disabled), nothing else changes and no connection report is
    made.  When an agent request never settles, a send that got as far as
    the request waits for ever with [isProcessing] set (and the Send button
    disabled), the message still in the box and only the user's entry added
    to the chat. *)
Theorem requests_never_time_out props env (w : World State Call) :
  (onStatusUpdate props "🔍 Connecting to ZombieCoder AI..."%string = Returns ->
   network env (healthRequest (connection (state w))) = Hangs ->
   testConnection props env w =
   Pending (mkWorld (withStatus (state w) connecting) (now w)
                    (calls w ++ [StatusUpdate "🔍 Connecting to ZombieCoder AI..."%string]))) /\
  (forall agent,
     JSString.trim (chatMessage (state w)) <> ""%string ->
     selectedAgent (state w) <> ""%string ->
     status (connection (state w)) = connected ->
     find (fun a => (Agent.id a =? selectedAgent (state w))%string)
          (agents (connection (state w))) = Some agent ->
     onStatusUpdate props
       ("🤖 " ++ Agent.bengaliName agent ++ " processing your request...")%string = Returns ->
     network env (agentRequest (connection (state w)) agent (chatMessage (state w))
                               (autoTranslate (state w)) (privacyMode (state w)) (now w))
       = Hangs ->
     exists w',
       sendMessage props env w = Pending w' /\
       isProcessing (state w') = true /\
       chatMessage (state w') = chatMessage (state w) /\
       chatHistory (state w') = chatHistory (state w) ++ [userEntry w] /\
       connection (state w') = connection (state w) /\
       now w' = now w).
Proof.
  split.
  - intros Hs Hn. unfold testConnection. step. simpl. rewrite Hs, Hn. reflexivity.
  - intros agent Hm Ha Hc Hf Hs Hn.
    apply String.eqb_neq in Hm. apply String.eqb_neq in Ha.
    unfold sendMessage. step. unfold JSString.falsy. cbn [state now calls].
    rewrite Hm, Ha, Hc, Hf. cbn [orb negb Status_eqb state now calls].
    rewrite Hs. cbn [state now calls]. rewrite Hn.
    eexists. split; [reflexivity|]. repeat split.
Qed.

(** ** What a settled connection test reports *)

Lemma lastReport_app_one (cs : list Call) (b : bool) :
  lastReport (cs ++ [ConnectionChange b]) = Some b.
Proof.
  unfold lastReport, reports. rewrite flat_map_app, map_app. simpl.
  apply last_last.
Qed.

Lemma lastReport_app_status (cs : list Call) (m : string) :
  lastReport (cs ++ [StatusUpdate m]) = lastReport cs.
Proof.
  unfold lastReport, reports. rewrite flat_map_app. simpl. now rewrite app_nil_r.
Qed.

(** X25: once a connection test has got past its first status update and its
    request has settled, one of two things holds, however the test ended
    and whatever the callbacks did.  Unless the request was answered [ok]
    with JSON [null] for a body, the component's status is [connected] or
    [error] and agrees with the last connection report made to the parent,
    and the test makes no render throw; when it ends [connected], the
    request was answered with [ok] and an object for a body, the latency
    stored is the time the request took, and the six built-in agents are
    listed with the first one selected.  When the answer is [ok] with
    [null] for a body, the updater that reads [data.version] throws only
    when React runs it, at the next render and outside the [try]: by then
    the handler has reported the connection as made (the first report is
    [true], and so is the last when the callbacks return), and the render
    throws. *)
Theorem connection_report_matches_status props env (w : World State Call) :
  onStatusUpdate props "🔍 Connecting to ZombieCoder AI..."%string = Returns ->
  network env (healthRequest (connection (state w))) <> Hangs ->
  let w' := finalWorld (testConnection props env w) in
  exists new b,
    calls w' = calls w ++ new /\
    lastReport new = Some b /\
    ((renderThrows (state w') = renderThrows (state w) /\
      status (connection (state w')) = (if b then connected else error) /\
      (b = true ->
       exists delay response data,
         network env (healthRequest (connection (state w))) = Responds delay response /\
         ok response = true /\ body response = Object data /\
         latency (connection (state w')) = Z.of_N delay /\
         agents (connection (state w')) = builtinAgents (now w + Z.of_N delay) /\
         selectedAgent (state w') = "procoder"%string))
     \/
     (exists delay code shown,
        network env (healthRequest (connection (state w))) =
          Responds delay (mkResponse true code (Null shown)) /\
        renderThrows (state w') = Some shown /\
        hd_error (reports new) = Some true /\
        (onConnectionChange props true = Returns ->
         (forall m, onStatusUpdate props m = Returns) ->
         b = true))).
Proof.
  intros Hs Hn. cbv zeta. unfold testConnection, initializeAgents. step. simpl.
  rewrite Hs.
  destruct (network env (healthRequest (connection (state w))))
    as [delay [okay code [data|shown|shown]]|delay shown|]; [| | | |congruence];
    try destruct okay; simpl;
    repeat match goal with
           | |- context [match onConnectionChange props ?b with _ => _ end] =>
               let E := fresh "E" in destruct (onConnectionChange props b) eqn:E; simpl
           | |- context [match onStatusUpdate props ?m with _ => _ end] =>
               let E := fresh "E" in destruct (onStatusUpdate props m) eqn:E; simpl
           end;
    eexists; eexists;
    (split; [rewrite <- ?app_assoc; reflexivity|]);
    (split; [rewrite ?app_assoc, ?lastReport_app_status, ?lastReport_app_one; reflexivity|]).
  all: try (left; split; [reflexivity|]; split; [reflexivity|];
            intros Hb; try discriminate Hb;
            eexists; eexists; eexists; repeat split; simpl; f_equal; lia).
  all: right; exists delay, code, shown; split; [reflexivity|];
    split; [reflexivity|]; split; [reflexivity|];
    intros Hc Hall; try reflexivity; try discriminate Hc;
    repeat match goal with
           | E : onStatusUpdate _ _ = Throws _ |- _ => rewrite Hall in E; discriminate E
           | E : onConnectionChange _ true = Throws _ |- _ =>
               rewrite Hc in E; discriminate E
           end.
Qed.

(** ** What a settled send leaves *)

(** X26: a send that passes its guards and whose request settles always
    unlocks the form, however it ends and whatever the callbacks do:
    [isProcessing] is cleared and the message box emptied ([finally]), the
    connection and the selected agent are untouched, and the chat has grown
    by the user's entry followed by at most two entries signed by an agent
    or by "System" (the reply, an error entry, or the reply and then an
    error entry when a callback throws after the reply was added).  With
    callbacks that return it has grown by exactly two entries. *)
Theorem send_always_unlocks props env (w : World State Call) agent :
  JSString.trim (chatMessage (state w)) <> ""%string ->
  selectedAgent (state w) <> ""%string ->
  status (connection (state w)) = connected ->
  find (fun a => (Agent.id a =? selectedAgent (state w))%string)
       (agents (connection (state w))) = Some agent ->
  network env (agentRequest (connection (state w)) agent (chatMessage (state w))
                            (autoTranslate (state w)) (privacyMode (state w)) (now w))
    <> Hangs ->
  let s' := state (finalWorld (sendMessage props env w)) in
  isProcessing s' = false /\
  chatMessage s' = ""%string /\
  connection s' = connection (state w) /\
  selectedAgent s' = selectedAgent (state w) /\
  exists rest,
    chatHistory s' = chatHistory (state w) ++ userEntry w :: rest /\
    (List.length rest <= 2)%nat /\
    (forall e, In e rest -> Chat.type e = Chat.agent) /\
    ((forall m, onStatusUpdate props m = Returns) ->
     (forall r, onAgentResponse props r = Returns) ->
     List.length rest = 1%nat).
Proof.
  intros Hm Ha Hc Hf Hn.
  assert (Hfinal : exists rest,
    state (finalWorld (sendMessage props env w)) =
    mkState (connection (state w)) (selectedAgent (state w)) ""%string
            (chatHistory (state w) ++ userEntry w :: rest) false
            (autoTranslate (state w)) (privacyMode (state w)) (renderThrows (state w)) /\
    (List.length rest <= 2)%nat /\
    (forall e, In e rest -> Chat.type e = Chat.agent) /\
    ((forall m, onStatusUpdate props m = Returns) ->
     (forall r, onAgentResponse props r = Returns) ->
     List.length rest = 1%nat)).
  { apply String.eqb_neq in Hm. apply String.eqb_neq in Ha.
    open_world w. subst status0.
    unfold sendMessage, userEntry. run_step. unfold JSString.falsy at 1 2.
    rewrite Hm, Ha. run_step. rewrite Hf. run_step.
    destruct (onStatusUpdate props
                ("🤖 " ++ Agent.bengaliName agent ++ " processing your request...")%string)
      eqn:Hs1; run_step;
      [ destruct (network env _) as [delay [okay code [data|shown'|shown']]|delay shown'|];
        [| | | |congruence]; try destruct okay; run_step | ];
      repeat match goal with
             | |- context [match onAgentResponse props ?r with _ => _ end] =>
                 let E := fresh "E" in
                 destruct (onAgentResponse props r) eqn:E; run_step
             | |- context [match onStatusUpdate props ?m with _ => _ end] =>
                 let E := fresh "E" in
                 destruct (onStatusUpdate props m) eqn:E; run_step
             end;
      eexists; (split; [rewrite <- ?app_assoc; reflexivity|]);
      (split; [cbn [List.length app]; lia|]);
      (split; [cbn [In app]; intros e He; intuition (subst; reflexivity)|]);
      intros Hall Hall'; cbn [List.length app]; try reflexivity;
      repeat match goal with
             | E : onStatusUpdate props _ = Throws _ |- _ =>
                 rewrite Hall in E; discriminate E
             | E : onAgentResponse props _ = Throws _ |- _ =>
                 rewrite Hall' in E; discriminate E
             end. }
  cbv zeta. destruct Hfinal as [rest [-> Hrest]].
  cbn [isProcessing chatMessage connection selectedAgent chatHistory].
  do 4 (split; [reflexivity|]). exists rest. split; [reflexivity|exact Hrest].
Qed.


(** ** Worked instances *)

Definition quietProps : ZombieCoderIntegrationProps :=
  mkProps (fun _ => Returns) (fun _ => Returns) (fun _ => Returns).

(** A server that answers every request in 12 ms. *)
Definition healthy : Env :=
  mkEnv (fun _ =>
    Responds 12 (mkResponse true 200
      (Object (mkData (Some "2.1.0"%string) (Some "done"%string) None None)))).

(** A server that accepts connections and never answers. *)
Definition silent : Env := mkEnv (fun _ => Hangs).

Definition mountedZombie : World State Call := mkWorld initialState 0 [].

(** Connected to [healthy], with a message typed in. *)
Definition readyToSend : World State Call :=
  let w := finalWorld (testConnection quietProps healthy mountedZombie) in
  mkWorld (mkState (connection (state w)) (selectedAgent (state w)) " explain this "%string
                   (chatHistory (state w)) (isProcessing (state w))
                   (autoTranslate (state w)) (privacyMode (state w))
                   (renderThrows (state w)))
          (now w) (calls w).

Definition procoder : Agent.ZombieCoderAgent :=
  hd (Agent.make "" "" "" "" "" Agent.inactive [] "" 0)%string (builtinAgents 12).

Example trim_samples :
  JSString.trim "  a b  "%string = "a b"%string /\
  JSString.trim (String (Ascii.ascii_of_N 9) (String (Ascii.ascii_of_N 194)
                   (String (Ascii.ascii_of_N 160) "x"%string))) = "x"%string /\
  JSString.trim (String (Ascii.ascii_of_N 226) (String (Ascii.ascii_of_N 128)
                   (String (Ascii.ascii_of_N 168) " "%string))) = ""%string /\
  JSString.trim "বাংলা "%string = "বাংলা"%string.
Proof. repeat split; vm_compute; reflexivity. Qed.

Lemma requests_never_time_out_witness :
  status (connection (state (finalWorld (testConnection quietProps silent mountedZombie))))
  = connecting.
Proof.
  pose proof (proj1 (requests_never_time_out quietProps silent mountedZombie)
                eq_refl eq_refl) as H.
  rewrite H. reflexivity.
Defined.

Lemma connection_report_matches_status_witness :
  exists new b,
    calls (finalWorld (testConnection quietProps healthy mountedZombie)) =
    calls mountedZombie ++ new /\
    lastReport new = Some b.
Proof.
  destruct (connection_report_matches_status quietProps healthy mountedZombie)
    as [new [b [H1 [H2 _]]]].
  - reflexivity.
  - simpl. discriminate.
  - exists new, b. split; assumption.
Defined.

(** A server that answers the health request with [200] and the body
    [null]: the page is told the connection is made, and the next render
    throws. *)
Definition nullBody : Env :=
  mkEnv (fun _ =>
    Responds 12 (mkResponse true 200
      (Null "TypeError: Cannot read properties of null (reading 'version')"%string))).

Example null_body_breaks_render :
  let w' := finalWorld (testConnection quietProps nullBody mountedZombie) in
  calls w' = [StatusUpdate "🔍 Connecting to ZombieCoder AI..."%string;
              ConnectionChange true;
              StatusUpdate "✅ Connected to ZombieCoder AI (12ms)"%string] /\
  renderThrows (state w') =
    Some "TypeError: Cannot read properties of null (reading 'version')"%string.
Proof. vm_compute. split; reflexivity. Qed.

Lemma send_always_unlocks_witness :
  isProcessing (state (finalWorld (sendMessage quietProps healthy readyToSend))) = false.
Proof.
  apply (send_always_unlocks quietProps healthy readyToSend procoder).
  - vm_compute. discriminate.
  - vm_compute. discriminate.
  - reflexivity.
  - reflexivity.
  - simpl. discriminate.
Defined.


End ZombieBehaviour.

(* ================================================================== *)
(** * TaskTodoManager (components/task-todo-manager.tsx) *)
(* ================================================================== *)

Module Tasks.
Import Ascii Async.
Local Open Scope string_scope.
Local Open Scope async_scope.

Inductive Priority : Type := low | medium | high | urgent.

Inductive Category : Type :=
  coding | design | testing | documentation | meeting | learning | personal.

Inductive Status : Type := todo | inProgress | completed | cancelled.

Definition Status_eqb (a b : Status) : bool :=
  match a, b with
  | todo, todo | inProgress, inProgress
  | completed, completed | cancelled, cancelled => true
  | _, _ => false
  end.

(** [`${status}`] *)
Definition showStatus (s : Status) : string :=
  match s with
  | todo => "todo"
  | inProgress => "in-progress"
  | completed => "completed"
  | cancelled => "cancelled"
  end.

(** A [Date] object: its time value in ms, or an invalid date. *)
Inductive JSDate : Type :=
| At (time : Z)
| InvalidDate.

(** What reading [bengaliTranslations[key]] gives: the translation, a
    member inherited from [Object.prototype], or [undefined]. *)
Inductive Translation : Type :=
| Translated (text : string)
| Inherited (key : string)
| Untranslated.

Record Task : Type := mkTask {
  id : string;
  title : string;
  description : string;
  bengaliTitle : Translation;
  bengaliDescription : option string;
  priority : Priority;
  category : Category;
  status : Status;
  dueDate : option JSDate;
  createdAt : Z;
  completedAt : option Z;
  tags : list string;
  estimatedTime : option Z;
  actualTime : option Z;
  voiceCreated : bool
}.

Module Stats.

Record TaskStats : Type := make {
  total : nat;
  completed : nat;
  inProgress : nat;
  overdue : nat;
  completionRate : float;
  avgCompletionTime : float
}.

End Stats.

Record TaskTodoManagerProps : Type := mkProps {
  onTaskCreate : Task -> Outcome;
  onTaskUpdate : Task -> Outcome;
  onStatusUpdate : string -> Outcome
}.

(** The [useState] cells; a filter set to "all" is [None]. *)
Record State : Type := mkState {
  tasks : list Task;
  newTaskTitle : string;
  newTaskDescription : string;
  newTaskPriority : Priority;
  newTaskCategory : Category;
  newTaskDueDate : string;
  newTaskTags : string;
  editingTask : option Task;
  filterStatus : option Status;
  filterPriority : option Priority;
  filterCategory : option Category;
  searchQuery : string;
  showBengali : bool;
  voiceIntegration : bool
}.

Definition initialState : State :=
  mkState [] "" "" medium coding "" "" None None None None "" true true.

Definition setTasks (f : list Task -> list Task) : M State unit :=
  modify (fun s =>
    mkState (f (tasks s)) (newTaskTitle s) (newTaskDescription s) (newTaskPriority s)
            (newTaskCategory s) (newTaskDueDate s) (newTaskTags s) (editingTask s)
            (filterStatus s) (filterPriority s) (filterCategory s) (searchQuery s)
            (showBengali s) (voiceIntegration s)).

Definition setNewTaskTitle (v : string) : M State unit :=
  modify (fun s =>
    mkState (tasks s) v (newTaskDescription s) (newTaskPriority s)
            (newTaskCategory s) (newTaskDueDate s) (newTaskTags s) (editingTask s)
            (filterStatus s) (filterPriority s) (filterCategory s) (searchQuery s)
            (showBengali s) (voiceIntegration s)).

Definition setNewTaskDescription (v : string) : M State unit :=
  modify (fun s =>
    mkState (tasks s) (newTaskTitle s) v (newTaskPriority s)
            (newTaskCategory s) (newTaskDueDate s) (newTaskTags s) (editingTask s)
            (filterStatus s) (filterPriority s) (filterCategory s) (searchQuery s)
            (showBengali s) (voiceIntegration s)).

Definition setNewTaskPriority (v : Priority) : M State unit :=
  modify (fun s =>
    mkState (tasks s) (newTaskTitle s) (newTaskDescription s) v
            (newTaskCategory s) (newTaskDueDate s) (newTaskTags s) (editingTask s)
            (filterStatus s) (filterPriority s) (filterCategory s) (searchQuery s)
            (showBengali s) (voiceIntegration s)).

Definition setNewTaskCategory (v : Category) : M State unit :=
  modify (fun s =>
    mkState (tasks s) (newTaskTitle s) (newTaskDescription s) (newTaskPriority s)
            v (newTaskDueDate s) (newTaskTags s) (editingTask s)
            (filterStatus s) (filterPriority s) (filterCategory s) (searchQuery s)
            (showBengali s) (voiceIntegration s)).

Definition setNewTaskDueDate (v : string) : M State unit :=
  modify (fun s =>
    mkState (tasks s) (newTaskTitle s) (newTaskDescription s) (newTaskPriority s)
            (newTaskCategory s) v (newTaskTags s) (editingTask s)
            (filterStatus s) (filterPriority s) (filterCategory s) (searchQuery s)
            (showBengali s) (voiceIntegration s)).

Definition setNewTaskTags (v : string) : M State unit :=
  modify (fun s =>
    mkState (tasks s) (newTaskTitle s) (newTaskDescription s) (newTaskPriority s)
            (newTaskCategory s) (newTaskDueDate s) v (editingTask s)
            (filterStatus s) (filterPriority s) (filterCategory s) (searchQuery s)
            (showBengali s) (voiceIntegration s)).

Definition setEditingTask (v : option Task) : M State unit :=
  modify (fun s =>
    mkState (tasks s) (newTaskTitle s) (newTaskDescription s) (newTaskPriority s)
            (newTaskCategory s) (newTaskDueDate s) (newTaskTags s) v
            (filterStatus s) (filterPriority s) (filterCategory s) (searchQuery s)
            (showBengali s) (voiceIntegration s)).

(** ** Library functions *)

(** Date parsing and formatting, and the values drawn by [Math.random]:
    [parseDate s] is [new Date(s)], [isoDay t] is
    [new Date(t).toISOString().split("T")[0]], and [random i] is the draw
    made for the task at position [i] of the list. *)
Record Env : Type := mkEnv {
  parseDate : string -> JSDate;
  isoDay : Z -> string;
  random : nat -> float
}.

(** [s.split(",")] *)
Fixpoint splitComma (s : string) : list string :=
  match s with
  | EmptyString => [EmptyString]
  | String c rest =>
      if Ascii.eqb c ","%char then EmptyString :: splitComma rest
      else
        match splitComma rest with
        | first :: others => String c first :: others
        | [] => [String c EmptyString]
        end
  end.

(** [newTaskTags.split(",").map((tag) => tag.trim()).filter(Boolean)] *)
Definition parseTags (s : string) : list string :=
  filter (fun tag => negb (JSString.falsy tag)) (map JSString.trim (splitComma s)).

(** [tags.join(", ")] *)
Definition joinTags (tags : list string) : string := String.concat ", " tags.

Definition bengaliTranslations : list (string * string) :=
  [ ("Write code", "কোড লিখুন");
    ("Fix bug", "বাগ ঠিক করুন");
    ("Create function", "ফাংশন তৈরি করুন");
    ("Add comments", "কমেন্ট যোগ করুন");
    ("Test application", "অ্যাপ্লিকেশন টেস্ট করুন");
    ("Update documentation", "ডকুমেন্টেশন আপডেট করুন");
    ("Review code", "কোড রিভিউ করুন");
    ("Deploy application", "অ্যাপ্লিকেশন ডিপ্লয় করুন");
    ("Design UI", "UI ডিজাইন করুন");
    ("Database setup", "ডেটাবেস সেটআপ করুন") ].

(** The members every object literal inherits. *)
Definition objectPrototypeKeys : list string :=
  [ "constructor"; "hasOwnProperty"; "isPrototypeOf"; "propertyIsEnumerable";
    "toLocaleString"; "toString"; "valueOf"; "__proto__";
    "__defineGetter__"; "__defineSetter__"; "__lookupGetter__"; "__lookupSetter__" ].

(** [bengaliTranslations[key]] *)
Definition translate (key : string) : Translation :=
  match find (fun entry => fst entry =? key) bengaliTranslations with
  | Some entry => Translated (snd entry)
  | None =>
      if existsb (String.eqb key) objectPrototypeKeys then Inherited key
      else Untranslated
  end.

(** [x] in a condition, for an optional number: [undefined] and [0] are
    falsy. *)
Definition truthyNumber (x : option Z) : bool :=
  match x with
  | Some n => negb (n =? 0)%Z
  | None => false
  end.

(** ** [calculateStats] *)

Definition isOverdue (date : Z) (t : Task) : bool :=
  match dueDate t with
  | Some (At due) => (due <? date)%Z && negb (Status_eqb (status t) completed)
  | Some InvalidDate => false
  | None => false
  end.

Definition calculateStats (tasks : list Task) (date : Z) : Stats.TaskStats :=
  let total := List.length tasks in
  let completed' := List.length (filter (fun t => Status_eqb (status t) completed) tasks) in
  let inProgress' := List.length (filter (fun t => Status_eqb (status t) inProgress) tasks) in
  let overdue := List.length (filter (isOverdue date) tasks) in
  let completionRate :=
    if (0 <? total)%nat
    then (JS.ofZ (Z.of_nat completed') / JS.ofZ (Z.of_nat total) * 100)%float
    else 0%float in
  let completedTasks :=
    filter (fun t => Status_eqb (status t) completed && truthyNumber (actualTime t)) tasks in
  let avgCompletionTime :=
    if (0 <? List.length completedTasks)%nat
    then (fold_left (fun sum t =>
                       (sum + JS.ofZ match actualTime t with
                                     | Some n => n
                                     | None => 0
                                     end)%float)
                    completedTasks 0%float
          / JS.ofZ (Z.of_nat (List.length completedTasks)))%float
    else 0%float in
  Stats.make total completed' inProgress' overdue completionRate avgCompletionTime.

(** ** [createTask] and [createFromTemplate] *)

Definition createTask (props : TaskTodoManagerProps) (env : Env) : M State unit :=
  newTaskTitle0 <- gets newTaskTitle ;;
  newTaskDescription0 <- gets newTaskDescription ;;
  newTaskPriority0 <- gets newTaskPriority ;;
  newTaskCategory0 <- gets newTaskCategory ;;
  newTaskDueDate0 <- gets newTaskDueDate ;;
  newTaskTags0 <- gets newTaskTags ;;
  showBengali0 <- gets showBengali ;;
  if JSString.falsy (JSString.trim newTaskTitle0) then
    call (onStatusUpdate props "❌ Task title is required")
  else
    date <- dateNow ;;
    let task :=
      mkTask ("task-" ++ MCP.showZ date)
             (JSString.trim newTaskTitle0)
             (JSString.trim newTaskDescription0)
             (if showBengali0 then translate newTaskTitle0 else Untranslated)
             (if showBengali0 then Some ("বিবরণ: " ++ newTaskDescription0) else None)
             newTaskPriority0 newTaskCategory0 todo
             (if JSString.falsy newTaskDueDate0 then None
              else Some (parseDate env newTaskDueDate0))
             date None (parseTags newTaskTags0) None None false in
    setTasks (fun prev => task :: prev) ;;
    call (onTaskCreate props task) ;;
    setNewTaskTitle "" ;;
    setNewTaskDescription "" ;;
    setNewTaskDueDate "" ;;
    setNewTaskTags "" ;;
    call (onStatusUpdate props ("✅ Task created: " ++ title task)).

Record Template : Type := mkTemplate {
  templateTitle : string;
  templateDescription : string;
  templateCategory : Category;
  templatePriority : Priority;
  templateTags : list string
}.

Definition taskTemplates : list Template :=
  [ mkTemplate "Write code" "Implement new feature or functionality" coding medium
               ["development"; "feature"];
    mkTemplate "Fix bug" "Resolve reported issue or error" coding high ["bug"; "fix"];
    mkTemplate "Test application" "Perform testing and quality assurance" testing medium
               ["testing"; "qa"];
    mkTemplate "Update documentation" "Update project documentation and README"
               documentation low ["docs"; "readme"] ].

Definition createFromTemplate (props : TaskTodoManagerProps) (template : Template)
  : M State unit :=
  showBengali0 <- gets showBengali ;;
  date <- dateNow ;;
  let task :=
    mkTask ("task-" ++ MCP.showZ date)
           (templateTitle template)
           (templateDescription template)
           (if showBengali0 then translate (templateTitle template) else Untranslated)
           (if showBengali0 then Some ("বিবরণ: " ++ templateDescription template) else None)
           (templatePriority template) (templateCategory template) todo
           None date None (templateTags template) None None false in
  setTasks (fun prev => task :: prev) ;;
  call (onTaskCreate props task) ;;
  call (onStatusUpdate props ("✅ Task created from template: " ++ title task)).

(** ** [updateTaskStatus] *)

(** The record the updater builds for a task it matches. *)
Definition updatedRecord (env : Env) (status' : Status) (date : Z) (i : nat) (task : Task)
  : Task :=
  mkTask (id task) (title task) (description task) (bengaliTitle task)
         (bengaliDescription task) (priority task) (category task) status'
         (dueDate task) (createdAt task)
         (if Status_eqb status' completed then Some date else None)
         (tags task) (estimatedTime task)
         (if Status_eqb status' completed && negb (truthyNumber (actualTime task))
          then Some (JS.Math_floor (random env i * 120)%float + 30)
          else actualTime task)
         (voiceCreated task).

(** [prev.map((task) => ...)], from position [i]: the updater calls
    [onTaskUpdate] for every task it matches. *)
Fixpoint updateMatching (props : TaskTodoManagerProps) (env : Env) (taskId : string)
    (status' : Status) (date : Z) (i : nat) (prev : list Task) : M State (list Task) :=
  match prev with
  | [] => ret []
  | task :: rest =>
      task' <- (if id task =? taskId then
                  let updatedTask := updatedRecord env status' date i task in
                  call (onTaskUpdate props updatedTask) ;;
                  ret updatedTask
                else ret task) ;;
      rest' <- updateMatching props env taskId status' date (S i) rest ;;
      ret (task' :: rest')
  end.

Definition updateTaskStatus (props : TaskTodoManagerProps) (env : Env) (taskId : string)
    (status' : Status) : M State unit :=
  tasks0 <- gets tasks ;;
  date <- dateNow ;;
  next <- updateMatching props env taskId status' date 0 tasks0 ;;
  setTasks (fun _ => next) ;;
  match find (fun t => id t =? taskId) tasks0 with
  | Some task =>
      call (onStatusUpdate props ("📝 Task " ++ showStatus status' ++ ": " ++ title task))
  | None => ret tt
  end.

(** The checkbox of a task row. *)
Definition toggleTask (props : TaskTodoManagerProps) (env : Env) (task : Task)
  : M State unit :=
  updateTaskStatus props env (id task)
    (if Status_eqb (status task) completed then todo else completed).

(** ** [deleteTask] *)

Definition deleteTask (props : TaskTodoManagerProps) (taskId : string) : M State unit :=
  tasks0 <- gets tasks ;;
  setTasks (filter (fun t => negb (id t =? taskId))) ;;
  match find (fun t => id t =? taskId) tasks0 with
  | Some task => call (onStatusUpdate props ("🗑️ Task deleted: " ++ title task))
  | None => ret tt
  end.

(** ** [startEditing], [saveEditedTask] and the Cancel button *)

Definition startEditing (env : Env) (task : Task) : M State unit :=
  setEditingTask (Some task) ;;
  setNewTaskTitle (title task) ;;
  setNewTaskDescription (description task) ;;
  setNewTaskPriority (priority task) ;;
  setNewTaskCategory (category task) ;;
  match dueDate task with
  | Some (At time) => setNewTaskDueDate (isoDay env time)
  | Some InvalidDate => throw          (* [toISOString]: RangeError *)
  | None => setNewTaskDueDate ""
  end ;;
  setNewTaskTags (joinTags (tags task)).

Definition saveEditedTask (props : TaskTodoManagerProps) (env : Env) : M State unit :=
  editingTask0 <- gets editingTask ;;
  newTaskTitle0 <- gets newTaskTitle ;;
  newTaskDescription0 <- gets newTaskDescription ;;
  newTaskPriority0 <- gets newTaskPriority ;;
  newTaskCategory0 <- gets newTaskCategory ;;
  newTaskDueDate0 <- gets newTaskDueDate ;;
  newTaskTags0 <- gets newTaskTags ;;
  showBengali0 <- gets showBengali ;;
  match editingTask0 with
  | None => ret tt
  | Some editing =>
      if JSString.falsy (JSString.trim newTaskTitle0) then ret tt
      else
        let updatedTask :=
          mkTask (id editing)
                 (JSString.trim newTaskTitle0)
                 (JSString.trim newTaskDescription0)
                 (if showBengali0 then translate newTaskTitle0 else Untranslated)
                 (if showBengali0 then Some ("বিবরণ: " ++ newTaskDescription0) else None)
                 newTaskPriority0 newTaskCategory0 (status editing)
                 (if JSString.falsy newTaskDueDate0 then None
                  else Some (parseDate env newTaskDueDate0))
                 (createdAt editing) (completedAt editing) (parseTags newTaskTags0)
                 (estimatedTime editing) (actualTime editing) (voiceCreated editing) in
        setTasks (map (fun t => if id t =? id editing then updatedTask else t)) ;;
        call (onTaskUpdate props updatedTask) ;;
        setEditingTask None ;;
        setNewTaskTitle "" ;;
        setNewTaskDescription "" ;;
        setNewTaskDueDate "" ;;
        setNewTaskTags "" ;;
        call (onStatusUpdate props ("✅ Task updated: " ++ title updatedTask))
  end.

Definition cancelEditing : M State unit :=
  setEditingTask None ;;
  setNewTaskTitle "" ;;
  setNewTaskDescription "" ;;
  setNewTaskDueDate "" ;;
  setNewTaskTags "".

(** ** The sample tasks loaded on mount *)

Definition sampleTasks (date : Z) : list Task :=
  [ mkTask "task-1" "Fix authentication bug" "Resolve login issues with OAuth integration"
      (Translated "অথেন্টিকেশন বাগ ঠিক করুন")
      (Some "OAuth ইন্টিগ্রেশনের লগইন সমস্যা সমাধান করুন")
      high coding inProgress None (date - 86400000) None
      ["bug"; "auth"; "oauth"] (Some 120) None false;
    mkTask "task-2" "Update documentation" "Add Bengali language support documentation"
      (Translated "ডকুমেন্টেশন আপডেট করুন")
      (Some "বাংলা ভাষা সাপোর্ট ডকুমেন্টেশন যোগ করুন")
      medium documentation todo None (date - 43200000) None
      ["docs"; "bengali"; "i18n"] (Some 60) None true;
    mkTask "task-3" "Design voice command UI" "Create user interface for voice commands"
      (Translated "ভয়েস কমান্ড UI ডিজাইন করুন")
      (Some "ভয়েস কমান্ডের জন্য ইউজার ইন্টারফেস তৈরি করুন")
      medium design completed None (date - 172800000) (Some (date - 86400000))
      ["ui"; "voice"; "design"] (Some 180) (Some 165) false ].

Definition loadSampleTasks : M State unit :=
  date <- dateNow ;;
  setTasks (fun _ => sampleTasks date).

End Tasks.

(* ================================================================== *)
(** * TaskTodoManager: statistics, creation, deletion and editing *)
(* ================================================================== *)

Module TasksBehaviour.
Import Async Tasks.

(** Proofs about a handler open the world it starts in, so that every
    field read reduces, and then evaluate the monad. *)
Ltac open_world w :=
  destruct w as [[tasks0 title0 description0 priority0 category0 dueDate0 tags0
                  editing0 filterStatus0 filterPriority0 filterCategory0 query0
                  bengali0 voice0] date0];
  cbn [state now tasks newTaskTitle newTaskDescription newTaskPriority newTaskCategory
       newTaskDueDate newTaskTags editingTask filterStatus filterPriority filterCategory
       searchQuery showBengali voiceIntegration] in *.

Ltac step :=
  cbv beta iota zeta delta
    [bind gets modify dateNow call ret throw finalWorld
     setTasks setNewTaskTitle setNewTaskDescription setNewTaskPriority
     setNewTaskCategory setNewTaskDueDate setNewTaskTags setEditingTask
     state now tasks newTaskTitle newTaskDescription newTaskPriority newTaskCategory
     newTaskDueDate newTaskTags editingTask filterStatus filterPriority filterCategory
     searchQuery showBengali voiceIntegration].

Definition quiet (props : TaskTodoManagerProps) : Prop :=
  (forall t, onTaskCreate props t = Returns) /\
  (forall t, onTaskUpdate props t = Returns) /\
  (forall m, onStatusUpdate props m = Returns).

Definition quietProps : TaskTodoManagerProps :=
  mkProps (fun _ => Returns) (fun _ => Returns) (fun _ => Returns).

Definition withTasks (s : State) (ts : list Task) : State :=
  mkState ts (newTaskTitle s) (newTaskDescription s) (newTaskPriority s)
          (newTaskCategory s) (newTaskDueDate s) (newTaskTags s) (editingTask s)
          (filterStatus s) (filterPriority s) (filterCategory s) (searchQuery s)
          (showBengali s) (voiceIntegration s).

(** ** Counting *)

Lemma count_disjoint {A : Type} (p q : A -> bool) (l : list A) :
  (forall x, p x = true -> q x = false) ->
  (List.length (filter p l) + List.length (filter q l) <= List.length l)%nat.
Proof.
  intros H. induction l as [|x l IH]; simpl; [lia|].
  destruct (p x) eqn:Hp.
  - rewrite (H x Hp). simpl. lia.
  - destruct (q x); simpl; lia.
Qed.

Lemma count_all {A : Type} (p : A -> bool) (l : list A) :
  List.length (filter p l) = List.length l <-> forall x, In x l -> p x = true.
Proof.
  induction l as [|x l IH]; simpl.
  - split; [intros _ x []|reflexivity].
  - pose proof (filter_length_le p l) as Hle. destruct (p x) eqn:Hp; simpl.
    + split.
      * intros Hlen y [<-|Hy]; [exact Hp|]. apply IH; [lia|exact Hy].
      * intros Hall. f_equal. apply IH. intros y Hy. apply Hall. now right.
    + split; [lia|]. intros Hall. rewrite (Hall x (or_introl eq_refl)) in Hp. discriminate.
Qed.

Lemma count_some {A : Type} (p : A -> bool) (l : list A) (x : A) :
  In x l -> p x = true -> (1 <= List.length (filter p l))%nat.
Proof.
  intros Hin Hp. assert (Hf : In x (filter p l)) by (apply filter_In; now split).
  destruct (filter p l); [destruct Hf|simpl; lia].
Qed.

Lemma Status_task_eqb_eq (a b : Status) : Status_eqb a b = true <-> a = b.
Proof. destruct a, b; simpl; split; congruence. Qed.

(** X27: the counts the statistics card shows are consistent with one
    another for every task list and instant: the completed and the
    in-progress tasks together, and the overdue and the completed tasks
    together, never outnumber the total, and all tasks count as completed
    exactly when every task is.  A cancelled task whose due date has passed
    still counts as overdue.  With no task both rates are zero. *)
Theorem stats_counts_are_consistent (ts : list Task) (date : Z) :
  let st := calculateStats ts date in
  Stats.total st = List.length ts /\
  (Stats.completed st + Stats.inProgress st <= Stats.total st)%nat /\
  (Stats.overdue st + Stats.completed st <= Stats.total st)%nat /\
  (Stats.completed st = Stats.total st <-> forall t, In t ts -> status t = completed) /\
  (forall t due, In t ts -> status t = cancelled -> dueDate t = Some (At due) ->
                 due < date -> (1 <= Stats.overdue st)%nat) /\
  (ts = [] -> Stats.completionRate st = 0%float /\ Stats.avgCompletionTime st = 0%float).
Proof.
  cbv zeta. unfold calculateStats. cbn [Stats.total Stats.completed Stats.inProgress
    Stats.overdue Stats.completionRate Stats.avgCompletionTime].
  split; [reflexivity|]. split; [|split; [|split; [|split]]].
  - apply count_disjoint. intros t Ht. apply Status_task_eqb_eq in Ht. now rewrite Ht.
  - apply count_disjoint. intros t Ht. unfold isOverdue in Ht.
    destruct (dueDate t) as [[due|]|]; try discriminate.
    apply andb_true_iff in Ht. destruct Ht as [_ Ht].
    now apply negb_true_iff in Ht.
  - rewrite count_all. split; intros H t Ht; apply Status_task_eqb_eq; auto.
  - intros t due Hin Hst Hdue Hlt. apply (count_some _ _ t Hin).
    unfold isOverdue. rewrite Hdue, Hst. simpl.
    apply andb_true_iff. split; [now apply Z.ltb_lt|reflexivity].
  - intros ->. split; reflexivity.
Qed.

(** ** Creating and deleting *)

(** The task [createFromTemplate] builds at instant [date]. *)
Definition fromTemplate (showBengali' : bool) (template : Template) (date : Z) : Task :=
  mkTask ("task-" ++ MCP.showZ date)%string
         (templateTitle template)
         (templateDescription template)
         (if showBengali' then translate (templateTitle template) else Untranslated)
         (if showBengali' then Some ("বিবরণ: " ++ templateDescription template)%string
          else None)
         (templatePriority template) (templateCategory template) todo
         None date None (templateTags template) None None false.

Lemma createFromTemplate_final props template (w : World State) :
  finalWorld (createFromTemplate props template w) =
  mkWorld (withTasks (state w)
             (fromTemplate (showBengali (state w)) template (now w) :: tasks (state w)))
          (now w).
Proof.
  open_world w. unfold createFromTemplate, fromTemplate, withTasks. step.
  destruct (onTaskCreate props _); step; [|reflexivity].
  destruct (onStatusUpdate props _); reflexivity.
Qed.

Lemma deleteTask_final props taskId (w : World State) :
  finalWorld (deleteTask props taskId w) =
  mkWorld (withTasks (state w)
             (filter (fun t => negb (id t =? taskId)%string) (tasks (state w))))
          (now w).
Proof.
  open_world w. unfold deleteTask, withTasks. step.
  destruct (find _ _); step; [|reflexivity].
  destruct (onStatusUpdate props _); reflexivity.
Qed.

Lemma filter_keeps_all {A : Type} (p : A -> bool) (l : list A) :
  (forall x, In x l -> p x = true) -> filter p l = l.
Proof.
  intros H. induction l as [|x l IH]; [reflexivity|]. simpl.
  rewrite (H x (or_introl eq_refl)). f_equal. apply IH. intros y Hy. apply H. now right.
Qed.

(** X28: ids come from the clock, and deletion goes by id.  Whatever the
    callbacks do, creating a task from a template puts it first with the id
    "task-" followed by the instant; deleting that id afterwards removes the
    new task and every older task with the same id, keeps the others in
    order, and so restores the list exactly when the id was fresh.  Two
    tasks created at the same instant get the same id, and deleting either
    deletes both. *)
Theorem create_delete_round_trip props template (w : World State) :
  let created := fromTemplate (showBengali (state w)) template (now w) in
  let w1 := finalWorld (createFromTemplate props template w) in
  let w2 := finalWorld (deleteTask props (id created) w1) in
  tasks (state w1) = created :: tasks (state w) /\
  tasks (state w2) =
    filter (fun t => negb (id t =? id created)%string) (tasks (state w)) /\
  ((forall t, In t (tasks (state w)) -> id t <> id created) ->
   tasks (state w2) = tasks (state w)) /\
  (forall template',
     let w1' := finalWorld (createFromTemplate props template' w1) in
     let w2' := finalWorld (deleteTask props (id created) w1') in
     tasks (state w2') = tasks (state w2)).
Proof.
  cbv zeta. rewrite !createFromTemplate_final, !deleteTask_final. cbn [state now tasks withTasks].
  assert (Hid : forall b t, id (fromTemplate b t (now w)) = ("task-" ++ MCP.showZ (now w))%string)
    by reflexivity.
  rewrite !Hid. cbn [filter id fromTemplate]. rewrite !String.eqb_refl. cbn [negb].
  split; [reflexivity|]. split; [reflexivity|]. split.
  - intros Hfresh. apply filter_keeps_all. intros t Ht.
    apply negb_true_iff, String.eqb_neq. now apply Hfresh.
  - intros template'. rewrite createFromTemplate_final, deleteTask_final.
    cbn [state now tasks withTasks]. cbn [filter]. rewrite !Hid.
    rewrite !String.eqb_refl. reflexivity.
Qed.

(** ** Status updates *)

(** What the updater returns, from position [i]. *)
Fixpoint updatedFrom (env : Env) (taskId : string) (status' : Status) (date : Z)
    (i : nat) (prev : list Task) : list Task :=
  match prev with
  | [] => []
  | task :: rest =>
      (if (id task =? taskId)%string then updatedRecord env status' date i task else task)
      :: updatedFrom env taskId status' date (S i) rest
  end.

Lemma updateMatching_run props env taskId status' date (prev : list Task) :
  forall i (w : World State),
    match updateMatching props env taskId status' date i prev w with
    | Normal next w' => w' = w /\ next = updatedFrom env taskId status' date i prev
    | Thrown w' => w' = w
    end.
Proof.
  induction prev as [|task rest IH]; intros i w; [now split|].
  cbn [updateMatching updatedFrom]. unfold bind at 1.
  destruct (id task =? taskId)%string.
  - unfold bind at 1. unfold call.
    destruct (onTaskUpdate props _); unfold ret at 1, throw; [|reflexivity].
    unfold ret at 1. unfold bind at 1. specialize (IH (S i) w).
    destruct (updateMatching _ _ _ _ _ _ rest w) as [next w'|w']; [|exact IH].
    destruct IH as [-> ->]. now split.
  - unfold ret at 1. unfold bind at 1. specialize (IH (S i) w).
    destruct (updateMatching _ _ _ _ _ _ rest w) as [next w'|w']; [|exact IH].
    destruct IH as [-> ->]. now split.
Qed.

Lemma updateMatching_quiet props env taskId status' date (prev : list Task) :
  (forall t, onTaskUpdate props t = Returns) ->
  forall i (w : World State),
    updateMatching props env taskId status' date i prev w =
    Normal (updatedFrom env taskId status' date i prev) w.
Proof.
  intros Hq. induction prev as [|task rest IH]; intros i w; [reflexivity|].
  cbn [updateMatching updatedFrom]. unfold bind at 1.
  destruct (id task =? taskId)%string.
  - unfold bind at 1. unfold call. rewrite Hq. unfold ret at 1. unfold ret at 1.
    unfold bind at 1. now rewrite IH.
  - unfold ret at 1. unfold bind at 1. now rewrite IH.
Qed.

Lemma updateTaskStatus_final props env taskId status' (w : World State) :
  exists stored : bool,
    state (finalWorld (updateTaskStatus props env taskId status' w)) =
    if stored
    then withTasks (state w) (updatedFrom env taskId status' (now w) 0 (tasks (state w)))
    else state w.
Proof.
  unfold updateTaskStatus. unfold bind at 1 2 3. unfold gets, dateNow.
  cbn beta iota.
  pose proof (updateMatching_run props env taskId status' (now w) (tasks (state w)) 0%nat w)
    as H.
  destruct (updateMatching props env taskId status' (now w) 0 (tasks (state w)) w)
    as [next w'|w'].
  - destruct H as [-> ->]. exists true. open_world w. unfold withTasks. step.
    destruct (find _ _); step; [|reflexivity].
    destruct (onStatusUpdate props _); reflexivity.
  - subst w'. exists false. reflexivity.
Qed.

Lemma updateTaskStatus_quiet props env taskId status' (w : World State) :
  quiet props ->
  updateTaskStatus props env taskId status' w =
  Normal tt (mkWorld (withTasks (state w)
                        (updatedFrom env taskId status' (now w) 0 (tasks (state w))))
                     (now w)).
Proof.
  intros [_ [Hu Hs]]. unfold updateTaskStatus. unfold bind at 1 2 3. unfold gets, dateNow.
  cbn beta iota. rewrite updateMatching_quiet by assumption.
  open_world w. unfold withTasks. step.
  destruct (find _ _); step; [|reflexivity]. now rewrite Hs.
Qed.

(** ** The completion date *)

(** A task is dated when it carries a completion date exactly when it is
    completed. *)
Definition dated (t : Task) : Prop :=
  status t = completed <-> completedAt t <> None.

Definition allDated (s : State) : Prop :=
  (forall t, In t (tasks s) -> dated t) /\
  (forall e, editingTask s = Some e -> dated e).

Lemma updatedRecord_dated env status' date i task :
  dated (updatedRecord env status' date i task).
Proof.
  unfold dated, updatedRecord. simpl. destruct status'; simpl; split; congruence.
Qed.

Lemma updatedFrom_dated env taskId status' date (prev : list Task) : forall i t,
  (forall t, In t prev -> dated t) ->
  In t (updatedFrom env taskId status' date i prev) -> dated t.
Proof.
  induction prev as [|task rest IH]; intros i t Hall Hin; [destruct Hin|].
  simpl in Hin. destruct Hin as [<-|Hin].
  - destruct (id task =? taskId)%string; [apply updatedRecord_dated|].
    apply Hall. now left.
  - apply (IH (S i)); [|exact Hin]. intros t' Ht'. apply Hall. now right.
Qed.

(** What can happen to the mounted component. *)
Inductive Action : Type :=
| LoadSamples
| Create (env : Env)
| FromTemplate (template : Template)
| UpdateStatus (env : Env) (taskId : string) (status' : Status)
| Delete (taskId : string)
| StartEditing (env : Env) (task : Task)
| Save (env : Env)
| Cancel
| TypeTitle (v : string)
| TypeDescription (v : string)
| PickPriority (v : Priority)
| PickCategory (v : Category)
| TypeDueDate (v : string)
| TypeTags (v : string).

Definition perform (props : TaskTodoManagerProps) (a : Action) (w : World State)
  : World State :=
  match a with
  | LoadSamples => finalWorld (loadSampleTasks w)
  | Create env => finalWorld (createTask props env w)
  | FromTemplate template => finalWorld (createFromTemplate props template w)
  | UpdateStatus env taskId status' => finalWorld (updateTaskStatus props env taskId status' w)
  | Delete taskId => finalWorld (deleteTask props taskId w)
  | StartEditing env task => finalWorld (startEditing env task w)
  | Save env => finalWorld (saveEditedTask props env w)
  | Cancel => finalWorld (cancelEditing w)
  | TypeTitle v => finalWorld (setNewTaskTitle v w)
  | TypeDescription v => finalWorld (setNewTaskDescription v w)
  | PickPriority v => finalWorld (setNewTaskPriority v w)
  | PickCategory v => finalWorld (setNewTaskCategory v w)
  | TypeDueDate v => finalWorld (setNewTaskDueDate v w)
  | TypeTags v => finalWorld (setNewTaskTags v w)
  end.

(** The edit button of a row edits a task of the list. *)
Definition offered (a : Action) (s : State) : Prop :=
  match a with
  | StartEditing _ task => In task (tasks s)
  | _ => True
  end.

Fixpoint run (props : TaskTodoManagerProps) (actions : list Action) (w : World State)
  : World State :=
  match actions with
  | [] => w
  | a :: rest => run props rest (perform props a w)
  end.

Fixpoint admissible (props : TaskTodoManagerProps) (actions : list Action) (w : World State)
  : Prop :=
  match actions with
  | [] => True
  | a :: rest => offered a (state w) /\ admissible props rest (perform props a w)
  end.

Lemma perform_dated props (a : Action) (w : World State) :
  allDated (state w) -> offered a (state w) -> allDated (state (perform props a w)).
Proof.
  intros Hkeep Hoff. open_world w. pose proof Hkeep as [Hts He].
  cbn [tasks editingTask] in Hts, He.
  destruct a as [|env|template|env taskId status'|taskId|env task|env| | | | | | |];
    cbn [perform].
  - unfold loadSampleTasks. step. split; cbn [tasks editingTask]; [|exact He].
    intros t Ht. unfold sampleTasks in Ht. unfold dated.
    repeat (destruct Ht as [<-|Ht]; [cbn [status completedAt]; split; congruence|]).
    destruct Ht.
  - unfold createTask. step.
    destruct (JSString.falsy _); step.
    + destruct (onStatusUpdate props _); exact Hkeep.
    + destruct (onTaskCreate props _); step;
        [destruct (onStatusUpdate props _); step|];
        (split; cbn [tasks editingTask]; [|exact He]);
        intros t [<-|Ht]; try (now apply Hts);
        unfold dated; cbn [status completedAt]; split; congruence.
  - rewrite createFromTemplate_final. unfold withTasks. step.
    split; cbn [tasks editingTask]; [|exact He].
    intros t [<-|Ht]; [|now apply Hts].
    unfold dated, fromTemplate. cbn [status completedAt]. split; congruence.
  - match goal with
    | |- context [updateTaskStatus props env taskId status' ?W] =>
        destruct (updateTaskStatus_final props env taskId status' W) as [[|] H]
    end;
      rewrite H; [|exact Hkeep].
    unfold withTasks. split; cbn [state now tasks editingTask]; [|exact He].
    intros t Ht. now apply (updatedFrom_dated _ _ _ _ _ _ _ Hts Ht).
  - rewrite deleteTask_final. unfold withTasks. step.
    split; cbn [tasks editingTask]; [|exact He].
    intros t Ht. apply filter_In in Ht. now apply Hts.
  - cbn [offered tasks] in Hoff. unfold startEditing. step.
    destruct (dueDate task) as [[time|]|]; step;
      (split; cbn [tasks editingTask]; [exact Hts|]);
      intros e Hsome; inversion Hsome; subst; now apply Hts.
  - unfold saveEditedTask. step.
    destruct editing0 as [editing|]; step; [|exact Hkeep].
    destruct (JSString.falsy _); step; [exact Hkeep|].
    assert (Hnew : forall t' d tg bt bd p' c' du,
               dated (mkTask (id editing) t' d bt bd p' c' (status editing) du
                             (createdAt editing) (completedAt editing) tg
                             (estimatedTime editing) (actualTime editing)
                             (voiceCreated editing)))
      by (intros; exact (He editing eq_refl)).
    destruct (onTaskUpdate props _); step;
      [destruct (onStatusUpdate props _); step|];
      (split; cbn [tasks editingTask]; [|try discriminate; try exact He]);
      intros t Ht; apply in_map_iff in Ht; destruct Ht as [t0 [<- Ht0]];
      (destruct (id t0 =? id editing)%string; [apply Hnew|now apply Hts]).
  - unfold cancelEditing. step. split; cbn [tasks editingTask]; [exact Hts|discriminate].
  - exact Hkeep.
  - exact Hkeep.
  - exact Hkeep.
  - exact Hkeep.
  - exact Hkeep.
  - exact Hkeep.
Qed.

(** X29: completion dates stay consistent.  If every task (and the task
    being edited) carries a completion date exactly when its status is
    completed, this still holds after any sequence of sample loading,
    creations, status updates, deletions, edits, saves and cancels, with
    any callbacks, dates and draws. *)
Theorem completion_dates_stay_consistent props (actions : list Action) (w : World State) :
  allDated (state w) ->
  admissible props actions w ->
  allDated (state (run props actions w)).
Proof.
  revert w. induction actions as [|a actions IH]; intros w Hd Hadm; simpl in *;
    [exact Hd|].
  destruct Hadm as [Hoff Hadm]. apply IH; [|exact Hadm].
  now apply perform_dated.
Qed.


(** ** Editing *)

Lemma updatedFrom_ids env taskId status' date (prev : list Task) : forall i,
  map id (updatedFrom env taskId status' date i prev) = map id prev.
Proof.
  induction prev as [|task rest IH]; intros i; [reflexivity|]. simpl.
  rewrite IH. now destruct (id task =? taskId)%string.
Qed.

Lemma updatedFrom_status env taskId status' date (prev : list Task) : forall i t,
  In t (updatedFrom env taskId status' date i prev) -> id t = taskId -> status t = status'.
Proof.
  induction prev as [|task rest IH]; intros i t Hin Hid; [destruct Hin|].
  simpl in Hin. destruct Hin as [<-|Hin]; [|now apply (IH (S i))].
  destruct (String.eqb_spec (id task) taskId); [reflexivity|contradiction].
Qed.

(** The form and the editing cell after [startEditing task]. *)
Definition editing (env : Env) (task : Task) (s : State) : State :=
  mkState (tasks s) (title task) (description task) (priority task) (category task)
          match dueDate task with
          | Some (At time) => isoDay env time
          | _ => ""%string
          end
          (joinTags (tags task)) (Some task)
          (filterStatus s) (filterPriority s) (filterCategory s) (searchQuery s)
          (showBengali s) (voiceIntegration s).

Lemma startEditing_valid env task (w : World State) :
  dueDate task <> Some InvalidDate ->
  startEditing env task w = Normal tt (mkWorld (editing env task (state w)) (now w)).
Proof.
  intros Hd. open_world w. unfold startEditing, editing. step.
  destruct (dueDate task) as [[time|]|]; [reflexivity|congruence|reflexivity].
Qed.

(** The record [saveEditedTask] writes. *)
Definition savedRecord (env : Env) (s : State) (e : Task) : Task :=
  mkTask (id e)
         (JSString.trim (newTaskTitle s))
         (JSString.trim (newTaskDescription s))
         (if showBengali s then translate (newTaskTitle s) else Untranslated)
         (if showBengali s then Some ("বিবরণ: " ++ newTaskDescription s)%string else None)
         (newTaskPriority s) (newTaskCategory s) (status e)
         (if JSString.falsy (newTaskDueDate s) then None
          else Some (parseDate env (newTaskDueDate s)))
         (createdAt e) (completedAt e) (parseTags (newTaskTags s))
         (estimatedTime e) (actualTime e) (voiceCreated e).

Lemma saveEditedTask_quiet props env e (w : World State) :
  quiet props ->
  editingTask (state w) = Some e ->
  JSString.trim (newTaskTitle (state w)) <> ""%string ->
  saveEditedTask props env w =
  Normal tt
    (mkWorld
       (mkState (map (fun t => if (id t =? id e)%string then savedRecord env (state w) e else t)
                     (tasks (state w)))
                ""%string ""%string (newTaskPriority (state w)) (newTaskCategory (state w))
                ""%string ""%string None
                (filterStatus (state w)) (filterPriority (state w))
                (filterCategory (state w)) (searchQuery (state w))
                (showBengali (state w)) (voiceIntegration (state w)))
       (now w)).
Proof.
  intros [_ [Hu Hs]] He Ht. apply String.eqb_neq in Ht. open_world w. subst.
  unfold saveEditedTask, savedRecord. step. unfold JSString.falsy at 1.
  rewrite Ht. step. rewrite Hu. step. rewrite Hs. reflexivity.
Qed.

(** X30: saving an edit writes back the status the task had when editing
    started.  Start editing a task, change its status (the checkbox stays
    active while the form is open), then save: with callbacks that return,
    every task with that id is back at the status, completion date and
    actual time it had when the edit button was pressed, and the status
    change is lost. *)
Theorem save_restores_status_at_edit_start props env task status' (w : World State) :
  quiet props ->
  In task (tasks (state w)) ->
  dueDate task <> Some InvalidDate ->
  JSString.trim (title task) <> ""%string ->
  let w1 := finalWorld (startEditing env task w) in
  let w2 := finalWorld (updateTaskStatus props env (id task) status' w1) in
  let w3 := finalWorld (saveEditedTask props env w2) in
  (forall t, In t (tasks (state w2)) -> id t = id task -> status t = status') /\
  (forall t, In t (tasks (state w3)) -> id t = id task ->
             status t = status task /\ completedAt t = completedAt task /\
             actualTime t = actualTime task) /\
  (exists t, In t (tasks (state w3)) /\ id t = id task) /\
  editingTask (state w3) = None.
Proof.
  intros Hq Hin Hd Ht. cbv zeta.
  rewrite (startEditing_valid env task w Hd). cbn [finalWorld].
  rewrite (updateTaskStatus_quiet props env (id task) status' _ Hq). cbn [finalWorld].
  rewrite (saveEditedTask_quiet props env task); [|exact Hq|reflexivity|exact Ht].
  cbn [finalWorld state now tasks editingTask withTasks editing].
  split; [|split; [|split; [|reflexivity]]].
  - intros t Hti Hid. eapply updatedFrom_status; eassumption.
  - intros t Hti Hid. apply in_map_iff in Hti. destruct Hti as [t0 [<- _]].
    destruct (String.eqb_spec (id t0) (id task)) as [E|E]; [repeat split|contradiction].
  - apply (in_map id) in Hin. rewrite <- (updatedFrom_ids env (id task) status' (now w) _ 0) in Hin.
    apply in_map_iff in Hin. destruct Hin as [t0 [Hid0 Hin0]].
    eexists. split.
    + apply in_map_iff. exists t0. split; [reflexivity|exact Hin0].
    + rewrite Hid0, String.eqb_refl. reflexivity.
Qed.

(** ** Worked instances *)

Definition plainEnv : Env :=
  mkEnv (fun _ => At 0) (fun _ => "1970-01-01"%string) (fun _ => 0.5%float).

(** The component with its sample tasks, two days after the epoch. *)
Definition withSamples : World State :=
  finalWorld (loadSampleTasks (mkWorld initialState 172800000)).

Definition firstSample : Task := hd (fromTemplate false (mkTemplate "" "" coding low []) 0)%string
                                    (tasks (state withSamples)).

(** A cancelled task that was due at instant 5. *)
Definition lapsed : Task :=
  mkTask "task-9" "Book room" "" Untranslated None low meeting cancelled
         (Some (At 5)) 0 None [] None None false.

Lemma stats_counts_witness :
  (1 <= Stats.overdue (calculateStats (lapsed :: tasks (state withSamples)) 10))%nat.
Proof.
  apply (proj1 (proj2 (proj2 (proj2 (proj2
           (stats_counts_are_consistent (lapsed :: tasks (state withSamples)) 10)))))
               lapsed 5).
  - now left.
  - reflexivity.
  - reflexivity.
  - lia.
Defined.

Lemma create_delete_round_trip_witness :
  tasks (state (finalWorld
    (deleteTask quietProps "task-172800000"
       (finalWorld (createFromTemplate quietProps
                      (mkTemplate "Fix bug" "" coding high []) withSamples))))) =
  tasks (state withSamples).
Proof.
  apply (proj1 (proj2 (proj2
           (create_delete_round_trip quietProps (mkTemplate "Fix bug" "" coding high [])
              withSamples)))).
  intros t Ht. vm_compute in Ht.
  repeat (destruct Ht as [<-|Ht]; [vm_compute; discriminate|]). destruct Ht.
Defined.

Lemma completion_dates_stay_consistent_witness :
  allDated (state (run quietProps
                     [FromTemplate (mkTemplate "Fix bug" "Resolve reported issue or error"
                                               coding high ["bug"; "fix"])%string;
                      StartEditing plainEnv firstSample;
                      UpdateStatus plainEnv "task-1"%string completed;
                      Save plainEnv]
                     withSamples)).
Proof.
  apply completion_dates_stay_consistent.
  - split.
    + intros t Ht. vm_compute in Ht. unfold dated.
      repeat (destruct Ht as [<-|Ht]; [simpl; split; congruence|]). destruct Ht.
    + intros e He. discriminate He.
  - cbn [admissible offered]. split; [exact I|]. split; [|split; [exact I|split; exact I]].
    vm_compute. tauto.
Defined.

Lemma save_restores_status_witness :
  editingTask
    (state (finalWorld (saveEditedTask quietProps plainEnv
       (finalWorld (updateTaskStatus quietProps plainEnv (id firstSample) completed
          (finalWorld (startEditing plainEnv firstSample withSamples))))))) = None.
Proof.
  apply (save_restores_status_at_edit_start quietProps plainEnv firstSample completed
           withSamples).
  - repeat split.
  - vm_compute. tauto.
  - vm_compute. discriminate.
  - vm_compute. discriminate.
Defined.

(** After an edit of the first sample task that was interrupted by a click
    on its checkbox, the task is in progress again. *)
Example edit_undoes_completion :
  map status
    (tasks (state (finalWorld (saveEditedTask quietProps plainEnv
       (finalWorld (updateTaskStatus quietProps plainEnv (id firstSample) completed
          (finalWorld (startEditing plainEnv firstSample withSamples)))))))) =
  [inProgress; todo; completed].
Proof. vm_compute. reflexivity. Qed.


End TasksBehaviour.
